(** * MISL 100BaseT switch firmware: a shallow embedding of its core

    The firmware (FreeRTOS tasks on a TM4C123 microcontroller) drives a
    Microchip 25AA1024 serial EEPROM and a Micrel KSZ8895 switch controller
    over two SPI ports.  This development embeds

    - the hardware abstraction layer of [eee_hal.c],
    - the event logger of [event_logger.c],
    - the I2C slave interrupt handler and the boot restore of
      [freertos_init.c],
    - the command walk of [interpreter_task.c],
    - the port monitor of [port_monitor_task.c] and
    - the command handlers of [command_functions.c] that the properties
      below are about,

    and states the properties of the specification over these definitions.

    Machine integers are [Z] with the wrap-around of the C types written
    out; a [uint8_t] is a [Z] in [0, 256), a [uint32_t] a [Z] in [0, 2^32).

    Part I holds the embedding, Part II the lemmas and theorems. *)

From Stdlib Require Import ZArith List Bool Lia String Ascii.
From Stdlib Require Import Floats.PrimFloat Floats.FloatOps Floats.SpecFloat.
From Stdlib Require Import Numbers.Cyclic.Int63.Uint63.
Import ListNotations.
Local Open Scope Z_scope.

(* ################################################################## *)
(** * Part I: the embedding *)

(* ================================================================== *)
(** ** Machine integers *)

(** Truncation of a C value to [uint8_t] and to [uint32_t]. *)
Definition u8 (x : Z) : Z := Z.land x 0xFF.
Definition u32 (x : Z) : Z := x mod 2 ^ 32.

(** [~x] on a [uint8_t], as in [data = ~data], and the low byte of [~x] on
    a [uint32_t] that holds a byte, as in [return (~READ_DATA)] from a
    function that returns [uint8_t]. *)
Definition not8 (x : Z) : Z := u8 (Z.lnot x).

(** The truth value of a C scalar, and [a && b] on C scalars. *)
Definition truthy (x : Z) : bool := negb (x =? 0).
Definition logical_and (a b : Z) : bool := truthy a && truthy b.

Definition is_byte (x : Z) : Prop := 0 <= x < 256.

(* ================================================================== *)
(** ** The 25AA1024 serial EEPROM

    The device is seen through its SPI port.  One frame is what is
    exchanged while chip select is low: the bytes the master shifts out
    and, for each of them, the byte the device shifts back.  The
    instruction set is the data sheet's: WREN (0x06) sets the write-enable
    latch; WRITE (0x02) and READ (0x03) take a 24-bit address of which the
    device decodes the low 17 bits; PE (0x42) erases the 256-byte page of
    a 24-bit address, CE (0xC7) the whole array; RDSR (0x05) returns the
    status register (bit 1 the latch, bit 0 write-in-progress).  An erased
    cell reads 0xFF.  A frame that is no complete instruction is ignored.
    The firmware waits out the write cycle before it talks to the device
    again, so write-in-progress reads as 0. *)

Record EEPROM25 : Type := mkEEPROM25 {
  ee_mem : Z -> Z;
  ee_wel : bool
}.

Definition upd (m : Z -> Z) (a v : Z) : Z -> Z :=
  fun x => if x =? a then v else m x.

Definition ee_addr (a2 a1 a0 : Z) : Z :=
  (a2 * 65536 + a1 * 256 + a0) mod 131072.

Definition ee_status (e : EEPROM25) : Z := if ee_wel e then 2 else 0.

Definition zeros (tx : list Z) : list Z := map (fun _ => 0) tx.

Definition eeprom_spi (tx : list Z) (e : EEPROM25) : list Z * EEPROM25 :=
  match tx with
  | [0x06] => ([0], mkEEPROM25 (ee_mem e) true)
  | [0x02; a2; a1; a0; d] =>
      if ee_wel e
      then (zeros tx, mkEEPROM25 (upd (ee_mem e) (ee_addr a2 a1 a0) d) false)
      else (zeros tx, e)
  | [0x03; a2; a1; a0; _] => ([0; 0; 0; 0; ee_mem e (ee_addr a2 a1 a0)], e)
  | [0x42; a2; a1; a0] =>
      if ee_wel e
      then (zeros tx,
            mkEEPROM25
              (fun x => if x / 256 =? ee_addr a2 a1 a0 / 256 then 0xFF
                        else ee_mem e x) false)
      else (zeros tx, e)
  | [0xC7] =>
      if ee_wel e then ([0], mkEEPROM25 (fun _ => 0xFF) false) else ([0], e)
  | [0x05; _] => ([0; ee_status e], e)
  | _ => (zeros tx, e)
  end.

(* ================================================================== *)
(** ** The KSZ8895 switch controller

    The controller is a register file behind an SPI port with hardware of
    its own behind some registers (interrupt status bits that are cleared
    by writing 1, control bits that clear themselves, the indirect-access
    window).  The embedding is generic in it: a device is a state with a
    read and a write of an 8-bit register, each of which may change the
    state.  Frames are READ (0x03), address, dummy and WRITE (0x02),
    address, data. *)

Class Controller (D : Type) : Type := {
  ksz_read : Z -> D -> Z * D;
  ksz_write : Z -> Z -> D -> D
}.

Definition ksz_spi {D : Type} `{Controller D} (tx : list Z) (d : D)
  : list Z * D :=
  match tx with
  | [0x03; a; _] => ([0; 0; u8 (fst (ksz_read a d))], snd (ksz_read a d))
  | [0x02; a; v] => ([0; 0; 0], ksz_write a v d)
  | _ => (zeros tx, d)
  end.

(* ================================================================== *)
(** ** Event codes ([event_logger.h]) *)

Inductive LoggerCodes : Type :=
| SystemRestarted
| StackOverflow
| EEPROMWriteOP
| EEPROMReadOP
| EEPROMIOException
| EthoControllerReadOP
| EthoControllerWriteOP
| EthoControlIOException
| UserLoggedIn
| UserLoggedOut.

(** The value of the enumerator. *)
Definition code_value (c : LoggerCodes) : Z :=
  match c with
  | SystemRestarted => 0
  | StackOverflow => 1
  | EEPROMWriteOP => 2
  | EEPROMReadOP => 3
  | EEPROMIOException => 4
  | EthoControllerReadOP => 5
  | EthoControllerWriteOP => 6
  | EthoControlIOException => 7
  | UserLoggedIn => 8
  | UserLoggedOut => 9
  end.

Definition LOGGER_QUEUE_SIZE : nat := 10.

(* ================================================================== *)
(** ** The world a task runs in

    The two devices, the two SPI mutexes, the logger's queue, and a record
    of every SPI frame (most recent first), which is what an observer of
    the buses sees.  A mutex is seen from the one running task: it is
    taken or free. *)

Inductive SpiEvent : Type :=
| EvEEPROM (tx rx : list Z)
| EvCtrl (tx rx : list Z).

Record World (D : Type) : Type := mkWorld {
  eeprom : EEPROM25;
  ctrl : D;
  spi0_taken : bool;
  spi1_taken : bool;
  logger_running : bool;
  logger_queue : list LoggerCodes;
  trace : list SpiEvent
}.

Arguments mkWorld {D}.
Arguments eeprom {D}.
Arguments ctrl {D}.
Arguments spi0_taken {D}.
Arguments spi1_taken {D}.
Arguments logger_running {D}.
Arguments logger_queue {D}.
Arguments trace {D}.

(** A computation either returns a value and a world, or never returns
    ([None]): the firmware parks in [while(1)] on some failures, and a
    polling loop is given a bound on its iterations. *)
Definition M (D A : Type) : Type := World D -> option (A * World D).

Definition ret {D A : Type} (a : A) : M D A := fun w => Some (a, w).

Definition bind {D A B : Type} (m : M D A) (f : A -> M D B) : M D B :=
  fun w => match m w with
           | Some (a, w') => f a w'
           | None => None
           end.

Definition hang {D A : Type} : M D A := fun _ => None.

Declare Scope hal_scope.
Delimit Scope hal_scope with hal.
Notation "x <- c1 ;; c2" := (bind c1 (fun x => c2))
  (at level 61, c1 at next level, right associativity) : hal_scope.
Notation "c1 ;; c2" := (bind c1 (fun _ => c2))
  (at level 61, right associativity) : hal_scope.
Local Open Scope hal_scope.

(** [for (i = lo; n-- > 0; i++) body], where the body may return from the
    enclosing function ([Some r]). *)
Fixpoint for_loop {D R : Type} (n : nat) (i : Z)
  (body : Z -> M D (option R)) : M D (option R) :=
  match n with
  | O => ret None
  | S n' =>
      r <- body i ;;
      match r with
      | Some v => ret (Some v)
      | None => for_loop n' (i + 1) body
      end
  end.

(** [while (cond) body], given at most [fuel] evaluations of [cond]. *)
Fixpoint while_loop {D : Type} (fuel : nat) (cond : M D bool)
  (body : M D unit) : M D unit :=
  match fuel with
  | O => hang
  | S fuel' =>
      c <- cond ;;
      if c then body ;; while_loop fuel' cond body else ret tt
  end.

Inductive Mutex : Type := SPI0 | SPI1.

(* ================================================================== *)
(** ** The hardware abstraction layer ([eee_hal.c]) *)

Section HAL.

Context {D : Type} `{Controller D}.

(** [LogItemEEPROM]: the code is queued when the logger task exists and
    the queue has room ([xQueueSend] with no wait), and dropped
    otherwise. *)
Definition LogItemEEPROM (code : LoggerCodes) : M D unit :=
  fun w =>
    if logger_running w
       && (List.length (logger_queue w) <? LOGGER_QUEUE_SIZE)%nat
    then Some (tt, mkWorld (eeprom w) (ctrl w) (spi0_taken w) (spi1_taken w)
                     (logger_running w) (logger_queue w ++ [code]) (trace w))
    else Some (tt, w).

(** [xSemaphoreTake(m, 0)]: takes a free mutex and answers [pdTRUE];
    answers [pdFALSE] at once when it is taken. *)
Definition xSemaphoreTake (m : Mutex) : M D bool :=
  fun w =>
    match m with
    | SPI0 =>
        if spi0_taken w then Some (false, w)
        else Some (true, mkWorld (eeprom w) (ctrl w) true (spi1_taken w)
                           (logger_running w) (logger_queue w) (trace w))
    | SPI1 =>
        if spi1_taken w then Some (false, w)
        else Some (true, mkWorld (eeprom w) (ctrl w) (spi0_taken w) true
                           (logger_running w) (logger_queue w) (trace w))
    end.

Definition xSemaphoreGive (m : Mutex) : M D unit :=
  fun w =>
    match m with
    | SPI0 => Some (tt, mkWorld (eeprom w) (ctrl w) false (spi1_taken w)
                          (logger_running w) (logger_queue w) (trace w))
    | SPI1 => Some (tt, mkWorld (eeprom w) (ctrl w) (spi0_taken w) false
                          (logger_running w) (logger_queue w) (trace w))
    end.

(** One chip-select frame on SSI0 (the EEPROM) and on SSI1 (the
    controller): every [SSIDataPut] shifts out the low eight bits of its
    argument (both ports are configured for 8-bit frames) and every
    [SSIDataGet] takes the byte shifted back. *)
Definition ssi0 (tx : list Z) : M D (list Z) :=
  fun w =>
    let (rx, e') := eeprom_spi (map u8 tx) (eeprom w) in
    Some (rx, mkWorld e' (ctrl w) (spi0_taken w) (spi1_taken w)
                (logger_running w) (logger_queue w)
                (EvEEPROM (map u8 tx) rx :: trace w)).

Definition ssi1 (tx : list Z) : M D (list Z) :=
  fun w =>
    let (rx, d') := ksz_spi (map u8 tx) (ctrl w) in
    Some (rx, mkWorld (eeprom w) d' (spi0_taken w) (spi1_taken w)
                (logger_running w) (logger_queue w)
                (EvCtrl (map u8 tx) rx :: trace w)).

Definition WRITE_ENABLE : Z := 0x06.
Definition WRITE_COMMAND : Z := 0x02.
Definition READ_COMMAND : Z := 0x03.
Definition READ_STATUS : Z := 0x05.
Definition PAGE_ERASE_COMMAND : Z := 0x42.
Definition CHIP_ERASE_COMMAND : Z := 0xC7.
Definition DUMMY_DATA : Z := 0x00.

(** The three address bytes, high to low. *)
Definition addr_bytes (address : Z) : list Z :=
  [Z.land (Z.shiftr address 16) 0xFF;
   Z.land (Z.shiftr address 8) 0xFF;
   Z.land address 0xFF].

Definition EEPROMSingleWrite (address data : Z) : M D bool :=
  LogItemEEPROM EEPROMWriteOP ;;
  xSemaphoreTake SPI0 ;;
  let data := not8 data in
  ssi0 [WRITE_ENABLE] ;;
  ssi0 (WRITE_COMMAND :: addr_bytes address ++ [data]) ;;
  rx <- ssi0 (READ_COMMAND :: addr_bytes address ++ [0x00]) ;;
  let READ_DATA := last rx 0 in
  if data =? READ_DATA
  then xSemaphoreGive SPI0 ;; ret true
  else xSemaphoreGive SPI0 ;; LogItemEEPROM EEPROMIOException ;; ret false.

Definition EEPROMChipErase : M D bool :=
  xSemaphoreTake SPI0 ;;
  ssi0 [WRITE_ENABLE] ;;
  ssi0 [CHIP_ERASE_COMMAND] ;;
  xSemaphoreGive SPI0 ;;
  ret true.

(** The loop of [EEPROMPageErase] that polls the status register until
    write-in-progress reads 0, given at most [fuel] polls. *)
Fixpoint EEPROMPageErase_poll (fuel : nat) : M D unit :=
  match fuel with
  | O => hang
  | S fuel' =>
      rx <- ssi0 [READ_STATUS; DUMMY_DATA] ;;
      if Z.land (last rx 0) 0x01 =? 0x00 then ret tt
      else EEPROMPageErase_poll fuel'
  end.

(** The erase frame carries one [SSIDataPut] of the whole address, which
    is one byte on the wire. *)
Definition EEPROMPageErase (fuel : nat) (address : Z) : M D bool :=
  xSemaphoreTake SPI0 ;;
  ssi0 [WRITE_ENABLE] ;;
  ssi0 [PAGE_ERASE_COMMAND; address] ;;
  EEPROMPageErase_poll fuel ;;
  xSemaphoreGive SPI0 ;;
  ret true.

Definition EEPROMSingleRead (address : Z) : M D Z :=
  LogItemEEPROM EEPROMReadOP ;;
  xSemaphoreTake SPI0 ;;
  rx <- ssi0 (READ_COMMAND :: addr_bytes address ++ [0x00]) ;;
  let READ_DATA := last rx 0 in
  xSemaphoreGive SPI0 ;;
  ret (not8 READ_DATA).

(** The loop of [EEPROMBulkWrite], on the bytes still to write. *)
Fixpoint EEPROMBulkWrite_loop (start_address : Z) (data : list Z)
  : M D bool :=
  match data with
  | [] => xSemaphoreGive SPI0 ;; ret true
  | b :: rest =>
      if 131072 <=? start_address
      then xSemaphoreGive SPI0 ;; LogItemEEPROM EEPROMIOException ;; ret false
      else
        ok <- EEPROMSingleWrite start_address b ;;
        if negb ok
        then xSemaphoreGive SPI0 ;; LogItemEEPROM EEPROMIOException ;; hang
        else EEPROMBulkWrite_loop (u32 (start_address + 1)) rest
  end.

Definition EEPROMBulkWrite (start_address : Z) (data : list Z) : M D bool :=
  LogItemEEPROM EEPROMWriteOP ;;
  xSemaphoreTake SPI0 ;;
  if 131072 <=? start_address
  then LogItemEEPROM EEPROMIOException ;; ret false
  else EEPROMBulkWrite_loop start_address data.

(** The loop of [EEPROMBulkRead]: [n] bytes still to read, [out] the
    bytes stored into [output] so far. *)
Fixpoint EEPROMBulkRead_loop (n : nat) (start_address : Z) (out : list Z)
  : M D (bool * list Z) :=
  match n with
  | O => xSemaphoreGive SPI0 ;; ret (true, out)
  | S n' =>
      if 131072 <=? start_address
      then xSemaphoreGive SPI0 ;; LogItemEEPROM EEPROMIOException ;;
           ret (false, out)
      else
        b <- EEPROMSingleRead start_address ;;
        EEPROMBulkRead_loop n' (u32 (start_address + 1)) (out ++ [b])
  end.

(** [EEPROMBulkRead] answers its result and the prefix of [output] it has
    filled. *)
Definition EEPROMBulkRead (start_address : Z) (array_length : nat)
  : M D (bool * list Z) :=
  LogItemEEPROM EEPROMReadOP ;;
  xSemaphoreTake SPI0 ;;
  if 131072 <=? start_address
  then xSemaphoreGive SPI0 ;; LogItemEEPROM EEPROMIOException ;;
       ret (false, [])
  else EEPROMBulkRead_loop array_length start_address [].

Definition EthoControllerSingleRead (address : Z) : M D Z :=
  LogItemEEPROM EthoControllerReadOP ;;
  xSemaphoreTake SPI1 ;;
  rx <- ssi1 [READ_COMMAND; address; DUMMY_DATA] ;;
  xSemaphoreGive SPI1 ;;
  ret (last rx 0).

(** The loop of [EthoControllerBulkRead]. *)
Fixpoint EthoControllerBulkRead_loop (n : nat) (address : Z) (out : list Z)
  : M D (list Z) :=
  match n with
  | O => ret out
  | S n' =>
      rx <- ssi1 [READ_COMMAND; address; DUMMY_DATA] ;;
      EthoControllerBulkRead_loop n' (address + 1) (out ++ [last rx 0])
  end.

(** [start_address] and [count] are [uint8_t]; their sum is an [int]. *)
Definition EthoControllerBulkRead (start_address count : Z)
  : M D (bool * list Z) :=
  LogItemEEPROM EthoControllerReadOP ;;
  xSemaphoreTake SPI1 ;;
  if 255 <? start_address + count
  then ret (false, [])
  else
    out <- EthoControllerBulkRead_loop (Z.to_nat count) start_address [] ;;
    xSemaphoreGive SPI1 ;;
    ret (true, out).

Definition EthoControllerSingleWrite (address data : Z) : M D bool :=
  LogItemEEPROM EthoControllerWriteOP ;;
  xSemaphoreTake SPI1 ;;
  ssi1 [WRITE_COMMAND; address; data] ;;
  xSemaphoreGive SPI1 ;;
  ret true.

End HAL.

(** The bytes a reader of the HAL sees in [n] cells from [start]. *)
Fixpoint logical_bytes (m : Z -> Z) (start : Z) (n : nat) : list Z :=
  match n with
  | O => []
  | S n' => not8 (m start) :: logical_bytes m (start + 1) n'
  end.

(* ================================================================== *)
(** ** The event logger ([event_logger.c]) *)

Definition EEPROM_LOG_BASE : Z := 0x1600.
Definition MAX_LOG_ENTRIES : Z := 400.

(** The two globals of the logger. *)
Record LogGlobals : Type := mkLogGlobals {
  LogStatusFlags : Z;
  NextLogSlot : Z
}.

Section Logger.

Context {D : Type} `{Controller D}.

(** The body of [LoggerTask] for one code received from the queue.
    [last_code_issued] is a local of the task that starts out
    uninitialised; it is carried as the integer it holds.  [RTOSTime] is
    what [xTaskGetTickCount] answers. *)
Definition LoggerTask_entry (g : LogGlobals) (last_code_issued : Z)
  (code_issued : LoggerCodes) (RTOSTime : Z) : M D (LogGlobals * Z) :=
  if negb (Z.land (Z.shiftr (LogStatusFlags g) (code_value code_issued)) 1
           =? 0)
  then
    if negb (code_value code_issued =? last_code_issued)
    then
      let LogTime := [Z.land (Z.shiftr RTOSTime 24) 0xFF;
                      Z.land (Z.shiftr RTOSTime 16) 0xFF;
                      Z.land (Z.shiftr RTOSTime 8) 0xFF;
                      Z.land RTOSTime 0xFF] in
      EEPROMSingleWrite (u32 (NextLogSlot g + 0)) (nth 0 LogTime 0) ;;
      EEPROMSingleWrite (u32 (NextLogSlot g + 1)) (nth 1 LogTime 0) ;;
      EEPROMSingleWrite (u32 (NextLogSlot g + 2)) (nth 2 LogTime 0) ;;
      EEPROMSingleWrite (u32 (NextLogSlot g + 3)) (nth 3 LogTime 0) ;;
      EEPROMSingleWrite (u32 (NextLogSlot g + 4)) (code_value code_issued) ;;
      let next :=
        if EEPROM_LOG_BASE + MAX_LOG_ENTRIES <? u32 (NextLogSlot g + 5)
        then EEPROM_LOG_BASE
        else u32 (NextLogSlot g + 5) in
      ret (mkLogGlobals (LogStatusFlags g) next, code_value code_issued)
    else ret (g, last_code_issued)
  else ret (g, last_code_issued).

(** [xQueueReceive(g_pLoggerQueue, &code_issued, 0)]. *)
Definition xQueueReceive_logger : M D (option LoggerCodes) :=
  fun w =>
    match logger_queue w with
    | [] => Some (None, w)
    | c :: q => Some (Some c,
                      mkWorld (eeprom w) (ctrl w) (spi0_taken w)
                        (spi1_taken w) (logger_running w) q (trace w))
    end.

(** One turn of the task's loop. *)
Definition LoggerTask_iteration (g : LogGlobals) (last_code_issued : Z)
  (RTOSTime : Z) : M D (LogGlobals * Z) :=
  r <- xQueueReceive_logger ;;
  match r with
  | Some code_issued => LoggerTask_entry g last_code_issued code_issued RTOSTime
  | None => ret (g, last_code_issued)
  end.

(** The task's body over the codes it receives, each with the tick count
    read for it. *)
Fixpoint LoggerTask_entries (g : LogGlobals) (last_code_issued : Z)
  (received : list (LoggerCodes * Z)) : M D (LogGlobals * Z) :=
  match received with
  | [] => ret (g, last_code_issued)
  | (c, t) :: rest =>
      r <- LoggerTask_entry g last_code_issued c t ;;
      LoggerTask_entries (fst r) (snd r) rest
  end.

End Logger.

(* ================================================================== *)
(** ** The I2C code table ([i2c_task.h]) and the slave interrupt handler
       ([freertos_init.c]) *)

Definition I2CBUFFERSIZE : Z := 50.
Definition I2C_QUEUE_SIZE : nat := 5.

Definition PORT1_OFFSET_HEX : Z := 0x40.
Definition PORT2_OFFSET_HEX : Z := 0x30.
Definition PORT3_OFFSET_HEX : Z := 0x20.
Definition PORT4_OFFSET_HEX : Z := 0x10.
Definition PORT_CONTROL0_OFFSET_HEX : Z := 0x0.
Definition PORT_CONTROL1_OFFSET_HEX : Z := 0x1.
Definition PORT_CONTROL2_OFFSET_HEX : Z := 0x2.
Definition PORT_CONTROL3_OFFSET_HEX : Z := 0x3.
Definition PORT_CONTROL4_OFFSET_HEX : Z := 0x4.
Definition PORT_CONTROL5_OFFSET_HEX : Z := 0xC.
Definition PORT_CONTROL6_OFFSET_HEX : Z := 0xD.
Definition PORT_LINKMD0_OFFSET_HEX : Z := 0xA.
Definition PORT_LINKMD1_OFFSET_HEX : Z := 0xB.

(** The functions the table points to. *)
Inductive I2CFunction : Type :=
| I2C_WriteReadFromEthernetController
| I2C_SaveSwitchConfiguration
| I2C_DownloadSwitchConfiguration
| I2C_ClearSwitchConfiguration
| I2CNotImplementedFunction
| I2C_ClearBitEthernetController
| I2C_SetBitEthernetController
| I2C_SetSCEthernetController.

Record I2C_Codes : Type := mkI2C_Codes {
  command_code : Z;
  static_pcount : Z;
  custom_pcount : Z;
  return_pcount : Z;
  static_parameters : list Z;
  func : I2CFunction
}.

Definition I2C_Mappings : list I2C_Codes := [
  mkI2C_Codes 0x00 0 3 1 [] I2C_WriteReadFromEthernetController;
  mkI2C_Codes 0x01 0 0 1 [] I2C_SaveSwitchConfiguration;
  mkI2C_Codes 0x02 0 0 0xFF [] I2C_DownloadSwitchConfiguration;
  mkI2C_Codes 0x03 0 0 1 [] I2C_ClearSwitchConfiguration;
  mkI2C_Codes 0x04 0 0 0 [] I2CNotImplementedFunction;
  mkI2C_Codes 0x05 0 0 0 [] I2CNotImplementedFunction;
  mkI2C_Codes 0x06 0 0 0 [] I2CNotImplementedFunction;
  mkI2C_Codes 0x07 0 0 0 [] I2CNotImplementedFunction;
  mkI2C_Codes 0x08 0 0 0 [] I2CNotImplementedFunction;
  mkI2C_Codes 0x09 0 0 0 [] I2CNotImplementedFunction;
  mkI2C_Codes 0x0A 0 0 0 [] I2CNotImplementedFunction;
  mkI2C_Codes 0x0B 0 0 0 [] I2CNotImplementedFunction;
  mkI2C_Codes 0x0C 0 0 0 [] I2CNotImplementedFunction;
  mkI2C_Codes 0x0D 0 0 0 [] I2CNotImplementedFunction;
  mkI2C_Codes 0x0E 0 0 0 [] I2CNotImplementedFunction;
  mkI2C_Codes 0x0F 0 0 0 [] I2CNotImplementedFunction;
  mkI2C_Codes 0x10 3 0 1 [PORT1_OFFSET_HEX; PORT_CONTROL6_OFFSET_HEX; 0x03] I2C_ClearBitEthernetController;
  mkI2C_Codes 0x11 3 0 1 [PORT1_OFFSET_HEX; PORT_CONTROL6_OFFSET_HEX; 0x03] I2C_SetBitEthernetController;
  mkI2C_Codes 0x12 3 0 1 [PORT1_OFFSET_HEX; PORT_CONTROL5_OFFSET_HEX; 0x05] I2C_SetBitEthernetController;
  mkI2C_Codes 0x13 3 0 1 [PORT1_OFFSET_HEX; PORT_CONTROL5_OFFSET_HEX; 0x05] I2C_ClearBitEthernetController;
  mkI2C_Codes 0x14 3 0 1 [PORT1_OFFSET_HEX; PORT_CONTROL5_OFFSET_HEX; 0x06] I2C_ClearBitEthernetController;
  mkI2C_Codes 0x15 3 0 1 [PORT1_OFFSET_HEX; PORT_CONTROL5_OFFSET_HEX; 0x06] I2C_SetBitEthernetController;
  mkI2C_Codes 0x16 3 0 1 [PORT1_OFFSET_HEX; PORT_CONTROL6_OFFSET_HEX; 0x02] I2C_ClearBitEthernetController;
  mkI2C_Codes 0x17 3 0 1 [PORT1_OFFSET_HEX; PORT_CONTROL6_OFFSET_HEX; 0x02] I2C_SetBitEthernetController;
  mkI2C_Codes 0x18 3 0 1 [PORT1_OFFSET_HEX; PORT_CONTROL6_OFFSET_HEX; 0x05] I2C_SetSCEthernetController;
  mkI2C_Codes 0x19 3 0 1 [PORT1_OFFSET_HEX; PORT_CONTROL2_OFFSET_HEX; 0x02] I2C_SetBitEthernetController;
  mkI2C_Codes 0x1A 3 0 1 [PORT1_OFFSET_HEX; PORT_CONTROL2_OFFSET_HEX; 0x02] I2C_ClearBitEthernetController;
  mkI2C_Codes 0x1B 3 0 1 [PORT1_OFFSET_HEX; PORT_CONTROL2_OFFSET_HEX; 0x01] I2C_SetBitEthernetController;
  mkI2C_Codes 0x1C 3 0 1 [PORT1_OFFSET_HEX; PORT_CONTROL2_OFFSET_HEX; 0x01] I2C_ClearBitEthernetController;
  mkI2C_Codes 0x1D 0 0 2 [] I2CNotImplementedFunction;
  mkI2C_Codes 0x1E 0 0 1 [] I2CNotImplementedFunction;
  mkI2C_Codes 0x1F 0 0 1 [] I2CNotImplementedFunction;
  mkI2C_Codes 0x20 3 0 1 [PORT2_OFFSET_HEX; PORT_CONTROL6_OFFSET_HEX; 0x03] I2C_ClearBitEthernetController;
  mkI2C_Codes 0x21 3 0 1 [PORT2_OFFSET_HEX; PORT_CONTROL6_OFFSET_HEX; 0x03] I2C_SetBitEthernetController;
  mkI2C_Codes 0x22 3 0 1 [PORT2_OFFSET_HEX; PORT_CONTROL5_OFFSET_HEX; 0x05] I2C_SetBitEthernetController;
  mkI2C_Codes 0x23 3 0 1 [PORT2_OFFSET_HEX; PORT_CONTROL5_OFFSET_HEX; 0x05] I2C_ClearBitEthernetController;
  mkI2C_Codes 0x24 3 0 1 [PORT2_OFFSET_HEX; PORT_CONTROL5_OFFSET_HEX; 0x06] I2C_ClearBitEthernetController;
  mkI2C_Codes 0x25 3 0 1 [PORT2_OFFSET_HEX; PORT_CONTROL5_OFFSET_HEX; 0x06] I2C_SetBitEthernetController;
  mkI2C_Codes 0x26 3 0 1 [PORT2_OFFSET_HEX; PORT_CONTROL6_OFFSET_HEX; 0x02] I2C_ClearBitEthernetController;
  mkI2C_Codes 0x27 3 0 1 [PORT2_OFFSET_HEX; PORT_CONTROL6_OFFSET_HEX; 0x02] I2C_SetBitEthernetController;
  mkI2C_Codes 0x28 3 0 1 [PORT2_OFFSET_HEX; PORT_CONTROL6_OFFSET_HEX; 0x05] I2C_SetSCEthernetController;
  mkI2C_Codes 0x29 3 0 1 [PORT2_OFFSET_HEX; PORT_CONTROL2_OFFSET_HEX; 0x02] I2C_SetBitEthernetController;
  mkI2C_Codes 0x2A 3 0 1 [PORT2_OFFSET_HEX; PORT_CONTROL2_OFFSET_HEX; 0x02] I2C_ClearBitEthernetController;
  mkI2C_Codes 0x2B 3 0 1 [PORT2_OFFSET_HEX; PORT_CONTROL2_OFFSET_HEX; 0x01] I2C_SetBitEthernetController;
  mkI2C_Codes 0x2C 3 0 1 [PORT2_OFFSET_HEX; PORT_CONTROL2_OFFSET_HEX; 0x01] I2C_ClearBitEthernetController;
  mkI2C_Codes 0x2D 0 0 2 [] I2CNotImplementedFunction;
  mkI2C_Codes 0x2E 0 0 1 [] I2CNotImplementedFunction;
  mkI2C_Codes 0x2F 0 0 1 [] I2CNotImplementedFunction;
  mkI2C_Codes 0x30 3 0 1 [PORT3_OFFSET_HEX; PORT_CONTROL6_OFFSET_HEX; 0x03] I2C_ClearBitEthernetController;
  mkI2C_Codes 0x31 3 0 1 [PORT3_OFFSET_HEX; PORT_CONTROL6_OFFSET_HEX; 0x03] I2C_SetBitEthernetController;
  mkI2C_Codes 0x32 3 0 1 [PORT3_OFFSET_HEX; PORT_CONTROL5_OFFSET_HEX; 0x05] I2C_SetBitEthernetController;
  mkI2C_Codes 0x33 3 0 1 [PORT3_OFFSET_HEX; PORT_CONTROL5_OFFSET_HEX; 0x05] I2C_ClearBitEthernetController;
  mkI2C_Codes 0x34 3 0 1 [PORT3_OFFSET_HEX; PORT_CONTROL5_OFFSET_HEX; 0x06] I2C_ClearBitEthernetController;
  mkI2C_Codes 0x35 3 0 1 [PORT3_OFFSET_HEX; PORT_CONTROL5_OFFSET_HEX; 0x06] I2C_SetBitEthernetController;
  mkI2C_Codes 0x36 3 0 1 [PORT3_OFFSET_HEX; PORT_CONTROL6_OFFSET_HEX; 0x02] I2C_ClearBitEthernetController;
  mkI2C_Codes 0x37 3 0 1 [PORT3_OFFSET_HEX; PORT_CONTROL6_OFFSET_HEX; 0x02] I2C_SetBitEthernetController;
  mkI2C_Codes 0x38 3 0 1 [PORT3_OFFSET_HEX; PORT_CONTROL6_OFFSET_HEX; 0x05] I2C_SetSCEthernetController;
  mkI2C_Codes 0x39 3 0 1 [PORT3_OFFSET_HEX; PORT_CONTROL2_OFFSET_HEX; 0x02] I2C_SetBitEthernetController;
  mkI2C_Codes 0x3A 3 0 1 [PORT3_OFFSET_HEX; PORT_CONTROL2_OFFSET_HEX; 0x02] I2C_ClearBitEthernetController;
  mkI2C_Codes 0x3B 3 0 1 [PORT3_OFFSET_HEX; PORT_CONTROL2_OFFSET_HEX; 0x01] I2C_SetBitEthernetController;
  mkI2C_Codes 0x3C 3 0 1 [PORT3_OFFSET_HEX; PORT_CONTROL2_OFFSET_HEX; 0x01] I2C_ClearBitEthernetController;
  mkI2C_Codes 0x3D 0 0 2 [] I2CNotImplementedFunction;
  mkI2C_Codes 0x3E 0 0 1 [] I2CNotImplementedFunction;
  mkI2C_Codes 0x3F 0 0 1 [] I2CNotImplementedFunction;
  mkI2C_Codes 0x40 3 0 1 [PORT4_OFFSET_HEX; PORT_CONTROL6_OFFSET_HEX; 0x03] I2C_ClearBitEthernetController;
  mkI2C_Codes 0x41 3 0 1 [PORT4_OFFSET_HEX; PORT_CONTROL6_OFFSET_HEX; 0x03] I2C_SetBitEthernetController;
  mkI2C_Codes 0x42 3 0 1 [PORT4_OFFSET_HEX; PORT_CONTROL5_OFFSET_HEX; 0x05] I2C_SetBitEthernetController;
  mkI2C_Codes 0x43 3 0 1 [PORT4_OFFSET_HEX; PORT_CONTROL5_OFFSET_HEX; 0x05] I2C_ClearBitEthernetController;
  mkI2C_Codes 0x44 3 0 1 [PORT4_OFFSET_HEX; PORT_CONTROL5_OFFSET_HEX; 0x06] I2C_ClearBitEthernetController;
  mkI2C_Codes 0x45 3 0 1 [PORT4_OFFSET_HEX; PORT_CONTROL5_OFFSET_HEX; 0x06] I2C_SetBitEthernetController;
  mkI2C_Codes 0x46 3 0 1 [PORT4_OFFSET_HEX; PORT_CONTROL6_OFFSET_HEX; 0x02] I2C_ClearBitEthernetController;
  mkI2C_Codes 0x47 3 0 1 [PORT4_OFFSET_HEX; PORT_CONTROL6_OFFSET_HEX; 0x02] I2C_SetBitEthernetController;
  mkI2C_Codes 0x48 3 0 1 [PORT4_OFFSET_HEX; PORT_CONTROL6_OFFSET_HEX; 0x05] I2C_SetSCEthernetController;
  mkI2C_Codes 0x49 3 0 1 [PORT4_OFFSET_HEX; PORT_CONTROL2_OFFSET_HEX; 0x02] I2C_SetBitEthernetController;
  mkI2C_Codes 0x4A 3 0 1 [PORT4_OFFSET_HEX; PORT_CONTROL2_OFFSET_HEX; 0x02] I2C_ClearBitEthernetController;
  mkI2C_Codes 0x4B 3 0 1 [PORT4_OFFSET_HEX; PORT_CONTROL2_OFFSET_HEX; 0x01] I2C_SetBitEthernetController;
  mkI2C_Codes 0x4C 3 0 1 [PORT4_OFFSET_HEX; PORT_CONTROL2_OFFSET_HEX; 0x01] I2C_ClearBitEthernetController;
  mkI2C_Codes 0x4D 0 0 2 [] I2CNotImplementedFunction;
  mkI2C_Codes 0x4E 0 0 1 [] I2CNotImplementedFunction;
  mkI2C_Codes 0x4F 0 0 1 [] I2CNotImplementedFunction
].

Record I2C_Packet : Type := mkI2C_Packet {
  I2CRXBuffer : list Z;
  I2CRXIndex : Z
}.

(** [memset(&data, 0, sizeof(I2C_Packet))]. *)
Definition I2C_Packet_zero : I2C_Packet :=
  mkI2C_Packet (repeat 0 (Z.to_nat I2CBUFFERSIZE)) 0.

(** [a[i] = v] on an array held as a list; a store outside the array is
    outside the embedding and leaves the list as it is. *)
Fixpoint store (a : list Z) (i : nat) (v : Z) : list Z :=
  match a, i with
  | [], _ => []
  | _ :: t, O => v :: t
  | h :: t, S i' => h :: store t i' v
  end.

(** What the interrupt controller and the I2C peripheral present to the
    handler: the bits of the interrupt status it tests, the receive
    request bit of the slave status, and the byte in the data register. *)
Record I2CInterrupt : Type := mkI2CInterrupt {
  INT_START : bool;
  INT_DATA : bool;
  INT_STOP : bool;
  ACT_RREQ : bool;
  data_register : Z
}.

Section I2C_ISR.

(** [I2C_Mappings] has 80 rows and is indexed by a received byte.
    [beyond] is the [custom_pcount] that a read past the last row finds. *)
Variable beyond : Z -> Z.

Definition custom_pcount_of (code : Z) : Z :=
  match nth_error I2C_Mappings (Z.to_nat code) with
  | Some row => custom_pcount row
  | None => beyond code
  end.

(** [I2C0SlaveIntHandler].  [data] is the handler's [static] packet as the
    previous interrupt left it, [queue] the I2C work queue.  [None] is the
    handler parked in [while(1)] on a full queue. *)
Definition I2C0SlaveIntHandler (data : I2C_Packet) (queue : list I2C_Packet)
  (irq : I2CInterrupt) : option (I2C_Packet * list I2C_Packet) :=
  let data := I2C_Packet_zero in
  if ACT_RREQ irq then
    if INT_START irq then
      Some (mkI2C_Packet (I2CRXBuffer data) 0, queue)
    else if INT_DATA irq then
      let buffer := store (I2CRXBuffer data) (Z.to_nat (I2CRXIndex data))
                      (u8 (data_register irq)) in
      let index := if I2CBUFFERSIZE <? I2CRXIndex data then 0
                   else I2CRXIndex data in
      if custom_pcount_of (nth 0 buffer 0) <=? index then
        if (List.length queue <? I2C_QUEUE_SIZE)%nat
        then Some (mkI2C_Packet buffer (u8 (index + 1)),
                   queue ++ [mkI2C_Packet buffer index])
        else None
      else Some (mkI2C_Packet buffer (u8 (index + 1)), queue)
    else Some (data, queue)
  else Some (data, queue).

(** The handler over a sequence of interrupts. *)
Fixpoint I2C_interrupts (data : I2C_Packet) (queue : list I2C_Packet)
  (irqs : list I2CInterrupt) : option (I2C_Packet * list I2C_Packet) :=
  match irqs with
  | [] => Some (data, queue)
  | irq :: rest =>
      match I2C0SlaveIntHandler data queue irq with
      | Some (data', queue') => I2C_interrupts data' queue' rest
      | None => None
      end
  end.

End I2C_ISR.

(** The interrupts of one write transaction: START, then one DATA
    interrupt per byte, then STOP. *)
Definition irq_start : I2CInterrupt := mkI2CInterrupt true false false true 0.
Definition irq_data (b : Z) : I2CInterrupt :=
  mkI2CInterrupt false true false true b.
Definition irq_stop : I2CInterrupt := mkI2CInterrupt false false true true 0.
Definition transaction (bytes : list Z) : list I2CInterrupt :=
  irq_start :: map irq_data bytes ++ [irq_stop].

(* ================================================================== *)
(** ** The command walk of the CLI ([interpreter_task.c]) *)

Inductive PermLevel : Type :=
| ReadOnlyUser
| ModifyPortsOnly
| ModifySystem
| Administrator.

(** The value of the enumerator; the walk compares these. *)
Definition perm_value (p : PermLevel) : Z :=
  match p with
  | ReadOnlyUser => 0
  | ModifyPortsOnly => 1
  | ModifySystem => 2
  | Administrator => 3
  end.

Definition MAX_DEPTH_INHERITANCE : nat := 12.
Definition MAX_MENU_ITEMS : nat := 50.

Section CLI.

#[local] Set Warnings "-register-all".

(** The functions a command points to; the walk only passes them on. *)
Variable Handler : Type.

(** [struct Command].  A menu is an array of commands that ends at the
    first entry whose [text] is null; it is the list of the entries before
    that one.  A pointer to a string that may be null is an [option]. *)
Inductive Command : Type := mkCommand {
  text : string;
  help : string;
  isExecutable : bool;
  paramsRequired : Z;
  paramsUserProvided : bool;
  cmd_func : Handler;
  functionParams : list string;
  childCommand : list Command;
  permissionsRequired : PermLevel
}.

(** What the walk does with a line, with the command it stopped at and
    the depth [i] of that command where there is one.  The source prints
    a message for all but [Invoked], where it calls [func(params)]. *)
Inductive Outcome : Type :=
| NotRecognized
| Incomplete (entered : list (option string))
| TooManyParameters (c : Command) (i : nat)
| Unauthorized (c : Command) (i : nat)
| Invoked (c : Command) (i : nat) (params : list (option string))
| HelpShown (menu : list Command)
| Silent.

(** [strcmp(s, t) == 0] where [t] may be the null pointer that ends
    [commandwords]; comparing against it finds no match. *)
Definition strcmp_eq (s : string) (t : option string) : bool :=
  match t with
  | Some t' => String.eqb s t'
  | None => false
  end.

(** The parameters a matched entry adds to [params]: the word itself,
    [paramsRequired] times over, when the user provides them, the first
    [paramsRequired] static ones otherwise. *)
Definition collect_params (c : Command) (word : option string)
  : list (option string) :=
  if paramsRequired c =? 0 then []
  else if paramsUserProvided c
       then repeat word (Z.to_nat (paramsRequired c))
       else map (nth_error (functionParams c))
                (seq 0 (Z.to_nat (paramsRequired c))).

Inductive ScanStep : Type :=
| Finished (o : Outcome)
| Descend (child : list Command) (params : list (option string))
| MenuExhausted.

Section Walk.

(** [commandwords], [n_spaces] and the permissions of [ActiveUser]. *)
Variable commandwords : list string.
Variable ActiveUser_permissions : PermLevel.

Definition n_spaces : nat := List.length commandwords.
Definition word (i : nat) : option string := nth_error commandwords i.

(** The loop over [j] at depth [i]: [entries] are the entries of [Menu]
    from index [j] on, [left] is [MAX_MENU_ITEMS - j]. *)
Fixpoint scan_menu (Menu : list Command) (i : nat) (foundChild : bool)
  (params : list (option string)) (entries : list Command) (left : nat)
  {struct left} : ScanStep :=
  match left with
  | O => MenuExhausted
  | S left' =>
      match entries with
      | [] =>
          if foundChild
          then Finished (Incomplete (map word (seq 0 i)))
          else Finished NotRecognized
      | c :: rest =>
          if (strcmp_eq (text c) (word i)
              || (paramsUserProvided c && (i <? n_spaces)%nat))
             && negb (strcmp_eq "?" (word i))
          then
            let params := params ++ collect_params c (word i) in
            if isExecutable c then
              match word (i + 1) with
              | Some _ => Finished (TooManyParameters c i)
              | None =>
                  if perm_value ActiveUser_permissions
                     <? perm_value (permissionsRequired c)
                  then Finished (Unauthorized c i)
                  else Finished (Invoked c i params)
              end
            else Descend (childCommand c) params
          else if strcmp_eq "?" (word i)
               then Finished (HelpShown Menu)
               else scan_menu Menu i foundChild params rest left'
      end
  end.

(** The loop over [i]: [depth] is [MAX_DEPTH_INHERITANCE - i]. *)
Fixpoint walk (depth : nat) (i : nat) (Menu : list Command)
  (foundChild : bool) (params : list (option string)) : Outcome :=
  match depth with
  | O => Silent
  | S depth' =>
      match scan_menu Menu i foundChild params Menu MAX_MENU_ITEMS with
      | Finished o => o
      | Descend child params' => walk depth' (i + 1) child true params'
      | MenuExhausted => walk depth' (i + 1) Menu foundChild params
      end
  end.

(** What [InterpreterTask] does with one line of the console, from the
    top-level menu. *)
Definition InterpreterTask_line (Command_Categories : list Command)
  : Outcome :=
  match commandwords with
  | [] => Silent
  | _ => walk MAX_DEPTH_INHERITANCE 0 Command_Categories false []
  end.

End Walk.

(** The terminal command a walk stopped at, and its depth. *)
Definition outcome_node (o : Outcome) : option (Command * nat) :=
  match o with
  | TooManyParameters c i => Some (c, i)
  | Unauthorized c i => Some (c, i)
  | Invoked c i _ => Some (c, i)
  | _ => None
  end.

(** The dispatch at a terminal command in the words of the
    specification: too many parameters when a word remains beyond the
    depth of the command; else unauthorized when the role of the user is
    less than the permission the command requires; else the handler is
    invoked with the parameters collected. *)
Definition spec_dispatch (commandwords : list string) (role : PermLevel)
  (c : Command) (i : nat) (params : list (option string)) : Outcome :=
  match nth_error commandwords (i + 1) with
  | Some _ => TooManyParameters c i
  | None =>
      if perm_value role <? perm_value (permissionsRequired c)
      then Unauthorized c i
      else Invoked c i params
  end.

End CLI.

Arguments mkCommand {Handler}.
Arguments text {Handler}.
Arguments isExecutable {Handler}.
Arguments paramsRequired {Handler}.
Arguments paramsUserProvided {Handler}.
Arguments cmd_func {Handler}.
Arguments functionParams {Handler}.
Arguments childCommand {Handler}.
Arguments permissionsRequired {Handler}.
Arguments NotRecognized {Handler}.
Arguments Incomplete {Handler}.
Arguments TooManyParameters {Handler}.
Arguments Unauthorized {Handler}.
Arguments Invoked {Handler}.
Arguments HelpShown {Handler}.
Arguments Silent {Handler}.
Arguments InterpreterTask_line {Handler}.
Arguments walk {Handler}.
Arguments scan_menu {Handler}.
Arguments outcome_node {Handler}.
Arguments spec_dispatch {Handler}.
Arguments Finished {Handler}.
Arguments Descend {Handler}.
Arguments MenuExhausted {Handler}.

(* ================================================================== *)
(** ** The port monitor ([port_monitor_task.c]) *)

Definition INTERRUPT_STATUS_REGISTER : Z := 0x7C.
Definition GLOBAL_CONTROL_0_HEX : Z := 0x02.
Definition GLOBAL_CONTROL_3_HEX : Z := 0x05.

(** The notice the task prints for a port. *)
Inductive PortName : Type :=
| ExpansionPort
| Port0
| Port1
| Port2
| Port3.

Record Notice : Type := mkNotice {
  notice_port : PortName;
  notice_connected : bool
}.

Section PortMonitor.

Context {D : Type} `{Controller D}.

(** The body of one of the five [if (flags & bit)] blocks of the task,
    which differ in the bit, the two registers and the name only.  The
    block assigns [flags = bit] before it writes it to the interrupt
    status register; the caller below carries that assignment.
    [eth0_reg_settings] is a [uint8_t]. *)
Definition service_port (fuel : nat) (flags status1 control2 : Z)
  (name : PortName) : M D Notice :=
  EthoControllerSingleWrite INTERRUPT_STATUS_REGISTER flags ;;
  eth0_reg_settings <- EthoControllerSingleRead status1 ;;
  let notice :=
    mkNotice name
      (negb (Z.land (Z.shiftr (u8 eth0_reg_settings) 5) 1 =? 0)) in
  eth0_reg_settings <- EthoControllerSingleRead control2 ;;
  EthoControllerSingleWrite control2 (u8 (Z.lor (u8 eth0_reg_settings) 1)) ;;
  eth0_reg_settings <- EthoControllerSingleRead GLOBAL_CONTROL_0_HEX ;;
  EthoControllerSingleWrite GLOBAL_CONTROL_0_HEX
    (u8 (Z.lor (u8 eth0_reg_settings) 0x20)) ;;
  while_loop fuel
    (v <- EthoControllerSingleRead GLOBAL_CONTROL_0_HEX ;;
     ret (negb (Z.land (Z.shiftr v 5) 1 =? 0)))
    (ret tt) ;;
  eth0_reg_settings <- EthoControllerSingleRead control2 ;;
  EthoControllerSingleWrite control2
    (u8 (Z.land (u8 eth0_reg_settings) (Z.lnot 1))) ;;
  ret notice.

(** One [if (flags & bit) { flags = bit; ... }] block: the value of
    [flags] after it and the notices printed so far. *)
Definition monitor_block (fuel : nat) (bit status1 control2 : Z)
  (name : PortName) (st : Z * list Notice) : M D (Z * list Notice) :=
  let (flags, notices) := st in
  if negb (Z.land flags bit =? 0)
  then
    let flags := bit in
    n <- service_port fuel flags status1 control2 name ;;
    ret (flags, notices ++ [n])
  else ret (flags, notices).

(** One pass of the loop of [PortMonitorTask]: the notices it prints. *)
Definition PortMonitorTask_pass (fuel : nat) (Authenticated : bool)
  : M D (list Notice) :=
  if Authenticated then
    flags <- EthoControllerSingleRead INTERRUPT_STATUS_REGISTER ;;
    st <- monitor_block fuel 0x10 0x5E 0x52 ExpansionPort (flags, []) ;;
    st <- monitor_block fuel 0x08 0x4E 0x42 Port0 st ;;
    st <- monitor_block fuel 0x04 0x3E 0x32 Port1 st ;;
    st <- monitor_block fuel 0x02 0x2E 0x22 Port2 st ;;
    st <- monitor_block fuel 0x01 0x1E 0x12 Port3 st ;;
    ret (snd st)
  else ret [].

End PortMonitor.

(* ================================================================== *)
(** ** Cable diagnostics ([COM_RunCableDiagnostics]) *)

(** [(double) x] for a [uint32_t] and [(uint32_t) f] for a [double] that
    is finite and in range: the conversion truncates toward zero. *)
Definition double_of_u32 (x : Z) : float :=
  PrimFloat.of_uint63 (Uint63.of_Z x).

Definition u32_of_double (f : float) : Z :=
  match Prim2SF f with
  | S754_finite false m e =>
      if 0 <=? e then Z.pos m * 2 ^ e else Z.pos m / 2 ^ (- e)
  | _ => 0
  end.

(** [fault_distance = (0.4 * (reg_data - 26))], all of it: the
    subtraction is on [uint32_t], the product on [double] with the
    constant nearest to 0.4, the assignment converts back. *)
Definition fault_distance_of (reg_data : Z) : Z :=
  u32_of_double
    (PrimFloat.mul 0x1.999999999999ap-2%float
       (double_of_u32 (u32 (reg_data - 26)))).

(** What the handler prints after the progress bar. *)
Inductive DiagReport : Type :=
| DiagTimeout
| DiagNormal
| DiagFault (cable_state : Z) (fault_distance : Z).

Section CableDiagnostics.

Context {D : Type} `{Controller D}.

(** The polling loop, [left] reads before [retry_attempts] passes 10:
    [true] when the register read back equal to [reg_data]. *)
Fixpoint linkmd_poll (left : nat) (address reg_data : Z) : M D bool :=
  match left with
  | O => ret false
  | S left' =>
      v <- EthoControllerSingleRead address ;;
      if v =? reg_data then ret true else linkmd_poll left' address reg_data
  end.

(** [reg_addr] is [strtol(params[0], NULL, 0)] as a [uint32_t]; the
    register addresses passed on are [uint8_t]. *)
Definition COM_RunCableDiagnostics (reg_addr : Z) : M D (bool * DiagReport) :=
  reg_data <- EthoControllerSingleRead (reg_addr + PORT_CONTROL5_OFFSET_HEX) ;;
  let reg_data := Z.lor reg_data (Z.shiftl 1 0x07) in
  EthoControllerSingleWrite (reg_addr + PORT_CONTROL5_OFFSET_HEX) reg_data ;;
  reg_data <- EthoControllerSingleRead (reg_addr + PORT_CONTROL6_OFFSET_HEX) ;;
  let reg_data := Z.lor reg_data (Z.shiftl 1 0x02) in
  EthoControllerSingleWrite (reg_addr + PORT_CONTROL6_OFFSET_HEX) reg_data ;;
  reg_data <- EthoControllerSingleRead (reg_addr + PORT_LINKMD0_OFFSET_HEX) ;;
  let reg_data := Z.lor reg_data (Z.shiftl 1 0x04) in
  EthoControllerSingleWrite (reg_addr + PORT_LINKMD0_OFFSET_HEX) reg_data ;;
  let reg_data := Z.land reg_data (Z.lnot (Z.shiftl 1 0x04)) in
  done <- linkmd_poll 11 (reg_addr + PORT_LINKMD0_OFFSET_HEX) reg_data ;;
  if negb done then ret (false, DiagTimeout)
  else
    cable_state <- EthoControllerSingleRead (reg_addr + PORT_LINKMD0_OFFSET_HEX) ;;
    let cable_state := Z.land cable_state 0x60 in
    reg_data <- EthoControllerSingleRead (reg_addr + PORT_LINKMD0_OFFSET_HEX) ;;
    let reg_data := Z.land reg_data 0x01 in
    v <- EthoControllerSingleRead (reg_addr + PORT_LINKMD1_OFFSET_HEX) ;;
    let reg_data := u32 (reg_data + v) in
    let fault_distance := fault_distance_of reg_data in
    reg_data <- EthoControllerSingleRead (reg_addr + PORT_CONTROL5_OFFSET_HEX) ;;
    let reg_data := Z.land reg_data (Z.lnot (Z.shiftl 1 0x07)) in
    EthoControllerSingleWrite (reg_addr + PORT_CONTROL5_OFFSET_HEX) reg_data ;;
    reg_data <- EthoControllerSingleRead (reg_addr + PORT_CONTROL6_OFFSET_HEX) ;;
    let reg_data := Z.land reg_data (Z.lnot (Z.shiftl 1 0x02)) in
    EthoControllerSingleWrite (reg_addr + PORT_CONTROL6_OFFSET_HEX) reg_data ;;
    if cable_state =? 0x00 then ret (true, DiagNormal)
    else ret (true, DiagFault cable_state fault_distance).

End CableDiagnostics.

(* ================================================================== *)
(** ** The VLAN table behind the indirect-access registers *)

Definition INDIRECT_ACCESS_CONTROL_0 : Z := 0x6E.
Definition INDIRECT_ACCESS_CONTROL_1 : Z := 0x6F.
Definition INDIRECT_CONTROL_READTYPEBIT : Z := 0x04.
Definition INDIRECT_READTYPE_READ : Z := 1.
Definition INDIRECT_READTYPE_WRITE : Z := 0.
Definition INDIRECT_CONTROL_TABLESELECT : Z := 0x02.
Definition INDIRECT_TABLESELECT_VLAN : Z := 1.
Definition INDIRECT_CONTROL_ADDRESS_HIGH : Z := 0x00.
Definition INDIRECT_REGISTER_DATA_6 : Z := 0x72.
Definition INDIRECT_REGISTER_DATA_5 : Z := 0x73.
Definition INDIRECT_REGISTER_DATA_4 : Z := 0x74.
Definition INDIRECT_REGISTER_DATA_3 : Z := 0x75.
Definition INDIRECT_REGISTER_DATA_2 : Z := 0x76.
Definition INDIRECT_REGISTER_DATA_1 : Z := 0x77.
Definition INDIRECT_REGISTER_DATA_0 : Z := 0x78.

Definition ETHO_PORT1_HARDWARE_HEX : Z := 0x10.
Definition ETHO_PORT2_HARDWARE_HEX : Z := 0x20.
Definition ETHO_PORT3_HARDWARE_HEX : Z := 0x30.
Definition ETHO_PORT4_HARDWARE_HEX : Z := 0x40.

Definition EEPROM_FIRMWARE_SETTINGS : Z := 0x1E.
Definition EEPROM_FIRMWARE_LOGFLAGS_1 : Z := 0x1F.
Definition EEPROM_FIRMWARE_LOGFLAGS_2 : Z := 0x20.
Definition EEPROM_FIRMWARE_LOGFLAGS_3 : Z := 0x21.
Definition EEPROM_FIRMWARE_LOGFLAGS_4 : Z := 0x22.
Definition EEPROM_FIRMWARE_NEXTLOG_1 : Z := 0x23.
Definition EEPROM_FIRMWARE_NEXTLOG_2 : Z := 0x24.
Definition EEPROM_FIRMWARE_NEXTLOG_3 : Z := 0x25.
Definition EEPROM_FIRMWARE_NEXTLOG_4 : Z := 0x26.
Definition EEPROM_SWITCH_CONFIG_BASE : Z := 0x100.
Definition EEPROM_VLAN_TABLE_BASE : Z := 0x200.
Definition EEPROM_USERS_BASE : Z := 0x1200.
Definition MAX_USERS : Z := 15.

Definition FLAG_BASE : Z := 0x1E.
Definition FLAG_EEPROM_REINIT_REQUESTED : Z := 7.
Definition FLAG_CONFIG_SAVED : Z := 6.
Definition FLAG_CONFIG_VLAN_VALID : Z := 5.
Definition FLAG_CONFIG_USERS_VALID : Z := 4.

(** [FindIndex(a, size, value)] with [size] the length of [a]. *)
Fixpoint FindIndex (a : list Z) (value : Z) : Z :=
  match a with
  | [] => 0
  | x :: t => if x =? value then 0 else 1 + FindIndex t value
  end.

Section VLAN.

Context {D : Type} `{Controller D}.

(** The functions below leave at once with [false] when a controller
    write reports failure.  [m ;;! k] runs [m] and goes on with [k] when
    it answers [true]; [Some b] is the enclosing function returning
    [b]. *)
Definition and_then {R : Type} (m : M D bool) (k : M D (option bool * R))
  (r : R) : M D (option bool * R) :=
  ok <- m ;; if ok then k else ret (Some false, r).

(** The four lines that select a row of the VLAN table for reading; the
    source repeats them wherever it reaches into the table.
    [indirect_access_data] is a [uint32_t]. *)
Definition indirect_select_read (indirect_reg_addr : Z) : M D bool :=
  indirect_access_data <- EthoControllerSingleRead INDIRECT_ACCESS_CONTROL_0 ;;
  let indirect_access_data :=
    Z.lor indirect_access_data
      (Z.lor (Z.lor (Z.shiftl INDIRECT_TABLESELECT_VLAN
                       INDIRECT_CONTROL_TABLESELECT)
                (Z.shiftl INDIRECT_READTYPE_READ
                   INDIRECT_CONTROL_READTYPEBIT))
         (Z.shiftl (Z.land (Z.shiftr indirect_reg_addr 8) 0xFF)
            INDIRECT_CONTROL_ADDRESS_HIGH)) in
  ok <- EthoControllerSingleWrite INDIRECT_ACCESS_CONTROL_0
          indirect_access_data ;;
  if negb ok then ret false
  else
    EthoControllerSingleRead INDIRECT_ACCESS_CONTROL_1 ;;
    let indirect_access_data := Z.land indirect_reg_addr 0xFF in
    EthoControllerSingleWrite INDIRECT_ACCESS_CONTROL_1 indirect_access_data.

(** The same for writing the row back: here the low five bits are cleared
    first. *)
Definition indirect_select_write (indirect_reg_addr : Z) : M D bool :=
  indirect_access_data <- EthoControllerSingleRead INDIRECT_ACCESS_CONTROL_0 ;;
  let indirect_access_data := Z.land indirect_access_data (Z.lnot 0x1f) in
  let indirect_access_data :=
    Z.lor indirect_access_data
      (Z.lor (Z.lor (Z.shiftl INDIRECT_TABLESELECT_VLAN
                       INDIRECT_CONTROL_TABLESELECT)
                (Z.shiftl INDIRECT_READTYPE_WRITE
                   INDIRECT_CONTROL_READTYPEBIT))
         (Z.shiftl (Z.land (Z.shiftr indirect_reg_addr 8) 0xFF)
            INDIRECT_CONTROL_ADDRESS_HIGH)) in
  ok <- EthoControllerSingleWrite INDIRECT_ACCESS_CONTROL_0
          indirect_access_data ;;
  if negb ok then ret false
  else
    EthoControllerSingleRead INDIRECT_ACCESS_CONTROL_1 ;;
    let indirect_access_data := Z.land indirect_reg_addr 0xFF in
    EthoControllerSingleWrite INDIRECT_ACCESS_CONTROL_1 indirect_access_data.

Definition port_base_addrs : list Z :=
  [ETHO_PORT1_HARDWARE_HEX; ETHO_PORT2_HARDWARE_HEX;
   ETHO_PORT3_HARDWARE_HEX; ETHO_PORT4_HARDWARE_HEX].

(** The loop of [AssertVLANS] over the ports still to visit; [mask] is a
    [uint8_t]. *)
Fixpoint AssertVLANS_loop (vlan_id port_id : Z) (i : Z) (bases : list Z)
  (mask : Z) : M D Z :=
  match bases with
  | [] => ret mask
  | base :: rest =>
      hi <- EthoControllerSingleRead (PORT_CONTROL3_OFFSET_HEX + base) ;;
      lo <- EthoControllerSingleRead (PORT_CONTROL4_OFFSET_HEX + base) ;;
      let vlan_data :=
        Z.lor (Z.shiftl (Z.land hi 0xF) 8) (Z.shiftl (Z.land lo 0xFF) 0) in
      reg_data <- EthoControllerSingleRead (PORT_CONTROL1_OFFSET_HEX + base) ;;
      let reg_data := u8 reg_data in
      if vlan_data =? vlan_id
      then
        let mask' := u8 (Z.lor mask (Z.shiftl 1 i)) in
        let reg_data :=
          u8 (Z.lor reg_data (Z.shiftl 1 (FindIndex port_base_addrs port_id)))
        in
        EthoControllerSingleWrite (PORT_CONTROL1_OFFSET_HEX + base) reg_data ;;
        AssertVLANS_loop vlan_id port_id (i + 1) rest mask'
      else AssertVLANS_loop vlan_id port_id (i + 1) rest mask
  end.

Definition AssertVLANS (vlan_id port_id : Z) : M D Z :=
  AssertVLANS_loop vlan_id port_id 0 port_base_addrs 0x00.

(** The [switch (vlan_id % 4)] of [COM_SetVLANEntry]: the membership it
    leaves in [port_membership], which starts as 0. *)
Definition SetVLANEntry_switch (vlan_id port_addr : Z)
  : M D (option bool * Z) :=
  match vlan_id mod 4 with
  | 0 =>
      indirect_reg_data <- EthoControllerSingleRead INDIRECT_REGISTER_DATA_1 ;;
      let indirect_reg_data := Z.lor indirect_reg_data (Z.shiftl 1 4) in
      EthoControllerSingleRead INDIRECT_REGISTER_DATA_1 ;;
      EthoControllerSingleRead INDIRECT_REGISTER_DATA_0 ;;
      port_membership <- AssertVLANS vlan_id port_addr ;;
      let indirect_reg_data :=
        Z.lor indirect_reg_data (Z.shiftl (Z.shiftr port_membership 1) 0) in
      and_then
        (EthoControllerSingleWrite INDIRECT_REGISTER_DATA_1 indirect_reg_data)
        (indirect_reg_data <- EthoControllerSingleRead INDIRECT_REGISTER_DATA_0 ;;
         let indirect_reg_data :=
           Z.lor indirect_reg_data (Z.shiftl (Z.land port_membership 0x01) 7)
         in
         and_then
           (EthoControllerSingleWrite INDIRECT_REGISTER_DATA_0
              indirect_reg_data)
           (ret (None, port_membership)) port_membership)
        port_membership
  | 1 =>
      indirect_reg_data <- EthoControllerSingleRead INDIRECT_REGISTER_DATA_3 ;;
      let indirect_reg_data := Z.lor indirect_reg_data (Z.shiftl 1 1) in
      EthoControllerSingleRead INDIRECT_REGISTER_DATA_3 ;;
      EthoControllerSingleRead INDIRECT_REGISTER_DATA_2 ;;
      port_membership <- AssertVLANS vlan_id port_addr ;;
      let indirect_reg_data :=
        Z.lor indirect_reg_data (Z.shiftl (Z.shiftr port_membership 4) 0) in
      and_then
        (EthoControllerSingleWrite INDIRECT_REGISTER_DATA_3 indirect_reg_data)
        (indirect_reg_data <- EthoControllerSingleRead INDIRECT_REGISTER_DATA_2 ;;
         let indirect_reg_data :=
           Z.lor indirect_reg_data (Z.shiftl (Z.land port_membership 0xF) 4)
         in
         and_then
           (EthoControllerSingleWrite INDIRECT_REGISTER_DATA_2
              indirect_reg_data)
           (ret (None, port_membership)) port_membership)
        port_membership
  | 2 =>
      indirect_reg_data <- EthoControllerSingleRead INDIRECT_REGISTER_DATA_4 ;;
      let indirect_reg_data := Z.lor indirect_reg_data (Z.shiftl 1 6) in
      EthoControllerSingleRead INDIRECT_REGISTER_DATA_4 ;;
      port_membership <- AssertVLANS vlan_id port_addr ;;
      let indirect_reg_data :=
        Z.lor indirect_reg_data (Z.shiftl port_membership 1) in
      and_then
        (EthoControllerSingleWrite INDIRECT_REGISTER_DATA_4 indirect_reg_data)
        (ret (None, port_membership)) port_membership
  | 3 =>
      indirect_reg_data <- EthoControllerSingleRead INDIRECT_REGISTER_DATA_6 ;;
      let indirect_reg_data := Z.lor indirect_reg_data (Z.shiftl 1 3) in
      EthoControllerSingleRead INDIRECT_REGISTER_DATA_6 ;;
      EthoControllerSingleRead INDIRECT_REGISTER_DATA_5 ;;
      port_membership <- AssertVLANS vlan_id port_addr ;;
      let indirect_reg_data :=
        Z.lor indirect_reg_data (Z.shiftl (Z.shiftr port_membership 2) 0) in
      and_then
        (EthoControllerSingleWrite INDIRECT_REGISTER_DATA_6 indirect_reg_data)
        (indirect_reg_data <- EthoControllerSingleRead INDIRECT_REGISTER_DATA_5 ;;
         let indirect_reg_data :=
           Z.lor indirect_reg_data (Z.shiftl (Z.land port_membership 0x3) 6)
         in
         and_then
           (EthoControllerSingleWrite INDIRECT_REGISTER_DATA_5
              indirect_reg_data)
           (ret (None, port_membership)) port_membership)
        port_membership
  | _ => ret (None, 0x00)
  end.

(** [COM_SetVLANEntry]: [port_addr] and [vlan_id] are the two parameters
    after [strtol] and the conversion to [uint32_t]. *)
Definition COM_SetVLANEntry (port_addr vlan_id : Z) : M D bool :=
  if 4095 <? vlan_id then ret false
  else
    let indirect_reg_addr := vlan_id / 4 in
    ok <- indirect_select_read indirect_reg_addr ;;
    if negb ok then ret false
    else
      r <- SetVLANEntry_switch vlan_id port_addr ;;
      match fst r with
      | Some b => ret b
      | None =>
          let port_membership := snd r in
          let temp_data := u8 (0x80 + port_membership) in
          ok <- EEPROMSingleWrite (u32 (0x200 + u32 (vlan_id - 1))) temp_data ;;
          if negb ok then ret false
          else indirect_select_write indirect_reg_addr
      end.

End VLAN.

(* ================================================================== *)
(** ** The user table ([freertos_init.h]) *)

Inductive Action : Type :=
| Update
| Delete
| Add
| NoAction.

(** [User_Data]; the four names are arrays of 16 characters, and
    [permissions] is the integer behind the [PermLevel]. *)
Record User_Data : Type := mkUser_Data {
  username : list Z;
  first_name : list Z;
  last_name : list Z;
  password : list Z;
  permissions : Z;
  isMarked : bool;
  nextAction : Action
}.

Definition empty_user : User_Data :=
  mkUser_Data (repeat 0 16) (repeat 0 16) (repeat 0 16) (repeat 0 16)
    0 false NoAction.

Definition is_Delete (a : Action) : bool :=
  match a with Delete => true | _ => false end.

Definition is_Update_or_Add (a : Action) : bool :=
  match a with Update | Add => true | _ => false end.

(** [users[i]] and [users[i] = u]. *)
Definition user_at (users : list User_Data) (i : Z) : User_Data :=
  nth (Z.to_nat i) users empty_user.

Fixpoint set_user (users : list User_Data) (i : nat) (u : User_Data)
  : list User_Data :=
  match users, i with
  | [], _ => []
  | _ :: t, O => u :: t
  | h :: t, S i' => h :: set_user t i' u
  end.

(** An array of 16 characters after a bulk read has filled its first
    bytes. *)
Definition overlay (old new : list Z) : list Z :=
  new ++ skipn (List.length new) old.

(* ================================================================== *)
(** ** Saving the running configuration
       ([COM_SaveSwitchConfiguration])

    The function is embedded in the order of its text: the controller
    registers, the VLAN table, the user table, the logger's globals and
    the system flags.  What it prints and the delays it takes are left
    out. *)

Section SaveConfiguration.

Context {D : Type} `{Controller D}.

(** The loop [for (read_addr = 0; read_addr < 0xFF; read_addr++)]:
    [Some false] when a write to the EEPROM failed. *)
Definition save_registers : M D (option bool) :=
  for_loop (Z.to_nat 0xFF) 0
    (fun read_addr =>
       data <- EthoControllerSingleRead read_addr ;;
       let data := u8 data in
       let eeprom_eth0_addr := 0x100 + read_addr in
       ok <- EEPROMSingleWrite eeprom_eth0_addr data ;;
       if negb ok then ret (Some false) else ret None).

(** The body of the loop over [vlan_id] from 1 to 4095. *)
Definition save_vlan_entry (vlan_id : Z) : M D (option bool) :=
  let eeprom_vlan_addr := 0x200 in
  let indirect_reg_addr := vlan_id / 4 in
  ok <- indirect_select_read indirect_reg_addr ;;
  if negb ok then ret (Some false)
  else
    r <- EthoControllerBulkRead INDIRECT_REGISTER_DATA_6 7 ;;
    let indirect_reg_values := overlay (repeat 0 7) (snd r) in
    let v := fun k => nth k indirect_reg_values 0 in
    let '(vlan_status, port_membership) :=
      match vlan_id mod 4 with
      | 0 => (Z.shiftr (Z.land (v 5%nat) 0x10) 4,
              u32 (Z.land (v 5%nat) 0xF + Z.shiftr (v 6%nat) 7))
      | 1 => (Z.shiftr (Z.land (v 3%nat) 0x02) 1,
              u32 (Z.land (v 3%nat) 0x01 + Z.shiftr (v 4%nat) 4))
      | 2 => (Z.shiftr (Z.land (v 2%nat) 0x40) 2,
              Z.shiftr (v 2%nat) 1)
      | 3 => (Z.shiftr (Z.land (v 0%nat) 0x08) 3,
              u32 (Z.land (v 0%nat) 0x07 + Z.shiftr (v 1%nat) 6))
      | _ => (0, 0)
      end in
    let vlan_data :=
      u8 (Z.lor (Z.shiftl vlan_status 7) (Z.shiftl port_membership 2)) in
    ok <- EEPROMSingleWrite (u32 (eeprom_vlan_addr + u32 (vlan_id - 1)))
            vlan_data ;;
    if negb ok then ret (Some false) else ret None.

(** Lines 2081 to 2182: the test of [global_control_3] and the two
    branches.  [fuel] bounds the status polls of each page erase.  The
    answer is the early return, if any, and [flag_data], a [uint8_t]. *)
Definition save_vlans (fuel : nat) (flag_data : Z)
  : M D (option bool * Z) :=
  let eeprom_vlan_addr := 0x200 in
  global_control_3 <- EthoControllerSingleRead GLOBAL_CONTROL_3_HEX ;;
  if logical_and global_control_3 0x80
  then
    for_loop (R := bool) 16 0
      (fun vlan_id =>
         EEPROMPageErase fuel (eeprom_vlan_addr + vlan_id * 256) ;;
         ret None) ;;
    r <- for_loop (Z.to_nat (4096 - 1)) 1 save_vlan_entry ;;
    match r with
    | Some b => ret (Some b, flag_data)
    | None =>
        ret (None, u8 (Z.lor flag_data (Z.shiftl 1 FLAG_CONFIG_VLAN_VALID)))
    end
  else
    ret (None,
         u8 (Z.land flag_data (Z.lnot (Z.shiftl 1 FLAG_CONFIG_VLAN_VALID)))).

(** A user record written to slot [user_cnt], and a blank one. *)
Definition write_user (user_cnt : Z) (u : User_Data) : M D unit :=
  EEPROMBulkWrite (u32 (EEPROM_USERS_BASE + user_cnt * 65)) (username u) ;;
  EEPROMBulkWrite (u32 (EEPROM_USERS_BASE + user_cnt * 65 + 16)) (password u) ;;
  EEPROMBulkWrite (u32 (EEPROM_USERS_BASE + user_cnt * 65 + 32)) (first_name u) ;;
  EEPROMBulkWrite (u32 (EEPROM_USERS_BASE + user_cnt * 65 + 48)) (last_name u) ;;
  EEPROMSingleWrite (u32 (EEPROM_USERS_BASE + user_cnt * 65 + 64))
    (u8 (permissions u)) ;;
  ret tt.

Definition write_blank_user (user_cnt : Z) : M D unit :=
  write_user user_cnt empty_user.

(** [for (; user_cnt < MAX_USERS; user_cnt++)] filling blank records. *)
Fixpoint fill_blank_users (left : nat) (user_cnt : Z) : M D unit :=
  match left with
  | O => ret tt
  | S left' =>
      write_blank_user user_cnt ;; fill_blank_users left' (user_cnt + 1)
  end.

(** The loop over the user table: [user_cnt] and [current_user] are the
    two [int] counters of the source, [turns] bounds the turns of the
    loop. *)
Fixpoint save_users (turns : nat) (users : list User_Data)
  (user_cnt current_user : Z) : M D unit :=
  match turns with
  | O => hang
  | S turns' =>
      if user_cnt <? MAX_USERS then
        let u := user_at users current_user in
        (if is_Update_or_Add (nextAction u)
         then write_user user_cnt u else ret tt) ;;
        user_cnt <- (if is_Delete (nextAction u)
                     then write_blank_user user_cnt ;; ret (user_cnt - 1)
                     else ret user_cnt) ;;
        let current_user := current_user + 1 in
        if (MAX_USERS - 1 <? current_user) && (user_cnt <? MAX_USERS - 1)
        then fill_blank_users (Z.to_nat (MAX_USERS - user_cnt)) user_cnt
        else save_users turns' users (user_cnt + 1) current_user
      else ret tt
  end.

(** The eight writes of [LogStatusFlags] and [NextLogSlot]. *)
Definition save_log_globals (g : LogGlobals) : M D unit :=
  EEPROMSingleWrite EEPROM_FIRMWARE_LOGFLAGS_1
    (Z.land (Z.shiftr (LogStatusFlags g) 24) 0xFF) ;;
  EEPROMSingleWrite EEPROM_FIRMWARE_LOGFLAGS_2
    (Z.land (Z.shiftr (LogStatusFlags g) 16) 0xFF) ;;
  EEPROMSingleWrite EEPROM_FIRMWARE_LOGFLAGS_3
    (Z.land (Z.shiftr (LogStatusFlags g) 8) 0xFF) ;;
  EEPROMSingleWrite EEPROM_FIRMWARE_LOGFLAGS_4
    (Z.land (LogStatusFlags g) 0xFF) ;;
  EEPROMSingleWrite EEPROM_FIRMWARE_NEXTLOG_1
    (Z.land (Z.shiftr (NextLogSlot g) 24) 0xFF) ;;
  EEPROMSingleWrite EEPROM_FIRMWARE_NEXTLOG_2
    (Z.land (Z.shiftr (NextLogSlot g) 16) 0xFF) ;;
  EEPROMSingleWrite EEPROM_FIRMWARE_NEXTLOG_3
    (Z.land (Z.shiftr (NextLogSlot g) 8) 0xFF) ;;
  EEPROMSingleWrite EEPROM_FIRMWARE_NEXTLOG_4
    (Z.land (NextLogSlot g) 0xFF) ;;
  ret tt.

Definition COM_SaveSwitchConfiguration (fuel : nat) (g : LogGlobals)
  (users : list User_Data) : M D bool :=
  flag_data <- EEPROMSingleRead FLAG_BASE ;;
  r <- save_registers ;;
  match r with
  | Some b => ret b
  | None =>
      let flag_data := u8 (Z.lor flag_data (Z.shiftl 1 FLAG_CONFIG_SAVED)) in
      r <- save_vlans fuel flag_data ;;
      match fst r with
      | Some b => ret b
      | None =>
          let flag_data := snd r in
          save_users 16 users 0 0 ;;
          let flag_data :=
            u8 (Z.lor flag_data (Z.shiftl 1 FLAG_CONFIG_USERS_VALID)) in
          save_log_globals g ;;
          EEPROMSingleWrite FLAG_BASE flag_data ;;
          ret true
      end
  end.

End SaveConfiguration.

(* ================================================================== *)
(** ** The boot restore ([InitializeEEPROM]) *)

Section BootRestore.

Context {D : Type} `{Controller D}.

(** The loop [for (reg = 0; reg < 0xFF; reg++)] that loads the
    controller from the EEPROM. *)
Definition restore_registers : M D (option bool) :=
  for_loop (R := bool) (Z.to_nat 0xFF) 0
    (fun reg =>
       v <- EEPROMSingleRead (EEPROM_SWITCH_CONFIG_BASE + reg) ;;
       EthoControllerSingleWrite reg v ;;
       ret None).

(** Four bytes, most significant first, into a [uint32_t]. *)
Definition be32 (b1 b2 b3 b4 : Z) : Z :=
  u32 (Z.lor (Z.lor (Z.lor (Z.shiftl b1 24) (Z.shiftl b2 16))
                (Z.shiftl b3 8)) b4).

Definition restore_log_globals : M D LogGlobals :=
  f1 <- EEPROMSingleRead EEPROM_FIRMWARE_LOGFLAGS_1 ;;
  f2 <- EEPROMSingleRead EEPROM_FIRMWARE_LOGFLAGS_2 ;;
  f3 <- EEPROMSingleRead EEPROM_FIRMWARE_LOGFLAGS_3 ;;
  f4 <- EEPROMSingleRead EEPROM_FIRMWARE_LOGFLAGS_4 ;;
  n1 <- EEPROMSingleRead EEPROM_FIRMWARE_NEXTLOG_1 ;;
  n2 <- EEPROMSingleRead EEPROM_FIRMWARE_NEXTLOG_2 ;;
  n3 <- EEPROMSingleRead EEPROM_FIRMWARE_NEXTLOG_3 ;;
  n4 <- EEPROMSingleRead EEPROM_FIRMWARE_NEXTLOG_4 ;;
  let NextLogSlot := be32 n1 n2 n3 n4 in
  ret (mkLogGlobals (be32 f1 f2 f3 f4)
         (if NextLogSlot <? EEPROM_LOG_BASE then EEPROM_LOG_BASE
          else NextLogSlot)).

(** The [switch ((reg+1) % 4)] of the VLAN restore. *)
Definition restore_vlan_switch (reg vlan_data : Z) : M D (option bool) :=
  let port_membership := Z.shiftr (Z.land vlan_data 0x7F) 2 in
  let one (address set : Z) (k : M D (option bool)) : M D (option bool) :=
    indirect_reg_data <- EthoControllerSingleRead address ;;
    ok <- EthoControllerSingleWrite address (Z.lor indirect_reg_data set) ;;
    if negb ok then ret (Some false) else k in
  match (reg + 1) mod 4 with
  | 0 =>
      one INDIRECT_REGISTER_DATA_1
        (Z.lor (Z.shiftl 1 4) (Z.shiftl (Z.shiftr port_membership 1) 0))
        (one INDIRECT_REGISTER_DATA_0
           (Z.shiftl (Z.land port_membership 0x01) 7) (ret None))
  | 1 =>
      one INDIRECT_REGISTER_DATA_3
        (Z.lor (Z.shiftl 1 1) (Z.shiftl (Z.shiftr port_membership 4) 0))
        (one INDIRECT_REGISTER_DATA_2
           (Z.shiftl (Z.land port_membership 0xF) 4) (ret None))
  | 2 =>
      one INDIRECT_REGISTER_DATA_4
        (Z.lor (Z.shiftl 1 6) (Z.shiftl port_membership 1)) (ret None)
  | 3 =>
      one INDIRECT_REGISTER_DATA_6
        (Z.lor (Z.shiftl 1 3) (Z.shiftl (Z.shiftr port_membership 2) 0))
        (one INDIRECT_REGISTER_DATA_5
           (Z.shiftl (Z.land port_membership 0x3) 6) (ret None))
  | _ => ret None
  end.

(** The body of the loop [for (reg = 0; reg < 4095; reg++)]. *)
Definition restore_vlan_entry (reg : Z) : M D (option bool) :=
  vlan_data <- EEPROMSingleRead (EEPROM_VLAN_TABLE_BASE + reg) ;;
  if Z.land vlan_data 0x80 =? 0x80
  then
    let indirect_reg_addr := (reg + 1) / 4 in
    ok <- indirect_select_read indirect_reg_addr ;;
    if negb ok then ret (Some false)
    else
      r <- restore_vlan_switch reg vlan_data ;;
      match r with
      | Some b => ret (Some b)
      | None =>
          ok <- indirect_select_write indirect_reg_addr ;;
          if negb ok then ret (Some false) else ret None
      end
  else ret None.

(** The loop [for (users_cnt = 0; users_cnt < MAX_USERS; users_cnt++)]. *)
Fixpoint restore_users (left : nat) (users_cnt : Z) (users : list User_Data)
  : M D (list User_Data) :=
  match left with
  | O => ret users
  | S left' =>
      let u := user_at users users_cnt in
      n <- EEPROMBulkRead (EEPROM_USERS_BASE + users_cnt * 65) 16 ;;
      p <- EEPROMBulkRead (EEPROM_USERS_BASE + users_cnt * 65 + 16) 16 ;;
      f <- EEPROMBulkRead (EEPROM_USERS_BASE + users_cnt * 65 + 32) 16 ;;
      l <- EEPROMBulkRead (EEPROM_USERS_BASE + users_cnt * 65 + 48) 16 ;;
      perm <- EEPROMSingleRead (EEPROM_USERS_BASE + users_cnt * 65 + 64) ;;
      let u' :=
        mkUser_Data (overlay (username u) (snd n))
          (overlay (first_name u) (snd f))
          (overlay (last_name u) (snd l))
          (overlay (password u) (snd p))
          perm (isMarked u) NoAction in
      restore_users left' (users_cnt + 1)
        (set_user users (Z.to_nat users_cnt) u')
  end.

(** [InitializeEEPROM]: its result, and the globals it leaves. *)
Definition InitializeEEPROM (g : LogGlobals) (users : list User_Data)
  : M D (bool * LogGlobals * list User_Data) :=
  FirmwareSettings <- EEPROMSingleRead EEPROM_FIRMWARE_SETTINGS ;;
  (if Z.land FirmwareSettings 0x80 =? 0x80
   then EEPROMChipErase ;; ret tt else ret tt) ;;
  if Z.land FirmwareSettings 0x40 =? 0x40
  then
    restore_registers ;;
    g <- restore_log_globals ;;
    r <- (if Z.land FirmwareSettings 0x20 =? 0x20
          then for_loop (Z.to_nat 4095) 0 restore_vlan_entry
          else ret None) ;;
    match r with
    | Some b => ret (b, g, users)
    | None =>
        users <- (if Z.land FirmwareSettings 0x10 =? 0x10
                  then restore_users (Z.to_nat MAX_USERS) 0 users
                  else ret users) ;;
        ret (true, g, users)
    end
  else ret (true, g, users).

End BootRestore.

(* ================================================================== *)
(** ** Notions used to state the properties *)

(** What each call of the HAL leaves behind, in closed form.  The queue
    of the logger after [LogItemEEPROM c]: *)
Definition log_queue {D : Type} (c : LoggerCodes) (w : World D)
  : list LoggerCodes :=
  if logger_running w
     && (List.length (logger_queue w) <? LOGGER_QUEUE_SIZE)%nat
  then logger_queue w ++ [c]
  else logger_queue w.

(** the value [EthoControllerSingleRead a] answers and the world after
    it: *)
Definition ctrl_read_value {D : Type} `{Controller D} (a : Z) (w : World D)
  : Z :=
  u8 (fst (ksz_read (u8 a) (ctrl w))).

Definition after_ctrl_read {D : Type} `{Controller D} (a : Z) (w : World D)
  : World D :=
  mkWorld (eeprom w) (snd (ksz_read (u8 a) (ctrl w))) (spi0_taken w) false
    (logger_running w) (log_queue EthoControllerReadOP w)
    (EvCtrl [0x03; u8 a; 0] [0; 0; ctrl_read_value a w] :: trace w).

(** the world after [EthoControllerSingleWrite a v]: *)
Definition after_ctrl_write {D : Type} `{Controller D} (a v : Z)
  (w : World D) : World D :=
  mkWorld (eeprom w) (ksz_write (u8 a) (u8 v) (ctrl w)) (spi0_taken w) false
    (logger_running w) (log_queue EthoControllerWriteOP w)
    (EvCtrl [0x02; u8 a; u8 v] [0; 0; 0] :: trace w).

(** the value [EEPROMSingleRead a] answers and the world after it: *)
Definition eeprom_read_value {D : Type} (a : Z) (w : World D) : Z :=
  not8 (ee_mem (eeprom w) (a mod 131072)).

Definition after_eeprom_read {D : Type} (a : Z) (w : World D) : World D :=
  mkWorld (eeprom w) (ctrl w) false (spi1_taken w)
    (logger_running w) (log_queue EEPROMReadOP w)
    (EvEEPROM (READ_COMMAND :: addr_bytes a ++ [0])
       [0; 0; 0; 0; ee_mem (eeprom w) (a mod 131072)] :: trace w).

(** the world after [EEPROMSingleWrite a b]: *)
Definition after_eeprom_write {D : Type} (a b : Z) (w : World D) : World D :=
  mkWorld
    (mkEEPROM25 (upd (ee_mem (eeprom w)) (a mod 131072) (not8 b)) false)
    (ctrl w) false (spi1_taken w)
    (logger_running w) (log_queue EEPROMWriteOP w)
    (EvEEPROM (READ_COMMAND :: addr_bytes a ++ [0]) [0; 0; 0; 0; not8 b]
     :: EvEEPROM (WRITE_COMMAND :: addr_bytes a ++ [not8 b]) [0; 0; 0; 0; 0]
     :: EvEEPROM [WRITE_ENABLE] [0] :: trace w).

(** The registers of the controller that a record of the buses shows
    written, with the data, most recent first. *)
Fixpoint ctrl_writes (tr : list SpiEvent) : list (Z * Z) :=
  match tr with
  | [] => []
  | EvCtrl [0x02; a; v] _ :: rest => (a, v) :: ctrl_writes rest
  | _ :: rest => ctrl_writes rest
  end.

(** The cells of the EEPROM that a record of the buses shows addressed by
    a write instruction, most recent first. *)
Fixpoint eeprom_writes (tr : list SpiEvent) : list Z :=
  match tr with
  | [] => []
  | EvEEPROM [0x02; a2; a1; a0; _] _ :: rest =>
      ee_addr a2 a1 a0 :: eeprom_writes rest
  | _ :: rest => eeprom_writes rest
  end.

(** A plain register file as a controller: a read answers what was last
    written. *)
Definition RegFile : Type := Z -> Z.

#[export] Instance RegFile_Controller : Controller RegFile := {
  ksz_read := fun a d => (d a, d);
  ksz_write := fun a v d => upd d a v
}.

(** A register file with the two pieces of hardware the port monitor
    relies on: a bit of the interrupt status register is cleared by
    writing 1 to it, and the flush bit of global control 0 clears itself
    once the flush is done, which is at once. *)
Record Ksz : Type := mkKsz { ksz_regs : Z -> Z }.

#[export] Instance Ksz_Controller : Controller Ksz := {
  ksz_read := fun a d => (ksz_regs d a, d);
  ksz_write := fun a v d =>
    if a =? INTERRUPT_STATUS_REGISTER
    then mkKsz (upd (ksz_regs d) a (Z.land (ksz_regs d a) (Z.lnot v)))
    else if a =? GLOBAL_CONTROL_0_HEX
         then mkKsz (upd (ksz_regs d) a (Z.land v (Z.lnot 0x20)))
         else mkKsz (upd (ksz_regs d) a v)
}.

(** A world at rest: an erased EEPROM, both mutexes free, no logger, an
    empty record. *)
Definition idle_world {D : Type} (d : D) : World D :=
  mkWorld (mkEEPROM25 (fun _ => 0xFF) false) d false false false [] [].

(** The records that [LoggerTask] writes rather than drops: the code is
    enabled in [flags] and differs from the code before it ([last] before
    the first). *)
Fixpoint recorded (flags last : Z) (received : list (LoggerCodes * Z))
  : bool :=
  match received with
  | [] => true
  | (c, _) :: rest =>
      negb (Z.land (Z.shiftr flags (code_value c)) 1 =? 0)
      && negb (code_value c =? last)
      && recorded flags (code_value c) rest
  end.

(** [n] logins and logouts in turn, the [i]-th at tick [i]. *)
Definition logins_and_logouts (n : nat) : list (LoggerCodes * Z) :=
  map (fun i => (if Nat.even i then UserLoggedIn else UserLoggedOut,
                 Z.of_nat i))
      (seq 0 n).

(** A packet that carries one received byte and nothing else. *)
Definition lone_byte_packet (p : I2C_Packet) : Prop :=
  I2CRXIndex p = 0
  /\ exists b, I2CRXBuffer p = b :: repeat 0 (Z.to_nat I2CBUFFERSIZE - 1).

(** The packet the claim expects for a code and its parameters. *)
Definition packet_of (bytes : list Z) : list Z :=
  bytes ++ repeat 0 (Z.to_nat I2CBUFFERSIZE - List.length bytes).

(** The functions of [command_functions.c] that the menus below point
    to, and the part of the command tree of [interpreter_task.h] that
    leads to the configuration commands. *)
Inductive CLIFunction : Type :=
| NotImplementedFunction
| COM_SaveSwitchConfiguration_fn
| COM_DeleteConfig_fn
| COM_Logout_fn.

Definition Config_save : Command CLIFunction :=
  mkCommand "save" "move the current configuration to the EEPROM"
    true 0 false COM_SaveSwitchConfiguration_fn [""%string] []
    ModifyPortsOnly.

Definition Config_delete : Command CLIFunction :=
  mkCommand "delete" "remove the current configuration from the EEPROM"
    true 1 false COM_DeleteConfig_fn [""%string] [] ModifySystem.

Definition Config_Commands : list (Command CLIFunction) :=
  [Config_save; Config_delete].

Definition Command_Categories_config : list (Command CLIFunction) :=
  [mkCommand "config" "save or delete this switch's running configuration"
     false 0 false NotImplementedFunction [""%string] Config_Commands
     ModifyPortsOnly;
   mkCommand "logout"
     "exit this session. Does not automatically save configuration."
     true 0 false COM_Logout_fn [""%string] [] ReadOnlyUser].

(** The distance of the specification: 0.4 times [raw - 26], rounded to
    the nearest integer (no product of 0.4 and an integer lies halfway
    between two integers). *)
Definition spec_fault_distance (raw : Z) : Z := (4 * (raw - 26) + 5) / 10.

(** The values [reg_data] can take when the distance is computed: bit 0
    of one register plus the byte of another. *)
Definition distance_values : list Z := map Z.of_nat (seq 0 257).

(** A world at rest whose EEPROM holds the flag byte [flags] (inverted,
    as every byte) and is erased elsewhere, with every register of the
    controller 0. *)
Definition flagged_world (flags : Z) : World RegFile :=
  mkWorld (mkEEPROM25 (upd (fun _ => 0xFF) FLAG_BASE (not8 flags)) false)
    (fun _ => 0) false false false [] [].

(** A controller whose interrupt status register reads [flags], with
    every other register 0, in a world at rest. *)
Definition pending_interrupts (flags : Z) : World Ksz :=
  idle_world (mkKsz (upd (fun _ => 0) INTERRUPT_STATUS_REGISTER flags)).


(* ################################################################## *)
(** * Part I, continued: the rest of the firmware *)

(* ================================================================== *)
(** ** Listing the event log ([COM_ListEvents]) *)

(** How the listing ends: a failed read, the notice that the log is
    empty, the notice of the end of the log, or the end of the region
    with no notice. *)
Inductive ListOutcome : Type :=
| ReadFailed
| NoLogEntries
| EndOfLog
| EndOfRegion.

(** What [UARTprintf] prints for [%d] when it is handed a [uint32_t]:
    the number read as an [int32_t], so that a value from [2 ^ 31] on
    comes out negative. *)
Definition printf_d (x : Z) : Z := if x <? 2 ^ 31 then x else x - 2 ^ 32.

Section ListEvents.

Context {D : Type} `{Controller D}.

(** The loop of [COM_ListEvents], [left] entries of the region still to
    visit.  [printed] holds the lines printed so far, each the number
    that [%d] prints for the time stamp and the byte of the event, whose
    name the source prints.  The comparison with [NextLogSlot] is one of
    [uint32_t]. *)
Fixpoint COM_ListEvents_loop (left : nat) (entry_memaddr NextLogSlot : Z)
  (printed : list (Z * Z)) : M D (bool * ListOutcome * list (Z * Z)) :=
  match left with
  | O => ret (true, EndOfRegion, printed)
  | S left' =>
      r <- EEPROMBulkRead entry_memaddr 4 ;;
      if negb (fst r) then ret (false, ReadFailed, printed)
      else
        let timestamp_data := fun k => nth k (snd r) 0 in
        let timestamp :=
          be32 (timestamp_data 0%nat) (timestamp_data 1%nat)
            (timestamp_data 2%nat) (timestamp_data 3%nat) in
        if (timestamp =? 0) && (entry_memaddr =? EEPROM_LOG_BASE)
        then ret (true, NoLogEntries, printed)
        else if (timestamp =? 0) || (NextLogSlot <=? entry_memaddr)
        then ret (true, EndOfLog, printed)
        else
          event <- EEPROMSingleRead (entry_memaddr + 4) ;;
          COM_ListEvents_loop left' (entry_memaddr + 5) NextLogSlot
            (printed ++ [(printf_d timestamp, event)])
  end.

Definition COM_ListEvents (g : LogGlobals)
  : M D (bool * ListOutcome * list (Z * Z)) :=
  COM_ListEvents_loop (Z.to_nat MAX_LOG_ENTRIES) EEPROM_LOG_BASE
    (NextLogSlot g) [].

End ListEvents.

(** The codes that [LoggerTask] writes out of those it receives: the
    enabled ones that differ from the code written before them. *)
Fixpoint written (flags last : Z) (received : list (LoggerCodes * Z))
  : list (LoggerCodes * Z) :=
  match received with
  | [] => []
  | (c, t) :: rest =>
      if negb (Z.land (Z.shiftr flags (code_value c)) 1 =? 0)
         && negb (code_value c =? last)
      then (c, t) :: written flags (code_value c) rest
      else written flags last rest
  end.

(** The five bytes of a record: the tick count, most significant byte
    first, and the code. *)
Definition record_bytes (r : LoggerCodes * Z) : list Z :=
  [Z.land (Z.shiftr (snd r) 24) 0xFF; Z.land (Z.shiftr (snd r) 16) 0xFF;
   Z.land (Z.shiftr (snd r) 8) 0xFF; Z.land (snd r) 0xFF;
   code_value (fst r)].

(** Every record carries a tick count that is not 0 and fits a
    [uint32_t]. *)
Definition ticking (received : list (LoggerCodes * Z)) : bool :=
  forallb (fun r => (0 <? snd r) && (snd r <? 2 ^ 32)) received.

(** What [COM_ListEvents] prints for a record: the tick count as [%d]
    prints it, and the code. *)
Definition listed (r : LoggerCodes * Z) : Z * Z :=
  (printf_d (snd r), code_value (fst r)).

(* ================================================================== *)
(** ** Commands on the registers of the controller
       ([command_functions.c])

    The handlers of the CLI read their arguments with [strtol]; they are
    embedded on the numbers read, as [uint32_t].  The handlers of I2C
    take the bytes of their parameter array.  [1 << bit_to_set] is an
    [int]: C defines it for a [bit_to_set] up to 30. *)

Section ControllerCommands.

Context {D : Type} `{Controller D}.

(** The loop that reads a register back until it holds [reg_data], and
    gives up when [retry_attempts] passes 10: at most eleven reads.  It
    is the loop of the cable diagnostics. *)
Definition poll_register (address reg_data : Z) : M D bool :=
  linkmd_poll 11 address reg_data.

Definition COM_SetBitEthernetController (reg_addr offset bit_to_set : Z)
  : M D bool :=
  reg_data <- EthoControllerSingleRead (reg_addr + offset) ;;
  let reg_data := u32 (Z.lor reg_data (Z.shiftl 1 bit_to_set)) in
  EthoControllerSingleWrite (reg_addr + offset) reg_data ;;
  poll_register (reg_addr + offset) reg_data.

Definition COM_ClearBitEthernetController (reg_addr offset bit_to_set : Z)
  : M D bool :=
  reg_data <- EthoControllerSingleRead (reg_addr + offset) ;;
  let reg_data := u32 (Z.land reg_data (Z.lnot (Z.shiftl 1 bit_to_set))) in
  EthoControllerSingleWrite (reg_addr + offset) reg_data ;;
  poll_register (reg_addr + offset) reg_data.

Definition COM_SetSCBitEthernetController (reg_addr offset bit_to_set : Z)
  : M D bool :=
  reg_data <- EthoControllerSingleRead (reg_addr + offset) ;;
  let reg_data := u32 (Z.lor reg_data (Z.shiftl 1 bit_to_set)) in
  EthoControllerSingleWrite (reg_addr + offset) reg_data ;;
  let reg_data := u32 (Z.land reg_data (Z.lnot (Z.shiftl 1 bit_to_set))) in
  poll_register (reg_addr + offset) reg_data.

(** The functions of the I2C table, on their parameter array; each
    answers a [uint8_t]. *)
Definition I2C_WriteReadFromEthernetController_run (params : list Z)
  : M D Z :=
  let reg_addr := nth 0 params 0 in
  let reg_data := nth 1 params 0 in
  let write_op := truthy (nth 2 params 0) in
  if write_op
  then EthoControllerSingleWrite reg_addr reg_data ;; ret reg_data
  else reg_data <- EthoControllerSingleRead reg_addr ;; ret (u8 reg_data).

(** [I2C_SaveSwitchConfiguration]: the register loop of the save, then
    bit 6 of the flag byte. *)
Definition I2C_SaveSwitchConfiguration_run : M D Z :=
  r <- save_registers ;;
  match r with
  | Some b => ret (Z.b2z b)
  | None =>
      flag_data <- EEPROMSingleRead 0x0001E ;;
      let flag_data := u8 (Z.lor flag_data (Z.shiftl 1 0x06)) in
      EEPROMSingleWrite 0x0001E flag_data ;;
      ret 1
  end.

(** [I2C_ClearSwitchConfiguration]: zeros from 0x100 while the address is
    below 0x1FF, then bit 0 of the flag byte. *)
Definition I2C_ClearSwitchConfiguration_run : M D Z :=
  for_loop (R := bool) (Z.to_nat (0x1FF - 0x100)) 0x100
    (fun write_addr => EEPROMSingleWrite write_addr 0x00 ;; ret None) ;;
  flag_data <- EEPROMSingleRead 0x0001E ;;
  let flag_data := u8 (Z.land flag_data (Z.lnot (Z.shiftl 1 0x0))) in
  EEPROMSingleWrite 0x0001E flag_data ;;
  ret 1.

(** The two commands on the flag byte. *)
Definition COM_ReinitializeEEPROM : M D bool :=
  ok <- EEPROMSingleWrite EEPROM_FIRMWARE_SETTINGS 0x80 ;;
  if negb ok then ret false else ret true.

Definition COM_DeleteConfig : M D bool :=
  FirmwareSettings <- EEPROMSingleRead EEPROM_FIRMWARE_SETTINGS ;;
  let FirmwareSettings := u8 (Z.land FirmwareSettings (Z.lnot (Z.shiftl 1 6))) in
  let FirmwareSettings := u8 (Z.land FirmwareSettings (Z.lnot (Z.shiftl 1 5))) in
  ok <- EEPROMSingleWrite EEPROM_FIRMWARE_SETTINGS FirmwareSettings ;;
  if negb ok then ret false else ret true.

End ControllerCommands.

(** A device that stores what is written to a register and answers it
    to a read, as [RegFile] does: reading changes nothing, a register
    reads the byte written last, and a write leaves the other registers
    alone. *)
Definition plain_registers {D : Type} `{Controller D} : Prop :=
  (forall a d, snd (ksz_read a d) = d)
  /\ (forall a v d, fst (ksz_read a (ksz_write a v d)) = v)
  /\ (forall a a' v d, a' <> a ->
        fst (ksz_read a' (ksz_write a v d)) = fst (ksz_read a' d)).

(** A property of a byte and a bit number, checked on every byte and on
    the bit numbers [lo], ..., [lo + n - 1]. *)
Definition on_bytes_and_bits (P : Z -> Z -> bool) (lo : Z) (n : nat) : bool :=
  forallb (fun b => forallb (fun r => P r b) (map Z.of_nat (seq 0 256)))
    (map (fun k => lo + Z.of_nat k) (seq 0 n)).

(* ================================================================== *)
(** ** The default VLAN of a port ([COM_SetPortVLAN], [AssertVLANS]) *)

Section PortVLAN.

Context {D : Type} `{Controller D}.

(** The VLAN id [AssertVLANS] reads for the port at [base]: four bits of
    port control 3 over the eight of port control 4. *)
Definition port_vlan_id (base : Z) (w : World D) : Z :=
  Z.lor
    (Z.shiftl
       (Z.land (ctrl_read_value (PORT_CONTROL3_OFFSET_HEX + base) w) 0xF) 8)
    (Z.shiftl
       (Z.land (ctrl_read_value (PORT_CONTROL4_OFFSET_HEX + base) w) 0xFF) 0).

(** [port_addr] and [vlan_id] are [strtol] results held as [uint32_t],
    and so is [reg_data]. *)
Definition COM_SetPortVLAN (port_addr vlan_id : Z) : M D bool :=
  reg_data <- EthoControllerSingleRead (PORT_CONTROL0_OFFSET_HEX + port_addr) ;;
  let reg_data := Z.lor reg_data (Z.shiftl 1 2) in
  EthoControllerSingleWrite (PORT_CONTROL0_OFFSET_HEX + port_addr) reg_data ;;
  reg_data <- EthoControllerSingleRead (PORT_CONTROL3_OFFSET_HEX + port_addr) ;;
  let reg_data := Z.land reg_data 0xF8 in
  let reg_data :=
    Z.lor reg_data (Z.shiftl (Z.shiftr (Z.land vlan_id 0xE00) 8) 0) in
  EthoControllerSingleWrite (PORT_CONTROL3_OFFSET_HEX + port_addr) reg_data ;;
  EthoControllerSingleWrite (PORT_CONTROL4_OFFSET_HEX + port_addr)
    (Z.land vlan_id 0xFF) ;;
  EthoControllerSingleRead (PORT_CONTROL1_OFFSET_HEX + port_addr) ;;
  mask <- AssertVLANS vlan_id port_addr ;;
  let reg_data := Z.shiftl (Z.land mask 0x1F) 0 in
  EthoControllerSingleWrite (PORT_CONTROL1_OFFSET_HEX + port_addr) reg_data ;;
  ret true.

End PortVLAN.

(* ================================================================== *)
(** ** The port monitor over several passes *)

(** The bit whose block runs in a pass that read [flags]: the first set
    among 0x10, 0x08, 0x04, 0x02 and 0x01, in the order of the blocks,
    and 0 when none is. *)
Definition first_pending (flags : Z) : Z :=
  if negb (Z.land flags 0x10 =? 0) then 0x10
  else if negb (Z.land flags 0x08 =? 0) then 0x08
  else if negb (Z.land flags 0x04 =? 0) then 0x04
  else if negb (Z.land flags 0x02 =? 0) then 0x02
  else if negb (Z.land flags 0x01 =? 0) then 0x01
  else 0.

(** [n] turns of the [while(1)] of [PortMonitorTask] with a user logged
    in: the notices printed, in order. *)
Fixpoint PortMonitorTask_passes {D : Type} `{Controller D}
  (n fuel : nat) : M D (list Notice) :=
  match n with
  | O => ret []
  | S n' =>
      printed <- PortMonitorTask_pass fuel true ;;
      later <- PortMonitorTask_passes n' fuel ;;
      ret (printed ++ later)
  end.

(** The five blocks of the task in their order: the bit of the interrupt
    status register the block tests, the status register 1 and the
    control register 2 of the port, and the name in the notice. *)
Record MonitorBlock : Type := mkBlock {
  block_bit : Z;
  block_status1 : Z;
  block_control2 : Z;
  block_name : PortName
}.

Definition monitor_blocks : list MonitorBlock :=
  [mkBlock 0x10 0x5E 0x52 ExpansionPort;
   mkBlock 0x08 0x4E 0x42 Port0;
   mkBlock 0x04 0x3E 0x32 Port1;
   mkBlock 0x02 0x2E 0x22 Port2;
   mkBlock 0x01 0x1E 0x12 Port3].

Definition is_pending (flags : Z) (b : MonitorBlock) : bool :=
  negb (Z.land flags (block_bit b) =? 0).

(** The block that runs in a pass that read [flags]. *)
Definition pending_block (flags : Z) : option MonitorBlock :=
  find (is_pending flags) monitor_blocks.

(** The notice of a block over the registers [regs]: the name of its
    port, connected when bit 5 of the status register 1 of that port is
    set. *)
Definition notice_of (regs : Z -> Z) (b : MonitorBlock) : Notice :=
  mkNotice (block_name b) (Z.testbit (regs (block_status1 b)) 5).

(** The writes of a block to the controller, most recent first: its bit
    to the interrupt status register, bit 0 of the control register 2 of
    its port set, the flush bit of global control 0 set, and bit 0 of
    that control register 2 cleared again. *)
Definition block_writes (regs : Z -> Z) (b : MonitorBlock) : list (Z * Z) :=
  [(block_control2 b, Z.land (u8 (regs (block_control2 b))) 0xFE);
   (GLOBAL_CONTROL_0_HEX, Z.lor (u8 (regs GLOBAL_CONTROL_0_HEX)) 0x20);
   (block_control2 b, Z.lor (u8 (regs (block_control2 b))) 0x01);
   (INTERRUPT_STATUS_REGISTER, block_bit b)].

(** What a pass prints and writes over the registers [regs]: the notice
    and the writes of the block that runs, nothing when none does. *)
Definition pass_notices (regs : Z -> Z) : list Notice :=
  match pending_block (u8 (regs INTERRUPT_STATUS_REGISTER)) with
  | Some b => [notice_of regs b]
  | None => []
  end.

Definition pass_writes (regs : Z -> Z) : list (Z * Z) :=
  match pending_block (u8 (regs INTERRUPT_STATUS_REGISTER)) with
  | Some b => block_writes regs b
  | None => []
  end.

(** The notices of all the ports whose bit is set in the interrupt
    status register, in the order of the blocks. *)
Definition pending_notices (regs : Z -> Z) : list Notice :=
  map (notice_of regs)
    (filter (is_pending (u8 (regs INTERRUPT_STATUS_REGISTER)))
       monitor_blocks).

(** The blocks that run in [n] passes that start from the interrupt
    status [flags], in order, and the status they leave: each pass runs
    the first pending block, which clears its bit. *)
Fixpoint served_blocks (n : nat) (flags : Z) : list MonitorBlock :=
  match n with
  | O => []
  | S n' =>
      match pending_block flags with
      | Some b => b :: served_blocks n' (Z.land flags (Z.lnot (block_bit b)))
      | None => served_blocks n' flags
      end
  end.

Fixpoint flags_after (n : nat) (flags : Z) : Z :=
  match n with
  | O => flags
  | S n' => flags_after n' (Z.land flags (Z.lnot (first_pending flags)))
  end.

(* ================================================================== *)
(** ** The progress bar of the console ([UpdateProgressBar]) *)

Inductive PBarActions : Type :=
| Increment
| Decrement
| Reset
| Fill
| FillError.

Definition is_Fill (a : PBarActions) : bool :=
  match a with Fill => true | _ => false end.

Definition is_FillError (a : PBarActions) : bool :=
  match a with FillError => true | _ => false end.

(** The escape character that opens the terminal sequences. *)
Definition ESC : string := String (Ascii.ascii_of_nat 27) EmptyString.

(** [UpdateProgressBar(&lastprogress, action, newvalue)]: the value it
    leaves in [lastprogress] and the strings it prints, one for each
    [UARTprintf].  The operands are [int]; [/] truncates. *)
Definition UpdateProgressBar (lastprogress : Z) (action : PBarActions)
  (newvalue : Z) : Z * list string :=
  if (100 <=? lastprogress) && negb (is_Fill action)
  then (lastprogress, [])
  else
    let restore := [(ESC ++ "[u")%string] in
    let '(lastprogress, switched) :=
      match action with
      | Reset =>
          (0, [(ESC ++ "[2K" ++ ESC ++ "[100D" ++ ESC
                ++ "[34;47mTask Progress: [")%string])
      | Fill => (100, [])
      | _ => (lastprogress, [])
      end in
    if negb (is_FillError action)
    then
      let hashes :=
        repeat "#"%string
          (Z.to_nat (Z.quot newvalue 2 - Z.quot lastprogress 2)) in
      let lastprogress := newvalue in
      let spaces :=
        repeat " "%string (Z.to_nat (50 - Z.quot lastprogress 2)) in
      (lastprogress,
       restore ++ switched ++ hashes ++ [(ESC ++ "[s")%string] ++ spaces
       ++ [("]" ++ ESC ++ "[0m")%string])
    else
      (lastprogress,
       restore ++ switched
       ++ [(ESC ++ "[2K" ++ ESC ++ "[100DTask Progress: [")%string]
       ++ repeat "!"%string 50 ++ [("]" ++ ESC ++ "[0m")%string]).

(** A caller's loop that reports the values [values] one after the
    other with [Increment], as the loops of the boot and of the save do:
    the last value of [lastprogress] and all that was printed. *)
Fixpoint UpdateProgressBar_each (lastprogress : Z) (values : list Z)
  : Z * list string :=
  match values with
  | [] => (lastprogress, [])
  | v :: rest =>
      let '(p, out) := UpdateProgressBar lastprogress Increment v in
      let '(p', out') := UpdateProgressBar_each p rest in
      (p', out ++ out')
  end.

(** The values the register loop of the boot reports:
    [(100*reg)/0xFF] for [reg] from 0 to 0xFE. *)
Definition boot_progress_values : list Z :=
  map (fun reg => Z.quot (100 * Z.of_nat reg) 0xFF) (seq 0 255).

(** The values never decrease from [lastprogress] on and stay below
    100. *)
Fixpoint rises_below_100 (lastprogress : Z) (values : list Z) : bool :=
  match values with
  | [] => true
  | v :: rest =>
      (lastprogress <=? v) && (v <? 100) && rises_below_100 v rest
  end.

(* ================================================================== *)
(** ** The records of the user table in the EEPROM *)

(** An array of 16 characters. *)
Definition is_field (f : list Z) : bool :=
  (List.length f =? 16)%nat
  && forallb (fun b => (0 <=? b) && (b <? 256)) f.

Definition user_record_ok (u : User_Data) : bool :=
  is_field (username u) && is_field (password u)
  && is_field (first_name u) && is_field (last_name u).

(** [P] holds of the [MAX_USERS] entries of the table that the loops
    visit. *)
Definition all_users (P : User_Data -> bool) (users : list User_Data)
  : bool :=
  forallb (fun i => P (user_at users (Z.of_nat i)))
    (seq 0 (Z.to_nat MAX_USERS)).

(** The 65 cells of slot [i] hold the record of [u], in the layout of
    the save: user name, password, first name, last name, permissions. *)
Definition user_stored (m : Z -> Z) (i : Z) (u : User_Data) : Prop :=
  logical_bytes m (EEPROM_USERS_BASE + i * 65) 16 = username u
  /\ logical_bytes m (EEPROM_USERS_BASE + i * 65 + 16) 16 = password u
  /\ logical_bytes m (EEPROM_USERS_BASE + i * 65 + 32) 16 = first_name u
  /\ logical_bytes m (EEPROM_USERS_BASE + i * 65 + 48) 16 = last_name u
  /\ not8 (m (EEPROM_USERS_BASE + i * 65 + 64)) = u8 (permissions u).

(** A table of 16 entries, each the record of [u]. *)
Definition table_of (u : User_Data) : list User_Data := repeat u 16.

(** A record with its four arrays filled and the action [Add]
    pending. *)
Definition sample_user : User_Data :=
  mkUser_Data
    ([114; 111; 111; 116] ++ repeat 0 12)
    ([77; 73; 83; 76] ++ repeat 0 12)
    ([65; 68; 77; 73; 78] ++ repeat 0 11)
    ([115; 101; 99; 114; 101; 116] ++ repeat 0 10)
    3 false Add.

(** [P] holds of the entries 1 to 14 of the table. *)
Definition later_users (P : User_Data -> bool) (users : list User_Data)
  : bool :=
  forallb (fun i => P (user_at users (Z.of_nat i)))
    (seq 1 (Z.to_nat MAX_USERS - 1)).

(** The cells of slot [i]. *)
Definition in_slot (i x : Z) : Prop :=
  EEPROM_USERS_BASE + i * 65 <= x < EEPROM_USERS_BASE + i * 65 + 65.

(** A table whose first user is marked for deletion, with the others
    waiting to be written. *)
Definition first_deleted (u : User_Data) : list User_Data :=
  mkUser_Data (username u) (first_name u) (last_name u) (password u)
    (permissions u) true Delete
  :: repeat u 15.

(** What the user loop of the save has done when it comes to user [k]
    with a slot in hand that is one behind, after a deleted first user:
    the users before [k] with an action pending are stored one slot
    down, the slots of the others hold what they held in [m0], and slot 0
    is blank until a user is written to it. *)
Definition shifted (users : list User_Data) (m0 : Z -> Z) (k : Z)
  (m : Z -> Z) : Prop :=
  (forall i, 1 <= i < k ->
     is_Update_or_Add (nextAction (user_at users i)) = true ->
     user_stored m (i - 1) (user_at users i))
  /\ (forall i, 2 <= i < k ->
        is_Update_or_Add (nextAction (user_at users i)) = false ->
        forall x, in_slot (i - 1) x -> m x = m0 x)
  /\ (k = 1 \/ is_Update_or_Add (nextAction (user_at users 1)) = false ->
      user_stored m 0 empty_user).

(* ================================================================== *)
(** ** The cable test on a controller whose start bit clears itself *)

(** The LinkMD control 0 registers of the five ports of the controller;
    bit 4 of each starts the cable test of the port and clears itself
    when the test is done. *)
Definition is_linkmd0 (a : Z) : bool :=
  existsb (Z.eqb a) [0x1A; 0x2A; 0x3A; 0x4A; 0x5A].

(** Registers that keep what is written, but for the start bit of the
    LinkMD control 0 registers, which reads back clear: a read leaves the
    controller as it is, a register reads back as written with that bit
    dropped, and a write leaves the other registers as they are. *)
Definition linkmd_registers {D : Type} `{Controller D} : Prop :=
  (forall a d, snd (ksz_read a d) = d)
  /\ (forall a v d,
        fst (ksz_read a (ksz_write a v d))
        = if is_linkmd0 a then Z.land v (Z.lnot 0x10) else v)
  /\ (forall a a' v d, a' <> a ->
        fst (ksz_read a' (ksz_write a v d)) = fst (ksz_read a' d)).

(** A register file with this piece of hardware: the cable test is done
    at once and leaves its result registers as they are. *)
Record KszLinkMD : Type := mkKszLinkMD { linkmd_regs : Z -> Z }.

#[export] Instance KszLinkMD_Controller : Controller KszLinkMD := {
  ksz_read := fun a d => (linkmd_regs d a, d);
  ksz_write := fun a v d =>
    mkKszLinkMD
      (upd (linkmd_regs d) a
         (if is_linkmd0 a then Z.land v (Z.lnot 0x10) else v))
}.

(** Such a controller with the two LinkMD registers of logical port 1
    (0x4A and 0x4B) set and every other register 0. *)
Definition linkmd_port1 (linkmd0 linkmd1 : Z) : KszLinkMD :=
  mkKszLinkMD
    (upd (upd (fun _ => 0) (PORT1_OFFSET_HEX + PORT_LINKMD0_OFFSET_HEX)
            linkmd0)
       (PORT1_OFFSET_HEX + PORT_LINKMD1_OFFSET_HEX) linkmd1).

Section CableDiagnostics_registers.

Context {D : Type} `{Controller D}.

(** The cable state and the distance value that
    [COM_RunCableDiagnostics] takes from the LinkMD registers of the port
    at [reg_addr] as they are in [w]: bits 6 and 5 of LinkMD 0, and bit 0
    of LinkMD 0 added to LinkMD 1. *)
Definition cable_state_of (reg_addr : Z) (w : World D) : Z :=
  Z.land (ctrl_read_value (reg_addr + PORT_LINKMD0_OFFSET_HEX) w) 0x60.

Definition distance_value (reg_addr : Z) (w : World D) : Z :=
  Z.land (ctrl_read_value (reg_addr + PORT_LINKMD0_OFFSET_HEX) w) 0x01
  + ctrl_read_value (reg_addr + PORT_LINKMD1_OFFSET_HEX) w.

End CableDiagnostics_registers.

(* ================================================================== *)
(** ** The parameters that the walk of the command tree collects *)

Section CLI_path.

Variable Handler : Type.
Variable commandwords : list string.

(** Whether the scan of a menu takes the entry [e] for the word at depth
    [d]: the text of the entry is the word, or the entry stands for a
    parameter of the user and there is a word at that depth; a question
    mark is taken by no entry. *)
Definition accepts (e : Command Handler) (d : nat) : bool :=
  (strcmp_eq (text e) (nth_error commandwords d)
   || paramsUserProvided e && (d <? List.length commandwords)%nat)
  && negb (strcmp_eq "?" (nth_error commandwords d)).

(** The entry the scan of [Menu] takes at depth [d]: the first one it
    accepts among the [MAX_MENU_ITEMS] entries it visits. *)
Definition first_accepting (Menu : list (Command Handler)) (d : nat)
  : option (Command Handler) :=
  find (fun e => accepts e d) (firstn MAX_MENU_ITEMS Menu).

(** What an entry taken at depth [d] puts into [params]: the word at
    that depth, [paramsRequired] times, when the user provides the
    parameter, and the first [paramsRequired] static parameters of the
    entry otherwise (a null pointer where the entry has none). *)
Definition entry_parameters (e : Command Handler) (d : nat)
  : list (option string) :=
  if paramsUserProvided e
  then repeat (nth_error commandwords d) (Z.to_nat (paramsRequired e))
  else map (nth_error (functionParams e))
         (seq 0 (Z.to_nat (paramsRequired e))).

(** The buffer [params] after the entries of [path] were taken, each at
    its depth, in this order. *)
Definition accumulated_parameters (path : list (Command Handler * nat))
  : list (option string) :=
  flat_map (fun p => entry_parameters (fst p) (snd p)) path.

(** The way of the walk from [Menu] at depth [d0] down to the terminal
    command [c] at depth [i]: [path] lists the entries with a child menu
    that are taken before [c], with their depths.  Each is the entry
    that the scan of the menu at hand takes at its depth, the menu after
    it is its child menu, and [c] is the entry taken in the last menu.
    A depth is passed over in a menu only when the scan takes no entry
    there. *)
Fixpoint menu_path (Menu : list (Command Handler)) (d0 : nat)
  (path : list (Command Handler * nat)) (c : Command Handler) (i : nat)
  : Prop :=
  match path with
  | [] =>
      (d0 <= i)%nat
      /\ (forall d, (d0 <= d < i)%nat -> first_accepting Menu d = None)
      /\ first_accepting Menu i = Some c
      /\ isExecutable c = true
  | (e, d) :: rest =>
      (d0 <= d)%nat
      /\ (forall d', (d0 <= d' < d)%nat -> first_accepting Menu d' = None)
      /\ first_accepting Menu d = Some e
      /\ isExecutable e = false
      /\ menu_path (childCommand e) (S d) rest c i
  end.

End CLI_path.

Arguments accepts {Handler}.
Arguments first_accepting {Handler}.
Arguments entry_parameters {Handler}.
Arguments accumulated_parameters {Handler}.
Arguments menu_path {Handler}.

(** The part of the command tree of [interpreter_task.h] that leads to
    the command that sends a code over I2C, whose parameter the user
    provides. *)
Inductive I2CMenuFunction : Type :=
| NotImplementedFunction_i2c
| COM_I2CSend_fn.

Definition I2C_send_code : Command I2CMenuFunction :=
  mkCommand "<i2c-command [0x00 - 0xFF]>"
    "command to issue to loopback interface"
    true 1 true COM_I2CSend_fn [""%string] [] ModifySystem.

Definition I2C_Command_Code : list (Command I2CMenuFunction) :=
  [I2C_send_code].

Definition I2C_Options : list (Command I2CMenuFunction) :=
  [mkCommand "send-command" "send an I2C over loopback"
     false 0 false NotImplementedFunction_i2c [""%string] I2C_Command_Code
     ModifySystem].

Definition Command_Categories_i2c : list (Command I2CMenuFunction) :=
  [mkCommand "system"
     "advanced settings for changing the operation of this device"
     false 0 false NotImplementedFunction_i2c [""%string]
     [mkCommand "i2c" "control other layers with I2C"
        false 0 false NotImplementedFunction_i2c [""%string] I2C_Options
        ModifySystem]
     ReadOnlyUser].
(* ################################################################## *)
(** * Part II: lemmas and theorems *)

(* ================================================================== *)
(** ** Machine integers *)

Lemma u8_mod (x : Z) : u8 x = x mod 256.
Proof.
  unfold u8. change 0xFF with (Z.ones 8).
  rewrite Z.land_ones by lia. reflexivity.
Qed.

Lemma u8_range (x : Z) : 0 <= u8 x < 256.
Proof. rewrite u8_mod. apply Z.mod_pos_bound. lia. Qed.

Lemma u8_id (x : Z) : is_byte x -> u8 x = x.
Proof. intros Hx. rewrite u8_mod. apply Z.mod_small. exact Hx. Qed.

Lemma land_byte (x : Z) : is_byte (Z.land x 0xFF).
Proof. apply (u8_range x). Qed.

Lemma not8_val (x : Z) : is_byte x -> not8 x = 255 - x.
Proof.
  intros Hx. unfold not8. rewrite u8_mod.
  replace (Z.lnot x) with ((255 - x) + (-1) * 256) by (unfold Z.lnot; lia).
  rewrite Z.mod_add by lia. apply Z.mod_small. unfold is_byte in Hx. lia.
Qed.

Lemma not8_byte (x : Z) : is_byte (not8 x).
Proof. apply u8_range. Qed.

Lemma not8_involutive (x : Z) : is_byte x -> not8 (not8 x) = x.
Proof.
  intros Hx. rewrite (not8_val x Hx).
  rewrite not8_val by (unfold is_byte in *; lia). lia.
Qed.

Lemma shiftr_land_byte (a k : Z) :
  0 <= k -> Z.land (Z.shiftr a k) 0xFF = (a / 2 ^ k) mod 256.
Proof.
  intros Hk. rewrite Z.shiftr_div_pow2 by lia.
  change 0xFF with (Z.ones 8). rewrite Z.land_ones by lia. reflexivity.
Qed.

(** The device puts the three address bytes back together to the address
    modulo the size of the array. *)
Lemma ee_addr_bytes (a : Z) :
  0 <= a ->
  ee_addr (Z.land (Z.shiftr a 16) 0xFF) (Z.land (Z.shiftr a 8) 0xFF)
          (Z.land a 0xFF) = a mod 131072.
Proof.
  intros Ha. unfold ee_addr.
  rewrite !shiftr_land_byte by lia.
  change (Z.land a 0xFF) with (u8 a). rewrite u8_mod.
  change (2 ^ 16) with 65536. change (2 ^ 8) with 256.
  pose proof (Z.div_mod a 256 ltac:(lia)) as E0.
  pose proof (Z.div_mod (a / 256) 256 ltac:(lia)) as E1.
  pose proof (Z.div_mod (a / 65536) 256 ltac:(lia)) as E2.
  assert (E3 : a / 65536 = a / 256 / 256)
    by (rewrite Z.div_div by lia; reflexivity).
  set (q := a / 65536 / 256) in *.
  replace ((a / 65536) mod 256 * 65536 + (a / 256) mod 256 * 256 + a mod 256)
    with (a + (- (128 * q)) * 131072) by lia.
  apply Z.mod_add. lia.
Qed.

Lemma upd_same (m : Z -> Z) (a v : Z) : upd m a v a = v.
Proof. unfold upd. rewrite Z.eqb_refl. reflexivity. Qed.

Lemma upd_other (m : Z -> Z) (a v x : Z) : x <> a -> upd m a v x = m x.
Proof.
  intros Hx. unfold upd. destruct (x =? a) eqn:E; [ | reflexivity].
  apply Z.eqb_eq in E. contradiction.
Qed.

Lemma u32_small (a : Z) : 0 <= a < 4294967296 -> u32 a = a.
Proof. intros Ha. unfold u32. apply Z.mod_small. exact Ha. Qed.

(* ================================================================== *)
(** ** Running computations *)

Section Running.

Context {D : Type}.

Lemma bind_eq {A B : Type} (m : M D A) (f : A -> M D B) (w w' : World D)
  (a : A) :
  m w = Some (a, w') -> bind m f w = f a w'.
Proof. intros E. unfold bind. rewrite E. reflexivity. Qed.

Lemma bind_assoc {A B C : Type} (m : M D A) (f : A -> M D B)
  (g : B -> M D C) (w : World D) :
  bind (bind m f) g w = bind m (fun a => bind (f a) g) w.
Proof. unfold bind. destruct (m w) as [[a w'] | ]; reflexivity. Qed.

Lemma bind_inv {A B : Type} (m : M D A) (f : A -> M D B) (w w'' : World D)
  (b : B) :
  bind m f w = Some (b, w'') ->
  exists a w', m w = Some (a, w') /\ f a w' = Some (b, w'').
Proof.
  unfold bind. destruct (m w) as [[a w'] | ]; [ | discriminate].
  intros E. exists a, w'. auto.
Qed.

End Running.

Section HAL_facts.

Context {D : Type} `{Controller D}.

Lemma LogItemEEPROM_eq (c : LoggerCodes) (w : World D) :
  LogItemEEPROM c w
  = Some (tt, mkWorld (eeprom w) (ctrl w) (spi0_taken w) (spi1_taken w)
                (logger_running w) (log_queue c w) (trace w)).
Proof.
  unfold LogItemEEPROM, log_queue. destruct w as [e d s0 s1 r q t].
  cbn [eeprom ctrl spi0_taken spi1_taken logger_running logger_queue trace].
  destruct (r && _); reflexivity.
Qed.

Lemma xSemaphoreTake_SPI0_eq (w : World D) :
  xSemaphoreTake SPI0 w
  = Some (negb (spi0_taken w),
          mkWorld (eeprom w) (ctrl w) true (spi1_taken w)
            (logger_running w) (logger_queue w) (trace w)).
Proof.
  unfold xSemaphoreTake. destruct w as [e d s0 s1 r q t]. cbn.
  destruct s0; reflexivity.
Qed.

Lemma xSemaphoreTake_SPI1_eq (w : World D) :
  xSemaphoreTake SPI1 w
  = Some (negb (spi1_taken w),
          mkWorld (eeprom w) (ctrl w) (spi0_taken w) true
            (logger_running w) (logger_queue w) (trace w)).
Proof.
  unfold xSemaphoreTake. destruct w as [e d s0 s1 r q t]. cbn.
  destruct s1; reflexivity.
Qed.

Lemma addr_bytes_u8 (a : Z) : map u8 (addr_bytes a) = addr_bytes a.
Proof.
  unfold addr_bytes. cbn [map].
  rewrite !(u8_id (Z.land _ 0xFF)) by apply land_byte. reflexivity.
Qed.

Lemma EthoControllerSingleRead_eq (a : Z) (w : World D) :
  EthoControllerSingleRead a w
  = Some (ctrl_read_value a w, after_ctrl_read a w).
Proof.
  unfold EthoControllerSingleRead.
  unfold bind at 1. rewrite LogItemEEPROM_eq.
  unfold bind at 1. rewrite xSemaphoreTake_SPI1_eq.
  reflexivity.
Qed.

Lemma EthoControllerSingleWrite_eq (a v : Z) (w : World D) :
  EthoControllerSingleWrite a v w = Some (true, after_ctrl_write a v w).
Proof.
  unfold EthoControllerSingleWrite.
  unfold bind at 1. rewrite LogItemEEPROM_eq.
  unfold bind at 1. rewrite xSemaphoreTake_SPI1_eq.
  reflexivity.
Qed.

Lemma EEPROMSingleRead_eq (a : Z) (w : World D) :
  0 <= a ->
  EEPROMSingleRead a w = Some (eeprom_read_value a w, after_eeprom_read a w).
Proof.
  intros Ha. unfold EEPROMSingleRead.
  unfold bind at 1. rewrite LogItemEEPROM_eq.
  unfold bind at 1. rewrite xSemaphoreTake_SPI0_eq.
  unfold bind, ssi0, xSemaphoreGive, ret, eeprom_read_value,
    after_eeprom_read.
  cbn [map app eeprom ctrl spi0_taken spi1_taken logger_running
         logger_queue trace].
  rewrite !map_app, !addr_bytes_u8. unfold addr_bytes. cbn [map app].
  change (u8 READ_COMMAND) with 0x03. change (u8 0) with 0.
  cbn -[Z.land Z.shiftr not8 upd ee_addr Z.eqb].
  rewrite !ee_addr_bytes by exact Ha. reflexivity.
Qed.

Lemma EEPROMSingleWrite_eq (a b : Z) (w : World D) :
  0 <= a -> is_byte b ->
  EEPROMSingleWrite a b w = Some (true, after_eeprom_write a b w).
Proof.
  intros Ha Hb. unfold EEPROMSingleWrite.
  unfold bind at 1. rewrite LogItemEEPROM_eq.
  unfold bind at 1. rewrite xSemaphoreTake_SPI0_eq.
  unfold bind, ssi0, xSemaphoreGive, ret, after_eeprom_write.
  cbn [map app eeprom ctrl spi0_taken spi1_taken logger_running
         logger_queue trace].
  rewrite !map_app, !addr_bytes_u8. cbn [map].
  rewrite (u8_id (not8 b)) by apply not8_byte.
  unfold addr_bytes. cbn [map app].
  change (u8 WRITE_ENABLE) with 0x06. change (u8 WRITE_COMMAND) with 0x02.
  change (u8 READ_COMMAND) with 0x03. change (u8 0) with 0.
  cbn -[Z.land Z.shiftr not8 upd ee_addr Z.eqb].
  rewrite !ee_addr_bytes by exact Ha.
  rewrite !upd_same, Z.eqb_refl.
  reflexivity.
Qed.

End HAL_facts.

(** One step of a computation whose first call is one of the HAL's, or
    one whose run is among the hypotheses. *)
Ltac hal_step :=
  first
    [ rewrite bind_assoc
    | erewrite bind_eq
        by first [ apply EthoControllerSingleRead_eq
                 | apply EthoControllerSingleWrite_eq
                 | apply EEPROMSingleRead_eq; lia
                 | apply EEPROMSingleWrite_eq;
                   [ lia | first [ assumption | apply u8_range
                                 | apply land_byte | apply not8_byte ] ]
                 | apply LogItemEEPROM_eq
                 | apply xSemaphoreTake_SPI0_eq
                 | apply xSemaphoreTake_SPI1_eq
                 | reflexivity
                 | eassumption ] ];
  cbv beta iota; cbn [fst snd negb].

(* ================================================================== *)
(** ** The EEPROM through the HAL: single and bulk operations *)

Section EEPROM_roundtrip.

Context {D : Type} `{Controller D}.

Lemma EEPROMBulkWrite_loop_run (data : list Z) :
  forall (start : Z) (w : World D),
    0 <= start -> start + Z.of_nat (List.length data) <= 131072 ->
    Forall is_byte data ->
    exists w', EEPROMBulkWrite_loop start data w = Some (true, w')
      /\ logical_bytes (ee_mem (eeprom w')) start (List.length data) = data
      /\ (forall x, x < start -> ee_mem (eeprom w') x = ee_mem (eeprom w) x)
      /\ ctrl w' = ctrl w
      /\ spi0_taken w' = false /\ spi1_taken w' = spi1_taken w.
Proof.
  induction data as [ | b rest IH]; intros start w H0 Hlen Hbytes.
  - cbn. unfold bind, xSemaphoreGive, ret. eexists. split; [reflexivity | ].
    cbn. auto.
  - cbn [List.length] in Hlen. rewrite Nat2Z.inj_succ in Hlen.
    inversion Hbytes as [ | ? ? Hb Hrest]; subst.
    cbn [EEPROMBulkWrite_loop].
    destruct (131072 <=? start) eqn:Hge; [apply Z.leb_le in Hge; lia | ].
    unfold bind at 1. rewrite EEPROMSingleWrite_eq by assumption.
    cbn [negb]. rewrite u32_small by lia.
    destruct (IH (start + 1) (after_eeprom_write start b w)
                ltac:(lia) ltac:(lia) Hrest)
      as (w2 & E2 & Hl2 & Hf2 & Hc2 & H02 & H12).
    exists w2. split; [exact E2 | ].
    cbn [after_eeprom_write eeprom ee_mem ctrl spi1_taken] in Hf2, Hc2, H12.
    rewrite Z.mod_small in Hf2 by lia.
    split; [ | split; [ | auto]].
    + cbn [logical_bytes List.length]. rewrite Hl2. f_equal.
      rewrite Hf2 by lia. rewrite upd_same.
      apply not8_involutive. exact Hb.
    + intros x Hx. rewrite Hf2 by lia. apply upd_other. lia.
Qed.

Lemma EEPROMBulkRead_loop_run (n : nat) :
  forall (start : Z) (out : list Z) (w : World D),
    0 <= start -> start + Z.of_nat n <= 131072 ->
    exists w', EEPROMBulkRead_loop n start out w
               = Some ((true, out ++ logical_bytes (ee_mem (eeprom w)) start n),
                       w')
      /\ eeprom w' = eeprom w
      /\ ctrl w' = ctrl w
      /\ spi0_taken w' = false /\ spi1_taken w' = spi1_taken w.
Proof.
  induction n as [ | n IH]; intros start out w H0 Hlen.
  - cbn. unfold bind, xSemaphoreGive, ret. rewrite app_nil_r.
    eexists. split; [reflexivity | ]. cbn. auto.
  - rewrite Nat2Z.inj_succ in Hlen. cbn [EEPROMBulkRead_loop].
    destruct (131072 <=? start) eqn:Hge; [apply Z.leb_le in Hge; lia | ].
    unfold bind at 1. rewrite EEPROMSingleRead_eq by assumption.
    rewrite u32_small by lia.
    destruct (IH (start + 1) (out ++ [eeprom_read_value start w])
                 (after_eeprom_read start w) ltac:(lia) ltac:(lia))
      as (w2 & E2 & Hm2 & Hc2 & H02 & H12).
    exists w2. split; [ | auto].
    rewrite E2. cbn [after_eeprom_read eeprom logical_bytes].
    unfold eeprom_read_value. rewrite Z.mod_small by lia.
    rewrite <- app_assoc. reflexivity.
Qed.

Lemma EEPROMBulkWrite_run (start : Z) (data : list Z) (w : World D) :
  0 <= start < 131072 -> start + Z.of_nat (List.length data) <= 131072 ->
  Forall is_byte data ->
  exists w', EEPROMBulkWrite start data w = Some (true, w')
    /\ logical_bytes (ee_mem (eeprom w')) start (List.length data) = data
    /\ (forall x, x < start -> ee_mem (eeprom w') x = ee_mem (eeprom w) x)
    /\ ctrl w' = ctrl w /\ spi0_taken w' = false.
Proof.
  intros H0 Hlen Hbytes. unfold EEPROMBulkWrite.
  unfold bind at 1. rewrite LogItemEEPROM_eq.
  unfold bind at 1. rewrite xSemaphoreTake_SPI0_eq.
  destruct (131072 <=? start) eqn:Hge; [apply Z.leb_le in Hge; lia | ].
  match goal with
  | |- context [EEPROMBulkWrite_loop start data ?w0] =>
      destruct (EEPROMBulkWrite_loop_run data start w0 ltac:(lia) Hlen Hbytes)
        as (w3 & E3 & Hl3 & Hf3 & Hc3 & H03 & H13)
  end.
  exists w3. repeat split; assumption.
Qed.

Lemma EEPROMBulkRead_run (start : Z) (n : nat) (w : World D) :
  0 <= start < 131072 -> start + Z.of_nat n <= 131072 ->
  exists w', EEPROMBulkRead start n w
             = Some ((true, logical_bytes (ee_mem (eeprom w)) start n), w')
    /\ eeprom w' = eeprom w
    /\ ctrl w' = ctrl w /\ spi0_taken w' = false.
Proof.
  intros H0 Hlen. unfold EEPROMBulkRead.
  unfold bind at 1. rewrite LogItemEEPROM_eq.
  unfold bind at 1. rewrite xSemaphoreTake_SPI0_eq.
  destruct (131072 <=? start) eqn:Hge; [apply Z.leb_le in Hge; lia | ].
  match goal with
  | |- context [EEPROMBulkRead_loop n start [] ?w0] =>
      destruct (EEPROMBulkRead_loop_run n start [] w0 ltac:(lia) Hlen)
        as (w3 & E3 & Hm3 & Hc3 & H03 & H13)
  end.
  exists w3. cbn [app eeprom] in E3. repeat split; assumption.
Qed.

End EEPROM_roundtrip.

(** C1.  EEPROM inversion round trip.  A byte [b] written with
    [EEPROMSingleWrite] to a valid 17-bit address is stored inverted
    ([255 - b], so 0xAB is stored as 0x54), and [EEPROMSingleRead] of the
    same address returns [b]; a buffer written with [EEPROMBulkWrite] to a
    range inside the device is returned by [EEPROMBulkRead] of the same
    range. *)
Theorem eeprom_inversion_roundtrip {D : Type} `{Controller D}
  (w : World D) (address b start : Z) (buffer : list Z) :
  0 <= address < 131072 -> is_byte b ->
  0 <= start < 131072 ->
  start + Z.of_nat (List.length buffer) <= 131072 ->
  Forall is_byte buffer ->
  (exists w1 w2,
      EEPROMSingleWrite address b w = Some (true, w1)
      /\ ee_mem (eeprom w1) address = 255 - b
      /\ EEPROMSingleRead address w1 = Some (b, w2))
  /\ (exists w1 w2,
         EEPROMBulkWrite start buffer w = Some (true, w1)
         /\ EEPROMBulkRead start (List.length buffer) w1
            = Some ((true, buffer), w2)).
Proof.
  intros Ha Hb Hs Hlen Hbytes. split.
  - exists (after_eeprom_write address b w).
    exists (after_eeprom_read address (after_eeprom_write address b w)).
    rewrite EEPROMSingleWrite_eq by (assumption || lia).
    rewrite EEPROMSingleRead_eq by lia.
    unfold eeprom_read_value.
    cbn [after_eeprom_write eeprom ee_mem].
    rewrite Z.mod_small by lia. rewrite upd_same.
    rewrite not8_involutive by assumption.
    rewrite not8_val by assumption. auto.
  - destruct (EEPROMBulkWrite_run start buffer w Hs Hlen Hbytes)
      as (w1 & E1 & Hl1 & _).
    destruct (EEPROMBulkRead_run start (List.length buffer) w1 Hs Hlen)
      as (w2 & E2 & _).
    exists w1, w2. split; [exact E1 | ]. rewrite E2, Hl1. reflexivity.
Qed.

Lemma eeprom_inversion_roundtrip_witness :
  (exists w1 w2,
      EEPROMSingleWrite 0x300 0xAB (idle_world (fun _ : Z => 0)) = Some (true, w1)
      /\ ee_mem (eeprom w1) 0x300 = 0x54
      /\ EEPROMSingleRead 0x300 w1 = Some (0xAB, w2))
  /\ (exists w1 w2,
         EEPROMBulkWrite 0x1200 [0x72; 0x6F; 0x6F; 0x74]
           (idle_world (fun _ : Z => 0)) = Some (true, w1)
         /\ EEPROMBulkRead 0x1200 4 w1
            = Some ((true, [0x72; 0x6F; 0x6F; 0x74]), w2)).
Proof.
  apply (eeprom_inversion_roundtrip (D := RegFile)
           (idle_world (fun _ : Z => 0)) 0x300 0xAB 0x1200
           [0x72; 0x6F; 0x6F; 0x74]).
  - lia.
  - unfold is_byte. lia.
  - lia.
  - cbn. lia.
  - repeat constructor; unfold is_byte; lia.
Defined.

(* ================================================================== *)
(** ** The mutexes on the paths out of the HAL *)

Section Mutex_paths.

Context {D : Type} `{Controller D}.

(** [EEPROMBulkRead] gives the mutex back when it rejects the start
    address. *)
Lemma EEPROMBulkRead_reject_releases (start : Z) (n : nat) (w : World D) :
  131072 <= start ->
  exists w', EEPROMBulkRead start n w = Some ((false, []), w')
    /\ spi0_taken w' = false.
Proof.
  intros Hs. unfold EEPROMBulkRead.
  unfold bind at 1. rewrite LogItemEEPROM_eq.
  unfold bind at 1. rewrite xSemaphoreTake_SPI0_eq.
  destruct (131072 <=? start) eqn:Hge; [ | apply Z.leb_gt in Hge; lia].
  unfold bind at 1. unfold xSemaphoreGive at 1.
  unfold bind at 1. rewrite LogItemEEPROM_eq.
  eexists. split; [reflexivity | reflexivity].
Qed.

End Mutex_paths.

(** C5.  The claim is that every HAL operation releases the mutex it took
    on every path out, the rejections included.  The code does not: when
    [EEPROMBulkWrite] rejects a start address beyond the device it returns
    [false] with the EEPROM mutex still taken, and when
    [EthoControllerBulkRead] rejects a range beyond register 255 it
    returns [false] with the controller mutex still taken. *)
Theorem rejection_paths_keep_the_mutex {D : Type} `{Controller D}
  (w : World D) (start_address : Z) (data : list Z) (start count : Z) :
  131072 <= start_address ->
  255 < start + count ->
  (exists w', EEPROMBulkWrite start_address data w = Some (false, w')
              /\ spi0_taken w' = true)
  /\ (exists w', EthoControllerBulkRead start count w = Some ((false, []), w')
                 /\ spi1_taken w' = true).
Proof.
  intros Hs Hc. split.
  - unfold EEPROMBulkWrite.
    unfold bind at 1. rewrite LogItemEEPROM_eq.
    unfold bind at 1. rewrite xSemaphoreTake_SPI0_eq.
    destruct (131072 <=? start_address) eqn:Hge;
      [ | apply Z.leb_gt in Hge; lia].
    unfold bind at 1. rewrite LogItemEEPROM_eq.
    eexists. split; reflexivity.
  - unfold EthoControllerBulkRead.
    unfold bind at 1. rewrite LogItemEEPROM_eq.
    unfold bind at 1. rewrite xSemaphoreTake_SPI1_eq.
    destruct (255 <? start + count) eqn:Hgt;
      [ | apply Z.ltb_ge in Hgt; lia].
    eexists. split; reflexivity.
Qed.

Lemma rejection_paths_keep_the_mutex_witness :
  (exists w', EEPROMBulkWrite 131072 [0x5A] (idle_world (fun _ : Z => 0))
              = Some (false, w')
              /\ spi0_taken w' = true)
  /\ (exists w', EthoControllerBulkRead 0xFA 7 (idle_world (fun _ : Z => 0))
                 = Some ((false, []), w')
                 /\ spi1_taken w' = true).
Proof.
  apply (rejection_paths_keep_the_mutex (D := RegFile)
           (idle_world (fun _ : Z => 0)) 131072 [0x5A] 0xFA 7); lia.
Defined.

(* ================================================================== *)
(** ** The ring of the event log *)

Section Logger_ring.

Context {D : Type} `{Controller D}.

Lemma code_value_byte (c : LoggerCodes) : is_byte (code_value c).
Proof. destruct c; unfold is_byte; cbn; lia. Qed.

(** One record written from slot [EEPROM_LOG_BASE + 5 * k]: the next slot
    is the one after it, or the base again after the slot of index 80. *)
Lemma LoggerTask_entry_recorded (flags last k t : Z) (c : LoggerCodes)
  (w : World D) :
  0 <= k <= 80 ->
  Z.land (Z.shiftr flags (code_value c)) 1 <> 0 ->
  code_value c <> last ->
  exists w',
    LoggerTask_entry (mkLogGlobals flags (EEPROM_LOG_BASE + 5 * k)) last c t w
    = Some ((mkLogGlobals flags (EEPROM_LOG_BASE + 5 * ((k + 1) mod 81)),
             code_value c), w')
    /\ (forall x, x < EEPROM_LOG_BASE \/ EEPROM_LOG_BASE + 405 <= x ->
                  ee_mem (eeprom w') x = ee_mem (eeprom w) x).
Proof.
  intros Hk Hen Hne. unfold LoggerTask_entry.
  cbn [LogStatusFlags NextLogSlot].
  destruct (Z.land (Z.shiftr flags (code_value c)) 1 =? 0) eqn:E1;
    [apply Z.eqb_eq in E1; contradiction | ].
  destruct (code_value c =? last) eqn:E2;
    [apply Z.eqb_eq in E2; contradiction | ].
  cbn [negb nth].
  unfold EEPROM_LOG_BASE, MAX_LOG_ENTRIES.
  repeat match goal with
         | |- context [u32 (5632 + 5 * k + ?n)] =>
             rewrite (u32_small (5632 + 5 * k + n)) by lia
         end.
  repeat (unfold bind at 1;
          rewrite EEPROMSingleWrite_eq
            by first [lia | apply land_byte | apply code_value_byte]).
  unfold ret. eexists. split.
  - f_equal. f_equal. f_equal. f_equal.
    destruct (Z.eq_dec k 80) as [-> | Hk80].
    + reflexivity.
    + rewrite Z.mod_small by lia.
      destruct (5632 + 400 <? 5632 + 5 * k + 5) eqn:E3;
        [apply Z.ltb_lt in E3; lia | lia].
  - intros x Hx.
    cbn [after_eeprom_write eeprom ee_mem].
    rewrite !Z.mod_small by lia.
    rewrite !upd_other by lia. reflexivity.
Qed.

(** The slot after [n] records from the slot of index [k], and the cells
    outside the first 81 slots. *)
Lemma LoggerTask_entries_ring (received : list (LoggerCodes * Z)) :
  forall (flags last k : Z) (w : World D),
    0 <= k <= 80 ->
    recorded flags last received = true ->
    exists last' w',
      LoggerTask_entries (mkLogGlobals flags (EEPROM_LOG_BASE + 5 * k)) last
        received w
      = Some ((mkLogGlobals flags
                 (EEPROM_LOG_BASE
                  + 5 * ((k + Z.of_nat (List.length received)) mod 81)),
               last'), w')
      /\ (forall x, x < EEPROM_LOG_BASE \/ EEPROM_LOG_BASE + 405 <= x ->
                    ee_mem (eeprom w') x = ee_mem (eeprom w) x).
Proof.
  induction received as [ | [c t] rest IH]; intros flags last k w Hk Hrec.
  - cbn [LoggerTask_entries List.length]. unfold ret.
    rewrite Z.add_0_r, Z.mod_small by lia. eauto.
  - cbn [recorded] in Hrec.
    apply andb_prop in Hrec. destruct Hrec as [Hrec Hrest].
    apply andb_prop in Hrec. destruct Hrec as [Hen Hne].
    apply negb_true_iff in Hen. apply Z.eqb_neq in Hen.
    apply negb_true_iff in Hne. apply Z.eqb_neq in Hne.
    destruct (LoggerTask_entry_recorded flags last k t c w Hk Hen Hne)
      as (w1 & E1 & Hout1).
    cbn [LoggerTask_entries]. unfold bind at 1. rewrite E1. cbn [fst snd].
    assert (Hk' : 0 <= (k + 1) mod 81 <= 80)
      by (pose proof (Z.mod_pos_bound (k + 1) 81 ltac:(lia)); lia).
    destruct (IH flags (code_value c) ((k + 1) mod 81) w1 Hk' Hrest)
      as (last' & w2 & E2 & Hout2).
    exists last', w2. split.
    + rewrite E2. cbn [List.length]. rewrite Nat2Z.inj_succ.
      rewrite Zplus_mod_idemp_l.
      replace (k + 1 + Z.of_nat (List.length rest))
        with (k + Z.succ (Z.of_nat (List.length rest))) by lia.
      reflexivity.
    + intros x Hx. rewrite Hout2, Hout1 by exact Hx. reflexivity.
Qed.

End Logger_ring.

(** C3.  The claim is a ring of 400 records that wraps on the 401st
    write.  The code compares the next slot with
    [EEPROM_LOG_BASE + MAX_LOG_ENTRIES], a count of records used as a
    count of bytes: from the base, the slot after [n] written records is
    the base plus [5 * (n mod 81)], so the slot is back at the base after
    the 81st write, and no write ever leaves the first 81 slots (405
    bytes). *)
Theorem logger_ring_wraps_after_81_records {D : Type} `{Controller D}
  (w : World D) (flags last : Z) (received : list (LoggerCodes * Z)) :
  recorded flags last received = true ->
  exists last' w',
    LoggerTask_entries (mkLogGlobals flags EEPROM_LOG_BASE) last received w
    = Some ((mkLogGlobals flags
               (EEPROM_LOG_BASE
                + 5 * (Z.of_nat (List.length received) mod 81)),
             last'), w')
    /\ (forall x, x < EEPROM_LOG_BASE \/ EEPROM_LOG_BASE + 405 <= x ->
                  ee_mem (eeprom w') x = ee_mem (eeprom w) x).
Proof.
  intros Hrec.
  destruct (LoggerTask_entries_ring received flags last 0 w ltac:(lia) Hrec)
    as (last' & w' & E & Hout).
  exists last', w'. split; [ | exact Hout].
  rewrite Z.mul_0_r, Z.add_0_r in E. exact E.
Qed.

(** After 81 records the slot is the base again, and after 401 it is the
    slot of index 77: the 401st record is not the first to wrap. *)
Lemma logger_ring_wraps_after_81_records_witness :
  (exists last' w',
      LoggerTask_entries (mkLogGlobals 0xFFFFFFFF EEPROM_LOG_BASE) (-1)
        (logins_and_logouts 81) (idle_world (fun _ : Z => 0))
      = Some ((mkLogGlobals 0xFFFFFFFF EEPROM_LOG_BASE, last'), w')
      /\ (forall x, x < EEPROM_LOG_BASE \/ EEPROM_LOG_BASE + 405 <= x ->
                    ee_mem (eeprom w') x = 0xFF))
  /\ (exists last' w',
         LoggerTask_entries (mkLogGlobals 0xFFFFFFFF EEPROM_LOG_BASE) (-1)
           (logins_and_logouts 401) (idle_world (fun _ : Z => 0))
         = Some ((mkLogGlobals 0xFFFFFFFF (EEPROM_LOG_BASE + 5 * 77), last'),
                 w')
         /\ (forall x, x < EEPROM_LOG_BASE \/ EEPROM_LOG_BASE + 405 <= x ->
                       ee_mem (eeprom w') x = 0xFF)).
Proof.
  split.
  - apply (logger_ring_wraps_after_81_records (D := RegFile)
             (idle_world (fun _ : Z => 0)) 0xFFFFFFFF (-1)
             (logins_and_logouts 81)).
    vm_compute. reflexivity.
  - apply (logger_ring_wraps_after_81_records (D := RegFile)
             (idle_world (fun _ : Z => 0)) 0xFFFFFFFF (-1)
             (logins_and_logouts 401)).
    vm_compute. reflexivity.
Defined.

(* ================================================================== *)
(** ** The I2C slave interrupt handler *)

Section I2C_handler.

Variable beyond : Z -> Z.

(** Whatever the handler is entered with, what it puts on the queue is a
    packet with the one byte of this interrupt. *)
Lemma I2C0SlaveIntHandler_enqueues (data data' : I2C_Packet)
  (queue queue' : list I2C_Packet) (irq : I2CInterrupt) :
  I2C0SlaveIntHandler beyond data queue irq = Some (data', queue') ->
  exists added, queue' = queue ++ added /\ Forall lone_byte_packet added.
Proof.
  unfold I2C0SlaveIntHandler.
  destruct (ACT_RREQ irq);
    [ | intros E; inversion E; subst; exists []; rewrite app_nil_r; auto].
  destruct (INT_START irq);
    [intros E; inversion E; subst; exists []; rewrite app_nil_r; auto | ].
  destruct (INT_DATA irq);
    [ | intros E; inversion E; subst; exists []; rewrite app_nil_r; auto].
  change (I2CRXIndex I2C_Packet_zero) with 0.
  change (I2CBUFFERSIZE <? 0) with false. cbv iota.
  change (store (I2CRXBuffer I2C_Packet_zero) (Z.to_nat 0)
            (u8 (data_register irq)))
    with (u8 (data_register irq) :: repeat 0 (Z.to_nat I2CBUFFERSIZE - 1)).
  destruct (custom_pcount_of beyond _ <=? 0);
    [ | intros E; inversion E; subst; exists []; rewrite app_nil_r; auto].
  destruct (List.length queue <? I2C_QUEUE_SIZE)%nat; [ | discriminate].
  intros E; inversion E; subst. eexists. split; [reflexivity | ].
  constructor; [ | constructor]. split; [reflexivity | ].
  eexists. reflexivity.
Qed.

Lemma I2C_interrupts_enqueue (irqs : list I2CInterrupt) :
  forall (data data' : I2C_Packet) (queue queue' : list I2C_Packet),
    I2C_interrupts beyond data queue irqs = Some (data', queue') ->
    exists added, queue' = queue ++ added /\ Forall lone_byte_packet added.
Proof.
  induction irqs as [ | irq rest IH]; intros data data' queue queue' E.
  - cbn in E. inversion E; subst. exists []. rewrite app_nil_r. auto.
  - cbn [I2C_interrupts] in E.
    destruct (I2C0SlaveIntHandler beyond data queue irq)
      as [[data1 queue1] | ] eqn:E1; [ | discriminate].
    destruct (I2C0SlaveIntHandler_enqueues _ _ _ _ _ E1)
      as (added1 & -> & Hall1).
    destruct (IH _ _ _ _ E) as (added2 & -> & Hall2).
    exists (added1 ++ added2). rewrite app_assoc. split; [reflexivity | ].
    apply Forall_app. auto.
Qed.

(** With room on the queue the handler returns, and the queue grows by
    one packet at most. *)
Lemma I2C0SlaveIntHandler_returns (data : I2C_Packet)
  (queue : list I2C_Packet) (irq : I2CInterrupt) :
  (List.length queue < I2C_QUEUE_SIZE)%nat ->
  exists data' queue',
    I2C0SlaveIntHandler beyond data queue irq = Some (data', queue')
    /\ (List.length queue' <= S (List.length queue))%nat.
Proof.
  intros Hroom. unfold I2C0SlaveIntHandler.
  destruct (ACT_RREQ irq); [ | eauto].
  destruct (INT_START irq); [eauto | ].
  destruct (INT_DATA irq); [ | eauto].
  destruct (custom_pcount_of beyond _ <=? _); [ | eauto].
  apply Nat.ltb_lt in Hroom. rewrite Hroom.
  eexists. eexists. split; [reflexivity | ].
  rewrite length_app. cbn. lia.
Qed.

Lemma I2C_interrupts_return (irqs : list I2CInterrupt) :
  forall (data : I2C_Packet) (queue : list I2C_Packet),
    (List.length queue + List.length irqs <= I2C_QUEUE_SIZE)%nat ->
    exists data' queue',
      I2C_interrupts beyond data queue irqs = Some (data', queue').
Proof.
  induction irqs as [ | irq rest IH]; intros data queue Hroom.
  - cbn. eauto.
  - cbn [I2C_interrupts]. cbn [List.length] in Hroom.
    destruct (I2C0SlaveIntHandler_returns data queue irq ltac:(lia))
      as (data1 & queue1 & E1 & Hlen).
    rewrite E1. apply IH. lia.
Qed.

End I2C_handler.

(** The transaction that carries code 0x00 with its three parameters 1,
    2 and 3 puts three packets on the queue, each with one of the
    parameters as its code; codes 0x01, 0x02 and 0x03 take no parameter,
    so each of them is complete for the dispatcher. *)
Lemma I2C_transaction_of_code_0 (beyond : Z -> Z) :
  I2C_interrupts beyond I2C_Packet_zero []
    (transaction [0x00; 0x01; 0x02; 0x03])
  = Some (I2C_Packet_zero,
          [mkI2C_Packet (packet_of [0x01]) 0;
           mkI2C_Packet (packet_of [0x02]) 0;
           mkI2C_Packet (packet_of [0x03]) 0]).
Proof. vm_compute. reflexivity. Qed.

(** C4.  The claim is that buffer and index persist across the interrupts
    of a transaction, so that a code is queued once with its parameters
    behind it.  The handler clears its [static] packet on entry, so the
    index is 0 at every DATA interrupt and the byte lands in
    [I2CRXBuffer[0]]: whatever the interrupts, every packet it queues
    holds one byte and no parameter, and while the queue has room for the
    interrupts the handler returns from each of them. *)
Theorem I2C_handler_queues_lone_bytes (beyond : Z -> Z)
  (irqs : list I2CInterrupt) (data : I2C_Packet)
  (queue : list I2C_Packet) :
  (forall data' queue',
      I2C_interrupts beyond data queue irqs = Some (data', queue') ->
      exists added, queue' = queue ++ added /\ Forall lone_byte_packet added)
  /\ ((List.length queue + List.length irqs <= I2C_QUEUE_SIZE)%nat ->
      exists data' added,
        I2C_interrupts beyond data queue irqs = Some (data', queue ++ added)
        /\ Forall lone_byte_packet added).
Proof.
  split.
  - intros data' queue'. apply I2C_interrupts_enqueue.
  - intros Hroom.
    destruct (I2C_interrupts_return beyond irqs data queue Hroom)
      as (data' & queue' & E).
    destruct (I2C_interrupts_enqueue beyond irqs _ _ _ _ E)
      as (added & -> & Hall).
    exists data', added. auto.
Qed.

(** The transaction of code 0x00 with the parameters 1, 2 and 3, on an
    empty queue. *)
Lemma I2C_handler_queues_lone_bytes_witness :
  exists added,
    [mkI2C_Packet (packet_of [0x01]) 0;
     mkI2C_Packet (packet_of [0x02]) 0;
     mkI2C_Packet (packet_of [0x03]) 0] = [] ++ added
    /\ Forall lone_byte_packet added.
Proof.
  apply (proj1 (I2C_handler_queues_lone_bytes (fun _ => 0)
                  (transaction [0x00; 0x01; 0x02; 0x03]) I2C_Packet_zero [])
           I2C_Packet_zero).
  vm_compute. reflexivity.
Defined.

(* ================================================================== *)
(** ** The dispatch of the CLI at a terminal command *)

Section CLI_dispatch.

Variable Handler : Type.
Variable commandwords : list string.

(** What a matched entry adds to [params] is what [entry_parameters]
    says. *)
Lemma collect_params_entry (c : Command Handler) (d : nat) :
  collect_params Handler c (nth_error commandwords d)
  = entry_parameters commandwords c d.
Proof.
  unfold collect_params, entry_parameters.
  destruct (paramsRequired c =? 0) eqn:E; [ | reflexivity].
  apply Z.eqb_eq in E. rewrite E.
  destruct (paramsUserProvided c); reflexivity.
Qed.

Lemma spec_dispatch_node (role : PermLevel) (c : Command Handler) (i : nat)
  (ps : list (option string)) :
  outcome_node (spec_dispatch commandwords role c i ps) = Some (c, i).
Proof.
  unfold spec_dispatch.
  destruct (nth_error commandwords (i + 1)); [reflexivity | ].
  destruct (perm_value role <? perm_value (permissionsRequired c));
    reflexivity.
Qed.

(** The scan of a menu at depth [i]: when one of the entries it visits
    accepts the word, the first of them is taken, with its parameters
    added to [params], and the scan is the dispatch of the specification
    at it when it is a terminal command, the descent into its child menu
    otherwise; when none does, the scan stops at no command, the same
    way for every role. *)
Lemma scan_menu_first (Menu : list (Command Handler)) (i : nat)
  (foundChild : bool) (params : list (option string)) (left : nat) :
  forall entries : list (Command Handler),
    match find (fun e => accepts commandwords e i) (firstn left entries) with
    | Some e =>
        forall role,
          scan_menu commandwords role Menu i foundChild params entries left
          = if isExecutable e
            then Finished
                   (spec_dispatch commandwords role e i
                      (params ++ entry_parameters commandwords e i))
            else Descend (childCommand e)
                   (params ++ entry_parameters commandwords e i)
    | None =>
        exists s,
          (s = MenuExhausted
           \/ exists o, s = Finished o /\ outcome_node o = None)
          /\ forall role,
              scan_menu commandwords role Menu i foundChild params entries
                left = s
    end.
Proof.
  induction left as [ | left IH]; intros entries.
  - cbn [firstn find]. exists MenuExhausted.
    split; [left; reflexivity | reflexivity].
  - destruct entries as [ | c rest].
    + cbn [firstn find scan_menu].
      destruct foundChild;
        [ exists (Finished (Incomplete (map (word commandwords) (seq 0 i))))
        | exists (Finished NotRecognized) ];
        (split; [right; eexists; split; reflexivity | reflexivity]).
    + cbn [firstn find scan_menu].
      change ((strcmp_eq (text c) (word commandwords i)
               || paramsUserProvided c
                  && (i <? n_spaces commandwords)%nat)
              && negb (strcmp_eq "?" (word commandwords i)))
        with (accepts commandwords c i).
      destruct (accepts commandwords c i) eqn:Eacc.
      * intros role. unfold word. rewrite collect_params_entry.
        destruct (isExecutable c); [ | reflexivity].
        unfold spec_dispatch.
        destruct (nth_error commandwords (i + 1)); [reflexivity | ].
        destruct (perm_value role <? perm_value (permissionsRequired c));
          reflexivity.
      * destruct (strcmp_eq "?" (word commandwords i)) eqn:Eq.
        -- assert (Hnone : find (fun e => accepts commandwords e i)
                             (firstn left rest) = None).
           { generalize (firstn left rest). intros l.
             induction l as [ | e l IHl]; [reflexivity | ].
             cbn [find]. unfold accepts at 1.
             unfold word in Eq. rewrite Eq, andb_false_r. exact IHl. }
           rewrite Hnone. exists (Finished (HelpShown Menu)).
           split; [right; eexists; split; reflexivity | reflexivity].
        -- apply IH.
Qed.

(** A depth at which the scan takes no entry is passed over. *)
Lemma menu_path_lower (Menu : list (Command Handler)) (d0 : nat)
  (path : list (Command Handler * nat)) (c : Command Handler) (i : nat) :
  first_accepting commandwords Menu d0 = None ->
  menu_path commandwords Menu (S d0) path c i ->
  menu_path commandwords Menu d0 path c i.
Proof.
  intros Hnone. destruct path as [ | [e d] rest]; cbn [menu_path].
  - intros (Hle & Hskip & Hrest). split; [lia | ]. split; [ | exact Hrest].
    intros d Hd. destruct (Nat.eq_dec d d0) as [-> | Hne];
      [exact Hnone | apply Hskip; lia].
  - intros (Hle & Hskip & Hrest). split; [lia | ]. split; [ | exact Hrest].
    intros d' Hd. destruct (Nat.eq_dec d' d0) as [-> | Hne];
      [exact Hnone | apply Hskip; lia].
Qed.

(** A walk that stops at a terminal command has taken the entries of a
    path to it, and is the dispatch of the specification at that
    command for every role, with the parameters of the entries of the
    path and of the command added to [params]. *)
Lemma walk_path (user : PermLevel) (c : Command Handler) (j : nat)
  (depth : nat) :
  forall (i : nat) (Menu : list (Command Handler)) (foundChild : bool)
         (params : list (option string)),
    outcome_node (walk commandwords user depth i Menu foundChild params)
    = Some (c, j) ->
    exists path,
      menu_path commandwords Menu i path c j
      /\ forall role,
          walk commandwords role depth i Menu foundChild params
          = spec_dispatch commandwords role c j
              (params
               ++ accumulated_parameters commandwords (path ++ [(c, j)])).
Proof.
  induction depth as [ | depth IH]; intros i Menu foundChild params Hnode.
  - discriminate.
  - cbn [walk] in Hnode |- *.
    pose proof (scan_menu_first Menu i foundChild params MAX_MENU_ITEMS Menu)
      as Hscan.
    fold (first_accepting commandwords Menu i) in Hscan.
    destruct (first_accepting commandwords Menu i) as [e | ] eqn:Efirst.
    + destruct (isExecutable e) eqn:Eexec.
      * rewrite Hscan, spec_dispatch_node in Hnode.
        inversion Hnode; subst e j. exists [].
        split.
        -- cbn [menu_path]. split; [lia | ]. split; [intros d Hd; lia | ].
           split; [exact Efirst | exact Eexec].
        -- intros role. rewrite Hscan.
           cbn [app accumulated_parameters flat_map fst snd].
           rewrite app_nil_r. reflexivity.
      * rewrite Hscan in Hnode.
        destruct (IH _ _ _ _ Hnode) as (path & Hpath & Hwalk).
        exists ((e, i) :: path). split.
        -- cbn [menu_path]. split; [lia | ]. split; [intros d Hd; lia | ].
           split; [exact Efirst | ]. split; [exact Eexec | ].
           rewrite Nat.add_1_r in Hpath. exact Hpath.
        -- intros role. rewrite Hscan, Hwalk.
           cbn [app accumulated_parameters flat_map fst snd].
           rewrite <- app_assoc. reflexivity.
    + destruct Hscan as (s & [-> | (o & -> & Ho)] & Hscan).
      * rewrite Hscan in Hnode.
        destruct (IH _ _ _ _ Hnode) as (path & Hpath & Hwalk).
        exists path. split.
        -- apply menu_path_lower; [exact Efirst | ].
           rewrite Nat.add_1_r in Hpath. exact Hpath.
        -- intros role. rewrite Hscan. apply Hwalk.
      * rewrite Hscan, Ho in Hnode. discriminate.
Qed.

(** The path to a terminal command is the only one from its menu and
    depth: the parameters collected on the way are determined. *)
Lemma menu_path_unique (path : list (Command Handler * nat)) :
  forall (Menu : list (Command Handler)) (d0 : nat)
         (path' : list (Command Handler * nat)) (c c' : Command Handler)
         (i i' : nat),
    menu_path commandwords Menu d0 path c i ->
    menu_path commandwords Menu d0 path' c' i' ->
    path = path' /\ c = c' /\ i = i'.
Proof.
  induction path as [ | [e d] rest IH];
    intros Menu d0 path' c c' i i' Hp Hp';
    destruct path' as [ | [e' d'] rest']; cbn [menu_path] in Hp, Hp'.
  - destruct Hp as (Hle & Hskip & Hf & Hx).
    destruct Hp' as (Hle' & Hskip' & Hf' & Hx').
    assert (i = i').
    { destruct (Nat.lt_trichotomy i i') as [Hlt | [Heq | Hgt]];
        [ | exact Heq | ].
      - rewrite (Hskip' i) in Hf by lia. discriminate.
      - rewrite (Hskip i') in Hf' by lia. discriminate. }
    subst i'. rewrite Hf in Hf'. inversion Hf'. auto.
  - destruct Hp as (Hle & Hskip & Hf & Hx).
    destruct Hp' as (Hle' & Hskip' & Hf' & Hx' & _).
    exfalso.
    destruct (Nat.lt_trichotomy i d') as [Hlt | [Heq | Hgt]].
    + rewrite (Hskip' i) in Hf by lia. discriminate.
    + subst d'. rewrite Hf in Hf'. inversion Hf'; subst e'.
      rewrite Hx in Hx'. discriminate.
    + rewrite (Hskip d') in Hf' by lia. discriminate.
  - destruct Hp as (Hle & Hskip & Hf & Hx & _).
    destruct Hp' as (Hle' & Hskip' & Hf' & Hx').
    exfalso.
    destruct (Nat.lt_trichotomy d i') as [Hlt | [Heq | Hgt]].
    + rewrite (Hskip' d) in Hf by lia. discriminate.
    + subst i'. rewrite Hf in Hf'. inversion Hf'; subst c'.
      rewrite Hx in Hx'. discriminate.
    + rewrite (Hskip i') in Hf' by lia. discriminate.
  - destruct Hp as (Hle & Hskip & Hf & Hx & Hrest).
    destruct Hp' as (Hle' & Hskip' & Hf' & Hx' & Hrest').
    assert (d = d').
    { destruct (Nat.lt_trichotomy d d') as [Hlt | [Heq | Hgt]];
        [ | exact Heq | ].
      - rewrite (Hskip' d) in Hf by lia. discriminate.
      - rewrite (Hskip d') in Hf' by lia. discriminate. }
    subst d'. rewrite Hf in Hf'. inversion Hf'; subst e'.
    destruct (IH _ _ _ _ _ _ _ Hrest Hrest') as (-> & -> & ->). auto.
Qed.

End CLI_dispatch.

(** C6.  When the walk of a line reaches a terminal command [c] at depth
    [i] (for the user who entered it), it has come to [c] by a path of
    entries, each the entry its menu takes for the word at its depth;
    and for every role the walk is the dispatch of the specification at
    [c]: too many parameters if a word remains beyond depth [i], else
    unauthorized if the role is less than the permission [c] requires,
    else the handler of [c] invoked with the accumulated parameter
    buffer.  The buffer holds the parameters of the entries of the path
    and then those of [c], an entry giving the word at its depth when
    the user provides its parameters and its static parameters
    otherwise; it is the same whichever way the path is described.  So
    the handler is invoked, with this buffer, for exactly the roles at
    or above the required permission, and never in the other two
    cases. *)
Theorem cli_terminal_dispatch (Handler : Type) (commandwords : list string)
  (Command_Categories : list (Command Handler)) (user : PermLevel)
  (c : Command Handler) (i : nat) :
  outcome_node (InterpreterTask_line commandwords user Command_Categories)
  = Some (c, i) ->
  isExecutable c = true
  /\ (exists path, menu_path commandwords Command_Categories 0 path c i)
  /\ forall path,
      menu_path commandwords Command_Categories 0 path c i ->
      forall role,
        InterpreterTask_line commandwords role Command_Categories
        = spec_dispatch commandwords role c i
            (accumulated_parameters commandwords (path ++ [(c, i)]))
        /\ (InterpreterTask_line commandwords role Command_Categories
            = Invoked c i
                (accumulated_parameters commandwords (path ++ [(c, i)]))
            <-> nth_error commandwords (i + 1) = None
                /\ perm_value (permissionsRequired c) <= perm_value role).
Proof.
  unfold InterpreterTask_line. intros Hnode.
  destruct commandwords as [ | w0 ws] eqn:Ewords; [discriminate | ].
  rewrite <- Ewords in *.
  destruct (walk_path Handler commandwords user c i MAX_DEPTH_INHERITANCE
              0%nat Command_Categories false [] Hnode)
    as (path0 & Hpath0 & Hwalk).
  cbn [app] in Hwalk.
  assert (Hexec : isExecutable c = true).
  { clear Hwalk. revert Hpath0. generalize 0%nat.
    generalize Command_Categories.
    induction path0 as [ | [e d] rest IH]; intros Menu d0; cbn [menu_path].
    - intros (_ & _ & _ & Hx). exact Hx.
    - intros (_ & _ & _ & _ & Hrest). exact (IH _ _ Hrest). }
  split; [exact Hexec | ]. split; [exists path0; exact Hpath0 | ].
  intros path Hpath role.
  destruct (menu_path_unique Handler commandwords path _ _ path0 c c i i
              Hpath Hpath0) as (-> & _ & _).
  rewrite Hwalk. split; [reflexivity | ].
  unfold spec_dispatch.
  destruct (nth_error commandwords (i + 1)) as [t | ].
  - split; [discriminate | intros [Habs _]; discriminate].
  - destruct (perm_value role <? perm_value (permissionsRequired c)) eqn:E.
    + apply Z.ltb_lt in E.
      split; [discriminate | intros [_ Hle]; lia].
    + apply Z.ltb_ge in E. split; auto.
Qed.

(** A read-only user who enters [config delete] reaches the terminal
    command [delete] at depth 1, which takes one static parameter; the
    walk reports that the user is not authorized, and invokes the
    handler for the roles from [ModifySystem] up. *)
Lemma cli_terminal_dispatch_witness :
  isExecutable Config_delete = true
  /\ (exists path,
         menu_path ["config"%string; "delete"%string]
           Command_Categories_config 0 path Config_delete 1)
  /\ forall path,
      menu_path ["config"%string; "delete"%string] Command_Categories_config
        0 path Config_delete 1 ->
      forall role,
        InterpreterTask_line ["config"%string; "delete"%string] role
          Command_Categories_config
        = spec_dispatch ["config"%string; "delete"%string] role
            Config_delete 1
            (accumulated_parameters ["config"%string; "delete"%string]
               (path ++ [(Config_delete, 1%nat)]))
        /\ (InterpreterTask_line ["config"%string; "delete"%string] role
              Command_Categories_config
            = Invoked Config_delete 1
                (accumulated_parameters ["config"%string; "delete"%string]
                   (path ++ [(Config_delete, 1%nat)]))
            <-> nth_error ["config"%string; "delete"%string] (1 + 1) = None
                /\ perm_value ModifySystem <= perm_value role).
Proof.
  apply (cli_terminal_dispatch CLIFunction ["config"%string; "delete"%string]
           Command_Categories_config ReadOnlyUser Config_delete 1).
  vm_compute. reflexivity.
Defined.

(** [config delete] goes by the entry [config] of the top menu, which
    has no parameters, to [delete], and hands the handler the one
    static parameter of [delete], the empty string, when the user may
    modify the system; a user below that is refused, and a word too
    many is refused for every user. *)
Lemma config_delete_dispatch :
  (exists config,
      nth_error Command_Categories_config 0 = Some config
      /\ menu_path ["config"%string; "delete"%string]
           Command_Categories_config 0 [(config, 0%nat)] Config_delete 1
      /\ accumulated_parameters ["config"%string; "delete"%string]
           ([(config, 0%nat)] ++ [(Config_delete, 1%nat)])
         = [Some ""%string])
  /\ InterpreterTask_line ["config"%string; "delete"%string] ModifySystem
       Command_Categories_config
     = Invoked Config_delete 1 [Some ""%string]
  /\ InterpreterTask_line ["config"%string; "delete"%string] ModifyPortsOnly
       Command_Categories_config
     = Unauthorized Config_delete 1
  /\ InterpreterTask_line ["config"%string; "delete"%string; "now"%string]
       Administrator Command_Categories_config
     = TooManyParameters Config_delete 1.
Proof.
  split; [ | vm_compute; repeat split; reflexivity].
  eexists. split; [reflexivity | ]. split; [ | reflexivity].
  cbn [menu_path].
  repeat split; try lia; try reflexivity; intros d Hd; lia.
Qed.

(** [system i2c send-command 0x10] hands the handler the word the user
    entered for the code. *)
Lemma i2c_send_dispatch :
  InterpreterTask_line
    ["system"%string; "i2c"%string; "send-command"%string; "0x10"%string]
    ModifySystem Command_Categories_i2c
  = Invoked I2C_send_code 3 [Some "0x10"%string]
  /\ InterpreterTask_line
       ["system"%string; "i2c"%string; "send-command"%string; "0x10"%string]
       ModifyPortsOnly Command_Categories_i2c
     = Unauthorized I2C_send_code 3.
Proof. vm_compute. split; reflexivity. Qed.
(* ================================================================== *)
(** ** The distance to the cable fault *)

Lemma u8_offsets_differ (a x y : Z) :
  0 <= x < 256 -> 0 <= y < 256 -> x <> y -> u8 (a + x) <> u8 (a + y).
Proof.
  intros Hx Hy Hne E. rewrite !u8_mod in E.
  assert (E0 : (x - y) mod 256 = 0).
  { replace (x - y) with ((a + x) - (a + y)) by lia.
    rewrite Zminus_mod, E, Z.sub_diag. reflexivity. }
  pose proof (Z.div_mod (x - y) 256 ltac:(lia)) as Hd.
  rewrite E0 in Hd. lia.
Qed.

Lemma fault_distance_table :
  forallb (fun raw => fault_distance_of raw =? 2 * u32 (raw - 26) / 5)
    distance_values = true.
Proof. vm_compute. reflexivity. Qed.

Lemma land_1_range (x : Z) : 0 <= Z.land x 1 <= 1.
Proof.
  assert (E : Z.land x 1 = x mod 2) by exact (Z.land_ones x 1 ltac:(lia)).
  rewrite E. pose proof (Z.mod_pos_bound x 2). lia.
Qed.

(** Over the values that the distance can take, the product of the
    handler is 0.4 times the [uint32_t] difference, truncated. *)
Lemma fault_distance_of_truncates (raw : Z) :
  0 <= raw <= 256 ->
  fault_distance_of raw = 2 * u32 (raw - 26) / 5.
Proof.
  intros Hraw. pose proof fault_distance_table as T.
  rewrite forallb_forall in T. apply Z.eqb_eq. apply T.
  unfold distance_values. apply in_map_iff.
  exists (Z.to_nat raw). split; [lia | ]. apply in_seq. lia.
Qed.

(** The LinkMD 0 register after the start bit was set in it and has
    cleared itself: the value the poll waits for, with the cable state
    and bit 0 of the byte read at first. *)
Lemma start_bit_cleared (r : Z) :
  is_byte r ->
  u8 (Z.land (u8 (Z.lor r (Z.shiftl 1 4))) (Z.lnot 0x10))
  = Z.land (Z.lor r (Z.shiftl 1 4)) (Z.lnot (Z.shiftl 1 4))
  /\ Z.land (Z.land (Z.lor r (Z.shiftl 1 4)) (Z.lnot (Z.shiftl 1 4))) 0x60
     = Z.land r 0x60
  /\ Z.land (Z.land (Z.lor r (Z.shiftl 1 4)) (Z.lnot (Z.shiftl 1 4))) 0x01
     = Z.land r 0x01.
Proof.
  intros Hr.
  assert (T : forallb
                (fun r =>
                   (u8 (Z.land (u8 (Z.lor r (Z.shiftl 1 4))) (Z.lnot 0x10))
                    =? Z.land (Z.lor r (Z.shiftl 1 4))
                         (Z.lnot (Z.shiftl 1 4)))
                   && (Z.land
                         (Z.land (Z.lor r (Z.shiftl 1 4))
                            (Z.lnot (Z.shiftl 1 4))) 0x60
                       =? Z.land r 0x60)
                   && (Z.land
                         (Z.land (Z.lor r (Z.shiftl 1 4))
                            (Z.lnot (Z.shiftl 1 4))) 0x01
                       =? Z.land r 0x01))
                (map Z.of_nat (seq 0 256)) = true)
    by (vm_compute; reflexivity).
  rewrite forallb_forall in T.
  assert (Hin : In r (map Z.of_nat (seq 0 256))).
  { apply in_map_iff. exists (Z.to_nat r). unfold is_byte in Hr.
    split; [lia | ]. apply in_seq. lia. }
  specialize (T r Hin). cbv beta in T.
  apply andb_prop in T. destruct T as [T T3].
  apply andb_prop in T. destruct T as [T1 T2].
  apply Z.eqb_eq in T1, T2, T3. auto.
Qed.

Section Cable_diagnostics.

Context {D : Type} `{Controller D}.

(** What [COM_RunCableDiagnostics] reports as the distance, when it
    reports a fault, is [fault_distance_of] at the sum of bit 0 of the
    LinkMD 0 register and the LinkMD 1 register. *)
Lemma COM_RunCableDiagnostics_distance (reg_addr : Z) (w w' : World D)
  (b : bool) (cable_state fault_distance : Z) :
  COM_RunCableDiagnostics reg_addr w
  = Some ((b, DiagFault cable_state fault_distance), w') ->
  exists raw, 0 <= raw <= 256 /\ fault_distance = fault_distance_of raw.
Proof.
  unfold COM_RunCableDiagnostics.
  do 6 hal_step.
  match goal with
  | |- context [bind (linkmd_poll ?n ?a ?r) _ ?w0] =>
      destruct (linkmd_poll n a r w0) as [[done w1] | ] eqn:Epoll
  end.
  - rewrite (bind_eq _ _ _ _ _ Epoll). cbv beta.
    destruct done; cbn [negb]; [ | unfold ret; discriminate].
    clear Epoll. do 7 hal_step.
    match goal with
    | |- context [fault_distance_of ?r] =>
        assert (Hraw : 0 <= r <= 256)
    end.
    { match goal with
      | |- context [u32 (Z.land ?x 1 + ?v)] =>
          pose proof (land_1_range x) as Hbit;
          assert (Hv : is_byte v) by (unfold ctrl_read_value; apply u8_range);
          unfold is_byte in Hv; rewrite u32_small by lia; lia
      end. }
    destruct (_ =? 0); unfold ret; intros E; inversion E; subst.
    eexists. split; [exact Hraw | reflexivity].
  - unfold bind. rewrite Epoll. discriminate.
Qed.

(** The poll ends at its first read when the register holds the value
    waited for. *)
Lemma linkmd_poll_first (n : nat) (address reg_data : Z) (w : World D) :
  ctrl_read_value address w = reg_data ->
  linkmd_poll (S n) address reg_data w
  = Some (true, after_ctrl_read address w).
Proof.
  intros E. cbn [linkmd_poll]. hal_step.
  rewrite E, Z.eqb_refl. reflexivity.
Qed.

Hypothesis linkmd : linkmd_registers.

Lemma linkmd_read_after_read (a a' : Z) (w : World D) :
  ctrl_read_value a' (after_ctrl_read a w) = ctrl_read_value a' w.
Proof.
  destruct linkmd as (Hro & _). unfold ctrl_read_value, after_ctrl_read.
  cbn [ctrl]. rewrite Hro. reflexivity.
Qed.

Lemma linkmd_read_after_write (a v : Z) (w : World D) :
  ctrl_read_value a (after_ctrl_write a v w)
  = u8 (if is_linkmd0 (u8 a) then Z.land (u8 v) (Z.lnot 0x10) else u8 v).
Proof.
  destruct linkmd as (_ & Hsame & _). unfold ctrl_read_value, after_ctrl_write.
  cbn [ctrl]. rewrite Hsame. reflexivity.
Qed.

Lemma linkmd_read_after_write_other (a a' v : Z) (w : World D) :
  u8 a' <> u8 a ->
  ctrl_read_value a' (after_ctrl_write a v w) = ctrl_read_value a' w.
Proof.
  intros Hne. destruct linkmd as (_ & _ & Hother).
  unfold ctrl_read_value, after_ctrl_write.
  cbn [ctrl]. rewrite Hother by exact Hne. reflexivity.
Qed.

(** The handler on such a controller: the poll ends at its first read,
    and the report is made of the LinkMD registers as they were. *)
Lemma COM_RunCableDiagnostics_linkmd_run (reg_addr : Z) (w : World D) :
  is_linkmd0 (u8 (reg_addr + PORT_LINKMD0_OFFSET_HEX)) = true ->
  exists w',
    COM_RunCableDiagnostics reg_addr w
    = Some ((true,
             if cable_state_of reg_addr w =? 0 then DiagNormal
             else DiagFault (cable_state_of reg_addr w)
                    (fault_distance_of (distance_value reg_addr w))),
            w').
Proof.
  intros Hl0. unfold COM_RunCableDiagnostics.
  assert (N5 : u8 (reg_addr + PORT_LINKMD1_OFFSET_HEX)
               <> u8 (reg_addr + PORT_CONTROL5_OFFSET_HEX))
    by (apply u8_offsets_differ;
        unfold PORT_CONTROL5_OFFSET_HEX, PORT_LINKMD1_OFFSET_HEX; lia).
  assert (N6 : u8 (reg_addr + PORT_LINKMD1_OFFSET_HEX)
               <> u8 (reg_addr + PORT_CONTROL6_OFFSET_HEX))
    by (apply u8_offsets_differ;
        unfold PORT_CONTROL6_OFFSET_HEX, PORT_LINKMD1_OFFSET_HEX; lia).
  assert (N0 : u8 (reg_addr + PORT_LINKMD1_OFFSET_HEX)
               <> u8 (reg_addr + PORT_LINKMD0_OFFSET_HEX))
    by (apply u8_offsets_differ;
        unfold PORT_LINKMD0_OFFSET_HEX, PORT_LINKMD1_OFFSET_HEX; lia).
  assert (M5 : u8 (reg_addr + PORT_LINKMD0_OFFSET_HEX)
               <> u8 (reg_addr + PORT_CONTROL5_OFFSET_HEX))
    by (apply u8_offsets_differ;
        unfold PORT_CONTROL5_OFFSET_HEX, PORT_LINKMD0_OFFSET_HEX; lia).
  assert (M6 : u8 (reg_addr + PORT_LINKMD0_OFFSET_HEX)
               <> u8 (reg_addr + PORT_CONTROL6_OFFSET_HEX))
    by (apply u8_offsets_differ;
        unfold PORT_CONTROL6_OFFSET_HEX, PORT_LINKMD0_OFFSET_HEX; lia).
  assert (N65 : u8 (reg_addr + PORT_CONTROL6_OFFSET_HEX)
                <> u8 (reg_addr + PORT_CONTROL5_OFFSET_HEX))
    by (apply u8_offsets_differ;
        unfold PORT_CONTROL5_OFFSET_HEX, PORT_CONTROL6_OFFSET_HEX; lia).
  do 6 hal_step.
  match goal with
  | |- context [bind (linkmd_poll (S ?n) ?a ?r) _ ?w0] =>
      assert (Epoll : linkmd_poll (S n) a r w0
                      = Some (true, after_ctrl_read a w0))
  end.
  { apply linkmd_poll_first.
    rewrite linkmd_read_after_write, Hl0.
    apply start_bit_cleared. unfold ctrl_read_value. apply u8_range. }
  rewrite (bind_eq _ _ _ _ _ Epoll). clear Epoll. cbn [negb].
  do 7 hal_step.
  eexists.
  match goal with
  | |- context [DiagFault (Z.land ?X 96)
                  (fault_distance_of (u32 (Z.land ?Y 1 + ?V)))] =>
      assert (EX : Z.land X 96 = cable_state_of reg_addr w);
      [ | assert (EY : Z.land Y 1
                       = Z.land (ctrl_read_value
                                   (reg_addr + PORT_LINKMD0_OFFSET_HEX) w) 1);
          [ | assert (EV : V = ctrl_read_value
                                 (reg_addr + PORT_LINKMD1_OFFSET_HEX) w) ] ]
  end.
  - unfold cable_state_of.
    rewrite !linkmd_read_after_read, linkmd_read_after_write, Hl0.
    repeat first
      [ rewrite linkmd_read_after_read
      | rewrite linkmd_read_after_write_other by assumption ].
    destruct (start_bit_cleared
                (ctrl_read_value (reg_addr + PORT_LINKMD0_OFFSET_HEX) w))
      as (E1 & E2 & _); [unfold ctrl_read_value; apply u8_range | ].
    rewrite E1. exact E2.
  - rewrite !linkmd_read_after_read, linkmd_read_after_write, Hl0.
    repeat first
      [ rewrite linkmd_read_after_read
      | rewrite linkmd_read_after_write_other by assumption ].
    destruct (start_bit_cleared
                (ctrl_read_value (reg_addr + PORT_LINKMD0_OFFSET_HEX) w))
      as (E1 & _ & E3); [unfold ctrl_read_value; apply u8_range | ].
    rewrite E1. exact E3.
  - repeat first
      [ rewrite linkmd_read_after_read
      | rewrite linkmd_read_after_write_other by assumption ].
    reflexivity.
  - rewrite EX, EY, EV. clear EX EY EV.
    fold (distance_value reg_addr w).
    rewrite (u32_small (distance_value reg_addr w)).
    + destruct (cable_state_of reg_addr w =? 0); reflexivity.
    + unfold distance_value.
      pose proof (land_1_range
                    (ctrl_read_value (reg_addr + PORT_LINKMD0_OFFSET_HEX) w)).
      pose proof (u8_range
                    (fst (ksz_read (u8 (reg_addr + PORT_LINKMD1_OFFSET_HEX))
                            (ctrl w)))) as Hv.
      fold (ctrl_read_value (reg_addr + PORT_LINKMD1_OFFSET_HEX) w) in Hv.
      lia.
Qed.

End Cable_diagnostics.

Lemma KszLinkMD_linkmd : linkmd_registers (D := KszLinkMD).
Proof.
  repeat split.
  - intros a v d. cbn. apply upd_same.
  - intros a a' v d Hne. cbn. apply upd_other. exact Hne.
Qed.




(* ================================================================== *)
(** ** One pass of the port monitor *)

Section Port_monitor.

Context {D : Type} `{Controller D}.

(** A block of the pass leaves [flags] and the notices as they are when
    its bit is clear in [flags]; otherwise it leaves its own bit in
    [flags] and adds one notice. *)
Lemma monitor_block_run (fuel : nat) (bit status1 control2 : Z)
  (name : PortName) (flags flags' : Z) (notices notices' : list Notice)
  (w w' : World D) :
  monitor_block fuel bit status1 control2 name (flags, notices) w
  = Some ((flags', notices'), w') ->
  if Z.land flags bit =? 0
  then flags' = flags /\ notices' = notices
  else flags' = bit /\ exists n, notices' = notices ++ [n].
Proof.
  unfold monitor_block.
  destruct (Z.land flags bit =? 0); cbn [negb].
  - unfold ret. intros E. inversion E. auto.
  - intros E. apply bind_inv in E. destruct E as (n & w1 & _ & E).
    unfold ret in E. inversion E. eauto.
Qed.

End Port_monitor.

(** With the interrupts of the expansion port and of port 0 both pending
    (status 0x18), one pass prints the notice of the expansion port only
    and leaves the interrupt of port 0 pending. *)
Lemma port_monitor_two_pending :
  option_map fst (PortMonitorTask_pass 1 true (pending_interrupts 0x18))
  = Some [mkNotice ExpansionPort false]
  /\ option_map (fun r => ksz_regs (ctrl (snd r)) INTERRUPT_STATUS_REGISTER)
       (PortMonitorTask_pass 1 true (pending_interrupts 0x18))
     = Some 0x08.
Proof. vm_compute. split; reflexivity. Qed.

(** Whatever the controller, a pass that returns has printed at most one
    notice. *)
Lemma PortMonitorTask_pass_at_most_one {D : Type} `{Controller D}
  (fuel : nat) (w w' : World D) (notices : list Notice) :
  PortMonitorTask_pass fuel true w = Some (notices, w') ->
  (List.length notices <= 1)%nat.
Proof.
  unfold PortMonitorTask_pass. intros E.
  apply bind_inv in E. destruct E as (flags & w0 & _ & E).
  apply bind_inv in E. destruct E as ([f1 n1] & w1 & E1 & E).
  apply bind_inv in E. destruct E as ([f2 n2] & w2 & E2 & E).
  apply bind_inv in E. destruct E as ([f3 n3] & w3 & E3 & E).
  apply bind_inv in E. destruct E as ([f4 n4] & w4 & E4 & E).
  apply bind_inv in E. destruct E as ([f5 n5] & w5 & E5 & E).
  unfold ret in E. inversion E; subst notices w'. clear E.
  apply monitor_block_run in E1, E2, E3, E4, E5.
  cbn [snd].
  destruct (Z.land flags 16 =? 0).
  - destruct E1 as [-> ->].
    destruct (Z.land flags 8 =? 0).
    + destruct E2 as [-> ->].
      destruct (Z.land flags 4 =? 0).
      * destruct E3 as [-> ->].
        destruct (Z.land flags 2 =? 0).
        -- destruct E4 as [-> ->].
           destruct (Z.land flags 1 =? 0).
           ++ destruct E5 as [-> ->]. cbn. lia.
           ++ destruct E5 as [-> [n ->]]. cbn. lia.
        -- destruct E4 as [-> [n ->]]. cbn in E5.
           destruct E5 as [-> ->]. cbn. lia.
      * destruct E3 as [-> [n ->]]. cbn in E4. destruct E4 as [-> ->].
        cbn in E5. destruct E5 as [-> ->]. cbn. lia.
    + destruct E2 as [-> [n ->]]. cbn in E3. destruct E3 as [-> ->].
      cbn in E4. destruct E4 as [-> ->].
      cbn in E5. destruct E5 as [-> ->]. cbn. lia.
  - destruct E1 as [-> [n ->]]. cbn in E2. destruct E2 as [-> ->].
    cbn in E3. destruct E3 as [-> ->].
    cbn in E4. destruct E4 as [-> ->].
    cbn in E5. destruct E5 as [-> ->]. cbn. lia.
Qed.

(* ------------------------------------------------------------------ *)
(** On the device with the self-clearing flush bit the pass returns. *)

Lemma flush_bit_clear (x : Z) :
  Z.land (Z.shiftr (u8 (Z.land x (Z.lnot 0x20))) 5) 1 = 0.
Proof.
  apply Z.bits_inj'. intros n Hn.
  rewrite Z.land_spec, Z.shiftr_spec, Z.bits_0 by lia.
  destruct (Z.eq_dec n 0) as [-> | Hne].
  - unfold u8. rewrite !Z.land_spec.
    change (Z.testbit (Z.lnot 32) (0 + 5)) with false.
    rewrite andb_false_r. reflexivity.
  - replace (Z.testbit 1 n) with false; [apply andb_false_r | ].
    symmetry. apply (Z.bits_above_log2 1 n); cbn; lia.
Qed.

Lemma flush_bit_read_back (v : Z) (w : World Ksz) :
  ctrl_read_value GLOBAL_CONTROL_0_HEX
    (after_ctrl_write GLOBAL_CONTROL_0_HEX v w)
  = u8 (Z.land (u8 v) (Z.lnot 0x20)).
Proof.
  unfold ctrl_read_value, after_ctrl_write. cbn [ctrl].
  change (u8 GLOBAL_CONTROL_0_HEX) with 2.
  cbn [ksz_write ksz_read Ksz_Controller fst].
  change (2 =? INTERRUPT_STATUS_REGISTER) with false.
  change (2 =? GLOBAL_CONTROL_0_HEX) with true. cbv iota.
  cbn [ksz_regs]. rewrite upd_same. reflexivity.
Qed.

Lemma service_port_Ksz_run (fuel : nat) (flags status1 control2 : Z)
  (name : PortName) (w : World Ksz) :
  exists n w',
    service_port (S fuel) flags status1 control2 name w = Some (n, w').
Proof.
  unfold service_port.
  do 6 hal_step.
  cbn [while_loop].
  do 3 hal_step.
  rewrite flush_bit_read_back, flush_bit_clear.
  change (0 =? 0) with true. cbn [negb].
  repeat hal_step.
  unfold ret. eauto.
Qed.

Lemma monitor_block_Ksz_run (fuel : nat) (bit status1 control2 : Z)
  (name : PortName) (st : Z * list Notice) (w : World Ksz) :
  exists st' w',
    monitor_block (S fuel) bit status1 control2 name st w = Some (st', w').
Proof.
  unfold monitor_block. destruct st as [flags notices].
  destruct (negb (Z.land flags bit =? 0)).
  - destruct (service_port_Ksz_run fuel bit status1 control2 name w)
      as (n & w' & E).
    rewrite (bind_eq _ _ _ _ _ E). unfold ret. eauto.
  - unfold ret. eauto.
Qed.

Lemma PortMonitorTask_pass_Ksz_returns (fuel : nat) (w : World Ksz) :
  exists notices w',
    PortMonitorTask_pass (S fuel) true w = Some (notices, w').
Proof.
  unfold PortMonitorTask_pass.
  hal_step.
  repeat
    match goal with
    | |- context [bind (monitor_block (S fuel) ?b ?s ?c ?n ?st) _ ?w0] =>
        let E := fresh "E" in
        destruct (monitor_block_Ksz_run fuel b s c n st w0) as (? & ? & E);
        rewrite (bind_eq _ _ _ _ _ E); cbv beta
    end.
  unfold ret. eauto.
Qed.

(** C7.  The claim is that every bit set in the interrupt status read at
    the start of a pass is handled in that pass.  Each block of the task
    overwrites [flags] with the one bit it clears, so the tests of the
    blocks after it fail: whatever the controller and however many bits
    were set, a pass that returns has served at most one port; and on
    the device whose flush bit clears itself every pass returns, with at
    most one port served. *)
Theorem port_monitor_serves_at_most_one_port {D : Type} `{Controller D}
  (fuel : nat) (w : World D) (k : World Ksz) :
  (forall notices w',
      PortMonitorTask_pass fuel true w = Some (notices, w') ->
      (List.length notices <= 1)%nat)
  /\ (exists notices k',
         PortMonitorTask_pass (S fuel) true k = Some (notices, k')
         /\ (List.length notices <= 1)%nat).
Proof.
  split.
  - intros notices w'. apply PortMonitorTask_pass_at_most_one.
  - destruct (PortMonitorTask_pass_Ksz_returns fuel k)
      as (notices & k' & E).
    exists notices, k'. split; [exact E | ].
    exact (PortMonitorTask_pass_at_most_one _ _ _ _ E).
Qed.

Lemma port_monitor_serves_at_most_one_port_witness :
  exists w',
    PortMonitorTask_pass 1 true (pending_interrupts 0x18)
    = Some ([mkNotice ExpansionPort false], w')
    /\ (List.length [mkNotice ExpansionPort false] <= 1)%nat.
Proof.
  assert (E : { w' | PortMonitorTask_pass 1 true (pending_interrupts 0x18)
                     = Some ([mkNotice ExpansionPort false], w') })
    by (eexists; vm_compute; reflexivity).
  destruct E as [w' E]. exists w'. split; [exact E | ].
  exact (proj1 (port_monitor_serves_at_most_one_port 1
                  (pending_interrupts 0x18) (pending_interrupts 0x18))
           [mkNotice ExpansionPort false] w' E).
Defined.

(* ================================================================== *)
(** ** What the calls of the HAL leave on the record of the buses *)

Section Trace_facts.

Context {D : Type} `{Controller D}.

Lemma ctrl_writes_after_ctrl_read (a : Z) (w : World D) :
  ctrl_writes (trace (after_ctrl_read a w)) = ctrl_writes (trace w).
Proof. reflexivity. Qed.

Lemma ctrl_writes_after_ctrl_write (a v : Z) (w : World D) :
  ctrl_writes (trace (after_ctrl_write a v w))
  = (u8 a, u8 v) :: ctrl_writes (trace w).
Proof. reflexivity. Qed.

Lemma ctrl_writes_after_eeprom_read (a : Z) (w : World D) :
  ctrl_writes (trace (after_eeprom_read a w)) = ctrl_writes (trace w).
Proof. reflexivity. Qed.

Lemma ctrl_writes_after_eeprom_write (a b : Z) (w : World D) :
  ctrl_writes (trace (after_eeprom_write a b w)) = ctrl_writes (trace w).
Proof. reflexivity. Qed.

Lemma eeprom_writes_after_ctrl_read (a : Z) (w : World D) :
  eeprom_writes (trace (after_ctrl_read a w)) = eeprom_writes (trace w).
Proof. reflexivity. Qed.

Lemma eeprom_writes_after_ctrl_write (a v : Z) (w : World D) :
  eeprom_writes (trace (after_ctrl_write a v w)) = eeprom_writes (trace w).
Proof. reflexivity. Qed.

Lemma eeprom_writes_after_eeprom_read (a : Z) (w : World D) :
  eeprom_writes (trace (after_eeprom_read a w)) = eeprom_writes (trace w).
Proof. reflexivity. Qed.

Lemma eeprom_writes_after_eeprom_write (a b : Z) (w : World D) :
  0 <= a ->
  eeprom_writes (trace (after_eeprom_write a b w))
  = a mod 131072 :: eeprom_writes (trace w).
Proof.
  intros Ha. unfold after_eeprom_write, addr_bytes.
  cbn -[Z.land Z.shiftr ee_addr not8].
  rewrite ee_addr_bytes by exact Ha. reflexivity.
Qed.

(** A [for] loop whose body never leaves the function runs to its end and
    carries an invariant along. *)
Lemma for_loop_invariant {R : Type} (body : Z -> M D (option R))
  (I : Z -> World D -> Prop) (n : nat) :
  forall (i : Z) (w : World D),
    I i w ->
    (forall j w1, i <= j < i + Z.of_nat n -> I j w1 ->
                  exists w2, body j w1 = Some (None, w2) /\ I (j + 1) w2) ->
    exists w', for_loop n i body w = Some (None, w') /\ I (i + Z.of_nat n) w'.
Proof.
  induction n as [ | n IH]; intros i w Hi Hbody.
  - cbn. unfold ret. exists w. rewrite Z.add_0_r. auto.
  - cbn [for_loop]. rewrite Nat2Z.inj_succ in *.
    destruct (Hbody i w ltac:(lia) Hi) as (w1 & E1 & Hi1).
    unfold bind at 1. rewrite E1.
    destruct (IH (i + 1) w1 Hi1) as (w' & E' & Hi').
    { intros j w2 Hj. apply Hbody. lia. }
    exists w'. split; [exact E' | ].
    replace (i + Z.succ (Z.of_nat n)) with (i + 1 + Z.of_nat n) by lia.
    exact Hi'.
Qed.

End Trace_facts.

Lemma range_snoc {A : Type} (f : nat -> A) (n : nat) :
  rev (map f (seq 0 (S n))) = f n :: rev (map f (seq 0 n)).
Proof.
  rewrite seq_S, map_app, rev_app_distr. reflexivity.
Qed.

(* ================================================================== *)
(** ** The registers that are saved and restored *)

Section Register_image.

Context {D : Type} `{Controller D}.

Lemma restore_registers_run (w : World D) :
  exists w',
    restore_registers w = Some (None, w')
    /\ eeprom w' = eeprom w
    /\ ctrl_writes (trace w')
       = rev (map (fun reg => (Z.of_nat reg,
                               not8 (ee_mem (eeprom w)
                                       (EEPROM_SWITCH_CONFIG_BASE
                                        + Z.of_nat reg))))
                (seq 0 255))
         ++ ctrl_writes (trace w).
Proof.
  unfold restore_registers.
  destruct (for_loop_invariant (R := bool)
              (fun reg =>
                 v <- EEPROMSingleRead (EEPROM_SWITCH_CONFIG_BASE + reg) ;;
                 EthoControllerSingleWrite reg v ;; ret None)%hal
              (fun j w1 =>
                 eeprom w1 = eeprom w
                 /\ ctrl_writes (trace w1)
                    = rev (map (fun reg =>
                                  (Z.of_nat reg,
                                   not8 (ee_mem (eeprom w)
                                           (EEPROM_SWITCH_CONFIG_BASE
                                            + Z.of_nat reg))))
                             (seq 0 (Z.to_nat j)))
                      ++ ctrl_writes (trace w))
              (Z.to_nat 0xFF) 0 w)
    as (w' & E & He & Ht).
  - split; reflexivity.
  - intros j w1 Hj [He1 Ht1].
    unfold EEPROM_SWITCH_CONFIG_BASE.
    unfold bind at 1. rewrite EEPROMSingleRead_eq by lia.
    unfold bind at 1. rewrite EthoControllerSingleWrite_eq.
    unfold ret. eexists. split; [reflexivity | ].
    split; [cbn; exact He1 | ].
    rewrite ctrl_writes_after_ctrl_write, ctrl_writes_after_eeprom_read, Ht1.
    replace (Z.to_nat (j + 1)) with (S (Z.to_nat j)) by lia.
    rewrite range_snoc. cbn [app]. f_equal.
    unfold eeprom_read_value, EEPROM_SWITCH_CONFIG_BASE. rewrite He1.
    rewrite Z2Nat.id by lia.
    rewrite (u8_id j) by (unfold is_byte; lia).
    rewrite (u8_id (not8 _)) by apply not8_byte.
    rewrite Z.mod_small by lia. reflexivity.
  - exists w'. auto.
Qed.

Lemma save_registers_run (w : World D) :
  exists w',
    save_registers w = Some (None, w')
    /\ eeprom_writes (trace w')
       = rev (map (fun reg => 0x100 + Z.of_nat reg) (seq 0 255))
         ++ eeprom_writes (trace w)
    /\ (forall x, x < 0x100 \/ 0x1FE < x ->
                  ee_mem (eeprom w') x = ee_mem (eeprom w) x).
Proof.
  unfold save_registers.
  match goal with
  | |- context [for_loop _ _ ?body] =>
      destruct (for_loop_invariant body
                  (fun j w1 =>
                     eeprom_writes (trace w1)
                     = rev (map (fun reg => 0x100 + Z.of_nat reg)
                              (seq 0 (Z.to_nat j)))
                       ++ eeprom_writes (trace w)
                     /\ (forall x, x < 0x100 \/ 0x1FE < x ->
                                   ee_mem (eeprom w1) x = ee_mem (eeprom w) x))
                  (Z.to_nat 0xFF) 0 w)
        as (w' & E & Ht & Hm)
  end.
  - split; [reflexivity | auto].
  - intros j w1 Hj [Ht1 Hm1].
    unfold bind at 1. rewrite EthoControllerSingleRead_eq.
    unfold bind at 1.
    rewrite EEPROMSingleWrite_eq by (lia || apply u8_range).
    cbn [negb]. unfold ret. eexists. split; [reflexivity | ]. split.
    + rewrite eeprom_writes_after_eeprom_write by lia.
      rewrite eeprom_writes_after_ctrl_read, Ht1.
      replace (Z.to_nat (j + 1)) with (S (Z.to_nat j)) by lia.
      rewrite range_snoc. cbn [app]. f_equal.
      rewrite Z2Nat.id by lia. apply Z.mod_small. lia.
    + intros x Hx. cbn [after_eeprom_write after_ctrl_read eeprom ee_mem].
      rewrite Z.mod_small by lia. rewrite upd_other by lia.
      apply Hm1. exact Hx.
  - exists w'. auto.
Qed.

Lemma restore_log_globals_run (w : World D) :
  exists g' w',
    restore_log_globals w = Some (g', w')
    /\ ctrl_writes (trace w') = ctrl_writes (trace w).
Proof.
  unfold restore_log_globals.
  unfold EEPROM_FIRMWARE_LOGFLAGS_1, EEPROM_FIRMWARE_LOGFLAGS_2,
    EEPROM_FIRMWARE_LOGFLAGS_3, EEPROM_FIRMWARE_LOGFLAGS_4,
    EEPROM_FIRMWARE_NEXTLOG_1, EEPROM_FIRMWARE_NEXTLOG_2,
    EEPROM_FIRMWARE_NEXTLOG_3, EEPROM_FIRMWARE_NEXTLOG_4.
  do 8 (erewrite bind_eq by (apply EEPROMSingleRead_eq; lia); cbv beta).
  unfold ret. eexists. eexists. split; reflexivity.
Qed.

(** The four upper bits of the flag byte, one at a time. *)
Lemma flag_bits_of_upper_nibble (flags : Z) :
  Z.land flags 0xF0 = 0x40 ->
  Z.land flags 0x80 = 0 /\ Z.land flags 0x40 = 0x40
  /\ Z.land flags 0x20 = 0 /\ Z.land flags 0x10 = 0.
Proof.
  intros Hf.
  assert (E : forall m, Z.land flags (Z.land 0xF0 m) = Z.land 0x40 m)
    by (intros m; rewrite Z.land_assoc, Hf; reflexivity).
  repeat split;
    [exact (E 0x80) | exact (E 0x40) | exact (E 0x20) | exact (E 0x10)].
Qed.

(** The boot with bit 6 alone among the upper bits of the flag byte:
    neither the chip erase nor the restore of VLANs and users runs, and
    the registers written are those of the register loop. *)
Lemma InitializeEEPROM_run (g : LogGlobals) (users : list User_Data)
  (w : World D) :
  Z.land (eeprom_read_value EEPROM_FIRMWARE_SETTINGS w) 0xF0 = 0x40 ->
  exists g' w',
    InitializeEEPROM g users w = Some ((true, g', users), w')
    /\ ctrl_writes (trace w')
       = rev (map (fun reg => (Z.of_nat reg,
                               not8 (ee_mem (eeprom w)
                                       (EEPROM_SWITCH_CONFIG_BASE
                                        + Z.of_nat reg))))
                (seq 0 255))
         ++ ctrl_writes (trace w).
Proof.
  intros Hflags.
  destruct (flag_bits_of_upper_nibble _ Hflags) as (H7 & H6 & H5 & H4).
  unfold InitializeEEPROM.
  erewrite bind_eq
    by (apply EEPROMSingleRead_eq; unfold EEPROM_FIRMWARE_SETTINGS; lia).
  cbv beta. rewrite H7, H6, H5, H4.
  change (0 =? 128) with false. change (64 =? 64) with true.
  change (0 =? 32) with false. change (0 =? 16) with false. cbv iota.
  unfold bind at 1, ret at 1.
  destruct (restore_registers_run
              (after_eeprom_read EEPROM_FIRMWARE_SETTINGS w))
    as (w1 & E1 & He1 & Ht1).
  rewrite (bind_eq _ _ _ _ _ E1). cbv beta.
  destruct (restore_log_globals_run w1) as (g' & w2 & E2 & Ht2).
  rewrite (bind_eq _ _ _ _ _ E2). cbv beta.
  unfold bind, ret. exists g', w2. split; [reflexivity | ].
  rewrite Ht2, Ht1. reflexivity.
Qed.

End Register_image.

(** C2.  The claim is that restore and save cover the registers 0x00 to
    0xFF.  Both loops run while the register is less than 0xFF.  A boot
    that finds bit 6 of the flag byte set (and bits 7, 5 and 4 clear, so
    that nothing else writes to the controller) writes the 255 registers
    0x00 to 0xFE, each with the byte read from the EEPROM at 0x100 plus
    the register, and the register loop of the save writes the 255 cells
    0x100 to 0x1FE.  Register 0xFF is neither restored nor saved, and the
    cell 0x1FF is left as it was. *)
Theorem register_image_stops_at_0xFE {D : Type} `{Controller D}
  (w : World D) (g : LogGlobals) (users : list User_Data) :
  Z.land (eeprom_read_value EEPROM_FIRMWARE_SETTINGS w) 0xF0 = 0x40 ->
  (exists g' w',
      InitializeEEPROM g users w = Some ((true, g', users), w')
      /\ ctrl_writes (trace w')
         = rev (map (fun reg => (Z.of_nat reg,
                                 not8 (ee_mem (eeprom w)
                                         (EEPROM_SWITCH_CONFIG_BASE
                                          + Z.of_nat reg))))
                  (seq 0 255))
           ++ ctrl_writes (trace w))
  /\ (exists w',
         save_registers w = Some (None, w')
         /\ eeprom_writes (trace w')
            = rev (map (fun reg => 0x100 + Z.of_nat reg) (seq 0 255))
              ++ eeprom_writes (trace w)
         /\ ee_mem (eeprom w') 0x1FF = ee_mem (eeprom w) 0x1FF).
Proof.
  intros Hflags. split.
  - apply InitializeEEPROM_run. exact Hflags.
  - destruct (save_registers_run w) as (w' & E & Ht & Hm).
    exists w'. repeat split; try assumption. apply Hm. lia.
Qed.

(** A boot from an EEPROM that holds the flag byte 0x40 and is erased
    elsewhere, and a save in the same world. *)
Lemma register_image_stops_at_0xFE_witness :
  (exists g' w',
      InitializeEEPROM (mkLogGlobals 0 EEPROM_LOG_BASE) []
        (flagged_world 0x40)
      = Some ((true, g', []), w')
      /\ ctrl_writes (trace w')
         = rev (map (fun reg => (Z.of_nat reg,
                                 not8 (ee_mem (eeprom (flagged_world 0x40))
                                         (EEPROM_SWITCH_CONFIG_BASE
                                          + Z.of_nat reg))))
                  (seq 0 255))
           ++ ctrl_writes (trace (flagged_world 0x40)))
  /\ (exists w',
         save_registers (flagged_world 0x40) = Some (None, w')
         /\ eeprom_writes (trace w')
            = rev (map (fun reg => 0x100 + Z.of_nat reg) (seq 0 255))
              ++ eeprom_writes (trace (flagged_world 0x40))
         /\ ee_mem (eeprom w') 0x1FF
            = ee_mem (eeprom (flagged_world 0x40)) 0x1FF).
Proof.
  apply (register_image_stops_at_0xFE (flagged_world 0x40)
           (mkLogGlobals 0 EEPROM_LOG_BASE) []).
  vm_compute. reflexivity.
Defined.

(* ================================================================== *)
(** ** Setting a VLAN entry *)

Section VLAN_entry.

Context {D : Type} `{Controller D}.

(** Selecting a row of the table writes the two indirect-access control
    registers and nothing else. *)
Lemma indirect_select_read_run (a : Z) (w : World D) :
  exists w',
    indirect_select_read a w = Some (true, w')
    /\ eeprom w' = eeprom w
    /\ eeprom_writes (trace w') = eeprom_writes (trace w)
    /\ map fst (ctrl_writes (trace w'))
       = [INDIRECT_ACCESS_CONTROL_1; INDIRECT_ACCESS_CONTROL_0]
         ++ map fst (ctrl_writes (trace w)).
Proof.
  unfold indirect_select_read.
  unfold bind at 1. rewrite EthoControllerSingleRead_eq.
  unfold bind at 1. rewrite EthoControllerSingleWrite_eq. cbn [negb].
  unfold bind at 1. rewrite EthoControllerSingleRead_eq.
  rewrite EthoControllerSingleWrite_eq.
  eexists. split; [reflexivity | ]. repeat split.
Qed.

Lemma indirect_select_write_run (a : Z) (w : World D) :
  exists w',
    indirect_select_write a w = Some (true, w')
    /\ eeprom w' = eeprom w
    /\ eeprom_writes (trace w') = eeprom_writes (trace w)
    /\ map fst (ctrl_writes (trace w'))
       = [INDIRECT_ACCESS_CONTROL_1; INDIRECT_ACCESS_CONTROL_0]
         ++ map fst (ctrl_writes (trace w)).
Proof.
  unfold indirect_select_write.
  unfold bind at 1. rewrite EthoControllerSingleRead_eq.
  unfold bind at 1. rewrite EthoControllerSingleWrite_eq. cbn [negb].
  unfold bind at 1. rewrite EthoControllerSingleRead_eq.
  rewrite EthoControllerSingleWrite_eq.
  eexists. split; [reflexivity | ]. repeat split.
Qed.

(** [AssertVLANS] answers a byte, leaves the EEPROM alone, and writes no
    register but the control-1 registers of the four ports. *)
Lemma AssertVLANS_loop_run (vlan_id port_id : Z) (bases : list Z) :
  forall (i mask : Z) (w : World D),
    is_byte mask ->
    exists mask' w' l,
      AssertVLANS_loop vlan_id port_id i bases mask w = Some (mask', w')
      /\ is_byte mask'
      /\ eeprom w' = eeprom w
      /\ eeprom_writes (trace w') = eeprom_writes (trace w)
      /\ map fst (ctrl_writes (trace w'))
         = l ++ map fst (ctrl_writes (trace w))
      /\ Forall (fun a => In a (map (fun base =>
                                       u8 (PORT_CONTROL1_OFFSET_HEX + base))
                                  bases)) l.
Proof.
  induction bases as [ | base rest IH]; intros i mask w Hmask.
  - cbn. unfold ret. exists mask, w, [].
    split; [reflexivity | ]. split; [exact Hmask | ]. repeat split; auto.
  - cbn [AssertVLANS_loop].
    unfold bind at 1. rewrite EthoControllerSingleRead_eq.
    unfold bind at 1. rewrite EthoControllerSingleRead_eq.
    unfold bind at 1. rewrite EthoControllerSingleRead_eq.
    match goal with |- context [if ?c then _ else _] => destruct c end.
    + unfold bind at 1. rewrite EthoControllerSingleWrite_eq.
      match goal with
      | |- context [AssertVLANS_loop _ _ _ rest ?m ?w0] =>
          destruct (IH (i + 1) m w0 (u8_range _))
            as (mask' & w' & l & E & Hb & He & Hw & Hc & Hall)
      end.
      exists mask', w', (l ++ [u8 (PORT_CONTROL1_OFFSET_HEX + base)]).
      split; [exact E | ]. split; [exact Hb | ].
      repeat split; try assumption.
      * rewrite Hc. rewrite <- app_assoc. reflexivity.
      * apply Forall_app. split.
        -- eapply Forall_impl; [ | exact Hall].
           intros a Ha. right. exact Ha.
        -- constructor; [left; reflexivity | constructor].
    + match goal with
      | |- context [AssertVLANS_loop _ _ _ rest ?m ?w0] =>
          destruct (IH (i + 1) m w0 Hmask)
            as (mask' & w' & l & E & Hb & He & Hw & Hc & Hall)
      end.
      exists mask', w', l.
      split; [exact E | ]. split; [exact Hb | ].
      repeat split; try assumption.
      eapply Forall_impl; [ | exact Hall].
      intros a Ha. right. exact Ha.
Qed.

End VLAN_entry.

(** C10.  [COM_SetVLANEntry] with VLAN id 0: the id is not rejected and
    the handler succeeds; it takes the path of position 0, on which the
    data registers it writes are [INDIRECT_REGISTER_DATA_1] and then
    [INDIRECT_REGISTER_DATA_0] (between the two selections of the row,
    with at most the control-1 registers of the ports written by
    [AssertVLANS] before them); and its one write to the EEPROM is to cell
    0x1FF, the last cell of the register image below the VLAN table at
    0x200, which then holds the mirror byte inverted while every other
    cell is as before. *)
Theorem set_vlan_entry_zero_writes_below_table {D : Type} `{Controller D}
  (w : World D) (port_addr : Z) :
  exists w' port_membership asserted,
    COM_SetVLANEntry port_addr 0 w = Some (true, w')
    /\ is_byte port_membership
    /\ map fst (ctrl_writes (trace w'))
       = [INDIRECT_ACCESS_CONTROL_1; INDIRECT_ACCESS_CONTROL_0;
          INDIRECT_REGISTER_DATA_0; INDIRECT_REGISTER_DATA_1]
         ++ asserted
         ++ [INDIRECT_ACCESS_CONTROL_1; INDIRECT_ACCESS_CONTROL_0]
         ++ map fst (ctrl_writes (trace w))
    /\ Forall (fun a => In a [0x11; 0x21; 0x31; 0x41]) asserted
    /\ eeprom_writes (trace w')
       = (EEPROM_VLAN_TABLE_BASE - 1) :: eeprom_writes (trace w)
    /\ EEPROM_SWITCH_CONFIG_BASE <= EEPROM_VLAN_TABLE_BASE - 1 <= 0x1FF
    /\ ee_mem (eeprom w') 0x1FF = not8 (u8 (0x80 + port_membership))
    /\ (forall x, x <> 0x1FF -> ee_mem (eeprom w') x = ee_mem (eeprom w) x).
Proof.
  unfold COM_SetVLANEntry. change (4095 <? 0) with false. cbv iota.
  change (0 / 4) with 0.
  destruct (indirect_select_read_run 0 w) as (w1 & E1 & He1 & Hw1 & Hc1).
  hal_step. cbn [negb].
  unfold SetVLANEntry_switch. change (0 mod 4) with 0. cbv iota.
  unfold and_then. repeat hal_step.
  unfold AssertVLANS.
  match goal with
  | |- context [bind (AssertVLANS_loop 0 port_addr 0 port_base_addrs 0) _
                  ?w0] =>
      destruct (AssertVLANS_loop_run 0 port_addr port_base_addrs 0 0 w0
                  ltac:(unfold is_byte; lia))
        as (pm & w2 & l & E2 & Hpm & He2 & Hw2 & Hc2 & Hall)
  end.
  repeat hal_step.
  change (u32 (512 + u32 (0 - 1))) with 0x1FF.
  repeat hal_step.
  match goal with
  | |- context [indirect_select_write 0 ?w0] =>
      destruct (indirect_select_write_run 0 w0)
        as (w3 & E3 & He3 & Hw3 & Hc3)
  end.
  exists w3, pm, l. split; [exact E3 | ]. split; [exact Hpm | ].
  split; [ | split; [exact Hall | ]].
  - rewrite Hc3. cbn [after_eeprom_write after_ctrl_write after_ctrl_read
                        trace ctrl_writes map fst app].
    rewrite Hc2. cbn [after_ctrl_read trace ctrl_writes].
    rewrite Hc1. reflexivity.
  - split; [ | split; [unfold EEPROM_SWITCH_CONFIG_BASE,
                         EEPROM_VLAN_TABLE_BASE; lia | ]].
    + rewrite Hw3. rewrite eeprom_writes_after_eeprom_write by lia.
      cbn [after_ctrl_write after_ctrl_read trace eeprom_writes].
      rewrite Hw2. cbn [after_ctrl_read trace eeprom_writes].
      rewrite Hw1. reflexivity.
    + rewrite He3.
      cbn [after_eeprom_write after_ctrl_write after_ctrl_read eeprom ee_mem].
      change (511 mod 131072) with 511. split.
      * apply upd_same.
      * intros x Hx. rewrite upd_other by exact Hx.
        rewrite He2. cbn [after_ctrl_read eeprom]. rewrite He1. reflexivity.
Qed.

(* ================================================================== *)
(** ** Saving the VLAN table *)

Section VLAN_save.

Context {D : Type} `{Controller D}.

(** A page erase, as the firmware issues it, returns after one poll and
    changes no cell: the erase frame falls short of an instruction. *)
Lemma EEPROMPageErase_run (fuel : nat) (a : Z) (w : World D) :
  exists w',
    EEPROMPageErase (S fuel) a w = Some (true, w')
    /\ ee_mem (eeprom w') = ee_mem (eeprom w)
    /\ eeprom_writes (trace w') = eeprom_writes (trace w)
    /\ ctrl_writes (trace w') = ctrl_writes (trace w).
Proof.
  unfold EEPROMPageErase.
  hal_step.
  unfold bind, ssi0, xSemaphoreGive, ret, EEPROMPageErase_poll.
  cbn [map eeprom ctrl spi0_taken spi1_taken logger_running logger_queue
         trace].
  change (u8 WRITE_ENABLE) with 0x06.
  change (u8 PAGE_ERASE_COMMAND) with 0x42.
  change (u8 READ_STATUS) with 0x05.
  cbn -[u8].
  eexists. split; [reflexivity | ]. repeat split.
Qed.

Lemma EthoControllerBulkRead_loop_run (n : nat) :
  forall (a : Z) (out : list Z) (w : World D),
    Forall is_byte out ->
    exists out' w',
      EthoControllerBulkRead_loop n a out w = Some (out', w')
      /\ Forall is_byte out'
      /\ eeprom w' = eeprom w
      /\ spi0_taken w' = spi0_taken w
      /\ eeprom_writes (trace w') = eeprom_writes (trace w)
      /\ ctrl_writes (trace w') = ctrl_writes (trace w).
Proof.
  induction n as [ | n IH]; intros a out w Hout.
  - cbn. unfold ret. exists out, w. auto 10.
  - cbn [EthoControllerBulkRead_loop].
    unfold bind at 1, ssi1 at 1.
    cbn [map]. change (u8 READ_COMMAND) with 0x03.
    unfold ksz_spi. cbn [fst snd last].
    match goal with
    | |- context [EthoControllerBulkRead_loop n ?a1 ?out1 ?w1] =>
        destruct (IH a1 out1 w1) as (out' & w' & E & Hb & He & H0 & Hw & Hc)
    end.
    { apply Forall_app. split; [exact Hout | ].
      constructor; [apply u8_range | constructor]. }
    exists out', w'. split; [exact E | ]. auto 10.
Qed.

(** The body of the loop over the VLAN ids writes the record of the id
    and nothing else to the EEPROM. *)
Lemma save_vlan_entry_run (vlan_id : Z) (w : World D) :
  1 <= vlan_id <= 4095 ->
  exists w',
    save_vlan_entry vlan_id w = Some (None, w')
    /\ eeprom_writes (trace w')
       = (0x200 + (vlan_id - 1)) :: eeprom_writes (trace w).
Proof.
  intros Hid. unfold save_vlan_entry.
  destruct (indirect_select_read_run (vlan_id / 4) w)
    as (w1 & E1 & He1 & Hw1 & Hc1).
  hal_step.
  unfold EthoControllerBulkRead.
  change (255 <? INDIRECT_REGISTER_DATA_6 + 7) with false. cbv iota.
  do 5 hal_step.
  cbn [eeprom ctrl spi0_taken spi1_taken logger_running logger_queue trace].
  match goal with
  | |- context [bind (EthoControllerBulkRead_loop ?n ?a ?out) _ ?w0] =>
      destruct (EthoControllerBulkRead_loop_run n a out w0 (Forall_nil _))
        as (out' & w2 & E2 & Hb2 & He2 & H02 & Hw2 & Hc2)
  end.
  rewrite (bind_eq _ _ _ _ _ E2). cbv beta.
  rewrite bind_assoc.
  unfold bind at 1, xSemaphoreGive at 1.
  unfold bind at 1, ret at 1. cbn [snd].
  rewrite (u32_small (vlan_id - 1)) by lia.
  rewrite (u32_small (512 + (vlan_id - 1))) by lia.
  match goal with
  | |- context [let '(_, _) := ?p in _] => destruct p as [vlan_status pm]
  end.
  erewrite bind_eq by (apply EEPROMSingleWrite_eq; [lia | apply u8_range]).
  cbn [negb]. unfold ret.
  eexists. split; [reflexivity | ].
  rewrite eeprom_writes_after_eeprom_write by lia.
  cbn [trace]. rewrite Hw2. cbn [trace eeprom_writes]. rewrite Hw1.
  rewrite Z.mod_small by lia. reflexivity.
Qed.

End VLAN_save.

Lemma flag_bit_set (flag_data : Z) :
  Z.testbit (u8 (Z.lor flag_data (Z.shiftl 1 FLAG_CONFIG_VLAN_VALID))) 5
  = true.
Proof.
  unfold u8. rewrite Z.land_spec, Z.lor_spec.
  change (Z.testbit (Z.shiftl 1 FLAG_CONFIG_VLAN_VALID) 5) with true.
  rewrite orb_true_r. reflexivity.
Qed.

Lemma flag_bit_cleared (flag_data : Z) :
  Z.testbit
    (u8 (Z.land flag_data (Z.lnot (Z.shiftl 1 FLAG_CONFIG_VLAN_VALID)))) 5
  = false.
Proof.
  unfold u8. rewrite !Z.land_spec.
  change (Z.testbit (Z.lnot (Z.shiftl 1 FLAG_CONFIG_VLAN_VALID)) 5)
    with false.
  rewrite andb_false_r. reflexivity.
Qed.

(** C9.  The test [global_control_3 && 0x80] of
    [COM_SaveSwitchConfiguration] is a logical conjunction.  When the
    register read as [global_control_3] is zero the branch is skipped: no
    page is erased, nothing is written, and bit 5 of the flag byte is
    cleared.  For every other value, whatever its bit 7, the branch runs
    to its end: the 4095 records of the VLAN ids 1 to 4095 are written to
    the EEPROM cells from 0x200 on, in this order, and bit 5 of the flag
    byte is set. *)
Theorem vlan_save_guard_is_logical {D : Type} `{Controller D}
  (fuel : nat) (flag_data : Z) (w : World D) :
  if ctrl_read_value GLOBAL_CONTROL_3_HEX w =? 0
  then
    let flag' :=
      u8 (Z.land flag_data (Z.lnot (Z.shiftl 1 FLAG_CONFIG_VLAN_VALID))) in
    save_vlans (S fuel) flag_data w
    = Some ((None, flag'), after_ctrl_read GLOBAL_CONTROL_3_HEX w)
    /\ Z.testbit flag' 5 = false
  else
    let flag' :=
      u8 (Z.lor flag_data (Z.shiftl 1 FLAG_CONFIG_VLAN_VALID)) in
    exists w',
      save_vlans (S fuel) flag_data w = Some ((None, flag'), w')
      /\ Z.testbit flag' 5 = true
      /\ eeprom_writes (trace w')
         = rev (map (fun k => 0x200 + Z.of_nat k) (seq 0 (Z.to_nat 4095)))
           ++ eeprom_writes (trace w).
Proof.
  unfold save_vlans. hal_step. unfold logical_and, truthy.
  destruct (ctrl_read_value GLOBAL_CONTROL_3_HEX w =? 0) eqn:Egc.
  - cbn [negb andb]. unfold ret.
    split; [reflexivity | apply flag_bit_cleared].
  - change (128 =? 0) with false. cbn [negb andb].
    match goal with
    | |- context [bind (for_loop 16 0 ?body) _ ?w0] =>
        destruct (for_loop_invariant body
                    (fun _ w1 =>
                       eeprom_writes (trace w1) = eeprom_writes (trace w))
                    16 0 w0)
          as (w1 & E1 & Hw1)
    end.
    { reflexivity. }
    { intros j w1 _ Hj.
      destruct (EEPROMPageErase_run fuel (512 + j * 256) w1)
        as (w2 & E2 & _ & Hw2 & _).
      exists w2. split.
      - rewrite (bind_eq _ _ _ _ _ E2). reflexivity.
      - rewrite Hw2. exact Hj. }
    rewrite (bind_eq _ _ _ _ _ E1). cbv beta iota.
    match goal with
    | |- context [bind (for_loop ?n 1 save_vlan_entry) _ ?w0] =>
        destruct (for_loop_invariant save_vlan_entry
                    (fun j w2 =>
                       eeprom_writes (trace w2)
                       = rev (map (fun k => 0x200 + Z.of_nat k)
                                (seq 0 (Z.to_nat (j - 1))))
                         ++ eeprom_writes (trace w))
                    n 1 w0)
          as (w2 & E2 & Hw2)
    end.
    { exact Hw1. }
    { intros j w2 Hj Hinv.
      destruct (save_vlan_entry_run j w2 ltac:(lia)) as (w3 & E3 & Hw3).
      exists w3. split; [exact E3 | ].
      rewrite Hw3, Hinv.
      replace (Z.to_nat (j + 1 - 1)) with (S (Z.to_nat (j - 1))) by lia.
      rewrite range_snoc. cbn [app]. f_equal.
      rewrite Z2Nat.id by lia. reflexivity. }
    rewrite (bind_eq _ _ _ _ _ E2). cbv beta iota. unfold ret.
    exists w2. split; [reflexivity | ]. split; [apply flag_bit_set | ].
    rewrite Hw2. do 3 f_equal; lia.
Qed.

(* ################################################################## *)
(** * Beyond the specification: further properties of the code *)

(* ================================================================== *)
(** ** The EEPROM operations of the HAL at their edges *)

Section EEPROM_edges.

Context {D : Type} `{Controller D}.

Lemma EEPROMChipErase_run (w : World D) :
  exists w',
    EEPROMChipErase w = Some (true, w')
    /\ ee_mem (eeprom w') = (fun _ => 0xFF)
    /\ ctrl w' = ctrl w
    /\ spi0_taken w' = false
    /\ ctrl_writes (trace w') = ctrl_writes (trace w).
Proof.
  unfold EEPROMChipErase.
  unfold bind, xSemaphoreTake, ssi0, xSemaphoreGive, ret.
  destruct (spi0_taken w);
    cbn; eexists; (split; [reflexivity | cbn; auto]).
Qed.

End EEPROM_edges.

(** X1.  [EEPROMSingleWrite] and [EEPROMSingleRead] do not check the
    address.  The device decodes 17 bits of it, so a write to an address
    beyond the array lands in the cell of the address modulo 131072,
    where a read finds it. *)
Theorem EEPROM_single_address_wraps {D : Type} `{Controller D}
  (w : World D) (a k b : Z) :
  0 <= a < 131072 -> 0 <= k -> a + k * 131072 < 2 ^ 32 -> is_byte b ->
  exists w1 w2,
    EEPROMSingleWrite (a + k * 131072) b w = Some (true, w1)
    /\ ee_mem (eeprom w1) a = not8 b
    /\ EEPROMSingleRead a w1 = Some (b, w2).
Proof.
  intros Ha Hk Hmax Hb.
  exists (after_eeprom_write (a + k * 131072) b w). eexists.
  rewrite EEPROMSingleWrite_eq by (assumption || nia).
  rewrite EEPROMSingleRead_eq by lia.
  split; [reflexivity | ].
  unfold eeprom_read_value.
  cbn [after_eeprom_write eeprom ee_mem].
  rewrite Z_mod_plus_full. rewrite !Z.mod_small by lia.
  rewrite upd_same. rewrite not8_involutive by assumption. auto.
Qed.

Lemma EEPROM_single_address_wraps_witness :
  exists w1 w2,
    EEPROMSingleWrite (0x1E + 1 * 131072) 0x40
      (idle_world (fun _ : Z => 0)) = Some (true, w1)
    /\ ee_mem (eeprom w1) 0x1E = not8 0x40
    /\ EEPROMSingleRead 0x1E w1 = Some (0x40, w2).
Proof.
  apply (EEPROM_single_address_wraps (D := RegFile)
           (idle_world (fun _ : Z => 0)) 0x1E 1 0x40);
    unfold is_byte; lia.
Defined.

(** X2.  A single write changes the cell it addresses and no other: a
    read of any other cell of the array answers what it answered
    before. *)
Theorem EEPROMSingleWrite_leaves_other_cells {D : Type} `{Controller D}
  (w : World D) (a a' b : Z) :
  0 <= a < 131072 -> 0 <= a' < 131072 -> a' <> a -> is_byte b ->
  exists w1 w2 w3,
    EEPROMSingleWrite a b w = Some (true, w1)
    /\ EEPROMSingleRead a' w1 = Some (eeprom_read_value a' w, w2)
    /\ EEPROMSingleRead a' w = Some (eeprom_read_value a' w, w3)
    /\ ctrl w1 = ctrl w.
Proof.
  intros Ha Ha' Hne Hb.
  exists (after_eeprom_write a b w). do 2 eexists.
  rewrite EEPROMSingleWrite_eq by (assumption || lia).
  rewrite !EEPROMSingleRead_eq by lia.
  split; [reflexivity | ]. split; [ | split; reflexivity].
  f_equal. f_equal.
  unfold eeprom_read_value.
  cbn [after_eeprom_write eeprom ee_mem].
  rewrite !Z.mod_small by lia. rewrite upd_other by exact Hne. reflexivity.
Qed.

Lemma EEPROMSingleWrite_leaves_other_cells_witness :
  exists w1 w2 w3,
    EEPROMSingleWrite 0x200 0x84 (flagged_world 0x40) = Some (true, w1)
    /\ EEPROMSingleRead 0x1E w1
       = Some (eeprom_read_value 0x1E (flagged_world 0x40), w2)
    /\ EEPROMSingleRead 0x1E (flagged_world 0x40)
       = Some (eeprom_read_value 0x1E (flagged_world 0x40), w3)
    /\ ctrl w1 = ctrl (flagged_world 0x40).
Proof.
  apply (EEPROMSingleWrite_leaves_other_cells (flagged_world 0x40)
           0x200 0x1E 0x84); unfold is_byte; lia.
Defined.

(** X3.  The HAL does not wait for its mutex: [xSemaphoreTake] is called
    with no block time and its answer is not looked at.  An operation
    entered while the mutex is held by another task runs its SPI
    transaction all the same, and gives the mutex on its way out. *)
Theorem HAL_runs_without_the_mutex {D : Type} `{Controller D}
  (w : World D) (a b r v : Z) :
  0 <= a < 131072 -> is_byte b ->
  spi0_taken w = true -> spi1_taken w = true ->
  (exists w1,
      EEPROMSingleWrite a b w = Some (true, w1)
      /\ ee_mem (eeprom w1) a = not8 b
      /\ spi0_taken w1 = false)
  /\ (exists w1,
         EthoControllerSingleWrite r v w = Some (true, w1)
         /\ ctrl w1 = ksz_write (u8 r) (u8 v) (ctrl w)
         /\ spi1_taken w1 = false).
Proof.
  intros Ha Hb _ _. split.
  - rewrite EEPROMSingleWrite_eq by (assumption || lia).
    eexists. split; [reflexivity | ].
    cbn [after_eeprom_write eeprom ee_mem spi0_taken].
    rewrite Z.mod_small by lia. rewrite upd_same. auto.
  - rewrite EthoControllerSingleWrite_eq.
    eexists. split; [reflexivity | ]. cbn. auto.
Qed.

Lemma HAL_runs_without_the_mutex_witness :
  (exists w1,
      EEPROMSingleWrite 0x300 0xAB
        (mkWorld (mkEEPROM25 (fun _ => 0xFF) false) (fun _ : Z => 0)
           true true false [] [])
      = Some (true, w1)
      /\ ee_mem (eeprom w1) 0x300 = not8 0xAB
      /\ spi0_taken w1 = false)
  /\ (exists w1,
         EthoControllerSingleWrite 0x05 0x80
           (mkWorld (mkEEPROM25 (fun _ => 0xFF) false) (fun _ : Z => 0)
              true true false [] [])
         = Some (true, w1)
         /\ ctrl w1 = ksz_write (u8 0x05) (u8 0x80) (fun _ : Z => 0)
         /\ spi1_taken w1 = false).
Proof.
  apply (HAL_runs_without_the_mutex (D := RegFile)
           (mkWorld (mkEEPROM25 (fun _ => 0xFF) false) (fun _ : Z => 0)
              true true false [] [])
           0x300 0xAB 0x05 0x80);
    first [reflexivity | unfold is_byte; lia].
Defined.

(** X4.  After [EEPROMChipErase] every cell holds 0xFF, which the HAL
    reads as 0x00: [EEPROMSingleRead] of any address answers 0. *)
Theorem EEPROMChipErase_reads_zero {D : Type} `{Controller D}
  (w : World D) (a : Z) :
  0 <= a ->
  exists w1 w2,
    EEPROMChipErase w = Some (true, w1)
    /\ (forall x, ee_mem (eeprom w1) x = 0xFF)
    /\ EEPROMSingleRead a w1 = Some (0, w2).
Proof.
  intros Ha.
  destruct (EEPROMChipErase_run w) as (w1 & E & Hm & _).
  exists w1. eexists. rewrite E, EEPROMSingleRead_eq by lia.
  split; [reflexivity | ]. split.
  - intros x. rewrite Hm. reflexivity.
  - unfold eeprom_read_value. rewrite Hm. reflexivity.
Qed.

Lemma EEPROMChipErase_reads_zero_witness :
  exists w1 w2,
    EEPROMChipErase (flagged_world 0x40) = Some (true, w1)
    /\ (forall x, ee_mem (eeprom w1) x = 0xFF)
    /\ EEPROMSingleRead 0x1E w1 = Some (0, w2).
Proof.
  apply (EEPROMChipErase_reads_zero (flagged_world 0x40) 0x1E). lia.
Defined.

(* ------------------------------------------------------------------ *)
(** A bulk write that runs into the end of the array. *)

Section EEPROM_bulk_edge.

Context {D : Type} `{Controller D}.

Lemma EEPROMBulkWrite_loop_overrun (data : list Z) :
  forall (start : Z) (w : World D),
    0 <= start <= 131072 ->
    131072 < start + Z.of_nat (List.length data) ->
    Forall is_byte data ->
    exists w', EEPROMBulkWrite_loop start data w = Some (false, w')
      /\ logical_bytes (ee_mem (eeprom w')) start (Z.to_nat (131072 - start))
         = firstn (Z.to_nat (131072 - start)) data
      /\ (forall x, x < start -> ee_mem (eeprom w') x = ee_mem (eeprom w) x)
      /\ spi0_taken w' = false.
Proof.
  induction data as [ | b rest IH]; intros start w H0 Hlen Hbytes.
  - cbn in Hlen. lia.
  - cbn [List.length] in Hlen. rewrite Nat2Z.inj_succ in Hlen.
    inversion Hbytes as [ | ? ? Hb Hrest]; subst.
    cbn [EEPROMBulkWrite_loop].
    destruct (131072 <=? start) eqn:Hge.
    + apply Z.leb_le in Hge. assert (start = 131072) by lia. subst start.
      unfold bind at 1, xSemaphoreGive at 1.
      unfold bind at 1. rewrite LogItemEEPROM_eq. unfold ret.
      eexists. split; [reflexivity | ]. cbn. auto.
    + apply Z.leb_gt in Hge.
      unfold bind at 1. rewrite EEPROMSingleWrite_eq by (assumption || lia).
      cbn [negb]. rewrite u32_small by lia.
      destruct (IH (start + 1) (after_eeprom_write start b w)
                  ltac:(lia) ltac:(lia) Hrest)
        as (w2 & E2 & Hl2 & Hf2 & H02).
      exists w2. split; [exact E2 | ].
      cbn [after_eeprom_write eeprom ee_mem] in Hf2.
      rewrite Z.mod_small in Hf2 by lia.
      replace (Z.to_nat (131072 - start))
        with (S (Z.to_nat (131072 - (start + 1)))) by lia.
      split; [ | split; [ | exact H02]].
      * cbn [logical_bytes firstn]. rewrite Hl2. f_equal.
        rewrite Hf2 by lia. rewrite upd_same.
        apply not8_involutive. exact Hb.
      * intros x Hx. rewrite Hf2 by lia. apply upd_other. lia.
Qed.

End EEPROM_bulk_edge.

(** X5.  [EEPROMBulkWrite] of a buffer that does not fit between its
    start address and the end of the array writes the bytes that fit,
    up to the last cell, and then answers [false], with the mutex
    given back and the cells below the start address as they were. *)
Theorem EEPROMBulkWrite_stops_at_the_end {D : Type} `{Controller D}
  (w : World D) (start : Z) (data : list Z) :
  0 <= start < 131072 ->
  131072 < start + Z.of_nat (List.length data) ->
  Forall is_byte data ->
  exists w',
    EEPROMBulkWrite start data w = Some (false, w')
    /\ logical_bytes (ee_mem (eeprom w')) start (Z.to_nat (131072 - start))
       = firstn (Z.to_nat (131072 - start)) data
    /\ (forall x, x < start -> ee_mem (eeprom w') x = ee_mem (eeprom w) x)
    /\ spi0_taken w' = false.
Proof.
  intros H0 Hlen Hbytes. unfold EEPROMBulkWrite.
  unfold bind at 1. rewrite LogItemEEPROM_eq.
  unfold bind at 1. rewrite xSemaphoreTake_SPI0_eq.
  destruct (131072 <=? start) eqn:Hge; [apply Z.leb_le in Hge; lia | ].
  match goal with
  | |- context [EEPROMBulkWrite_loop start data ?w0] =>
      destruct (EEPROMBulkWrite_loop_overrun data start w0
                  ltac:(lia) Hlen Hbytes)
        as (w' & E & Hl & Hf & H0')
  end.
  exists w'. split; [exact E | ]. split; [exact Hl | ].
  split; [ | exact H0']. intros x Hx. rewrite Hf by exact Hx. reflexivity.
Qed.

Lemma EEPROMBulkWrite_stops_at_the_end_witness :
  exists w',
    EEPROMBulkWrite 131070 [0x11; 0x22; 0x33] (idle_world (fun _ : Z => 0))
    = Some (false, w')
    /\ logical_bytes (ee_mem (eeprom w')) 131070 (Z.to_nat (131072 - 131070))
       = firstn (Z.to_nat (131072 - 131070)) [0x11; 0x22; 0x33]
    /\ (forall x, x < 131070 ->
          ee_mem (eeprom w') x
          = ee_mem (eeprom (idle_world (fun _ : Z => 0))) x)
    /\ spi0_taken w' = false.
Proof.
  apply (EEPROMBulkWrite_stops_at_the_end (D := RegFile)
           (idle_world (fun _ : Z => 0)) 131070 [0x11; 0x22; 0x33]).
  - lia.
  - cbn. lia.
  - repeat constructor; unfold is_byte; lia.
Defined.

(* ================================================================== *)
(** ** Bulk reads of the controller *)

Section Controller_bulk.

Context {D : Type} `{Controller D}.

(** The controller is one whose registers are not changed by reading
    them. *)
Hypothesis read_only : forall (a : Z) (d : D), snd (ksz_read a d) = d.

Lemma EthoControllerBulkRead_loop_values (n : nat) :
  forall (a : Z) (out : list Z) (w : World D),
    exists w',
      EthoControllerBulkRead_loop n a out w
      = Some (out ++ map (fun k => ctrl_read_value (a + Z.of_nat k) w)
                       (seq 0 n), w')
      /\ ctrl w' = ctrl w
      /\ eeprom w' = eeprom w
      /\ spi0_taken w' = spi0_taken w.
Proof.
  induction n as [ | n IH]; intros a out w.
  - cbn. unfold ret. rewrite app_nil_r. eauto.
  - cbn [EthoControllerBulkRead_loop].
    unfold bind at 1, ssi1 at 1.
    cbn [map]. change (u8 READ_COMMAND) with 0x03.
    unfold ksz_spi. cbn [fst snd last].
    match goal with
    | |- context [EthoControllerBulkRead_loop n ?a1 ?out1 ?w1] =>
        destruct (IH a1 out1 w1) as (w' & E & Hc & He & H0)
    end.
    exists w'. rewrite E. cbn [ctrl eeprom spi0_taken] in Hc, He, H0.
    rewrite read_only in Hc. split; [ | auto].
    f_equal. f_equal. rewrite <- app_assoc. f_equal.
    cbn [seq map app]. f_equal.
    + unfold ctrl_read_value. rewrite Z.add_0_r. reflexivity.
    + rewrite <- seq_shift, map_map. apply map_ext. intros k.
      unfold ctrl_read_value. cbn [ctrl]. rewrite read_only.
      do 4 f_equal. lia.
Qed.

End Controller_bulk.

(** X6.  On a controller whose registers are not changed by reading
    them, [EthoControllerBulkRead] of [count] registers from [start]
    answers what [EthoControllerSingleRead] answers for each of them, in
    order, and leaves the controller as it was; the range must end below
    register 0xFF, for a range that reaches it is rejected. *)
Theorem EthoControllerBulkRead_agrees_with_single_reads
  {D : Type} `{Controller D} (w : World D) (start count : Z) :
  (forall (a : Z) (d : D), snd (ksz_read a d) = d) ->
  0 <= start <= 255 -> 0 <= count <= 255 ->
  if 255 <? start + count
  then exists w',
         EthoControllerBulkRead start count w = Some ((false, []), w')
  else exists w',
         EthoControllerBulkRead start count w
         = Some ((true,
                  map (fun k => ctrl_read_value (start + Z.of_nat k) w)
                    (seq 0 (Z.to_nat count))), w')
         /\ ctrl w' = ctrl w
         /\ spi1_taken w' = false
         /\ forall k, (k < Z.to_nat count)%nat ->
              exists w2,
                EthoControllerSingleRead (start + Z.of_nat k) w
                = Some (ctrl_read_value (start + Z.of_nat k) w, w2).
Proof.
  intros Hro Hs Hc. unfold EthoControllerBulkRead.
  destruct (255 <? start + count) eqn:Hgt.
  - eexists. do 2 hal_step. reflexivity.
  - unfold bind at 1. rewrite LogItemEEPROM_eq.
    unfold bind at 1. rewrite xSemaphoreTake_SPI1_eq.
    match goal with
    | |- context [bind (EthoControllerBulkRead_loop ?n ?a ?out) _ ?w0] =>
        destruct (EthoControllerBulkRead_loop_values Hro n a out w0)
          as (w' & E & Hc' & _)
    end.
    rewrite (bind_eq _ _ _ _ _ E).
    unfold bind, xSemaphoreGive, ret. eexists.
    split; [reflexivity | ].
    cbn [ctrl spi1_taken]. split; [exact Hc' | ]. split; [reflexivity | ].
    intros k _. rewrite EthoControllerSingleRead_eq. eauto.
Qed.

Lemma EthoControllerBulkRead_agrees_with_single_reads_witness :
  exists w',
    EthoControllerBulkRead 0x72 7 (idle_world (fun a : Z => a + 1))
    = Some ((true,
             map (fun k => ctrl_read_value (0x72 + Z.of_nat k)
                             (idle_world (fun a : Z => a + 1)))
               (seq 0 (Z.to_nat 7))), w')
    /\ ctrl w' = ctrl (idle_world (fun a : Z => a + 1))
    /\ spi1_taken w' = false
    /\ forall k, (k < Z.to_nat 7)%nat ->
         exists w2,
           EthoControllerSingleRead (0x72 + Z.of_nat k)
             (idle_world (fun a : Z => a + 1))
           = Some (ctrl_read_value (0x72 + Z.of_nat k)
                     (idle_world (fun a : Z => a + 1)), w2).
Proof.
  apply (EthoControllerBulkRead_agrees_with_single_reads (D := RegFile)
           (idle_world (fun a : Z => a + 1)) 0x72 7).
  - intros a d. reflexivity.
  - lia.
  - lia.
Defined.

(* ================================================================== *)
(** ** The logger and the listing of its records *)

Section Logger_filter.

Context {D : Type} `{Controller D}.

(** What [LoggerTask_entry] answers: the flags are as before, and the
    last code is the one received when it was written. *)
Lemma LoggerTask_entry_answer (g : LogGlobals) (last t : Z)
  (c : LoggerCodes) (w w' : World D) (r : LogGlobals * Z) :
  LoggerTask_entry g last c t w = Some (r, w') ->
  LogStatusFlags (fst r) = LogStatusFlags g
  /\ (if negb (Z.land (Z.shiftr (LogStatusFlags g) (code_value c)) 1 =? 0)
         && negb (code_value c =? last)
      then snd r = code_value c
      else r = (g, last) /\ w' = w).
Proof.
  unfold LoggerTask_entry.
  destruct (negb (Z.land (Z.shiftr (LogStatusFlags g) (code_value c)) 1
                  =? 0)); cbn [andb].
  - destruct (negb (code_value c =? last)).
    + intros E.
      do 5 (apply bind_inv in E; destruct E as (? & ? & _ & E)).
      unfold ret in E. inversion E; subst. cbn. auto.
    + unfold ret. intros E. inversion E; subst. auto.
  - unfold ret. intros E. inversion E; subst. auto.
Qed.

Lemma LoggerTask_entries_written (received : list (LoggerCodes * Z)) :
  forall (g : LogGlobals) (last : Z) (w : World D),
    LoggerTask_entries g last received w
    = LoggerTask_entries g last (written (LogStatusFlags g) last received) w.
Proof.
  induction received as [ | [c t] rest IH]; intros g last w.
  - reflexivity.
  - cbn [LoggerTask_entries written].
    unfold bind at 1.
    destruct (LoggerTask_entry g last c t w) as [[r w1] | ] eqn:E.
    + destruct (LoggerTask_entry_answer _ _ _ _ _ _ _ E) as [Hf Hr].
      destruct (negb (Z.land (Z.shiftr (LogStatusFlags g) (code_value c)) 1
                      =? 0)
                && negb (code_value c =? last)).
      * cbn [LoggerTask_entries]. unfold bind. rewrite E.
        rewrite IH, Hf, Hr. reflexivity.
      * destruct Hr as [-> ->]. cbn [fst snd]. apply IH.
    + destruct (negb (Z.land (Z.shiftr (LogStatusFlags g) (code_value c)) 1
                      =? 0)
                && negb (code_value c =? last)) eqn:Ek.
      * cbn [LoggerTask_entries]. unfold bind. rewrite E. reflexivity.
      * exfalso. unfold LoggerTask_entry in E.
        destruct (negb (Z.land (Z.shiftr (LogStatusFlags g) (code_value c)) 1
                        =? 0)); cbn [andb] in Ek;
          [rewrite Ek in E | ]; discriminate.
Qed.

End Logger_filter.

(** X7.  [LoggerTask] writes a code it receives only when its type is
    enabled in [LogStatusFlags] and it differs from the code written
    last: the task does with the codes it receives exactly what it does
    with those of them that pass this test, so a disabled code, or a code
    repeated any number of times in a row, leaves nothing in the EEPROM
    beyond its first record. *)
Theorem LoggerTask_drops_disabled_and_repeated {D : Type} `{Controller D}
  (g : LogGlobals) (last : Z) (received : list (LoggerCodes * Z))
  (w : World D) :
  LoggerTask_entries g last received w
  = LoggerTask_entries g last (written (LogStatusFlags g) last received) w.
Proof. apply LoggerTask_entries_written. Qed.

(* ------------------------------------------------------------------ *)
(** The bytes of a tick count put together again. *)

Lemma testbit_255 (m : Z) : Z.testbit 255 m = (0 <=? m) && (m <? 8).
Proof.
  change 255 with (Z.ones 8).
  destruct (Z.ltb_spec m 0).
  - rewrite Z.testbit_neg_r by lia.
    destruct (Z.leb_spec 0 m); [lia | reflexivity].
  - destruct (Z.ltb_spec m 8).
    + rewrite Z.ones_spec_low by lia.
      destruct (Z.leb_spec 0 m); [reflexivity | lia].
    + rewrite Z.ones_spec_high by lia.
      destruct (Z.leb_spec 0 m); reflexivity.
Qed.

Lemma be32_bytes (t : Z) :
  0 <= t < 2 ^ 32 ->
  be32 (Z.land (Z.shiftr t 24) 0xFF) (Z.land (Z.shiftr t 16) 0xFF)
    (Z.land (Z.shiftr t 8) 0xFF) (Z.land t 0xFF) = t.
Proof.
  intros Ht. unfold be32.
  match goal with
  | |- u32 ?x = _ => assert (E : x = t)
  end.
  { apply Z.bits_inj'. intros n Hn.
    rewrite !Z.lor_spec, !Z.shiftl_spec, !Z.land_spec by lia.
    rewrite !testbit_255.
    destruct (Z.ltb_spec n 32).
    - destruct (Z.ltb_spec n 8).
      + rewrite !(Z.testbit_neg_r _ (n - _)) by lia.
        destruct (Z.leb_spec 0 n); [ | lia].
        destruct (Z.ltb_spec n 8); [ | lia].
        cbn. rewrite andb_true_r. reflexivity.
      + destruct (Z.ltb_spec n 16).
        * rewrite !(Z.testbit_neg_r _ (n - 24)), !(Z.testbit_neg_r _ (n - 16))
            by lia.
          rewrite Z.shiftr_spec by lia.
          replace (n - 8 + 8) with n by lia.
          destruct (Z.leb_spec 0 (n - 8)); [ | lia].
          destruct (Z.ltb_spec (n - 8) 8); [ | lia].
          destruct (Z.ltb_spec n 8); [lia | ].
          cbn. rewrite !andb_true_r, !andb_false_r, orb_false_r. reflexivity.
        * destruct (Z.ltb_spec n 24).
          -- rewrite !(Z.testbit_neg_r _ (n - 24)) by lia.
             rewrite !Z.shiftr_spec by lia.
             replace (n - 16 + 16) with n by lia.
             replace (n - 8 + 8) with n by lia.
             destruct (Z.leb_spec 0 (n - 16)); [ | lia].
             destruct (Z.ltb_spec (n - 16) 8); [ | lia].
             destruct (Z.ltb_spec (n - 8) 8); [lia | ].
             destruct (Z.ltb_spec n 8); [lia | ].
             cbn. rewrite !andb_true_r, !andb_false_r, !orb_false_r.
             reflexivity.
          -- rewrite !Z.shiftr_spec by lia.
             replace (n - 24 + 24) with n by lia.
             replace (n - 16 + 16) with n by lia.
             replace (n - 8 + 8) with n by lia.
             destruct (Z.leb_spec 0 (n - 24)); [ | lia].
             destruct (Z.ltb_spec (n - 24) 8); [ | lia].
             destruct (Z.ltb_spec (n - 16) 8); [lia | ].
             destruct (Z.ltb_spec (n - 8) 8); [lia | ].
             destruct (Z.ltb_spec n 8); [lia | ].
             cbn. rewrite !andb_true_r, !andb_false_r, !orb_false_r.
             reflexivity.
    - assert (Hhi : Z.testbit t n = false).
      { destruct (Z.eq_dec t 0) as [-> | Hne]; [apply Z.bits_0 | ].
        apply Z.bits_above_log2; [lia | ].
        apply Z.log2_lt_pow2; [lia | ].
        apply Z.lt_le_trans with (2 ^ 32); [lia | ].
        apply Z.pow_le_mono_r; lia. }
      rewrite !Z.shiftr_spec by lia.
      replace (n - 24 + 24) with n by lia.
      replace (n - 16 + 16) with n by lia.
      replace (n - 8 + 8) with n by lia.
      rewrite Hhi. reflexivity. }
  rewrite E. unfold u32. apply Z.mod_small. exact Ht.
Qed.

Section Logger_records.

Context {D : Type} `{Controller D}.

(** One record written at the slot of index [k]: its five bytes are in
    the cells of the slot, and the cells outside the slot are as
    before. *)
Lemma LoggerTask_entry_memory (flags last k t : Z) (c : LoggerCodes)
  (w : World D) :
  0 <= k <= 80 ->
  Z.land (Z.shiftr flags (code_value c)) 1 <> 0 ->
  code_value c <> last ->
  exists w',
    LoggerTask_entry (mkLogGlobals flags (EEPROM_LOG_BASE + 5 * k)) last c t w
    = Some ((mkLogGlobals flags (EEPROM_LOG_BASE + 5 * ((k + 1) mod 81)),
             code_value c), w')
    /\ logical_bytes (ee_mem (eeprom w')) (EEPROM_LOG_BASE + 5 * k) 5
       = record_bytes (c, t)
    /\ (forall x, x < EEPROM_LOG_BASE + 5 * k
                  \/ EEPROM_LOG_BASE + 5 * k + 5 <= x ->
                  ee_mem (eeprom w') x = ee_mem (eeprom w) x).
Proof.
  intros Hk Hen Hne. unfold LoggerTask_entry.
  cbn [LogStatusFlags NextLogSlot].
  destruct (Z.land (Z.shiftr flags (code_value c)) 1 =? 0) eqn:E1;
    [apply Z.eqb_eq in E1; contradiction | ].
  destruct (code_value c =? last) eqn:E2;
    [apply Z.eqb_eq in E2; contradiction | ].
  cbn [negb nth].
  unfold EEPROM_LOG_BASE, MAX_LOG_ENTRIES.
  repeat match goal with
         | |- context [u32 (5632 + 5 * k + ?n)] =>
             rewrite (u32_small (5632 + 5 * k + n)) by lia
         end.
  repeat (unfold bind at 1;
          rewrite EEPROMSingleWrite_eq
            by first [lia | apply land_byte | apply code_value_byte]).
  unfold ret. eexists. split; [ | split].
  - f_equal. f_equal. f_equal. f_equal.
    destruct (Z.eq_dec k 80) as [-> | Hk80].
    + reflexivity.
    + rewrite Z.mod_small by lia.
      destruct (5632 + 400 <? 5632 + 5 * k + 5) eqn:E3;
        [apply Z.ltb_lt in E3; lia | lia].
  - cbn [after_eeprom_write eeprom ee_mem logical_bytes record_bytes
           fst snd].
    rewrite !Z.mod_small by lia.
    rewrite Z.add_0_r.
    replace (5632 + 5 * k + 1 + 1) with (5632 + 5 * k + 2) by lia.
    replace (5632 + 5 * k + 2 + 1) with (5632 + 5 * k + 3) by lia.
    replace (5632 + 5 * k + 3 + 1) with (5632 + 5 * k + 4) by lia.
    repeat first [rewrite upd_same | rewrite upd_other by lia].
    rewrite !not8_involutive
      by first [apply land_byte | apply code_value_byte].
    reflexivity.
  - intros x Hx.
    cbn [after_eeprom_write eeprom ee_mem].
    rewrite !Z.mod_small by lia.
    rewrite !upd_other by lia. reflexivity.
Qed.

Lemma LoggerTask_entries_memory (received : list (LoggerCodes * Z)) :
  forall (flags last k : Z) (w : World D),
    0 <= k <= 80 -> k + Z.of_nat (List.length received) <= 81 ->
    recorded flags last received = true ->
    exists last' w',
      LoggerTask_entries (mkLogGlobals flags (EEPROM_LOG_BASE + 5 * k)) last
        received w
      = Some ((mkLogGlobals flags
                 (EEPROM_LOG_BASE
                  + 5 * ((k + Z.of_nat (List.length received)) mod 81)),
               last'), w')
      /\ (forall j, (j < List.length received)%nat ->
            logical_bytes (ee_mem (eeprom w'))
              (EEPROM_LOG_BASE + 5 * (k + Z.of_nat j)) 5
            = record_bytes (nth j received (SystemRestarted, 0)))
      /\ (forall x, x < EEPROM_LOG_BASE + 5 * k
                    \/ EEPROM_LOG_BASE
                       + 5 * (k + Z.of_nat (List.length received)) <= x ->
                    ee_mem (eeprom w') x = ee_mem (eeprom w) x).
Proof.
  induction received as [ | [c t] rest IH]; intros flags last k w Hk Hn Hrec.
  - cbn [LoggerTask_entries List.length] in *. unfold ret.
    rewrite Z.add_0_r, Z.mod_small by lia.
    eexists. eexists. split; [reflexivity | ].
    split; [intros j Hj; inversion Hj | auto].
  - cbn [recorded] in Hrec.
    apply andb_prop in Hrec. destruct Hrec as [Hrec Hrest].
    apply andb_prop in Hrec. destruct Hrec as [Hen Hne].
    apply negb_true_iff in Hen. apply Z.eqb_neq in Hen.
    apply negb_true_iff in Hne. apply Z.eqb_neq in Hne.
    cbn [List.length] in Hn. rewrite Nat2Z.inj_succ in Hn.
    destruct (LoggerTask_entry_memory flags last k t c w Hk Hen Hne)
      as (w1 & E1 & Hrec1 & Hout1).
    cbn [LoggerTask_entries]. unfold bind at 1. rewrite E1. cbn [fst snd].
    destruct rest as [ | r2 rest2].
    + cbn [LoggerTask_entries List.length]. unfold ret.
      exists (code_value c), w1. split; [reflexivity | ]. split.
      * intros j Hj. assert (j = 0%nat) by lia. subst j.
        rewrite Z.add_0_r. exact Hrec1.
      * intros x Hx. apply Hout1. lia.
    + assert (Hk1 : 0 <= k + 1 <= 80) by (cbn [List.length] in Hn; lia).
      rewrite (Z.mod_small (k + 1)) by lia.
      destruct (IH flags (code_value c) (k + 1) w1 Hk1 ltac:(lia) Hrest)
        as (last' & w2 & E2 & Hrec2 & Hout2).
      exists last', w2. split; [ | split].
      * rewrite E2.
        replace (k + Z.of_nat (List.length ((c, t) :: r2 :: rest2)))
          with (k + 1 + Z.of_nat (List.length (r2 :: rest2)))
          by (cbn [List.length]; lia).
        reflexivity.
      * intros j Hj. destruct j as [ | j].
        -- rewrite Z.add_0_r. cbn [nth].
           rewrite <- Hrec1. cbn [logical_bytes].
           rewrite !Hout2 by lia. reflexivity.
        -- change (nth (S j) ((c, t) :: r2 :: rest2) (SystemRestarted, 0))
             with (nth j (r2 :: rest2) (SystemRestarted, 0)).
           cbn [List.length] in Hj.
           rewrite <- (Hrec2 j) by (cbn [List.length]; lia).
           f_equal. lia.
      * intros x Hx. cbn [List.length] in Hx, Hout2.
        rewrite Hout2 by lia. apply Hout1. lia.
Qed.

(** The listing over cells that hold the records [recs] from the slot of
    index [j] on, with the next slot right behind them. *)
Lemma COM_ListEvents_loop_lists (recs : list (LoggerCodes * Z)) :
  forall (left : nat) (j : Z) (printed : list (Z * Z)) (w : World D),
    0 <= j -> 1 <= j + Z.of_nat (List.length recs) <= 400 ->
    (List.length recs < left)%nat ->
    Forall (fun r => 0 < snd r < 2 ^ 32) recs ->
    (forall i, (i < List.length recs)%nat ->
       logical_bytes (ee_mem (eeprom w))
         (EEPROM_LOG_BASE + 5 * (j + Z.of_nat i)) 5
       = record_bytes (nth i recs (SystemRestarted, 0))) ->
    exists w',
      COM_ListEvents_loop left (EEPROM_LOG_BASE + 5 * j)
        (EEPROM_LOG_BASE + 5 * (j + Z.of_nat (List.length recs))) printed w
      = Some ((true, EndOfLog,
               printed ++ map listed recs),
              w')
      /\ eeprom w' = eeprom w.
Proof.
  induction recs as [ | [c t] rest IH];
    intros left j printed w Hj Hn Hleft Ht Hmem.
  - cbn [List.length] in *. destruct left as [ | left]; [lia | ].
    cbn [COM_ListEvents_loop].
    destruct (EEPROMBulkRead_run (EEPROM_LOG_BASE + 5 * j) 4 w
                ltac:(unfold EEPROM_LOG_BASE; lia)
                ltac:(unfold EEPROM_LOG_BASE; lia))
      as (w1 & E1 & He1 & _).
    rewrite (bind_eq _ _ _ _ _ E1). cbv beta. cbn [fst snd negb].
    rewrite Z.add_0_r.
    replace (EEPROM_LOG_BASE + 5 * j =? EEPROM_LOG_BASE) with false
      by (symmetry; apply Z.eqb_neq; lia).
    rewrite andb_false_r, Z.leb_refl, orb_true_r.
    unfold ret. rewrite app_nil_r. eauto.
  - cbn [List.length] in *. destruct left as [ | left]; [lia | ].
    rewrite Nat2Z.inj_succ in Hn |- *.
    inversion Ht as [ | ? ? Ht1 Ht2]; subst. cbn [snd] in Ht1.
    pose proof (Hmem 0%nat ltac:(lia)) as H0.
    rewrite Z.add_0_r in H0. cbn [nth] in H0.
    cbn [COM_ListEvents_loop].
    destruct (EEPROMBulkRead_run (EEPROM_LOG_BASE + 5 * j) 4 w
                ltac:(unfold EEPROM_LOG_BASE; lia)
                ltac:(unfold EEPROM_LOG_BASE; lia))
      as (w1 & E1 & He1 & _).
    rewrite (bind_eq _ _ _ _ _ E1). cbv beta. cbn [fst snd negb].
    assert (Hb : forall i,
               nth i (logical_bytes (ee_mem (eeprom w))
                        (EEPROM_LOG_BASE + 5 * j) 5) 0
               = nth i (record_bytes (c, t)) 0)
      by (intros i; rewrite H0; reflexivity).
    change (nth 0 (logical_bytes (ee_mem (eeprom w))
                     (EEPROM_LOG_BASE + 5 * j) 4) 0)
      with (nth 0 (logical_bytes (ee_mem (eeprom w))
                     (EEPROM_LOG_BASE + 5 * j) 5) 0).
    change (nth 1 (logical_bytes (ee_mem (eeprom w))
                     (EEPROM_LOG_BASE + 5 * j) 4) 0)
      with (nth 1 (logical_bytes (ee_mem (eeprom w))
                     (EEPROM_LOG_BASE + 5 * j) 5) 0).
    change (nth 2 (logical_bytes (ee_mem (eeprom w))
                     (EEPROM_LOG_BASE + 5 * j) 4) 0)
      with (nth 2 (logical_bytes (ee_mem (eeprom w))
                     (EEPROM_LOG_BASE + 5 * j) 5) 0).
    change (nth 3 (logical_bytes (ee_mem (eeprom w))
                     (EEPROM_LOG_BASE + 5 * j) 4) 0)
      with (nth 3 (logical_bytes (ee_mem (eeprom w))
                     (EEPROM_LOG_BASE + 5 * j) 5) 0).
    rewrite !Hb. cbn [record_bytes nth fst snd].
    rewrite be32_bytes by lia.
    replace (t =? 0) with false by (symmetry; apply Z.eqb_neq; lia).
    cbn [andb orb].
    replace (EEPROM_LOG_BASE + 5 * (j + Z.succ (Z.of_nat (List.length rest)))
             <=? EEPROM_LOG_BASE + 5 * j) with false
      by (symmetry; apply Z.leb_gt; lia).
    rewrite (bind_eq _ _ _ _ _
               (EEPROMSingleRead_eq (EEPROM_LOG_BASE + 5 * j + 4) w1
                  ltac:(unfold EEPROM_LOG_BASE; lia))).
    cbv beta.
    assert (Hev : eeprom_read_value (EEPROM_LOG_BASE + 5 * j + 4) w1
                  = code_value c).
    { unfold eeprom_read_value. rewrite He1.
      rewrite Z.mod_small by (unfold EEPROM_LOG_BASE; lia).
      change (code_value c) with (nth 4 (record_bytes (c, t)) 0).
      rewrite <- Hb. cbn [logical_bytes nth]. do 2 f_equal. lia. }
    rewrite Hev.
    destruct (IH left (j + 1) (printed ++ [(printf_d t, code_value c)])
                (after_eeprom_read (EEPROM_LOG_BASE + 5 * j + 4) w1)
                ltac:(lia) ltac:(lia) ltac:(lia) Ht2)
      as (w2 & E2 & He2).
    { intros i Hi. cbn [after_eeprom_read eeprom]. rewrite He1.
      change (nth i rest (SystemRestarted, 0))
        with (nth (S i) ((c, t) :: rest) (SystemRestarted, 0)).
      rewrite <- (Hmem (S i) ltac:(lia)). f_equal. lia. }
    exists w2. split.
    + replace (EEPROM_LOG_BASE + 5 * j + 5)
        with (EEPROM_LOG_BASE + 5 * (j + 1)) by lia.
      replace (j + Z.succ (Z.of_nat (List.length rest)))
        with (j + 1 + Z.of_nat (List.length rest)) by lia.
      rewrite E2. rewrite <- app_assoc. reflexivity.
    + rewrite He2. cbn [after_eeprom_read eeprom]. exact He1.
Qed.

End Logger_records.

Lemma ticking_Forall (received : list (LoggerCodes * Z)) :
  ticking received = true ->
  Forall (fun r => 0 < snd r < 2 ^ 32) received.
Proof.
  unfold ticking. rewrite forallb_forall, Forall_forall.
  intros Hall r Hin. specialize (Hall r Hin).
  apply andb_prop in Hall. destruct Hall as [H1 H2].
  apply Z.ltb_lt in H1. apply Z.ltb_lt in H2. lia.
Qed.

(** A record written at tick 3000000000 is listed with the time
    -1294967296. *)
Lemma listed_beyond_int32 :
  listed (UserLoggedOut, 3000000000) = (-1294967296, 9)
  /\ listed (UserLoggedIn, 100) = (100, 8).
Proof. vm_compute. split; reflexivity. Qed.

(** X8.  What the logger writes, the listing reads back.  From an empty
    log (the next slot at the base), after [LoggerTask] has written up to
    80 records whose tick counts are not 0, [COM_ListEvents] prints
    these records, each with its tick count and its code, in the order
    they were written, and then the end of the log.  The tick count is a
    [uint32_t] printed with [%d]: a count below [2 ^ 31] is printed as
    it is, a count from [2 ^ 31] on as the negative number [2 ^ 32]
    below it. *)
Theorem logged_events_are_listed {D : Type} `{Controller D}
  (w : World D) (flags last : Z) (received : list (LoggerCodes * Z)) :
  recorded flags last received = true ->
  ticking received = true ->
  (1 <= List.length received <= 80)%nat ->
  exists g' last' w1 w2,
    LoggerTask_entries (mkLogGlobals flags EEPROM_LOG_BASE) last received w
    = Some ((g', last'), w1)
    /\ COM_ListEvents g' w1
       = Some ((true, EndOfLog, map listed received), w2).
Proof.
  intros Hrec Ht Hn. apply ticking_Forall in Ht.
  destruct (LoggerTask_entries_memory received flags last 0 w
              ltac:(lia) ltac:(lia) Hrec)
    as (last' & w1 & E1 & Hmem & _).
  rewrite Z.mul_0_r, Z.add_0_r in E1.
  rewrite Z.add_0_l, Z.mod_small in E1 by lia.
  destruct (COM_ListEvents_loop_lists received (Z.to_nat MAX_LOG_ENTRIES) 0
              [] w1 ltac:(lia) ltac:(lia)
              ltac:(unfold MAX_LOG_ENTRIES; lia) Ht Hmem)
    as (w2 & E2 & _).
  rewrite Z.mul_0_r, Z.add_0_r, Z.add_0_l in E2.
  eexists. exists last', w1, w2. split; [exact E1 | ].
  unfold COM_ListEvents. cbn [NextLogSlot]. exact E2.
Qed.

Lemma logged_events_are_listed_witness :
  exists g' last' w1 w2,
    LoggerTask_entries (mkLogGlobals 0xFFFFFFFF EEPROM_LOG_BASE) (-1)
      [(UserLoggedIn, 100); (UserLoggedOut, 3000000000)]
      (idle_world (fun _ : Z => 0))
    = Some ((g', last'), w1)
    /\ COM_ListEvents g' w1
       = Some ((true, EndOfLog,
                map listed
                  [(UserLoggedIn, 100); (UserLoggedOut, 3000000000)]),
               w2).
Proof.
  apply (logged_events_are_listed (D := RegFile)
           (idle_world (fun _ : Z => 0)) 0xFFFFFFFF (-1)
           [(UserLoggedIn, 100); (UserLoggedOut, 3000000000)]).
  - vm_compute. reflexivity.
  - vm_compute. reflexivity.
  - cbn. lia.
Defined.

(** X9.  The 81st record takes the next slot back to the base of the
    log, and [COM_ListEvents] ends its listing at the first entry whose
    address is not below the next slot: once the logger has written 81
    records, the listing prints the end of the log and no record at
    all. *)
Theorem listing_is_empty_after_the_wrap {D : Type} `{Controller D}
  (w : World D) (flags last : Z) (received : list (LoggerCodes * Z)) :
  recorded flags last received = true ->
  ticking received = true ->
  List.length received = 81%nat ->
  exists g' last' w1 w2,
    LoggerTask_entries (mkLogGlobals flags EEPROM_LOG_BASE) last received w
    = Some ((g', last'), w1)
    /\ NextLogSlot g' = EEPROM_LOG_BASE
    /\ COM_ListEvents g' w1 = Some ((true, EndOfLog, []), w2).
Proof.
  intros Hrec Ht Hn. apply ticking_Forall in Ht.
  destruct (LoggerTask_entries_memory received flags last 0 w
              ltac:(lia) ltac:(lia) Hrec)
    as (last' & w1 & E1 & Hmem & _).
  rewrite Z.mul_0_r, Z.add_0_r in E1.
  rewrite Hn in E1. change ((0 + Z.of_nat 81) mod 81) with 0 in E1.
  rewrite Z.mul_0_r, Z.add_0_r in E1.
  specialize (Hmem 0%nat ltac:(lia)).
  change (EEPROM_LOG_BASE + 5 * (0 + Z.of_nat 0)) with EEPROM_LOG_BASE
    in Hmem.
  destruct received as [ | [c t] rest]; [discriminate | ].
  inversion Ht as [ | ? ? Ht1 _]; subst. cbn [snd] in Ht1.
  cbn [nth] in Hmem.
  destruct (EEPROMBulkRead_run EEPROM_LOG_BASE 4 w1
              ltac:(unfold EEPROM_LOG_BASE; lia)
              ltac:(unfold EEPROM_LOG_BASE; lia))
    as (w2 & E2 & _).
  eexists. exists last', w1, w2. split; [exact E1 | ].
  split; [reflexivity | ].
  unfold COM_ListEvents. cbn [NextLogSlot].
  change (Z.to_nat MAX_LOG_ENTRIES) with (S (Z.to_nat (MAX_LOG_ENTRIES - 1))).
  cbn [COM_ListEvents_loop].
  rewrite (bind_eq _ _ _ _ _ E2). cbv beta. cbn [fst snd negb].
  assert (Hb : forall i,
             nth i (logical_bytes (ee_mem (eeprom w1)) EEPROM_LOG_BASE 5) 0
             = nth i (record_bytes (c, t)) 0)
    by (intros i; rewrite Hmem; reflexivity).
  change (nth 0 (logical_bytes (ee_mem (eeprom w1)) EEPROM_LOG_BASE 4) 0)
    with (nth 0 (logical_bytes (ee_mem (eeprom w1)) EEPROM_LOG_BASE 5) 0).
  change (nth 1 (logical_bytes (ee_mem (eeprom w1)) EEPROM_LOG_BASE 4) 0)
    with (nth 1 (logical_bytes (ee_mem (eeprom w1)) EEPROM_LOG_BASE 5) 0).
  change (nth 2 (logical_bytes (ee_mem (eeprom w1)) EEPROM_LOG_BASE 4) 0)
    with (nth 2 (logical_bytes (ee_mem (eeprom w1)) EEPROM_LOG_BASE 5) 0).
  change (nth 3 (logical_bytes (ee_mem (eeprom w1)) EEPROM_LOG_BASE 4) 0)
    with (nth 3 (logical_bytes (ee_mem (eeprom w1)) EEPROM_LOG_BASE 5) 0).
  rewrite !Hb. cbn [record_bytes nth fst snd].
  rewrite be32_bytes by lia.
  replace (t =? 0) with false by (symmetry; apply Z.eqb_neq; lia).
  rewrite Z.leb_refl. reflexivity.
Qed.

Lemma listing_is_empty_after_the_wrap_witness :
  exists g' last' w1 w2,
    LoggerTask_entries (mkLogGlobals 0xFFFFFFFF EEPROM_LOG_BASE) (-1)
      (map (fun r => (fst r, snd r + 1)) (logins_and_logouts 81))
      (idle_world (fun _ : Z => 0))
    = Some ((g', last'), w1)
    /\ NextLogSlot g' = EEPROM_LOG_BASE
    /\ COM_ListEvents g' w1 = Some ((true, EndOfLog, []), w2).
Proof.
  apply (listing_is_empty_after_the_wrap (D := RegFile)
           (idle_world (fun _ : Z => 0)) 0xFFFFFFFF (-1)
           (map (fun r => (fst r, snd r + 1)) (logins_and_logouts 81))).
  - vm_compute. reflexivity.
  - vm_compute. reflexivity.
  - vm_compute. reflexivity.
Defined.

(* ================================================================== *)
(** ** Commands on the registers of the controller *)

Lemma on_bytes_and_bits_spec (P : Z -> Z -> bool) (lo : Z) (n : nat) :
  on_bytes_and_bits P lo n = true ->
  forall r b, is_byte r -> lo <= b < lo + Z.of_nat n -> P r b = true.
Proof.
  unfold on_bytes_and_bits. intros Hall r b Hr Hb.
  rewrite forallb_forall in Hall.
  specialize (Hall b). rewrite forallb_forall in Hall.
  apply Hall.
  - apply in_map_iff. exists (Z.to_nat (b - lo)). split; [lia | ].
    apply in_seq. lia.
  - apply in_map_iff. exists (Z.to_nat r). unfold is_byte in Hr.
    split; [lia | ]. apply in_seq. lia.
Qed.

(** Setting a bit of a byte: the low bits stay a byte, a bit from 8 up is
    lost on the way to the register. *)
Lemma set_low_bit (r b : Z) :
  is_byte r -> 0 <= b <= 7 ->
  u8 (u32 (Z.lor r (Z.shiftl 1 b))) = Z.lor r (Z.shiftl 1 b)
  /\ u32 (Z.lor r (Z.shiftl 1 b)) = Z.lor r (Z.shiftl 1 b)
  /\ u32 (Z.land (Z.lor r (Z.shiftl 1 b)) (Z.lnot (Z.shiftl 1 b)))
     <> Z.lor r (Z.shiftl 1 b).
Proof.
  intros Hr Hb.
  assert (T : on_bytes_and_bits
                (fun r b =>
                   (u8 (u32 (Z.lor r (Z.shiftl 1 b)))
                    =? Z.lor r (Z.shiftl 1 b))
                   && (u32 (Z.lor r (Z.shiftl 1 b))
                       =? Z.lor r (Z.shiftl 1 b))
                   && negb (u32 (Z.land (Z.lor r (Z.shiftl 1 b))
                                   (Z.lnot (Z.shiftl 1 b)))
                            =? Z.lor r (Z.shiftl 1 b)))
                0 8 = true) by (vm_compute; reflexivity).
  pose proof (on_bytes_and_bits_spec _ _ _ T r b Hr ltac:(lia)) as E.
  cbv beta in E.
  apply andb_prop in E. destruct E as [E E3].
  apply andb_prop in E. destruct E as [E1 E2].
  apply Z.eqb_eq in E1. apply Z.eqb_eq in E2.
  apply negb_true_iff in E3. apply Z.eqb_neq in E3. auto.
Qed.

Lemma set_high_bit (r b : Z) :
  is_byte r -> 8 <= b <= 30 ->
  u8 (u32 (Z.lor r (Z.shiftl 1 b))) = r
  /\ 256 <= u32 (Z.lor r (Z.shiftl 1 b)).
Proof.
  intros Hr Hb.
  assert (T : on_bytes_and_bits
                (fun r b =>
                   (u8 (u32 (Z.lor r (Z.shiftl 1 b))) =? r)
                   && (256 <=? u32 (Z.lor r (Z.shiftl 1 b))))
                8 23 = true) by (vm_compute; reflexivity).
  pose proof (on_bytes_and_bits_spec _ _ _ T r b Hr ltac:(lia)) as E.
  cbv beta in E.
  apply andb_prop in E. destruct E as [E1 E2].
  apply Z.eqb_eq in E1. apply Z.leb_le in E2. auto.
Qed.

Lemma clear_bit (r b : Z) :
  is_byte r -> 0 <= b <= 30 ->
  u8 (u32 (Z.land r (Z.lnot (Z.shiftl 1 b))))
  = Z.land r (Z.lnot (Z.shiftl 1 b))
  /\ u32 (Z.land r (Z.lnot (Z.shiftl 1 b)))
     = Z.land r (Z.lnot (Z.shiftl 1 b)).
Proof.
  intros Hr Hb.
  assert (T : on_bytes_and_bits
                (fun r b =>
                   (u8 (u32 (Z.land r (Z.lnot (Z.shiftl 1 b))))
                    =? Z.land r (Z.lnot (Z.shiftl 1 b)))
                   && (u32 (Z.land r (Z.lnot (Z.shiftl 1 b)))
                       =? Z.land r (Z.lnot (Z.shiftl 1 b))))
                0 31 = true) by (vm_compute; reflexivity).
  pose proof (on_bytes_and_bits_spec _ _ _ T r b Hr ltac:(lia)) as E.
  cbv beta in E.
  apply andb_prop in E. destruct E as [E1 E2].
  apply Z.eqb_eq in E1. apply Z.eqb_eq in E2. auto.
Qed.

Section Register_commands.

Context {D : Type} `{Controller D}.

Lemma ctrl_read_value_byte (a : Z) (w : World D) :
  is_byte (ctrl_read_value a w).
Proof. unfold ctrl_read_value. apply u8_range. Qed.

(** The poll of a register for a value no byte can be ends in [false]
    after its eleven reads, with nothing written. *)
Lemma linkmd_poll_never (n : nat) (address reg_data : Z) :
  256 <= reg_data ->
  forall w : World D,
    exists w',
      linkmd_poll n address reg_data w = Some (false, w')
      /\ ctrl_writes (trace w') = ctrl_writes (trace w)
      /\ eeprom w' = eeprom w.
Proof.
  intros Hbig. induction n as [ | n IH]; intros w.
  - cbn. unfold ret. eauto.
  - cbn [linkmd_poll]. hal_step.
    pose proof (ctrl_read_value_byte address w) as Hb. unfold is_byte in Hb.
    destruct (ctrl_read_value address w =? reg_data) eqn:E;
      [apply Z.eqb_eq in E; lia | ].
    destruct (IH (after_ctrl_read address w)) as (w' & E' & Ht & He).
    exists w'. split; [exact E' | ]. split; [exact Ht | exact He].
Qed.

Hypothesis plain : plain_registers.

Lemma read_after_read (a a' : Z) (w : World D) :
  ctrl_read_value a' (after_ctrl_read a w) = ctrl_read_value a' w.
Proof.
  destruct plain as (Hro & _). unfold ctrl_read_value, after_ctrl_read.
  cbn [ctrl]. rewrite Hro. reflexivity.
Qed.

Lemma read_after_write (a v : Z) (w : World D) :
  ctrl_read_value a (after_ctrl_write a v w) = u8 v.
Proof.
  destruct plain as (_ & Hsame & _). unfold ctrl_read_value, after_ctrl_write.
  cbn [ctrl]. rewrite Hsame. apply u8_id. apply u8_range.
Qed.

Lemma read_after_write_other (a a' v : Z) (w : World D) :
  u8 a' <> u8 a ->
  ctrl_read_value a' (after_ctrl_write a v w) = ctrl_read_value a' w.
Proof.
  intros Hne. destruct plain as (_ & _ & Hother).
  unfold ctrl_read_value, after_ctrl_write.
  cbn [ctrl]. rewrite Hother by exact Hne. reflexivity.
Qed.

(** The poll of a register that holds the value ends at its first
    read; the poll of one that holds another value ends in [false]. *)
Lemma linkmd_poll_holds (n : nat) (address reg_data : Z) (w : World D) :
  ctrl_read_value address w = reg_data ->
  linkmd_poll (S n) address reg_data w
  = Some (true, after_ctrl_read address w).
Proof.
  intros E. cbn [linkmd_poll]. hal_step.
  rewrite E, Z.eqb_refl. reflexivity.
Qed.

Lemma linkmd_poll_differs (n : nat) (address reg_data : Z) :
  forall w : World D,
    ctrl_read_value address w <> reg_data ->
    exists w',
      linkmd_poll n address reg_data w = Some (false, w')
      /\ (forall a, ctrl_read_value a w' = ctrl_read_value a w)
      /\ ctrl_writes (trace w') = ctrl_writes (trace w).
Proof.
  induction n as [ | n IH]; intros w Hne.
  - cbn. unfold ret. eauto.
  - cbn [linkmd_poll]. hal_step.
    destruct (ctrl_read_value address w =? reg_data) eqn:E;
      [apply Z.eqb_eq in E; contradiction | ].
    destruct (IH (after_ctrl_read address w)) as (w' & E' & Hr & Ht).
    { rewrite read_after_read. exact Hne. }
    exists w'. split; [exact E' | ]. split; [ | exact Ht].
    intros a. rewrite Hr. apply read_after_read.
Qed.

End Register_commands.

Lemma RegFile_plain : plain_registers (D := RegFile).
Proof.
  repeat split.
  - intros a v d. cbn. apply upd_same.
  - intros a a' v d Hne. cbn. apply upd_other. exact Hne.
Qed.

(** X10.  [COM_SetBitEthernetController] with a bit number up to 7, on
    registers that keep what is written: the command answers [true], the
    register then reads its old value with the bit set, and every other
    register reads as before. *)
Theorem COM_SetBit_sets_the_bit {D : Type} `{Controller D}
  (w : World D) (reg_addr offset bit_to_set : Z) :
  plain_registers -> 0 <= bit_to_set <= 7 ->
  exists w',
    COM_SetBitEthernetController reg_addr offset bit_to_set w
    = Some (true, w')
    /\ ctrl_read_value (reg_addr + offset) w'
       = Z.lor (ctrl_read_value (reg_addr + offset) w)
           (Z.shiftl 1 bit_to_set)
    /\ forall a, u8 a <> u8 (reg_addr + offset) ->
         ctrl_read_value a w' = ctrl_read_value a w.
Proof.
  intros Hplain Hbit. unfold COM_SetBitEthernetController, poll_register.
  destruct (set_low_bit (ctrl_read_value (reg_addr + offset) w) bit_to_set
              (ctrl_read_value_byte _ _) Hbit) as (E8 & E32 & _).
  do 2 hal_step.
  rewrite linkmd_poll_holds
    by (try exact Hplain; rewrite read_after_write by exact Hplain;
        rewrite E8, E32; reflexivity).
  eexists. split; [reflexivity | ]. split.
  - rewrite read_after_read, read_after_write by exact Hplain. exact E8.
  - intros a Ha.
    rewrite read_after_read, read_after_write_other, read_after_read
      by (exact Hplain || exact Ha).
    reflexivity.
Qed.

Lemma COM_SetBit_sets_the_bit_witness :
  exists w',
    COM_SetBitEthernetController PORT1_OFFSET_HEX PORT_CONTROL6_OFFSET_HEX 3
      (idle_world (fun _ : Z => 0x41))
    = Some (true, w')
    /\ ctrl_read_value (PORT1_OFFSET_HEX + PORT_CONTROL6_OFFSET_HEX) w'
       = Z.lor (ctrl_read_value (PORT1_OFFSET_HEX + PORT_CONTROL6_OFFSET_HEX)
                  (idle_world (fun _ : Z => 0x41)))
           (Z.shiftl 1 3)
    /\ forall a, u8 a <> u8 (PORT1_OFFSET_HEX + PORT_CONTROL6_OFFSET_HEX) ->
         ctrl_read_value a w'
         = ctrl_read_value a (idle_world (fun _ : Z => 0x41)).
Proof.
  apply (COM_SetBit_sets_the_bit (D := RegFile)
           (idle_world (fun _ : Z => 0x41))
           PORT1_OFFSET_HEX PORT_CONTROL6_OFFSET_HEX 3).
  - exact RegFile_plain.
  - lia.
Defined.



Lemma clear_after_set (r b : Z) :
  is_byte r -> 0 <= b <= 7 -> Z.testbit r b = false ->
  Z.land (Z.lor r (Z.shiftl 1 b)) (Z.lnot (Z.shiftl 1 b)) = r.
Proof.
  intros Hr Hb Hclear.
  assert (T : on_bytes_and_bits
                (fun r b =>
                   Z.testbit r b
                   || (Z.land (Z.lor r (Z.shiftl 1 b)) (Z.lnot (Z.shiftl 1 b))
                       =? r))
                0 8 = true) by (vm_compute; reflexivity).
  pose proof (on_bytes_and_bits_spec _ _ _ T r b Hr ltac:(lia)) as E.
  cbv beta in E. rewrite Hclear in E. cbn [orb] in E.
  apply Z.eqb_eq in E. exact E.
Qed.

Lemma clear_high_bit (r b : Z) :
  is_byte r -> 8 <= b <= 30 ->
  Z.land r (Z.lnot (Z.shiftl 1 b)) = r.
Proof.
  intros Hr Hb.
  assert (T : on_bytes_and_bits
                (fun r b => Z.land r (Z.lnot (Z.shiftl 1 b)) =? r)
                8 23 = true) by (vm_compute; reflexivity).
  pose proof (on_bytes_and_bits_spec _ _ _ T r b Hr ltac:(lia)) as E.
  cbv beta in E. apply Z.eqb_eq in E. exact E.
Qed.

Section Bit_commands.

Context {D : Type} `{Controller D}.
Hypothesis plain : plain_registers.

Lemma COM_SetBitEthernetController_run
  (w : World D) (reg_addr offset bit_to_set : Z) :
  0 <= bit_to_set <= 7 ->
  COM_SetBitEthernetController reg_addr offset bit_to_set w
  = Some (true,
          after_ctrl_read (reg_addr + offset)
            (after_ctrl_write (reg_addr + offset)
               (u32 (Z.lor (ctrl_read_value (reg_addr + offset) w)
                       (Z.shiftl 1 bit_to_set)))
               (after_ctrl_read (reg_addr + offset) w))).
Proof.
  intros Hbit. unfold COM_SetBitEthernetController, poll_register.
  destruct (set_low_bit (ctrl_read_value (reg_addr + offset) w) bit_to_set
              (ctrl_read_value_byte _ _) Hbit) as (E8 & E32 & _).
  do 2 hal_step.
  apply linkmd_poll_holds.
  rewrite read_after_write by exact plain. rewrite E8, E32. reflexivity.
Qed.

Lemma COM_ClearBitEthernetController_run
  (w : World D) (reg_addr offset bit_to_set : Z) :
  0 <= bit_to_set <= 30 ->
  COM_ClearBitEthernetController reg_addr offset bit_to_set w
  = Some (true,
          after_ctrl_read (reg_addr + offset)
            (after_ctrl_write (reg_addr + offset)
               (u32 (Z.land (ctrl_read_value (reg_addr + offset) w)
                       (Z.lnot (Z.shiftl 1 bit_to_set))))
               (after_ctrl_read (reg_addr + offset) w))).
Proof.
  intros Hbit. unfold COM_ClearBitEthernetController, poll_register.
  destruct (clear_bit (ctrl_read_value (reg_addr + offset) w) bit_to_set
              (ctrl_read_value_byte _ _) Hbit) as (E8 & E32).
  do 2 hal_step.
  apply linkmd_poll_holds.
  rewrite read_after_write by exact plain. rewrite E8, E32. reflexivity.
Qed.

Lemma other_register_kept (a address v : Z) (w : World D) :
  u8 a <> u8 address ->
  ctrl_read_value a
    (after_ctrl_read address
       (after_ctrl_write address v (after_ctrl_read address w)))
  = ctrl_read_value a w.
Proof.
  intros Ha.
  rewrite read_after_read, read_after_write_other, read_after_read
    by (exact plain || exact Ha).
  reflexivity.
Qed.

Lemma this_register_written (address v : Z) (w : World D) :
  ctrl_read_value address
    (after_ctrl_read address
       (after_ctrl_write address v (after_ctrl_read address w)))
  = u8 v.
Proof.
  rewrite read_after_read, read_after_write by exact plain. reflexivity.
Qed.

End Bit_commands.

(** X12.  [COM_ClearBitEthernetController] on registers that keep what
    is written, for every bit number up to 30: the command answers
    [true], the register reads its old value without the bit, and the
    other registers read as before.  For a bit number from 8 up the
    register is written back unchanged and the answer is still [true],
    where the command that sets the bit answers [false]. *)
Theorem COM_ClearBit_clears_the_bit {D : Type} `{Controller D}
  (w : World D) (reg_addr offset bit_to_set : Z) :
  plain_registers -> 0 <= bit_to_set <= 30 ->
  exists w',
    COM_ClearBitEthernetController reg_addr offset bit_to_set w
    = Some (true, w')
    /\ ctrl_read_value (reg_addr + offset) w'
       = Z.land (ctrl_read_value (reg_addr + offset) w)
           (Z.lnot (Z.shiftl 1 bit_to_set))
    /\ (8 <= bit_to_set ->
        ctrl_read_value (reg_addr + offset) w'
        = ctrl_read_value (reg_addr + offset) w)
    /\ forall a, u8 a <> u8 (reg_addr + offset) ->
         ctrl_read_value a w' = ctrl_read_value a w.
Proof.
  intros Hplain Hbit. eexists. split.
  { apply COM_ClearBitEthernetController_run; assumption. }
  destruct (clear_bit (ctrl_read_value (reg_addr + offset) w) bit_to_set
              (ctrl_read_value_byte _ _) Hbit) as (E8 & _).
  rewrite this_register_written by exact Hplain.
  split; [exact E8 | ]. split.
  - intros Hhigh. rewrite E8.
    apply clear_high_bit; [apply ctrl_read_value_byte | lia].
  - intros a Ha. apply other_register_kept; assumption.
Qed.

Lemma COM_ClearBit_clears_the_bit_witness :
  exists w',
    COM_ClearBitEthernetController PORT1_OFFSET_HEX PORT_CONTROL6_OFFSET_HEX 6
      (idle_world (fun _ : Z => 0x41))
    = Some (true, w')
    /\ ctrl_read_value (PORT1_OFFSET_HEX + PORT_CONTROL6_OFFSET_HEX) w'
       = Z.land (ctrl_read_value (PORT1_OFFSET_HEX + PORT_CONTROL6_OFFSET_HEX)
                   (idle_world (fun _ : Z => 0x41)))
           (Z.lnot (Z.shiftl 1 6))
    /\ (8 <= 6 ->
        ctrl_read_value (PORT1_OFFSET_HEX + PORT_CONTROL6_OFFSET_HEX) w'
        = ctrl_read_value (PORT1_OFFSET_HEX + PORT_CONTROL6_OFFSET_HEX)
            (idle_world (fun _ : Z => 0x41)))
    /\ forall a, u8 a <> u8 (PORT1_OFFSET_HEX + PORT_CONTROL6_OFFSET_HEX) ->
         ctrl_read_value a w'
         = ctrl_read_value a (idle_world (fun _ : Z => 0x41)).
Proof.
  apply (COM_ClearBit_clears_the_bit (D := RegFile)
           (idle_world (fun _ : Z => 0x41))
           PORT1_OFFSET_HEX PORT_CONTROL6_OFFSET_HEX 6).
  - exact RegFile_plain.
  - lia.
Defined.

(** X13.  On registers that keep what is written, setting a bit that
    was clear and then clearing it gives the register its old value
    back: both commands answer [true], and every register reads as it
    did before the two. *)
Theorem COM_SetBit_then_ClearBit_restores {D : Type} `{Controller D}
  (w : World D) (reg_addr offset bit_to_set : Z) :
  plain_registers -> 0 <= bit_to_set <= 7 ->
  Z.testbit (ctrl_read_value (reg_addr + offset) w) bit_to_set = false ->
  exists w1 w2,
    COM_SetBitEthernetController reg_addr offset bit_to_set w
    = Some (true, w1)
    /\ COM_ClearBitEthernetController reg_addr offset bit_to_set w1
       = Some (true, w2)
    /\ Z.testbit (ctrl_read_value (reg_addr + offset) w1) bit_to_set = true
    /\ forall a, ctrl_read_value a w2 = ctrl_read_value a w.
Proof.
  intros Hplain Hbit Hclear.
  pose proof (ctrl_read_value_byte (reg_addr + offset) w) as Hb.
  destruct (set_low_bit _ bit_to_set Hb Hbit) as (E8 & E32 & _).
  do 2 eexists. split.
  { apply COM_SetBitEthernetController_run; assumption. }
  split.
  { apply COM_ClearBitEthernetController_run; [assumption | lia]. }
  rewrite !this_register_written by exact Hplain. rewrite E8.
  split.
  { rewrite Z.lor_spec, Z.shiftl_spec, Z.sub_diag by lia.
    apply orb_true_r. }
  intros a. destruct (Z.eq_dec (u8 a) (u8 (reg_addr + offset))) as [E | Hne].
  - assert (Ea : forall w0 : World D,
               ctrl_read_value a w0 = ctrl_read_value (reg_addr + offset) w0).
    { intros w0. unfold ctrl_read_value. rewrite E. reflexivity. }
    rewrite !Ea, this_register_written by exact Hplain.
    destruct (clear_bit (Z.lor (ctrl_read_value (reg_addr + offset) w)
                           (Z.shiftl 1 bit_to_set)) bit_to_set)
      as (C8 & _).
    { rewrite <- E8. apply u8_range. }
    { lia. }
    rewrite C8. apply clear_after_set; assumption.
  - rewrite !other_register_kept by (exact Hplain || exact Hne).
    reflexivity.
Qed.

Lemma COM_SetBit_then_ClearBit_restores_witness :
  exists w1 w2,
    COM_SetBitEthernetController PORT1_OFFSET_HEX PORT_CONTROL6_OFFSET_HEX 3
      (idle_world (fun _ : Z => 0x41))
    = Some (true, w1)
    /\ COM_ClearBitEthernetController PORT1_OFFSET_HEX
         PORT_CONTROL6_OFFSET_HEX 3 w1
       = Some (true, w2)
    /\ Z.testbit
         (ctrl_read_value (PORT1_OFFSET_HEX + PORT_CONTROL6_OFFSET_HEX) w1) 3
       = true
    /\ forall a,
         ctrl_read_value a w2
         = ctrl_read_value a (idle_world (fun _ : Z => 0x41)).
Proof.
  apply (COM_SetBit_then_ClearBit_restores (D := RegFile)
           (idle_world (fun _ : Z => 0x41))
           PORT1_OFFSET_HEX PORT_CONTROL6_OFFSET_HEX 3).
  - exact RegFile_plain.
  - lia.
  - reflexivity.
Defined.



(* ================================================================== *)
(** ** The flag byte between a command and the next boot *)

Lemma eeprom_read_value_byte {D : Type} (a : Z) (w : World D) :
  is_byte (eeprom_read_value a w).
Proof. unfold eeprom_read_value. apply not8_byte. Qed.

Lemma delete_config_flags (f : Z) :
  is_byte f ->
  u8 (Z.land (u8 (Z.land f (Z.lnot (Z.shiftl 1 6)))) (Z.lnot (Z.shiftl 1 5)))
  = Z.land f 0x9F.
Proof.
  intros Hf.
  assert (T : on_bytes_and_bits
                (fun f _ =>
                   u8 (Z.land (u8 (Z.land f (Z.lnot (Z.shiftl 1 6))))
                         (Z.lnot (Z.shiftl 1 5)))
                   =? Z.land f 0x9F)
                0 1 = true) by (vm_compute; reflexivity).
  pose proof (on_bytes_and_bits_spec _ _ _ T f 0 Hf ltac:(lia)) as E.
  cbv beta in E. apply Z.eqb_eq in E. exact E.
Qed.

Section Boot_flags.

Context {D : Type} `{Controller D}.

Lemma flag_byte_after_write (b : Z) (w : World D) :
  is_byte b ->
  eeprom_read_value EEPROM_FIRMWARE_SETTINGS
    (after_eeprom_write EEPROM_FIRMWARE_SETTINGS b w) = b.
Proof.
  intros Hb. unfold eeprom_read_value.
  cbn [after_eeprom_write eeprom ee_mem].
  rewrite upd_same. apply not8_involutive. exact Hb.
Qed.

(** The boot that finds bit 6 of the flag byte clear: nothing is loaded,
    the globals stay, and the EEPROM is erased when bit 7 asks for it. *)
Lemma InitializeEEPROM_nothing_saved (g : LogGlobals)
  (users : list User_Data) (w : World D) :
  Z.land (eeprom_read_value EEPROM_FIRMWARE_SETTINGS w) 0x40 = 0 ->
  exists w',
    InitializeEEPROM g users w = Some ((true, g, users), w')
    /\ ctrl_writes (trace w') = ctrl_writes (trace w)
    /\ ctrl w' = ctrl w
    /\ ee_mem (eeprom w')
       = if Z.land (eeprom_read_value EEPROM_FIRMWARE_SETTINGS w) 0x80
            =? 0x80
         then fun _ => 0xFF
         else ee_mem (eeprom w).
Proof.
  intros H6. unfold InitializeEEPROM.
  erewrite bind_eq
    by (apply EEPROMSingleRead_eq; unfold EEPROM_FIRMWARE_SETTINGS; lia).
  cbv beta. rewrite H6. change (0 =? 64) with false. cbv iota.
  destruct (Z.land (eeprom_read_value EEPROM_FIRMWARE_SETTINGS w) 0x80
            =? 0x80).
  - destruct (EEPROMChipErase_run
                (after_eeprom_read EEPROM_FIRMWARE_SETTINGS w))
      as (w1 & E1 & Hm & Hc & _ & Ht).
    unfold bind at 1. unfold bind at 1. rewrite E1.
    unfold ret. exists w1. split; [reflexivity | ].
    rewrite Ht, Hm, Hc, ctrl_writes_after_eeprom_read. auto.
  - unfold bind, ret. eexists. split; [reflexivity | ].
    rewrite ctrl_writes_after_eeprom_read. auto.
Qed.

Lemma COM_DeleteConfig_run (w : World D) :
  COM_DeleteConfig w
  = Some (true,
          after_eeprom_write EEPROM_FIRMWARE_SETTINGS
            (Z.land (eeprom_read_value EEPROM_FIRMWARE_SETTINGS w) 0x9F)
            (after_eeprom_read EEPROM_FIRMWARE_SETTINGS w)).
Proof.
  unfold COM_DeleteConfig.
  erewrite bind_eq
    by (apply EEPROMSingleRead_eq; unfold EEPROM_FIRMWARE_SETTINGS; lia).
  cbv beta.
  erewrite bind_eq
    by (apply EEPROMSingleWrite_eq;
        [unfold EEPROM_FIRMWARE_SETTINGS; lia | apply u8_range]).
  cbn [negb]. unfold ret.
  rewrite delete_config_flags by apply eeprom_read_value_byte.
  reflexivity.
Qed.

Lemma COM_ReinitializeEEPROM_run (w : World D) :
  COM_ReinitializeEEPROM w
  = Some (true, after_eeprom_write EEPROM_FIRMWARE_SETTINGS 0x80 w).
Proof.
  unfold COM_ReinitializeEEPROM.
  erewrite bind_eq
    by (apply EEPROMSingleWrite_eq;
        [unfold EEPROM_FIRMWARE_SETTINGS; lia | unfold is_byte; lia]).
  reflexivity.
Qed.

End Boot_flags.

(** X15.  [COM_DeleteConfig] clears bits 6 and 5 of the flag byte and
    keeps the others.  Whatever the EEPROM and the flag byte held, the
    boot that follows loads nothing: [InitializeEEPROM] answers [true],
    writes no register of the controller and leaves the log globals and
    the users as they were. *)
Theorem COM_DeleteConfig_then_boot_loads_nothing {D : Type} `{Controller D}
  (g : LogGlobals) (users : list User_Data) (w : World D) :
  exists w1 w2,
    COM_DeleteConfig w = Some (true, w1)
    /\ eeprom_read_value EEPROM_FIRMWARE_SETTINGS w1
       = Z.land (eeprom_read_value EEPROM_FIRMWARE_SETTINGS w) 0x9F
    /\ InitializeEEPROM g users w1 = Some ((true, g, users), w2)
    /\ ctrl_writes (trace w2) = ctrl_writes (trace w)
    /\ ctrl w2 = ctrl w.
Proof.
  assert (Hb : is_byte
                 (Z.land (eeprom_read_value EEPROM_FIRMWARE_SETTINGS w) 0x9F)).
  { rewrite <- delete_config_flags by apply eeprom_read_value_byte.
    apply u8_range. }
  destruct (InitializeEEPROM_nothing_saved g users
              (after_eeprom_write EEPROM_FIRMWARE_SETTINGS
                 (Z.land (eeprom_read_value EEPROM_FIRMWARE_SETTINGS w) 0x9F)
                 (after_eeprom_read EEPROM_FIRMWARE_SETTINGS w)))
    as (w2 & E2 & Ht & Hc & _).
  { rewrite flag_byte_after_write by exact Hb.
    rewrite <- Z.land_assoc. change (Z.land 0x9F 0x40) with 0.
    apply Z.land_0_r. }
  do 2 eexists. split; [apply COM_DeleteConfig_run | ].
  split; [apply flag_byte_after_write; exact Hb | ].
  split; [exact E2 | ].
  rewrite Ht, Hc.
  rewrite ctrl_writes_after_eeprom_write, ctrl_writes_after_eeprom_read.
  auto.
Qed.

(** X16.  [COM_ReinitializeEEPROM] writes 0x80 over the whole flag byte.
    The boot that follows erases the chip and, bit 6 being gone with the
    rest, loads nothing; after it every cell of the EEPROM reads 0, the
    flag byte included, so that the boot after that one neither erases
    nor loads. *)
Theorem COM_ReinitializeEEPROM_then_boot_erases {D : Type} `{Controller D}
  (g : LogGlobals) (users : list User_Data) (w : World D) :
  exists w1 w2 w3,
    COM_ReinitializeEEPROM w = Some (true, w1)
    /\ InitializeEEPROM g users w1 = Some ((true, g, users), w2)
    /\ (forall a, eeprom_read_value a w2 = 0)
    /\ ctrl_writes (trace w2) = ctrl_writes (trace w)
    /\ InitializeEEPROM g users w2 = Some ((true, g, users), w3)
    /\ ee_mem (eeprom w3) = ee_mem (eeprom w2)
    /\ ctrl_writes (trace w3) = ctrl_writes (trace w).
Proof.
  destruct (InitializeEEPROM_nothing_saved g users
              (after_eeprom_write EEPROM_FIRMWARE_SETTINGS 0x80 w))
    as (w2 & E2 & Ht2 & _ & Hm2).
  { rewrite flag_byte_after_write by (unfold is_byte; lia). reflexivity. }
  rewrite flag_byte_after_write in Hm2 by (unfold is_byte; lia).
  change (Z.land 128 128 =? 128) with true in Hm2. cbv iota in Hm2.
  assert (Hz : forall a, eeprom_read_value a w2 = 0).
  { intros a. unfold eeprom_read_value. rewrite Hm2. reflexivity. }
  destruct (InitializeEEPROM_nothing_saved g users w2)
    as (w3 & E3 & Ht3 & _ & Hm3).
  { rewrite Hz. reflexivity. }
  rewrite Hz in Hm3. change (Z.land 0 128 =? 128) with false in Hm3.
  cbv iota in Hm3.
  exists (after_eeprom_write EEPROM_FIRMWARE_SETTINGS 0x80 w), w2, w3.
  split; [apply COM_ReinitializeEEPROM_run | ].
  split; [exact E2 | ]. split; [exact Hz | ].
  rewrite Ht3, Ht2, ctrl_writes_after_eeprom_write. auto.
Qed.

(* ================================================================== *)
(** ** The register image between the I2C commands and the next boot *)

Lemma save_flag_bits (f : Z) :
  is_byte f -> Z.land f 0xB0 = 0 ->
  Z.land (u8 (Z.lor f (Z.shiftl 1 0x06))) 0xF0 = 0x40.
Proof.
  intros Hf Hz.
  assert (T : on_bytes_and_bits
                (fun f _ =>
                   negb (Z.land f 0xB0 =? 0)
                   || (Z.land (u8 (Z.lor f (Z.shiftl 1 0x06))) 0xF0 =? 0x40))
                0 1 = true) by (vm_compute; reflexivity).
  pose proof (on_bytes_and_bits_spec _ _ _ T f 0 Hf ltac:(lia)) as E.
  cbv beta in E. rewrite Hz in E. cbn [Z.eqb negb orb] in E.
  apply Z.eqb_eq in E. exact E.
Qed.

Lemma clear_flag_bits (f : Z) :
  is_byte f -> Z.land f 0xF0 = 0x40 ->
  Z.land (u8 (Z.land f (Z.lnot (Z.shiftl 1 0x0)))) 0xF0 = 0x40.
Proof.
  intros Hf Hz.
  assert (T : on_bytes_and_bits
                (fun f _ =>
                   negb (Z.land f 0xF0 =? 0x40)
                   || (Z.land (u8 (Z.land f (Z.lnot (Z.shiftl 1 0x0)))) 0xF0
                       =? 0x40))
                0 1 = true) by (vm_compute; reflexivity).
  pose proof (on_bytes_and_bits_spec _ _ _ T f 0 Hf ltac:(lia)) as E.
  cbv beta in E. rewrite Hz in E. cbn [Z.eqb Pos.eqb negb orb] in E.
  apply Z.eqb_eq in E. exact E.
Qed.

Section Register_image_commands.

Context {D : Type} `{Controller D}.

(** The save loop on a controller whose registers a read leaves alone:
    the cell of each register holds the complement of what the register
    read when the command began. *)
Lemma save_registers_image (w : World D) :
  (forall a d, snd (ksz_read a d) = d) ->
  exists w',
    save_registers w = Some (None, w')
    /\ ctrl w' = ctrl w
    /\ (forall reg, 0 <= reg < 0xFF ->
          ee_mem (eeprom w') (0x100 + reg) = not8 (ctrl_read_value reg w))
    /\ (forall x, x < 0x100 \/ 0x1FE < x ->
          ee_mem (eeprom w') x = ee_mem (eeprom w) x)
    /\ ctrl_writes (trace w') = ctrl_writes (trace w).
Proof.
  intros Hro. unfold save_registers.
  match goal with
  | |- context [for_loop _ _ ?body] =>
      destruct (for_loop_invariant body
                  (fun j w1 =>
                     ctrl w1 = ctrl w
                     /\ (forall reg, 0 <= reg < j ->
                           ee_mem (eeprom w1) (0x100 + reg)
                           = not8 (ctrl_read_value reg w))
                     /\ (forall x, x < 0x100 \/ 0x100 + j <= x ->
                           ee_mem (eeprom w1) x = ee_mem (eeprom w) x)
                     /\ ctrl_writes (trace w1) = ctrl_writes (trace w))
                  (Z.to_nat 0xFF) 0 w)
        as (w' & E & Hc & Hin & Hout & Ht)
  end.
  - split; [reflexivity | ]. split; [intros reg Hreg; lia | ]. auto.
  - intros j w1 Hj (Hc1 & Hin1 & Hout1 & Ht1).
    unfold bind at 1. rewrite EthoControllerSingleRead_eq.
    unfold bind at 1.
    rewrite EEPROMSingleWrite_eq by (lia || apply u8_range).
    cbn [negb]. unfold ret. eexists. split; [reflexivity | ].
    cbn [after_eeprom_write after_ctrl_read eeprom ee_mem ctrl].
    rewrite Z.mod_small by lia.
    split; [rewrite Hro; exact Hc1 | ]. split; [ | split].
    + intros reg Hreg. destruct (Z.eq_dec reg j) as [-> | Hne].
      * rewrite upd_same. f_equal.
        rewrite u8_id by apply ctrl_read_value_byte.
        unfold ctrl_read_value. rewrite Hc1. reflexivity.
      * rewrite upd_other by lia. apply Hin1. lia.
    + intros x Hx. rewrite upd_other by lia. apply Hout1. lia.
    + rewrite ctrl_writes_after_eeprom_write, ctrl_writes_after_ctrl_read.
      exact Ht1.
  - change (0 + Z.of_nat (Z.to_nat 0xFF)) with 0xFF in Hin, Hout.
    exists w'. split; [exact E | ]. split; [exact Hc | ].
    split; [exact Hin | ]. split; [ | exact Ht].
    intros x Hx. apply Hout. lia.
Qed.

(** The loop of [I2C_ClearSwitchConfiguration]. *)
Lemma clear_registers_image (w : World D) :
  exists w',
    for_loop (R := bool) (Z.to_nat (0x1FF - 0x100)) 0x100
      (fun write_addr => EEPROMSingleWrite write_addr 0x00 ;; ret None) w
    = Some (None, w')
    /\ (forall reg, 0 <= reg < 0xFF ->
          ee_mem (eeprom w') (0x100 + reg) = 0xFF)
    /\ (forall x, x < 0x100 \/ 0x1FE < x ->
          ee_mem (eeprom w') x = ee_mem (eeprom w) x)
    /\ ctrl_writes (trace w') = ctrl_writes (trace w).
Proof.
  match goal with
  | |- context [for_loop _ _ ?body] =>
      destruct (for_loop_invariant body
                  (fun j w1 =>
                     (forall x, 0x100 <= x < j ->
                           ee_mem (eeprom w1) x = 0xFF)
                     /\ (forall x, x < 0x100 \/ j <= x ->
                           ee_mem (eeprom w1) x = ee_mem (eeprom w) x)
                     /\ ctrl_writes (trace w1) = ctrl_writes (trace w))
                  (Z.to_nat (0x1FF - 0x100)) 0x100 w)
        as (w' & E & Hin & Hout & Ht)
  end.
  - split; [intros x Hx; lia | ]. auto.
  - intros j w1 Hj (Hin1 & Hout1 & Ht1).
    unfold bind at 1.
    rewrite EEPROMSingleWrite_eq by (unfold is_byte; lia).
    unfold ret. eexists. split; [reflexivity | ].
    cbn [after_eeprom_write eeprom ee_mem].
    rewrite Z.mod_small by lia.
    split; [ | split].
    + intros x Hx. destruct (Z.eq_dec x j) as [-> | Hne].
      * rewrite upd_same. reflexivity.
      * rewrite upd_other by lia. apply Hin1. lia.
    + intros x Hx. rewrite upd_other by lia. apply Hout1. lia.
    + rewrite ctrl_writes_after_eeprom_write. exact Ht1.
  - change (0x100 + Z.of_nat (Z.to_nat (0x1FF - 0x100))) with 0x1FF
      in Hin, Hout.
    exists w'. split; [exact E | ]. split; [ | split; [ | exact Ht]].
    + intros reg Hreg. apply Hin. lia.
    + intros x Hx. apply Hout. lia.
Qed.

End Register_image_commands.

(** X17.  A configuration saved over I2C comes back at the next boot.
    On a controller whose registers a read leaves alone, and with bits
    7, 5 and 4 of the flag byte clear, [I2C_SaveSwitchConfiguration]
    answers 1 and the boot that follows writes to each of the registers
    0x00 to 0xFE, in this order, the byte the register read when the
    save began, and to no other register. *)
Theorem I2C_saved_registers_come_back_at_boot {D : Type} `{Controller D}
  (g : LogGlobals) (users : list User_Data) (w : World D) :
  (forall a d, snd (ksz_read a d) = d) ->
  Z.land (eeprom_read_value EEPROM_FIRMWARE_SETTINGS w) 0xB0 = 0 ->
  exists w1 g' w2,
    I2C_SaveSwitchConfiguration_run w = Some (1, w1)
    /\ InitializeEEPROM g users w1 = Some ((true, g', users), w2)
    /\ ctrl_writes (trace w2)
       = rev (map (fun reg => (Z.of_nat reg,
                               ctrl_read_value (Z.of_nat reg) w))
                (seq 0 255))
         ++ ctrl_writes (trace w).
Proof.
  intros Hro Hflags.
  destruct (save_registers_image w Hro) as (w' & E & _ & Hin & Hout & Ht).
  assert (Ef : eeprom_read_value EEPROM_FIRMWARE_SETTINGS w'
               = eeprom_read_value EEPROM_FIRMWARE_SETTINGS w).
  { unfold eeprom_read_value. rewrite Hout; [reflexivity | cbn; lia]. }
  set (f := eeprom_read_value EEPROM_FIRMWARE_SETTINGS w) in *.
  set (w1 := after_eeprom_write EEPROM_FIRMWARE_SETTINGS
               (u8 (Z.lor f (Z.shiftl 1 0x06)))
               (after_eeprom_read EEPROM_FIRMWARE_SETTINGS w')).
  destruct (InitializeEEPROM_run g users w1) as (g' & w2 & E2 & Ht2).
  { unfold w1. rewrite flag_byte_after_write by apply u8_range.
    apply save_flag_bits; [apply eeprom_read_value_byte | exact Hflags]. }
  exists w1, g', w2. split; [ | split; [exact E2 | ]].
  - unfold I2C_SaveSwitchConfiguration_run.
    rewrite (bind_eq _ _ _ _ _ E). cbv beta iota.
    change 0x0001E with EEPROM_FIRMWARE_SETTINGS.
    erewrite bind_eq
      by (apply EEPROMSingleRead_eq; unfold EEPROM_FIRMWARE_SETTINGS; lia).
    cbv beta. rewrite Ef.
    erewrite bind_eq
      by (apply EEPROMSingleWrite_eq;
          [unfold EEPROM_FIRMWARE_SETTINGS; lia | apply u8_range]).
    reflexivity.
  - rewrite Ht2. f_equal.
    + f_equal. apply map_ext_in. intros reg Hreg. apply in_seq in Hreg.
      f_equal. unfold w1.
      cbn [after_eeprom_write after_eeprom_read eeprom ee_mem].
      unfold EEPROM_SWITCH_CONFIG_BASE.
      change (EEPROM_FIRMWARE_SETTINGS mod 131072) with 0x1E.
      rewrite upd_other by lia.
      rewrite Hin by lia.
      apply not8_involutive. apply ctrl_read_value_byte.
    + unfold w1.
      rewrite ctrl_writes_after_eeprom_write, ctrl_writes_after_eeprom_read.
      exact Ht.
Qed.

Lemma I2C_saved_registers_come_back_at_boot_witness :
  exists w1 g' w2,
    I2C_SaveSwitchConfiguration_run (idle_world (fun a : Z => a + 1))
    = Some (1, w1)
    /\ InitializeEEPROM (mkLogGlobals 0 EEPROM_LOG_BASE) [] w1
       = Some ((true, g', []), w2)
    /\ ctrl_writes (trace w2)
       = rev (map (fun reg => (Z.of_nat reg,
                               ctrl_read_value (Z.of_nat reg)
                                 (idle_world (fun a : Z => a + 1))))
                (seq 0 255))
         ++ ctrl_writes (trace (idle_world (fun a : Z => a + 1))).
Proof.
  apply (I2C_saved_registers_come_back_at_boot (D := RegFile)
           (mkLogGlobals 0 EEPROM_LOG_BASE) []
           (idle_world (fun a : Z => a + 1))).
  - intros a d. reflexivity.
  - reflexivity.
Defined.

(** X18.  [I2C_ClearSwitchConfiguration] does not take the saved
    configuration out of use: it writes 0 to the cells 0x100 to 0x1FE and
    clears bit 0 of the flag byte, and bit 6 stays.  When a configuration
    was saved, the boot that follows still loads the register image, and
    writes 0 to each of the registers 0x00 to 0xFE of the controller. *)
Theorem I2C_cleared_configuration_zeroes_the_controller
  {D : Type} `{Controller D}
  (g : LogGlobals) (users : list User_Data) (w : World D) :
  Z.land (eeprom_read_value EEPROM_FIRMWARE_SETTINGS w) 0xF0 = 0x40 ->
  exists w1 g' w2,
    I2C_ClearSwitchConfiguration_run w = Some (1, w1)
    /\ eeprom_read_value EEPROM_FIRMWARE_SETTINGS w1
       = Z.land (eeprom_read_value EEPROM_FIRMWARE_SETTINGS w) 0xFE
    /\ InitializeEEPROM g users w1 = Some ((true, g', users), w2)
    /\ ctrl_writes (trace w2)
       = rev (map (fun reg => (Z.of_nat reg, 0)) (seq 0 255))
         ++ ctrl_writes (trace w).
Proof.
  intros Hflags.
  destruct (clear_registers_image w) as (w' & E & Hin & Hout & Ht).
  assert (Ef : eeprom_read_value EEPROM_FIRMWARE_SETTINGS w'
               = eeprom_read_value EEPROM_FIRMWARE_SETTINGS w).
  { unfold eeprom_read_value. rewrite Hout; [reflexivity | cbn; lia]. }
  set (f := eeprom_read_value EEPROM_FIRMWARE_SETTINGS w) in *.
  set (w1 := after_eeprom_write EEPROM_FIRMWARE_SETTINGS
               (u8 (Z.land f (Z.lnot (Z.shiftl 1 0x0))))
               (after_eeprom_read EEPROM_FIRMWARE_SETTINGS w')).
  destruct (InitializeEEPROM_run g users w1) as (g' & w2 & E2 & Ht2).
  { unfold w1. rewrite flag_byte_after_write by apply u8_range.
    apply clear_flag_bits; [apply eeprom_read_value_byte | exact Hflags]. }
  exists w1, g', w2. split; [ | split; [ | split; [exact E2 | ]]].
  - unfold I2C_ClearSwitchConfiguration_run.
    rewrite (bind_eq _ _ _ _ _ E). cbv beta iota.
    change 0x0001E with EEPROM_FIRMWARE_SETTINGS.
    erewrite bind_eq
      by (apply EEPROMSingleRead_eq; unfold EEPROM_FIRMWARE_SETTINGS; lia).
    cbv beta. rewrite Ef.
    erewrite bind_eq
      by (apply EEPROMSingleWrite_eq;
          [unfold EEPROM_FIRMWARE_SETTINGS; lia | apply u8_range]).
    reflexivity.
  - unfold w1. rewrite flag_byte_after_write by apply u8_range.
    unfold u8. rewrite <- Z.land_assoc. reflexivity.
  - rewrite Ht2. f_equal.
    + f_equal. apply map_ext_in. intros reg Hreg. apply in_seq in Hreg.
      f_equal. unfold w1.
      cbn [after_eeprom_write after_eeprom_read eeprom ee_mem].
      unfold EEPROM_SWITCH_CONFIG_BASE.
      change (EEPROM_FIRMWARE_SETTINGS mod 131072) with 0x1E.
      rewrite upd_other by lia.
      rewrite Hin by lia. reflexivity.
    + unfold w1.
      rewrite ctrl_writes_after_eeprom_write, ctrl_writes_after_eeprom_read.
      exact Ht.
Qed.

Lemma I2C_cleared_configuration_zeroes_the_controller_witness :
  exists w1 g' w2,
    I2C_ClearSwitchConfiguration_run (flagged_world 0x40) = Some (1, w1)
    /\ eeprom_read_value EEPROM_FIRMWARE_SETTINGS w1
       = Z.land (eeprom_read_value EEPROM_FIRMWARE_SETTINGS
                   (flagged_world 0x40)) 0xFE
    /\ InitializeEEPROM (mkLogGlobals 0 EEPROM_LOG_BASE) [] w1
       = Some ((true, g', []), w2)
    /\ ctrl_writes (trace w2)
       = rev (map (fun reg => (Z.of_nat reg, 0)) (seq 0 255))
         ++ ctrl_writes (trace (flagged_world 0x40)).
Proof.
  apply (I2C_cleared_configuration_zeroes_the_controller (D := RegFile)
           (mkLogGlobals 0 EEPROM_LOG_BASE) [] (flagged_world 0x40)).
  reflexivity.
Defined.

(* ================================================================== *)
(** ** Cable diagnostics that time out *)

Lemma set_low_bit_u8 (r b : Z) :
  is_byte r -> 0 <= b <= 7 ->
  u8 (Z.lor r (Z.shiftl 1 b)) = Z.lor r (Z.shiftl 1 b)
  /\ Z.land (Z.lor r (Z.shiftl 1 b)) (Z.lnot (Z.shiftl 1 b))
     <> Z.lor r (Z.shiftl 1 b).
Proof.
  intros Hr Hb. destruct (set_low_bit r b Hr Hb) as (E8 & E32 & Hne).
  rewrite E32 in E8. split; [exact E8 | ].
  destruct (clear_bit (Z.lor r (Z.shiftl 1 b)) b) as (_ & C32).
  { rewrite <- E8. apply u8_range. }
  { lia. }
  rewrite C32 in Hne. exact Hne.
Qed.



(* ================================================================== *)
(** ** The logger's globals across a save and a boot *)

Section Log_globals.

Context {D : Type} `{Controller D}.

Lemma read_value_after_read (a a' : Z) (w : World D) :
  eeprom_read_value a (after_eeprom_read a' w) = eeprom_read_value a w.
Proof. reflexivity. Qed.

Lemma read_value_after_write (a b : Z) (w : World D) :
  is_byte b ->
  eeprom_read_value a (after_eeprom_write a b w) = b.
Proof.
  intros Hb. unfold eeprom_read_value.
  cbn [after_eeprom_write eeprom ee_mem].
  rewrite upd_same. apply not8_involutive. exact Hb.
Qed.

Lemma read_value_after_write_other (a a' b : Z) (w : World D) :
  a mod 131072 <> a' mod 131072 ->
  eeprom_read_value a (after_eeprom_write a' b w) = eeprom_read_value a w.
Proof.
  intros Hne. unfold eeprom_read_value.
  cbn [after_eeprom_write eeprom ee_mem].
  rewrite upd_other by exact Hne. reflexivity.
Qed.

Lemma save_log_globals_run (g : LogGlobals) (w : World D) :
  exists w',
    save_log_globals g w = Some (tt, w')
    /\ eeprom_read_value EEPROM_FIRMWARE_LOGFLAGS_1 w'
       = Z.land (Z.shiftr (LogStatusFlags g) 24) 0xFF
    /\ eeprom_read_value EEPROM_FIRMWARE_LOGFLAGS_2 w'
       = Z.land (Z.shiftr (LogStatusFlags g) 16) 0xFF
    /\ eeprom_read_value EEPROM_FIRMWARE_LOGFLAGS_3 w'
       = Z.land (Z.shiftr (LogStatusFlags g) 8) 0xFF
    /\ eeprom_read_value EEPROM_FIRMWARE_LOGFLAGS_4 w'
       = Z.land (LogStatusFlags g) 0xFF
    /\ eeprom_read_value EEPROM_FIRMWARE_NEXTLOG_1 w'
       = Z.land (Z.shiftr (NextLogSlot g) 24) 0xFF
    /\ eeprom_read_value EEPROM_FIRMWARE_NEXTLOG_2 w'
       = Z.land (Z.shiftr (NextLogSlot g) 16) 0xFF
    /\ eeprom_read_value EEPROM_FIRMWARE_NEXTLOG_3 w'
       = Z.land (Z.shiftr (NextLogSlot g) 8) 0xFF
    /\ eeprom_read_value EEPROM_FIRMWARE_NEXTLOG_4 w'
       = Z.land (NextLogSlot g) 0xFF.
Proof.
  unfold save_log_globals.
  do 8 (erewrite bind_eq
          by (apply EEPROMSingleWrite_eq;
              [vm_compute; discriminate | apply land_byte]);
        cbv beta).
  unfold ret. eexists. split; [reflexivity | ].
  repeat split;
    repeat first
      [ rewrite read_value_after_write by apply land_byte; reflexivity
      | rewrite read_value_after_write_other
          by (vm_compute; discriminate) ].
Qed.

End Log_globals.

(** X20.  The globals of the logger survive a save and a boot: after the
    eight writes of [COM_SaveSwitchConfiguration] that store
    [LogStatusFlags] and [NextLogSlot], the eight reads of
    [InitializeEEPROM] give the two values back, for flags of 32 bits
    and a slot not below the base of the log. *)
Theorem log_globals_survive_save_and_boot {D : Type} `{Controller D}
  (g : LogGlobals) (w : World D) :
  0 <= LogStatusFlags g < 2 ^ 32 ->
  EEPROM_LOG_BASE <= NextLogSlot g < 2 ^ 32 ->
  exists w1 w2,
    save_log_globals g w = Some (tt, w1)
    /\ restore_log_globals w1 = Some (g, w2).
Proof.
  intros Hf Hn.
  destruct (save_log_globals_run g w)
    as (w1 & E1 & F1 & F2 & F3 & F4 & N1 & N2 & N3 & N4).
  exists w1. eexists. split; [exact E1 | ].
  unfold restore_log_globals.
  do 8 (erewrite bind_eq
          by (apply EEPROMSingleRead_eq; vm_compute; discriminate);
        cbv beta).
  rewrite !read_value_after_read.
  rewrite F1, F2, F3, F4, N1, N2, N3, N4.
  rewrite !be32_bytes by (unfold EEPROM_LOG_BASE in Hn; lia).
  destruct (Z.ltb_spec (NextLogSlot g) EEPROM_LOG_BASE) as [Hlt | _];
    [lia | ].
  destruct g. reflexivity.
Qed.

Lemma log_globals_survive_save_and_boot_witness :
  exists w1 w2,
    save_log_globals (mkLogGlobals 0x80000005 (EEPROM_LOG_BASE + 10))
      (idle_world (fun _ : Z => 0))
    = Some (tt, w1)
    /\ restore_log_globals w1
       = Some (mkLogGlobals 0x80000005 (EEPROM_LOG_BASE + 10), w2).
Proof.
  apply (log_globals_survive_save_and_boot (D := RegFile)
           (mkLogGlobals 0x80000005 (EEPROM_LOG_BASE + 10))
           (idle_world (fun _ : Z => 0)));
    cbn [LogStatusFlags NextLogSlot]; unfold EEPROM_LOG_BASE; lia.
Defined.

(* ================================================================== *)
(** ** The VLAN membership of the ports *)

(** X21.  [FindIndex] is a linear search: when the value occurs it
    answers the index of its first occurrence, and when it does not it
    answers the size of the array, one past the last index. *)
Theorem FindIndex_first_occurrence (a : list Z) (value : Z) :
  0 <= FindIndex a value <= Z.of_nat (List.length a)
  /\ (forall j, (j < Z.to_nat (FindIndex a value))%nat ->
        nth j a value <> value)
  /\ (In value a ->
        FindIndex a value < Z.of_nat (List.length a)
        /\ forall d, nth (Z.to_nat (FindIndex a value)) a d = value)
  /\ (~ In value a -> FindIndex a value = Z.of_nat (List.length a)).
Proof.
  induction a as [ | x t IH].
  - cbn. split; [lia | ]. split; [intros j Hj; lia | ].
    split; [contradiction | reflexivity].
  - destruct IH as (Hr & Hbefore & Hin & Hout).
    cbn [FindIndex List.length]. rewrite Nat2Z.inj_succ.
    destruct (Z.eqb_spec x value) as [-> | Hne].
    + split; [lia | ]. split; [intros j Hj; cbn in Hj; lia | ].
      split.
      * intros _. split; [lia | intros d; reflexivity].
      * intros Hnot. exfalso. apply Hnot. left. reflexivity.
    + replace (Z.to_nat (1 + FindIndex t value))
        with (S (Z.to_nat (FindIndex t value))) by lia.
      split; [lia | ]. split; [ | split].
      * intros [ | j] Hj; [exact Hne | ]. cbn [nth]. apply Hbefore. lia.
      * intros [Hx | Ht]; [contradiction | ].
        destruct (Hin Ht) as [Hlt Hnth].
        split; [lia | ]. intros d. cbn [nth]. apply Hnth.
      * intros Hnot. rewrite Hout; [lia | ].
        intros Ht. apply Hnot. right. exact Ht.
Qed.

Lemma FindIndex_first_occurrence_witness :
  0 <= FindIndex port_base_addrs 0x30
       <= Z.of_nat (List.length port_base_addrs)
  /\ (forall j, (j < Z.to_nat (FindIndex port_base_addrs 0x30))%nat ->
        nth j port_base_addrs 0x30 <> 0x30)
  /\ (In 0x30 port_base_addrs ->
        FindIndex port_base_addrs 0x30
        < Z.of_nat (List.length port_base_addrs)
        /\ forall d,
             nth (Z.to_nat (FindIndex port_base_addrs 0x30))
               port_base_addrs d = 0x30)
  /\ (~ In 0x30 port_base_addrs ->
        FindIndex port_base_addrs 0x30
        = Z.of_nat (List.length port_base_addrs)).
Proof.
  exact (FindIndex_first_occurrence port_base_addrs 0x30).
Defined.

Section Membership.

Context {D : Type} `{Controller D}.
Hypothesis plain : plain_registers.

(** One turn of the loop of [AssertVLANS]. *)
Lemma AssertVLANS_loop_turn (vlan_id port_id i base : Z) (rest : list Z)
  (mask : Z) (w : World D) :
  exists w1,
    AssertVLANS_loop vlan_id port_id i (base :: rest) mask w
    = AssertVLANS_loop vlan_id port_id (i + 1) rest
        (if port_vlan_id base w =? vlan_id
         then u8 (Z.lor mask (Z.shiftl 1 i)) else mask) w1
    /\ (forall a, u8 a <> u8 (PORT_CONTROL1_OFFSET_HEX + base) ->
          ctrl_read_value a w1 = ctrl_read_value a w)
    /\ ctrl_read_value (PORT_CONTROL1_OFFSET_HEX + base) w1
       = if port_vlan_id base w =? vlan_id
         then u8 (Z.lor (ctrl_read_value (PORT_CONTROL1_OFFSET_HEX + base) w)
                    (Z.shiftl 1 (FindIndex port_base_addrs port_id)))
         else ctrl_read_value (PORT_CONTROL1_OFFSET_HEX + base) w.
Proof.
  cbn [AssertVLANS_loop]. do 3 hal_step.
  rewrite !read_after_read by exact plain.
  fold (port_vlan_id base w).
  rewrite (u8_id (ctrl_read_value (PORT_CONTROL1_OFFSET_HEX + base) w))
    by apply ctrl_read_value_byte.
  destruct (port_vlan_id base w =? vlan_id).
  - hal_step. eexists. split; [reflexivity | ]. split.
    + intros a Ha.
      rewrite read_after_write_other by (exact plain || exact Ha).
      rewrite !read_after_read by exact plain. reflexivity.
    + rewrite read_after_write by exact plain.
      apply u8_id. apply u8_range.
  - eexists. split; [reflexivity | ]. split.
    + intros a _. rewrite !read_after_read by exact plain. reflexivity.
    + rewrite !read_after_read by exact plain. reflexivity.
Qed.

End Membership.

Section Membership_of_four.

Context {D : Type} `{Controller D}.
Hypothesis plain : plain_registers.

(** The four turns of [AssertVLANS] on the four ports, each condition
    and each register read in the world the function started in. *)
Lemma AssertVLANS_run (vlan_id port_id : Z) (w : World D) :
  let member := fun base => port_vlan_id base w =? vlan_id in
  let marked := fun base =>
    if member base
    then u8 (Z.lor (ctrl_read_value (PORT_CONTROL1_OFFSET_HEX + base) w)
               (Z.shiftl 1 (FindIndex port_base_addrs port_id)))
    else ctrl_read_value (PORT_CONTROL1_OFFSET_HEX + base) w in
  exists w',
    AssertVLANS vlan_id port_id w
    = Some (Z.b2z (member ETHO_PORT1_HARDWARE_HEX)
            + 2 * Z.b2z (member ETHO_PORT2_HARDWARE_HEX)
            + 4 * Z.b2z (member ETHO_PORT3_HARDWARE_HEX)
            + 8 * Z.b2z (member ETHO_PORT4_HARDWARE_HEX), w')
    /\ (forall base, In base port_base_addrs ->
          ctrl_read_value (PORT_CONTROL1_OFFSET_HEX + base) w' = marked base)
    /\ (forall a,
          (forall base, In base port_base_addrs ->
             u8 a <> u8 (PORT_CONTROL1_OFFSET_HEX + base)) ->
          ctrl_read_value a w' = ctrl_read_value a w).
Proof.
  intros member marked. unfold AssertVLANS.
  unfold port_base_addrs at 1.
  destruct (AssertVLANS_loop_turn plain vlan_id port_id 0
              ETHO_PORT1_HARDWARE_HEX
              [ETHO_PORT2_HARDWARE_HEX; ETHO_PORT3_HARDWARE_HEX;
               ETHO_PORT4_HARDWARE_HEX] 0 w) as (w1 & E1 & O1 & S1).
  rewrite E1. clear E1.
  destruct (AssertVLANS_loop_turn plain vlan_id port_id (0 + 1)
              ETHO_PORT2_HARDWARE_HEX
              [ETHO_PORT3_HARDWARE_HEX; ETHO_PORT4_HARDWARE_HEX]
              (if port_vlan_id ETHO_PORT1_HARDWARE_HEX w =? vlan_id
               then u8 (Z.lor 0 (Z.shiftl 1 0)) else 0) w1)
    as (w2 & E2 & O2 & S2).
  rewrite E2. clear E2.
  destruct (AssertVLANS_loop_turn plain vlan_id port_id (0 + 1 + 1)
              ETHO_PORT3_HARDWARE_HEX [ETHO_PORT4_HARDWARE_HEX]
              (if port_vlan_id ETHO_PORT2_HARDWARE_HEX w1 =? vlan_id
               then u8 (Z.lor
                          (if port_vlan_id ETHO_PORT1_HARDWARE_HEX w
                              =? vlan_id
                           then u8 (Z.lor 0 (Z.shiftl 1 0)) else 0)
                          (Z.shiftl 1 (0 + 1)))
               else if port_vlan_id ETHO_PORT1_HARDWARE_HEX w =? vlan_id
                    then u8 (Z.lor 0 (Z.shiftl 1 0)) else 0) w2)
    as (w3 & E3 & O3 & S3).
  rewrite E3. clear E3.
  match goal with
  | |- context [AssertVLANS_loop _ _ ?i [?b] ?m w3] =>
      destruct (AssertVLANS_loop_turn plain vlan_id port_id i b [] m w3)
        as (w4 & E4 & O4 & S4)
  end.
  rewrite E4. clear E4. cbn [AssertVLANS_loop]. unfold ret.
  assert (V2 : port_vlan_id ETHO_PORT2_HARDWARE_HEX w1
               = port_vlan_id ETHO_PORT2_HARDWARE_HEX w).
  { unfold port_vlan_id. rewrite !O1 by (vm_compute; discriminate).
    reflexivity. }
  assert (V3 : port_vlan_id ETHO_PORT3_HARDWARE_HEX w2
               = port_vlan_id ETHO_PORT3_HARDWARE_HEX w).
  { unfold port_vlan_id.
    rewrite !O2, !O1 by (vm_compute; discriminate). reflexivity. }
  assert (V4 : port_vlan_id ETHO_PORT4_HARDWARE_HEX w3
               = port_vlan_id ETHO_PORT4_HARDWARE_HEX w).
  { unfold port_vlan_id.
    rewrite !O3, !O2, !O1 by (vm_compute; discriminate). reflexivity. }
  rewrite V2 in *. rewrite V3 in *. rewrite V4 in *.
  exists w4. split; [ | split].
  - unfold member.
    destruct (port_vlan_id ETHO_PORT1_HARDWARE_HEX w =? vlan_id),
      (port_vlan_id ETHO_PORT2_HARDWARE_HEX w =? vlan_id),
      (port_vlan_id ETHO_PORT3_HARDWARE_HEX w =? vlan_id),
      (port_vlan_id ETHO_PORT4_HARDWARE_HEX w =? vlan_id);
      reflexivity.
  - intros base Hbase. unfold marked, member.
    destruct Hbase as [<- | [<- | [<- | [<- | []]]]].
    + rewrite O4, O3, O2 by (vm_compute; discriminate). exact S1.
    + rewrite O4, O3 by (vm_compute; discriminate). rewrite S2.
      rewrite O1 by (vm_compute; discriminate). reflexivity.
    + rewrite O4 by (vm_compute; discriminate). rewrite S3.
      rewrite O2, O1 by (vm_compute; discriminate). reflexivity.
    + rewrite S4.
      rewrite O3, O2, O1 by (vm_compute; discriminate). reflexivity.
  - intros a Ha.
    rewrite O4, O3, O2, O1 by (apply Ha; cbn; auto). reflexivity.
Qed.

End Membership_of_four.

(** X22.  [AssertVLANS] on registers that keep what is written: bit
    [i] of the mask it answers is set exactly when the VLAN id read from
    port [i] (four bits of port control 3, then port control 4) equals
    [vlan_id], and no higher bit is set.  In port control 1 of each such
    port it sets the bit [FindIndex] gives for [port_id]; the port
    control 1 of the other ports and every other register read as
    before. *)
Theorem AssertVLANS_marks_the_members {D : Type} `{Controller D}
  (vlan_id port_id : Z) (w : World D) :
  plain_registers ->
  exists mask w',
    AssertVLANS vlan_id port_id w = Some (mask, w')
    /\ 0 <= mask < 16
    /\ (forall i, (i < 4)%nat ->
          Z.testbit mask (Z.of_nat i)
          = (port_vlan_id (nth i port_base_addrs 0) w =? vlan_id))
    /\ (forall base, In base port_base_addrs ->
          ctrl_read_value (PORT_CONTROL1_OFFSET_HEX + base) w'
          = if port_vlan_id base w =? vlan_id
            then u8 (Z.lor
                       (ctrl_read_value (PORT_CONTROL1_OFFSET_HEX + base) w)
                       (Z.shiftl 1 (FindIndex port_base_addrs port_id)))
            else ctrl_read_value (PORT_CONTROL1_OFFSET_HEX + base) w)
    /\ (forall a,
          (forall base, In base port_base_addrs ->
             u8 a <> u8 (PORT_CONTROL1_OFFSET_HEX + base)) ->
          ctrl_read_value a w' = ctrl_read_value a w).
Proof.
  intros Hplain.
  destruct (AssertVLANS_run Hplain vlan_id port_id w)
    as (w' & E & Hmarked & Hother).
  cbv zeta in E, Hmarked.
  eexists. exists w'. split; [exact E | ].
  split; [ | split; [ | split; [exact Hmarked | exact Hother]]].
  - destruct (port_vlan_id ETHO_PORT1_HARDWARE_HEX w =? vlan_id),
      (port_vlan_id ETHO_PORT2_HARDWARE_HEX w =? vlan_id),
      (port_vlan_id ETHO_PORT3_HARDWARE_HEX w =? vlan_id),
      (port_vlan_id ETHO_PORT4_HARDWARE_HEX w =? vlan_id);
      cbn; lia.
  - intros i Hi.
    destruct i as [ | [ | [ | [ | i]]]]; [ | | | | lia];
      cbn [nth port_base_addrs];
      destruct (port_vlan_id ETHO_PORT1_HARDWARE_HEX w =? vlan_id),
        (port_vlan_id ETHO_PORT2_HARDWARE_HEX w =? vlan_id),
        (port_vlan_id ETHO_PORT3_HARDWARE_HEX w =? vlan_id),
        (port_vlan_id ETHO_PORT4_HARDWARE_HEX w =? vlan_id);
      reflexivity.
Qed.

Lemma AssertVLANS_marks_the_members_witness :
  exists mask w',
    AssertVLANS 0x101 ETHO_PORT3_HARDWARE_HEX (idle_world (fun _ : Z => 0x01))
    = Some (mask, w')
    /\ 0 <= mask < 16
    /\ (forall i, (i < 4)%nat ->
          Z.testbit mask (Z.of_nat i)
          = (port_vlan_id (nth i port_base_addrs 0)
               (idle_world (fun _ : Z => 0x01)) =? 0x101))
    /\ (forall base, In base port_base_addrs ->
          ctrl_read_value (PORT_CONTROL1_OFFSET_HEX + base) w'
          = if port_vlan_id base (idle_world (fun _ : Z => 0x01)) =? 0x101
            then u8 (Z.lor
                       (ctrl_read_value (PORT_CONTROL1_OFFSET_HEX + base)
                          (idle_world (fun _ : Z => 0x01)))
                       (Z.shiftl 1
                          (FindIndex port_base_addrs
                             ETHO_PORT3_HARDWARE_HEX)))
            else ctrl_read_value (PORT_CONTROL1_OFFSET_HEX + base)
                   (idle_world (fun _ : Z => 0x01)))
    /\ (forall a,
          (forall base, In base port_base_addrs ->
             u8 a <> u8 (PORT_CONTROL1_OFFSET_HEX + base)) ->
          ctrl_read_value a w'
          = ctrl_read_value a (idle_world (fun _ : Z => 0x01))).
Proof.
  apply (AssertVLANS_marks_the_members (D := RegFile) 0x101
           ETHO_PORT3_HARDWARE_HEX (idle_world (fun _ : Z => 0x01))).
  exact RegFile_plain.
Defined.

Lemma on_range_spec (P : Z -> bool) (n : nat) :
  forallb P (map Z.of_nat (seq 0 n)) = true ->
  forall v, 0 <= v < Z.of_nat n -> P v = true.
Proof.
  intros Hall v Hv. rewrite forallb_forall in Hall. apply Hall.
  apply in_map_iff. exists (Z.to_nat v). split; [lia | ].
  apply in_seq. lia.
Qed.

(** The VLAN id a port holds after [COM_SetPortVLAN] has written port
    control 3 and port control 4. *)
Lemma stored_vlan_id (r3 vlan_id : Z) :
  is_byte r3 -> 0 <= vlan_id < 4096 ->
  Z.lor
    (Z.shiftl
       (Z.land
          (u8 (Z.lor (Z.land r3 0xF8)
                 (Z.shiftl (Z.shiftr (Z.land vlan_id 0xE00) 8) 0))) 0xF) 8)
    (Z.shiftl (Z.land (u8 (Z.land vlan_id 0xFF)) 0xFF) 0)
  = Z.lor (Z.land vlan_id 0xEFF) (Z.shiftl (Z.land r3 0x08) 8).
Proof.
  intros Hr Hv.
  set (K := Z.shiftl (Z.shiftr (Z.land vlan_id 0xE00) 8) 0).
  set (L := Z.shiftl (Z.land (u8 (Z.land vlan_id 0xFF)) 0xFF) 0).
  assert (TA : on_bytes_and_bits
                 (fun r K =>
                    (Z.land (u8 (Z.lor (Z.land r 0xF8) K)) 0xF
                     =? Z.lor K (Z.land r 0x08))
                    && ((Z.land r 0x08 =? 0) || (Z.land r 0x08 =? 8)))
                 0 16 = true) by (vm_compute; reflexivity).
  assert (TB : forallb
                 (fun v =>
                    let K := Z.shiftl (Z.shiftr (Z.land v 0xE00) 8) 0 in
                    let L := Z.shiftl (Z.land (u8 (Z.land v 0xFF)) 0xFF) 0 in
                    (K <? 16) && (0 <=? K)
                    && (Z.lor (Z.shiftl (Z.lor K 0) 8) L
                        =? Z.lor (Z.land v 0xEFF) (Z.shiftl 0 8))
                    && (Z.lor (Z.shiftl (Z.lor K 8) 8) L
                        =? Z.lor (Z.land v 0xEFF) (Z.shiftl 8 8)))
                 (map Z.of_nat (seq 0 4096)) = true)
    by (vm_compute; reflexivity).
  pose proof (on_range_spec _ _ TB vlan_id ltac:(lia)) as EB.
  cbv beta zeta in EB. fold K L in EB.
  apply andb_prop in EB. destruct EB as [EB E8].
  apply andb_prop in EB. destruct EB as [EB E0].
  apply andb_prop in EB. destruct EB as [K1 K0].
  apply Z.ltb_lt in K1. apply Z.leb_le in K0.
  apply Z.eqb_eq in E0. apply Z.eqb_eq in E8.
  pose proof (on_bytes_and_bits_spec _ _ _ TA r3 K Hr ltac:(lia)) as EA.
  cbv beta in EA. apply andb_prop in EA. destruct EA as [EA Hx].
  apply Z.eqb_eq in EA. rewrite EA.
  apply orb_prop in Hx. destruct Hx as [Hx | Hx]; apply Z.eqb_eq in Hx;
    rewrite Hx; assumption.
Qed.

Lemma u8_bases_differ (a x y : Z) :
  0 <= x < 256 -> 0 <= y < 256 -> x <> y -> u8 (x + a) <> u8 (y + a).
Proof.
  intros Hx Hy Hne. rewrite (Z.add_comm x a), (Z.add_comm y a).
  apply u8_offsets_differ; assumption.
Qed.

Lemma vlan_id_without_bit_8 (vlan_id : Z) :
  0 <= vlan_id < 4096 -> Z.testbit vlan_id 8 = false ->
  Z.land vlan_id 0xEFF = vlan_id.
Proof.
  intros Hv Hb.
  assert (T : forallb (fun v => Z.testbit v 8 || (Z.land v 0xEFF =? v))
                (map Z.of_nat (seq 0 4096)) = true)
    by (vm_compute; reflexivity).
  pose proof (on_range_spec _ _ T vlan_id ltac:(lia)) as E.
  cbv beta in E. rewrite Hb in E. apply Z.eqb_eq in E. exact E.
Qed.

(** X23.  [COM_SetPortVLAN] on registers that keep what is written, for
    one of the four ports and a VLAN id below 4096.  It clears bits 2 to
    0 of port control 3 and then stores bits 11 to 9 of the id there, so
    bit 8 of the id is never stored and bit 3 of the register is never
    cleared: the id the port then holds is the id without its bit 8,
    with bit 11 set if bit 3 of port control 3 was set.  It is the id
    asked for when bit 8 of the id is clear and that bit 3 was clear, and
    it differs from it whenever bit 8 of the id is set. *)
Theorem COM_SetPortVLAN_drops_bit_8 {D : Type} `{Controller D}
  (port_addr vlan_id : Z) (w : World D) :
  plain_registers -> In port_addr port_base_addrs ->
  0 <= vlan_id < 4096 ->
  exists w',
    COM_SetPortVLAN port_addr vlan_id w = Some (true, w')
    /\ port_vlan_id port_addr w'
       = Z.lor (Z.land vlan_id 0xEFF)
           (Z.shiftl
              (Z.land
                 (ctrl_read_value (PORT_CONTROL3_OFFSET_HEX + port_addr) w)
                 0x08) 8)
    /\ (Z.testbit vlan_id 8 = true -> port_vlan_id port_addr w' <> vlan_id)
    /\ (Z.testbit vlan_id 8 = false ->
        Z.land (ctrl_read_value (PORT_CONTROL3_OFFSET_HEX + port_addr) w)
          0x08 = 0 ->
        port_vlan_id port_addr w' = vlan_id).
Proof.
  intros Hplain Hport Hv. unfold COM_SetPortVLAN.
  do 6 hal_step.
  match goal with
  | |- context [bind (AssertVLANS ?v ?p) _ ?w0] =>
      destruct (AssertVLANS_run Hplain v p w0) as (w7 & E7 & _ & Hother)
  end.
  cbv zeta in E7. rewrite (bind_eq _ _ _ _ _ E7). cbv beta.
  hal_step. unfold ret.
  eexists. split; [reflexivity | ].
  match goal with
  | |- port_vlan_id port_addr ?W = ?R /\ _ =>
      assert (Hstored : port_vlan_id port_addr W = R)
  end.
  { unfold port_vlan_id at 1.
    rewrite !(read_after_write_other Hplain)
      by (apply u8_bases_differ; vm_compute; intuition discriminate).
    rewrite !Hother
      by (intros base Hbase;
          destruct Hport as [<- | [<- | [<- | [<- | []]]]];
          destruct Hbase as [<- | [<- | [<- | [<- | []]]]];
          vm_compute; discriminate).
    repeat first
      [ rewrite read_after_read by exact Hplain
      | rewrite read_after_write by exact Hplain
      | rewrite (read_after_write_other Hplain)
          by (apply u8_bases_differ; vm_compute; intuition discriminate) ].
    apply stored_vlan_id; [apply ctrl_read_value_byte | exact Hv]. }
  split; [exact Hstored | ]. split.
  - intros Hb Heq. rewrite Hstored in Heq.
    assert (Hbit : Z.testbit vlan_id 8 = false).
    { rewrite <- Heq at 1.
      rewrite Z.lor_spec, Z.land_spec, Z.shiftl_spec by lia.
      rewrite Z.land_spec.
      change (Z.testbit 0xEFF 8) with false.
      change (Z.testbit 8 (8 - 8)) with false.
      rewrite !andb_false_r. reflexivity. }
    congruence.
  - intros Hb H3. rewrite Hstored, H3.
    rewrite vlan_id_without_bit_8 by assumption.
    change (Z.shiftl 0 8) with 0. apply Z.lor_0_r.
Qed.

Lemma COM_SetPortVLAN_drops_bit_8_witness :
  exists w',
    COM_SetPortVLAN ETHO_PORT1_HARDWARE_HEX 0x101
      (idle_world (fun _ : Z => 0))
    = Some (true, w')
    /\ port_vlan_id ETHO_PORT1_HARDWARE_HEX w'
       = Z.lor (Z.land 0x101 0xEFF)
           (Z.shiftl
              (Z.land
                 (ctrl_read_value
                    (PORT_CONTROL3_OFFSET_HEX + ETHO_PORT1_HARDWARE_HEX)
                    (idle_world (fun _ : Z => 0)))
                 0x08) 8)
    /\ (Z.testbit 0x101 8 = true ->
        port_vlan_id ETHO_PORT1_HARDWARE_HEX w' <> 0x101)
    /\ (Z.testbit 0x101 8 = false ->
        Z.land (ctrl_read_value
                  (PORT_CONTROL3_OFFSET_HEX + ETHO_PORT1_HARDWARE_HEX)
                  (idle_world (fun _ : Z => 0)))
          0x08 = 0 ->
        port_vlan_id ETHO_PORT1_HARDWARE_HEX w' = 0x101).
Proof.
  apply (COM_SetPortVLAN_drops_bit_8 (D := RegFile)
           ETHO_PORT1_HARDWARE_HEX 0x101 (idle_world (fun _ : Z => 0))).
  - exact RegFile_plain.
  - left. reflexivity.
  - lia.
Defined.
(* ================================================================== *)
(** ** The port monitor on the device that clears what it is told to *)

(** Bit 5 of a byte as a block of the task tests it. *)
Lemma connected_bit (x : Z) :
  negb (Z.land (Z.shiftr (u8 (u8 x)) 5) 1 =? 0) = Z.testbit x 5.
Proof.
  assert (E : Z.land (Z.shiftr (u8 (u8 x)) 5) 1 = Z.b2z (Z.testbit x 5)).
  { change 1 with (Z.ones 1). rewrite Z.land_ones by lia.
    change (2 ^ 1) with 2. rewrite <- Z.bit0_mod. f_equal.
    rewrite Z.shiftr_spec by lia. unfold u8. rewrite !Z.land_spec.
    change (Z.testbit 255 (0 + 5)) with true.
    rewrite !andb_true_r. reflexivity. }
  rewrite E. destruct (Z.testbit x 5); reflexivity.
Qed.

Lemma u8_u8 (x : Z) : u8 (u8 x) = u8 x.
Proof. apply u8_id. apply u8_range. Qed.

(** The bytes a block writes to the control register 2 of its port and
    to global control 0, from the bytes it read there. *)
Lemma block_bytes (c : Z) :
  is_byte c ->
  u8 (Z.lor c 1) = Z.lor c 1
  /\ u8 (Z.land (u8 (Z.lor c 1)) (Z.lnot 1)) = Z.land c 0xFE
  /\ u8 (Z.lor c 0x20) = Z.lor c 0x20.
Proof.
  intros Hc.
  assert (T : forallb
                (fun c =>
                   (u8 (Z.lor c 1) =? Z.lor c 1)
                   && (u8 (Z.land (u8 (Z.lor c 1)) (Z.lnot 1))
                       =? Z.land c 0xFE)
                   && (u8 (Z.lor c 0x20) =? Z.lor c 0x20))
                (map Z.of_nat (seq 0 256)) = true)
    by (vm_compute; reflexivity).
  pose proof (on_range_spec _ _ T c Hc) as E. cbv beta in E.
  apply andb_prop in E. destruct E as [E E3].
  apply andb_prop in E. destruct E as [E1 E2].
  apply Z.eqb_eq in E1, E2, E3. auto.
Qed.

(** The registers and the record of the writes of the device, read by
    read and write by write. *)
Lemma Ksz_read_value (a : Z) (k : World Ksz) :
  ctrl_read_value a k = u8 (ksz_regs (ctrl k) (u8 a)).
Proof. reflexivity. Qed.

Lemma Ksz_regs_after_read (a : Z) (k : World Ksz) :
  ksz_regs (ctrl (after_ctrl_read a k)) = ksz_regs (ctrl k).
Proof. reflexivity. Qed.

Lemma Ksz_regs_after_write (a v : Z) (k : World Ksz) :
  ksz_regs (ctrl (after_ctrl_write a v k))
  = upd (ksz_regs (ctrl k)) (u8 a)
      (if u8 a =? INTERRUPT_STATUS_REGISTER
       then Z.land (ksz_regs (ctrl k) (u8 a)) (Z.lnot (u8 v))
       else if u8 a =? GLOBAL_CONTROL_0_HEX
            then Z.land (u8 v) (Z.lnot 0x20)
            else u8 v).
Proof.
  unfold after_ctrl_write. cbn [ctrl ksz_write Ksz_Controller].
  destruct (u8 a =? INTERRUPT_STATUS_REGISTER); [reflexivity | ].
  destruct (u8 a =? GLOBAL_CONTROL_0_HEX); reflexivity.
Qed.

(** A block that runs on this device: it prints the notice of its port,
    clears its bit of the interrupt status register, writes to the
    control register 2 of its port and to global control 0, and leaves
    the other registers as they are. *)
Lemma service_port_Ksz_exact (fuel : nat) (bit status1 control2 : Z)
  (name : PortName) (k : World Ksz) :
  is_byte bit -> is_byte status1 -> is_byte control2 ->
  status1 <> INTERRUPT_STATUS_REGISTER ->
  control2 <> INTERRUPT_STATUS_REGISTER ->
  control2 <> GLOBAL_CONTROL_0_HEX ->
  exists k',
    service_port (S fuel) bit status1 control2 name k
    = Some (mkNotice name (Z.testbit (ksz_regs (ctrl k) status1) 5), k')
    /\ ksz_regs (ctrl k') INTERRUPT_STATUS_REGISTER
       = Z.land (ksz_regs (ctrl k) INTERRUPT_STATUS_REGISTER) (Z.lnot bit)
    /\ ctrl_writes (trace k')
       = [(control2, Z.land (u8 (ksz_regs (ctrl k) control2)) 0xFE);
          (GLOBAL_CONTROL_0_HEX,
           Z.lor (u8 (ksz_regs (ctrl k) GLOBAL_CONTROL_0_HEX)) 0x20);
          (control2, Z.lor (u8 (ksz_regs (ctrl k) control2)) 0x01);
          (INTERRUPT_STATUS_REGISTER, bit)]
         ++ ctrl_writes (trace k)
    /\ (forall a, a <> INTERRUPT_STATUS_REGISTER ->
          a <> GLOBAL_CONTROL_0_HEX -> a <> control2 ->
          ksz_regs (ctrl k') a = ksz_regs (ctrl k) a).
Proof.
  intros Hb Hs Hc Ns Nc Ng. unfold service_port.
  do 6 hal_step.
  cbn [while_loop].
  do 3 hal_step.
  rewrite flush_bit_read_back, flush_bit_clear.
  change (0 =? 0) with true. cbn [negb].
  repeat hal_step.
  unfold ret.
  match goal with
  | |- exists k', Some (?n, ?W) = _ /\ _ =>
      exists W;
      assert (En : n = mkNotice name (Z.testbit (ksz_regs (ctrl k) status1) 5))
  end.
  { f_equal.
    rewrite Ksz_read_value, Ksz_regs_after_write, (u8_id status1 Hs).
    change (u8 INTERRUPT_STATUS_REGISTER) with INTERRUPT_STATUS_REGISTER.
    rewrite upd_other by exact Ns. apply connected_bit. }
  rewrite En. split; [reflexivity | ]. clear En.
  repeat rewrite ?ctrl_writes_after_ctrl_read, ?ctrl_writes_after_ctrl_write,
    ?Ksz_read_value, ?Ksz_regs_after_read, ?Ksz_regs_after_write.
  rewrite ?(u8_id bit Hb), ?(u8_id status1 Hs), ?(u8_id control2 Hc).
  change (u8 INTERRUPT_STATUS_REGISTER) with INTERRUPT_STATUS_REGISTER.
  change (u8 GLOBAL_CONTROL_0_HEX) with GLOBAL_CONTROL_0_HEX.
  rewrite ?Z.eqb_refl.
  change (GLOBAL_CONTROL_0_HEX =? INTERRUPT_STATUS_REGISTER) with false.
  rewrite ?(proj2 (Z.eqb_neq _ _) Nc), ?(proj2 (Z.eqb_neq _ _) Ng).
  cbv iota.
  assert (Ngi : GLOBAL_CONTROL_0_HEX <> INTERRUPT_STATUS_REGISTER)
    by discriminate.
  split; [ | split].
  - repeat first
      [ rewrite upd_same
      | rewrite upd_other by first [assumption | congruence] ].
    reflexivity.
  - repeat first
      [ rewrite upd_same
      | rewrite upd_other by first [assumption | congruence] ].
    rewrite ?u8_u8.
    destruct (block_bytes (u8 (ksz_regs (ctrl k) control2)) (u8_range _))
      as (B1 & B2 & _).
    destruct (block_bytes (u8 (ksz_regs (ctrl k) GLOBAL_CONTROL_0_HEX))
                (u8_range _)) as (_ & _ & B3).
    rewrite B2, B1, B3. reflexivity.
  - intros a Ha1 Ha2 Ha3.
    rewrite !upd_other by assumption. reflexivity.
Qed.

(** A block whose bit is clear in [flags] does nothing. *)
Lemma monitor_block_skip {D : Type} `{Controller D} (fuel : nat)
  (bit status1 control2 : Z) (name : PortName) (flags : Z)
  (notices : list Notice) (w : World D) :
  (Z.land flags bit =? 0) = true ->
  monitor_block fuel bit status1 control2 name (flags, notices) w
  = Some ((flags, notices), w).
Proof. intros E. unfold monitor_block. rewrite E. reflexivity. Qed.

Lemma monitor_block_serve_Ksz (fuel : nat) (b : MonitorBlock) (flags : Z)
  (notices : list Notice) (k : World Ksz) :
  In b monitor_blocks ->
  (Z.land flags (block_bit b) =? 0) = false ->
  exists k',
    monitor_block (S fuel) (block_bit b) (block_status1 b) (block_control2 b)
      (block_name b) (flags, notices) k
    = Some ((block_bit b, notices ++ [notice_of (ksz_regs (ctrl k)) b]), k')
    /\ ksz_regs (ctrl k') INTERRUPT_STATUS_REGISTER
       = Z.land (ksz_regs (ctrl k) INTERRUPT_STATUS_REGISTER)
           (Z.lnot (block_bit b))
    /\ ctrl_writes (trace k')
       = block_writes (ksz_regs (ctrl k)) b ++ ctrl_writes (trace k)
    /\ (forall c, In c monitor_blocks ->
          ksz_regs (ctrl k') (block_status1 c)
          = ksz_regs (ctrl k) (block_status1 c)).
Proof.
  intros Hin E. unfold monitor_block. rewrite E. cbn [negb].
  destruct (service_port_Ksz_exact fuel (block_bit b) (block_status1 b)
              (block_control2 b) (block_name b) k)
    as (k' & E' & S & W & R);
    try (cbn in Hin;
         repeat (destruct Hin as [<- | Hin]; [ | ]); try contradiction;
         first [ unfold is_byte; cbn; lia | discriminate ]).
  rewrite (bind_eq _ _ _ _ _ E'). unfold ret.
  exists k'. split; [reflexivity | ]. split; [exact S | ].
  split; [exact W | ].
  intros c Hc. apply R;
    cbn in Hin, Hc;
    repeat (destruct Hin as [<- | Hin]; [ | ]); try contradiction;
    repeat (destruct Hc as [<- | Hc]; [ | ]); try contradiction;
    discriminate.
Qed.

(** The blocks after the one that ran find their bit clear in [flags],
    which holds the bit of that block alone. *)
Ltac skip_block :=
  match goal with
  | |- context [bind (monitor_block ?f ?b ?s ?c ?n (?fl, ?ns)) _ ?w0] =>
      rewrite (bind_eq _ _ _ _ _
                 (monitor_block_skip f b s c n fl ns w0 ltac:(assumption
                                                              || reflexivity)));
      cbv beta
  end.

Ltac serve_block blk :=
  match goal with
  | E : (Z.land ?fl _ =? 0) = false
    |- context [bind (monitor_block (S ?f) _ _ _ _ (?fl, ?ns)) _ ?w0] =>
      let k' := fresh "k'" in
      let E' := fresh "E'" in
      let P := fresh "P" in
      destruct (monitor_block_serve_Ksz f blk fl ns w0
                  ltac:(cbn; tauto) E) as (k' & E' & P);
      cbn [block_bit block_status1 block_control2 block_name] in E', P;
      rewrite (bind_eq _ _ _ _ _ E'); cbv beta;
      repeat skip_block; unfold ret; exists k'; split; [reflexivity | exact P]
  end.

(** A pass on this device. *)
Lemma PortMonitorTask_pass_Ksz_exact (fuel : nat) (k : World Ksz) :
  exists k',
    PortMonitorTask_pass (S fuel) true k
    = Some (pass_notices (ksz_regs (ctrl k)), k')
    /\ ksz_regs (ctrl k') INTERRUPT_STATUS_REGISTER
       = Z.land (ksz_regs (ctrl k) INTERRUPT_STATUS_REGISTER)
           (Z.lnot
              (first_pending
                 (u8 (ksz_regs (ctrl k) INTERRUPT_STATUS_REGISTER))))
    /\ ctrl_writes (trace k')
       = pass_writes (ksz_regs (ctrl k)) ++ ctrl_writes (trace k)
    /\ (forall c, In c monitor_blocks ->
          ksz_regs (ctrl k') (block_status1 c)
          = ksz_regs (ctrl k) (block_status1 c)).
Proof.
  unfold PortMonitorTask_pass.
  hal_step.
  rewrite Ksz_read_value.
  change (u8 INTERRUPT_STATUS_REGISTER) with INTERRUPT_STATUS_REGISTER.
  change (ctrl_writes (trace k))
    with (ctrl_writes (trace (after_ctrl_read INTERRUPT_STATUS_REGISTER k))).
  change (ksz_regs (ctrl k))
    with (ksz_regs (ctrl (after_ctrl_read INTERRUPT_STATUS_REGISTER k))).
  generalize (after_ctrl_read INTERRUPT_STATUS_REGISTER k). clear k.
  intros k.
  unfold pass_notices, pass_writes, pending_block, first_pending.
  cbn [find monitor_blocks]. unfold is_pending. cbn [block_bit].
  destruct (Z.land (u8 (ksz_regs (ctrl k) INTERRUPT_STATUS_REGISTER)) 16 =? 0)
    eqn:E16; cbn [negb];
    [skip_block | serve_block (mkBlock 0x10 0x5E 0x52 ExpansionPort)].
  destruct (Z.land (u8 (ksz_regs (ctrl k) INTERRUPT_STATUS_REGISTER)) 8 =? 0)
    eqn:E8; cbn [negb];
    [skip_block | serve_block (mkBlock 0x08 0x4E 0x42 Port0)].
  destruct (Z.land (u8 (ksz_regs (ctrl k) INTERRUPT_STATUS_REGISTER)) 4 =? 0)
    eqn:E4; cbn [negb];
    [skip_block | serve_block (mkBlock 0x04 0x3E 0x32 Port1)].
  destruct (Z.land (u8 (ksz_regs (ctrl k) INTERRUPT_STATUS_REGISTER)) 2 =? 0)
    eqn:E2; cbn [negb];
    [skip_block | serve_block (mkBlock 0x02 0x2E 0x22 Port2)].
  destruct (Z.land (u8 (ksz_regs (ctrl k) INTERRUPT_STATUS_REGISTER)) 1 =? 0)
    eqn:E1; cbn [negb];
    [skip_block | serve_block (mkBlock 0x01 0x1E 0x12 Port3)].
  unfold ret. exists k. split; [reflexivity | ].
  change (Z.lnot 0) with (-1). rewrite Z.land_m1_r. auto.
Qed.

(** With the interrupts of ports 0, 1 and 2 pending (status 0x0E), a
    pass prints the notice of port 0, sets and clears bit 0 of the
    control register 2 of port 0 (0x42) around the flush, and leaves
    the interrupts of ports 1 and 2 pending. *)
Lemma port_monitor_three_pending :
  option_map fst (PortMonitorTask_pass 1 true (pending_interrupts 0x0E))
  = Some [mkNotice Port0 false]
  /\ option_map (fun r => ksz_regs (ctrl (snd r)) INTERRUPT_STATUS_REGISTER)
       (PortMonitorTask_pass 1 true (pending_interrupts 0x0E))
     = Some 0x06
  /\ option_map (fun r => ctrl_writes (trace (snd r)))
       (PortMonitorTask_pass 1 true (pending_interrupts 0x0E))
     = Some [(0x42, 0x00); (0x02, 0x20); (0x42, 0x01); (0x7C, 0x08)].
Proof. vm_compute. repeat split; reflexivity. Qed.

(** X24.  On the device where a 1 written to the interrupt status
    register clears the bit and the flush bit clears itself, a pass of
    [PortMonitorTask] with a user logged in returns and serves the first
    pending port in the order of the blocks (0x10 the expansion port,
    0x08 port 0, 0x04 port 1, 0x02 port 2, 0x01 port 3), and that port
    alone.  It prints the one notice of that port, with the name of the
    port and connected or not by bit 5 of the status register 1 of that
    port; to the controller it writes the bit of that port to the
    interrupt status register, sets bit 0 of the control register 2 of
    that port, sets the flush bit of global control 0 and clears bit 0
    of that control register 2, and writes nothing else; the bit of
    that port is cleared
    in the interrupt status register and the other pending bits are
    pending still.  When none of the five bits is pending the pass
    prints nothing and writes nothing. *)
Theorem port_monitor_serves_the_first_pending_port (fuel : nat)
  (k : World Ksz) :
  exists k',
    PortMonitorTask_pass (S fuel) true k
    = Some (pass_notices (ksz_regs (ctrl k)), k')
    /\ ksz_regs (ctrl k') INTERRUPT_STATUS_REGISTER
       = Z.land (ksz_regs (ctrl k) INTERRUPT_STATUS_REGISTER)
           (Z.lnot
              (first_pending
                 (u8 (ksz_regs (ctrl k) INTERRUPT_STATUS_REGISTER))))
    /\ ctrl_writes (trace k')
       = pass_writes (ksz_regs (ctrl k)) ++ ctrl_writes (trace k)
    /\ List.length (pass_notices (ksz_regs (ctrl k)))
       = if first_pending
              (u8 (ksz_regs (ctrl k) INTERRUPT_STATUS_REGISTER)) =? 0
         then 0%nat else 1%nat.
Proof.
  destruct (PortMonitorTask_pass_Ksz_exact fuel k) as (k' & E & S & W & _).
  exists k'. split; [exact E | ]. split; [exact S | ]. split; [exact W | ].
  unfold pass_notices, pending_block, first_pending.
  cbn [find monitor_blocks]. unfold is_pending. cbn [block_bit].
  repeat match goal with
         | |- context [negb (Z.land ?x ?b =? 0)] =>
             destruct (Z.land x b =? 0); cbn [negb]; try reflexivity
         end.
Qed.

(* ------------------------------------------------------------------ *)
(** Five passes. *)

Lemma u8_land (s m : Z) : u8 (Z.land s m) = Z.land (u8 s) m.
Proof.
  unfold u8. rewrite <- !Z.land_assoc. f_equal. apply Z.land_comm.
Qed.

Lemma pending_block_spec (flags : Z) :
  match pending_block flags with
  | Some b => In b monitor_blocks /\ first_pending flags = block_bit b
  | None => first_pending flags = 0
  end.
Proof.
  unfold pending_block, first_pending.
  cbn [find monitor_blocks]. unfold is_pending. cbn [block_bit].
  repeat match goal with
         | |- context [negb (Z.land ?x ?b =? 0)] =>
             destruct (Z.land x b =? 0); cbn [negb];
             try (split; [cbn; tauto | reflexivity])
         end.
  reflexivity.
Qed.

Lemma served_blocks_In (n : nat) :
  forall flags b, In b (served_blocks n flags) -> In b monitor_blocks.
Proof.
  induction n as [ | n IH]; intros flags b Hin; [contradiction | ].
  cbn [served_blocks] in Hin.
  pose proof (pending_block_spec flags) as Hp.
  destruct (pending_block flags) as [b0 | ].
  - destruct Hin as [<- | Hin]; [apply Hp | exact (IH _ _ Hin)].
  - exact (IH _ _ Hin).
Qed.

Lemma notice_of_ext (regs regs' : Z -> Z) (l : list MonitorBlock) :
  (forall c, In c l -> regs' (block_status1 c) = regs (block_status1 c)) ->
  map (notice_of regs') l = map (notice_of regs) l.
Proof.
  intros Hs. apply map_ext_in. intros c Hc.
  unfold notice_of. rewrite (Hs c Hc). reflexivity.
Qed.

Lemma PortMonitorTask_passes_Ksz_exact (fuel n : nat) :
  forall k : World Ksz,
    exists k',
      PortMonitorTask_passes n (S fuel) k
      = Some (map (notice_of (ksz_regs (ctrl k)))
                (served_blocks n
                   (u8 (ksz_regs (ctrl k) INTERRUPT_STATUS_REGISTER))),
              k')
      /\ u8 (ksz_regs (ctrl k') INTERRUPT_STATUS_REGISTER)
         = flags_after n (u8 (ksz_regs (ctrl k) INTERRUPT_STATUS_REGISTER))
      /\ (forall c, In c monitor_blocks ->
            ksz_regs (ctrl k') (block_status1 c)
            = ksz_regs (ctrl k) (block_status1 c)).
Proof.
  induction n as [ | n IH]; intros k.
  - cbn [PortMonitorTask_passes served_blocks flags_after map]. unfold ret.
    exists k. auto.
  - cbn [PortMonitorTask_passes served_blocks flags_after].
    destruct (PortMonitorTask_pass_Ksz_exact fuel k)
      as (k1 & E1 & S1 & _ & R1).
    rewrite (bind_eq _ _ _ _ _ E1). cbv beta.
    destruct (IH k1) as (k' & E' & S' & R').
    rewrite (bind_eq _ _ _ _ _ E'). cbv beta. unfold ret.
    exists k'. split; [ | split].
    + f_equal. f_equal.
      rewrite S1, u8_land.
      rewrite (notice_of_ext (ksz_regs (ctrl k)) (ksz_regs (ctrl k1)))
        by (intros c Hc; apply R1; exact (served_blocks_In _ _ _ Hc)).
      unfold pass_notices.
      pose proof (pending_block_spec
                    (u8 (ksz_regs (ctrl k) INTERRUPT_STATUS_REGISTER)))
        as Hp.
      destruct (pending_block
                  (u8 (ksz_regs (ctrl k) INTERRUPT_STATUS_REGISTER)))
        as [b | ].
      * destruct Hp as [_ ->]. reflexivity.
      * rewrite Hp. change (Z.lnot 0) with (-1). rewrite Z.land_m1_r.
        reflexivity.
    + rewrite S', S1, u8_land. reflexivity.
    + intros c Hc. rewrite (R' c Hc). apply R1. exact Hc.
Qed.

(** Over every byte of interrupt status, five passes run the blocks of
    the bits that are set, each once and in the order of the blocks, and
    leave none of the five bits. *)
Lemma five_passes_table :
  Forall
    (fun x =>
       served_blocks 5 x = filter (is_pending x) monitor_blocks
       /\ Z.land (flags_after 5 x) 0x1F = 0
       /\ Z.of_nat (List.length (filter (is_pending x) monitor_blocks))
          = Z.b2z (Z.testbit x 0) + Z.b2z (Z.testbit x 1)
            + Z.b2z (Z.testbit x 2) + Z.b2z (Z.testbit x 3)
            + Z.b2z (Z.testbit x 4))
    (map Z.of_nat (seq 0 256)).
Proof.
  repeat (constructor; [vm_compute; repeat split; reflexivity | ]).
  constructor.
Qed.

Lemma testbit_u8 (s i : Z) : 0 <= i < 8 -> Z.testbit (u8 s) i = Z.testbit s i.
Proof.
  intros Hi. unfold u8. rewrite Z.land_spec.
  change 0xFF with (Z.ones 8). rewrite Z.ones_spec_low by lia.
  apply andb_true_r.
Qed.

(** X25.  One port a pass is enough in the end: on that device five
    passes of [PortMonitorTask] serve every port whose interrupt was
    pending.  They return and print exactly one notice for each of the
    five bits that was set in the interrupt status register, in the
    order of the blocks, each with the name of its port and connected
    or not by bit 5 of the status register 1 of that port; and they
    leave none of the five bits set. *)
Theorem five_passes_serve_every_pending_port (fuel : nat) (k : World Ksz) :
  exists k',
    PortMonitorTask_passes 5 (S fuel) k
    = Some (pending_notices (ksz_regs (ctrl k)), k')
    /\ Z.land (ksz_regs (ctrl k') INTERRUPT_STATUS_REGISTER) 0x1F = 0
    /\ Z.of_nat (List.length (pending_notices (ksz_regs (ctrl k))))
       = Z.b2z (Z.testbit (ksz_regs (ctrl k) INTERRUPT_STATUS_REGISTER) 0)
         + Z.b2z (Z.testbit (ksz_regs (ctrl k) INTERRUPT_STATUS_REGISTER) 1)
         + Z.b2z (Z.testbit (ksz_regs (ctrl k) INTERRUPT_STATUS_REGISTER) 2)
         + Z.b2z (Z.testbit (ksz_regs (ctrl k) INTERRUPT_STATUS_REGISTER) 3)
         + Z.b2z (Z.testbit (ksz_regs (ctrl k) INTERRUPT_STATUS_REGISTER) 4).
Proof.
  destruct (PortMonitorTask_passes_Ksz_exact fuel 5 k) as (k' & E & S & _).
  pose proof five_passes_table as T. rewrite Forall_forall in T.
  destruct (T (u8 (ksz_regs (ctrl k) INTERRUPT_STATUS_REGISTER)))
    as (Tb & Tf & Tn).
  { pose proof (u8_range (ksz_regs (ctrl k) INTERRUPT_STATUS_REGISTER)).
    apply in_map_iff.
    exists (Z.to_nat (u8 (ksz_regs (ctrl k) INTERRUPT_STATUS_REGISTER))).
    split; [lia | ]. apply in_seq. lia. }
  exists k'. split; [ | split].
  - rewrite E, Tb. reflexivity.
  - rewrite <- Tf, <- S. unfold u8. rewrite <- Z.land_assoc. reflexivity.
  - unfold pending_notices. rewrite length_map, Tn.
    rewrite !testbit_u8 by lia. reflexivity.
Qed.

(* ================================================================== *)
(** ** The progress bar *)

Lemma count_occ_repeat_other (s t : string) (n : nat) :
  s <> t -> count_occ string_dec (repeat s n) t = 0%nat.
Proof.
  intros Hne. induction n as [ | n IH]; [reflexivity | ].
  cbn [repeat count_occ].
  destruct (string_dec s t) as [E | _]; [contradiction | exact IH].
Qed.

Lemma count_occ_repeat_same (s : string) (n : nat) :
  count_occ string_dec (repeat s n) s = n.
Proof.
  induction n as [ | n IH]; [reflexivity | ].
  cbn [repeat count_occ].
  destruct (string_dec s s) as [_ | Hne]; [ | contradiction].
  rewrite IH. reflexivity.
Qed.

Lemma last_nonempty {A : Type} (x : A) (l : list A) (d d' : A) :
  last (x :: l) d = last (x :: l) d'.
Proof.
  revert x. induction l as [ | y t IH]; intros x; [reflexivity | ].
  change (last (x :: y :: t) d) with (last (y :: t) d).
  change (last (x :: y :: t) d') with (last (y :: t) d').
  apply IH.
Qed.

Lemma last_cons {A : Type} (v : A) (rest : list A) (p : A) :
  last (v :: rest) p = last rest v.
Proof.
  destruct rest as [ | x t]; [reflexivity | ].
  change (last (v :: x :: t) p) with (last (x :: t) p).
  apply last_nonempty.
Qed.

(** An [Increment] below 100 prints the marks that lead from the old
    value to the new one. *)
Lemma UpdateProgressBar_Increment (lastprogress newvalue : Z) :
  lastprogress < 100 ->
  fst (UpdateProgressBar lastprogress Increment newvalue) = newvalue
  /\ count_occ string_dec
       (snd (UpdateProgressBar lastprogress Increment newvalue)) "#"%string
     = Z.to_nat (Z.quot newvalue 2 - Z.quot lastprogress 2).
Proof.
  intros Hlt. unfold UpdateProgressBar.
  destruct (Z.leb_spec 100 lastprogress) as [Hge | _]; [lia | ].
  cbn [andb is_Fill is_FillError negb fst snd].
  split; [reflexivity | ].
  rewrite !count_occ_app, count_occ_repeat_same.
  rewrite count_occ_repeat_other by discriminate.
  cbn. lia.
Qed.

(** X26.  The marks of the progress bar add up.  When a loop reports
    values that never decrease and stay below 100, the calls of
    [UpdateProgressBar] with [Increment] print between them as many
    marks [#] as half the last value exceeds half the first, each half
    rounded down, and leave the last value in [lastprogress].  A bar
    that stays below 100 so never shows its fiftieth mark; the register
    loop of the boot, which reports [(100*reg)/0xFF] up to [reg] 0xFE, is
    one. *)
Theorem progress_marks_add_up (lastprogress : Z) (values : list Z) :
  0 <= lastprogress < 100 ->
  rises_below_100 lastprogress values = true ->
  fst (UpdateProgressBar_each lastprogress values)
  = last values lastprogress
  /\ count_occ string_dec
       (snd (UpdateProgressBar_each lastprogress values)) "#"%string
     = Z.to_nat (Z.quot (last values lastprogress) 2
                 - Z.quot lastprogress 2)
  /\ lastprogress <= last values lastprogress < 100.
Proof.
  revert lastprogress.
  induction values as [ | v rest IH]; intros p Hp Hrises.
  - cbn. split; [reflexivity | ]. rewrite Z.sub_diag.
    split; [reflexivity | lia].
  - cbn [UpdateProgressBar_each rises_below_100] in *.
    apply andb_prop in Hrises. destruct Hrises as [Hrises Hrest].
    apply andb_prop in Hrises. destruct Hrises as [Hle Hlt].
    apply Z.leb_le in Hle. apply Z.ltb_lt in Hlt.
    destruct (UpdateProgressBar_Increment p v ltac:(lia)) as [E1 C1].
    destruct (UpdateProgressBar p Increment v) as [p1 out1].
    cbn [fst snd] in E1, C1. subst p1.
    destruct (IH v ltac:(lia) Hrest) as (E2 & C2 & Hv).
    destruct (UpdateProgressBar_each v rest) as [p2 out2].
    cbn [fst snd] in E2, C2 |- *.
    pose proof (last_cons v rest p) as Hlast.
    rewrite Hlast. split; [exact E2 | ]. split; [ | lia].
    rewrite count_occ_app, C1, C2.
    assert (Hq : forall a b, 0 <= a <= b -> Z.quot a 2 <= Z.quot b 2).
    { intros a b Hab. apply Z.quot_le_mono; lia. }
    pose proof (Hq p v ltac:(lia)).
    pose proof (Hq v (last rest v) ltac:(lia)). lia.
Qed.

Lemma progress_marks_add_up_witness :
  fst (UpdateProgressBar_each 0 boot_progress_values)
  = last boot_progress_values 0
  /\ count_occ string_dec
       (snd (UpdateProgressBar_each 0 boot_progress_values)) "#"%string
     = Z.to_nat (Z.quot (last boot_progress_values 0) 2 - Z.quot 0 2)
  /\ 0 <= last boot_progress_values 0 < 100.
Proof.
  apply (progress_marks_add_up 0 boot_progress_values).
  - lia.
  - vm_compute. reflexivity.
Defined.

(* ================================================================== *)
(** ** The user table across a save and a boot *)

Lemma logical_bytes_ext (m m' : Z -> Z) (n : nat) :
  forall start,
    (forall x, start <= x < start + Z.of_nat n -> m' x = m x) ->
    logical_bytes m' start n = logical_bytes m start n.
Proof.
  induction n as [ | n IH]; intros start Hsame; [reflexivity | ].
  cbn [logical_bytes]. rewrite Nat2Z.inj_succ in Hsame.
  rewrite Hsame by lia. f_equal. apply IH.
  intros x Hx. apply Hsame. lia.
Qed.

Lemma logical_bytes_length (m : Z -> Z) (n : nat) :
  forall start, List.length (logical_bytes m start n) = n.
Proof.
  induction n as [ | n IH]; intros start; [reflexivity | ].
  cbn [logical_bytes List.length]. rewrite IH. reflexivity.
Qed.

Section Users.

Context {D : Type} `{Controller D}.

(** A bulk write that fits changes the cells of its range and no
    other. *)
Lemma EEPROMBulkWrite_loop_frame (data : list Z) :
  forall (start : Z) (w : World D),
    0 <= start -> start + Z.of_nat (List.length data) <= 131072 ->
    Forall is_byte data ->
    exists w', EEPROMBulkWrite_loop start data w = Some (true, w')
      /\ logical_bytes (ee_mem (eeprom w')) start (List.length data) = data
      /\ (forall x, x < start \/ start + Z.of_nat (List.length data) <= x ->
            ee_mem (eeprom w') x = ee_mem (eeprom w) x).
Proof.
  induction data as [ | b rest IH]; intros start w H0 Hlen Hbytes.
  - cbn. unfold bind, xSemaphoreGive, ret. eexists. split; [reflexivity | ].
    cbn. auto.
  - cbn [List.length] in Hlen |- *. rewrite Nat2Z.inj_succ in Hlen |- *.
    inversion Hbytes as [ | ? ? Hb Hrest]; subst.
    cbn [EEPROMBulkWrite_loop].
    destruct (131072 <=? start) eqn:Hge; [apply Z.leb_le in Hge; lia | ].
    unfold bind at 1. rewrite EEPROMSingleWrite_eq by assumption.
    cbn [negb]. rewrite u32_small by lia.
    destruct (IH (start + 1) (after_eeprom_write start b w)
                ltac:(lia) ltac:(lia) Hrest)
      as (w2 & E2 & Hl2 & Hf2).
    exists w2. split; [exact E2 | ].
    cbn [after_eeprom_write eeprom ee_mem] in Hf2.
    rewrite Z.mod_small in Hf2 by lia.
    split.
    + cbn [logical_bytes]. rewrite Hl2. f_equal.
      rewrite Hf2 by lia. rewrite upd_same.
      apply not8_involutive. exact Hb.
    + intros x Hx. rewrite Hf2 by lia. apply upd_other. lia.
Qed.

Lemma EEPROMBulkWrite_frame (start : Z) (data : list Z) (w : World D) :
  0 <= start < 131072 -> start + Z.of_nat (List.length data) <= 131072 ->
  Forall is_byte data ->
  exists w', EEPROMBulkWrite start data w = Some (true, w')
    /\ logical_bytes (ee_mem (eeprom w')) start (List.length data) = data
    /\ (forall x, x < start \/ start + Z.of_nat (List.length data) <= x ->
          ee_mem (eeprom w') x = ee_mem (eeprom w) x).
Proof.
  intros H0 Hlen Hbytes. unfold EEPROMBulkWrite.
  unfold bind at 1. rewrite LogItemEEPROM_eq.
  unfold bind at 1. rewrite xSemaphoreTake_SPI0_eq.
  destruct (131072 <=? start) eqn:Hge; [apply Z.leb_le in Hge; lia | ].
  match goal with
  | |- context [EEPROMBulkWrite_loop start data ?w0] =>
      destruct (EEPROMBulkWrite_loop_frame data start w0 ltac:(lia) Hlen
                  Hbytes) as (w3 & E3 & Hl3 & Hf3)
  end.
  exists w3. split; [exact E3 | ]. split; [exact Hl3 | ].
  intros x Hx. rewrite Hf3 by exact Hx. reflexivity.
Qed.

End Users.

Lemma is_field_spec (f : list Z) :
  is_field f = true -> List.length f = 16%nat /\ Forall is_byte f.
Proof.
  unfold is_field. intros E. apply andb_prop in E. destruct E as [El Eb].
  apply Nat.eqb_eq in El. split; [exact El | ].
  apply Forall_forall. intros b Hb.
  rewrite forallb_forall in Eb. specialize (Eb b Hb).
  apply andb_prop in Eb. destruct Eb as [E0 E1].
  apply Z.leb_le in E0. apply Z.ltb_lt in E1. unfold is_byte. lia.
Qed.

Lemma all_users_spec (P : User_Data -> bool) (users : list User_Data) :
  all_users P users = true ->
  forall i, 0 <= i < MAX_USERS -> P (user_at users i) = true.
Proof.
  unfold all_users. intros Hall i Hi. rewrite forallb_forall in Hall.
  specialize (Hall (Z.to_nat i)). rewrite Z2Nat.id in Hall by lia.
  apply Hall. apply in_seq. lia.
Qed.

Section Users_records.

Context {D : Type} `{Controller D}.

Lemma write_user_run (slot : Z) (u : User_Data) (w : World D) :
  0 <= slot < MAX_USERS -> user_record_ok u = true ->
  exists w',
    write_user slot u w = Some (tt, w')
    /\ user_stored (ee_mem (eeprom w')) slot u
    /\ (forall x, x < EEPROM_USERS_BASE + slot * 65
                  \/ EEPROM_USERS_BASE + slot * 65 + 65 <= x ->
          ee_mem (eeprom w') x = ee_mem (eeprom w) x).
Proof.
  intros Hslot Hok. unfold user_record_ok in Hok.
  apply andb_prop in Hok. destruct Hok as [Hok Hl].
  apply andb_prop in Hok. destruct Hok as [Hok Hf].
  apply andb_prop in Hok. destruct Hok as [Hn Hp].
  apply is_field_spec in Hn, Hp, Hf, Hl.
  destruct Hn as [Ln Bn], Hp as [Lp Bp], Hf as [Lf Bf], Hl as [Ll Bl].
  unfold MAX_USERS in Hslot. unfold write_user, EEPROM_USERS_BASE.
  rewrite !u32_small by lia.
  destruct (EEPROMBulkWrite_frame (4608 + slot * 65) (username u) w
              ltac:(lia) ltac:(lia) Bn) as (w1 & E1 & S1 & F1).
  rewrite (bind_eq _ _ _ _ _ E1). cbv beta.
  destruct (EEPROMBulkWrite_frame (4608 + slot * 65 + 16) (password u) w1
              ltac:(lia) ltac:(lia) Bp) as (w2 & E2 & S2 & F2).
  rewrite (bind_eq _ _ _ _ _ E2). cbv beta.
  destruct (EEPROMBulkWrite_frame (4608 + slot * 65 + 32) (first_name u) w2
              ltac:(lia) ltac:(lia) Bf) as (w3 & E3 & S3 & F3).
  rewrite (bind_eq _ _ _ _ _ E3). cbv beta.
  destruct (EEPROMBulkWrite_frame (4608 + slot * 65 + 48) (last_name u) w3
              ltac:(lia) ltac:(lia) Bl) as (w4 & E4 & S4 & F4).
  rewrite (bind_eq _ _ _ _ _ E4). cbv beta.
  erewrite bind_eq by (apply EEPROMSingleWrite_eq; [lia | apply u8_range]).
  unfold ret. eexists. split; [reflexivity | ].
  rewrite Ln in S1, F1. rewrite Lp in S2, F2.
  rewrite Lf in S3, F3. rewrite Ll in S4, F4.
  cbn [after_eeprom_write eeprom ee_mem].
  rewrite Z.mod_small by lia.
  split.
  - unfold user_stored, EEPROM_USERS_BASE.
    split; [ | split; [ | split; [ | split]]].
    + rewrite <- S1. apply logical_bytes_ext. intros x Hx.
      rewrite upd_other, F4, F3, F2 by lia. reflexivity.
    + rewrite <- S2. apply logical_bytes_ext. intros x Hx.
      rewrite upd_other, F4, F3 by lia. reflexivity.
    + rewrite <- S3. apply logical_bytes_ext. intros x Hx.
      rewrite upd_other, F4 by lia. reflexivity.
    + rewrite <- S4. apply logical_bytes_ext. intros x Hx.
      rewrite upd_other by lia. reflexivity.
    + rewrite upd_same. apply not8_involutive. apply u8_range.
  - intros x Hx. rewrite upd_other, F4, F3, F2, F1 by lia. reflexivity.
Qed.

End Users_records.

Lemma user_stored_frame (m m' : Z -> Z) (i : Z) (u : User_Data) :
  (forall x, EEPROM_USERS_BASE + i * 65 <= x
             < EEPROM_USERS_BASE + i * 65 + 65 -> m' x = m x) ->
  user_stored m i u -> user_stored m' i u.
Proof.
  intros Hsame (Sn & Sp & Sf & Sl & Sperm). unfold user_stored.
  rewrite <- Sn, <- Sp, <- Sf, <- Sl, <- Sperm.
  repeat split;
    try (apply logical_bytes_ext; intros x Hx; apply Hsame; lia).
  rewrite Hsame by lia. reflexivity.
Qed.

Lemma Update_or_Add_is_not_Delete (a : Action) :
  is_Update_or_Add a = true -> is_Delete a = false.
Proof. destruct a; (discriminate || reflexivity). Qed.

Section Users_save.

Context {D : Type} `{Controller D}.

Variable users : list User_Data.

Hypothesis pending :
  all_users (fun u => is_Update_or_Add (nextAction u) && user_record_ok u)
    users = true.

(** With no user marked for deletion the two counters of the loop run
    together, and every turn writes the record of its user to the slot
    of the same index. *)
Lemma save_users_run (left : nat) :
  forall (k : Z) (turns : nat) (w : World D),
    0 <= k -> k + Z.of_nat left = MAX_USERS -> (left < turns)%nat ->
    (forall i, 0 <= i < k ->
       user_stored (ee_mem (eeprom w)) i (user_at users i)) ->
    exists w',
      save_users turns users k k w = Some (tt, w')
      /\ forall i, 0 <= i < MAX_USERS ->
           user_stored (ee_mem (eeprom w')) i (user_at users i).
Proof.
  induction left as [ | left IH]; intros k turns w Hk Hleft Hturns Hbefore.
  - destruct turns as [ | turns]; [lia | ]. cbn [save_users].
    destruct (Z.ltb_spec k MAX_USERS) as [Hlt | _]; [lia | ].
    unfold ret. eexists. split; [reflexivity | ].
    intros i Hi. apply Hbefore. lia.
  - destruct turns as [ | turns]; [lia | ]. cbn [save_users].
    rewrite Nat2Z.inj_succ in Hleft.
    destruct (Z.ltb_spec k MAX_USERS) as [Hlt | Hge]; [ | lia].
    pose proof (all_users_spec _ _ pending k ltac:(lia)) as Hu.
    cbv beta in Hu. apply andb_prop in Hu. destruct Hu as [Hact Hok].
    rewrite Hact, (Update_or_Add_is_not_Delete _ Hact).
    destruct (write_user_run k (user_at users k) w ltac:(lia) Hok)
      as (w1 & E1 & S1 & F1).
    rewrite (bind_eq _ _ _ _ _ E1). cbv beta.
    unfold bind at 1, ret at 1.
    assert (Hc : (MAX_USERS - 1 <? k + 1) && (k <? MAX_USERS - 1) = false).
    { unfold MAX_USERS in *.
      destruct (Z.ltb_spec 14 (k + 1)), (Z.ltb_spec k 14);
        try reflexivity; lia. }
    rewrite Hc.
    destruct (IH (k + 1) turns w1 ltac:(lia) ltac:(lia) ltac:(lia))
      as (w' & E' & Hall).
    { intros i Hi. destruct (Z.eq_dec i k) as [-> | Hne]; [exact S1 | ].
      apply (user_stored_frame (ee_mem (eeprom w))).
      - intros x Hx. apply F1. unfold EEPROM_USERS_BASE in *. lia.
      - apply Hbefore. lia. }
    exists w'. split; [exact E' | exact Hall].
Qed.

End Users_save.

Lemma length_set_user (users : list User_Data) (u : User_Data) :
  forall n, List.length (set_user users n u) = List.length users.
Proof.
  induction users as [ | h t IH]; intros n; [reflexivity | ].
  destruct n as [ | n]; cbn [set_user List.length]; [reflexivity | ].
  rewrite IH. reflexivity.
Qed.

Lemma nth_set_user_same (users : list User_Data) (u d : User_Data) :
  forall n, (n < List.length users)%nat -> nth n (set_user users n u) d = u.
Proof.
  induction users as [ | h t IH]; intros n Hn; [cbn in Hn; lia | ].
  destruct n as [ | n]; cbn [set_user nth]; [reflexivity | ].
  apply IH. cbn in Hn. lia.
Qed.

Lemma nth_set_user_other (users : list User_Data) (u d : User_Data) :
  forall n j, j <> n -> nth j (set_user users n u) d = nth j users d.
Proof.
  induction users as [ | h t IH]; intros n j Hne; [reflexivity | ].
  destruct n as [ | n], j as [ | j]; cbn [set_user nth];
    try reflexivity; try contradiction.
  apply IH. intros E. apply Hne. rewrite E. reflexivity.
Qed.

Lemma overlay_field (old new : list Z) :
  List.length old = 16%nat -> List.length new = 16%nat ->
  overlay old new = new.
Proof.
  intros Ho Hn. unfold overlay. rewrite Hn, <- Ho, skipn_all.
  apply app_nil_r.
Qed.

Section Users_restore.

Context {D : Type} `{Controller D}.

(** The table that was saved. *)
Variable saved : list User_Data.

Lemma restore_users_run (left : nat) :
  forall (k : Z) (users : list User_Data) (w : World D),
    0 <= k -> k + Z.of_nat left = MAX_USERS ->
    (Z.to_nat MAX_USERS <= List.length users)%nat ->
    (forall i, k <= i < MAX_USERS ->
       user_stored (ee_mem (eeprom w)) i (user_at saved i)) ->
    (forall i, k <= i < MAX_USERS ->
       user_record_ok (user_at users i) = true) ->
    exists users' w',
      restore_users left k users w = Some (users', w')
      /\ (forall i, k <= i < MAX_USERS ->
            user_at users' i
            = mkUser_Data (username (user_at saved i))
                (first_name (user_at saved i))
                (last_name (user_at saved i))
                (password (user_at saved i))
                (u8 (permissions (user_at saved i)))
                (isMarked (user_at users i)) NoAction)
      /\ (forall i, 0 <= i < k -> user_at users' i = user_at users i).
Proof.
  induction left as [ | left IH]; intros k users w Hk Hleft Hlen Hst Hok.
  - cbn [restore_users]. unfold ret. do 2 eexists.
    split; [reflexivity | ]. split; [intros i Hi; lia | auto].
  - rewrite Nat2Z.inj_succ in Hleft. cbn [restore_users].
    unfold MAX_USERS in *.
    destruct (Hst k ltac:(lia)) as (Sn & Sp & Sf & Sl & Sperm).
    unfold EEPROM_USERS_BASE in *.
    destruct (EEPROMBulkRead_run (4608 + k * 65) 16 w ltac:(lia) ltac:(lia))
      as (w1 & E1 & M1 & _).
    rewrite (bind_eq _ _ _ _ _ E1). cbv beta. cbn [snd].
    destruct (EEPROMBulkRead_run (4608 + k * 65 + 16) 16 w1
                ltac:(lia) ltac:(lia)) as (w2 & E2 & M2 & _).
    rewrite (bind_eq _ _ _ _ _ E2). cbv beta. cbn [snd].
    destruct (EEPROMBulkRead_run (4608 + k * 65 + 32) 16 w2
                ltac:(lia) ltac:(lia)) as (w3 & E3 & M3 & _).
    rewrite (bind_eq _ _ _ _ _ E3). cbv beta. cbn [snd].
    destruct (EEPROMBulkRead_run (4608 + k * 65 + 48) 16 w3
                ltac:(lia) ltac:(lia)) as (w4 & E4 & M4 & _).
    rewrite (bind_eq _ _ _ _ _ E4). cbv beta. cbn [snd].
    erewrite bind_eq by (apply EEPROMSingleRead_eq; lia). cbv beta.
    unfold eeprom_read_value. rewrite Z.mod_small by lia.
    rewrite ?M4, ?M3, ?M2, ?M1. rewrite Sn, Sp, Sf, Sl, Sperm.
    pose proof (Hok k ltac:(lia)) as Hokk. unfold user_record_ok in Hokk.
    apply andb_prop in Hokk. destruct Hokk as [Hokk Hl0].
    apply andb_prop in Hokk. destruct Hokk as [Hokk Hf0].
    apply andb_prop in Hokk. destruct Hokk as [Hn0 Hp0].
    apply is_field_spec in Hn0, Hp0, Hf0, Hl0.
    rewrite (overlay_field (username (user_at users k)))
      by (tauto || (rewrite <- Sn; apply logical_bytes_length)).
    rewrite (overlay_field (first_name (user_at users k)))
      by (tauto || (rewrite <- Sf; apply logical_bytes_length)).
    rewrite (overlay_field (last_name (user_at users k)))
      by (tauto || (rewrite <- Sl; apply logical_bytes_length)).
    rewrite (overlay_field (password (user_at users k)))
      by (tauto || (rewrite <- Sp; apply logical_bytes_length)).
    match goal with
    | |- context [restore_users left (k + 1) ?users1 ?w5] =>
        destruct (IH (k + 1) users1 w5 ltac:(lia) ltac:(lia))
          as (users' & w' & E' & Hnew & Hold)
    end.
    { rewrite length_set_user. exact Hlen. }
    { intros i Hi. cbn [after_eeprom_read eeprom].
      rewrite M4, M3, M2, M1. apply Hst. lia. }
    { intros i Hi. unfold user_at.
      rewrite nth_set_user_other by lia. apply Hok. lia. }
    exists users', w'. split; [exact E' | ]. split.
    + intros i Hi. destruct (Z.eq_dec i k) as [-> | Hne].
      * rewrite Hold by lia. unfold user_at at 1.
        rewrite nth_set_user_same by lia. reflexivity.
      * rewrite Hnew by lia. unfold user_at at 6.
        rewrite nth_set_user_other by lia. reflexivity.
    + intros i Hi. rewrite Hold by lia. unfold user_at at 1.
      rewrite nth_set_user_other by lia. reflexivity.
Qed.

End Users_restore.

(** X27.  The user table survives a save and a boot.  When each of the
    15 users of the table has the action [Update] or [Add] pending (and
    none is marked for deletion), the user loop of
    [COM_SaveSwitchConfiguration] writes every record to the slot of its
    index, and the user loop of [InitializeEEPROM] then reads back, for
    each of the 15, the same user name, password, first and last name
    and the permissions as a byte, with no action pending. *)
Theorem users_survive_save_and_boot {D : Type} `{Controller D}
  (users users0 : list User_Data) (w : World D) :
  all_users (fun u => is_Update_or_Add (nextAction u) && user_record_ok u)
    users = true ->
  all_users user_record_ok users0 = true ->
  (Z.to_nat MAX_USERS <= List.length users0)%nat ->
  exists w1 users' w2,
    save_users 16 users 0 0 w = Some (tt, w1)
    /\ restore_users (Z.to_nat MAX_USERS) 0 users0 w1 = Some (users', w2)
    /\ forall i, 0 <= i < MAX_USERS ->
         user_at users' i
         = mkUser_Data (username (user_at users i))
             (first_name (user_at users i))
             (last_name (user_at users i))
             (password (user_at users i))
             (u8 (permissions (user_at users i)))
             (isMarked (user_at users0 i)) NoAction.
Proof.
  intros Hpending Hok Hlen.
  destruct (save_users_run users Hpending 15 0 16 w ltac:(lia)
              ltac:(reflexivity) ltac:(lia) ltac:(intros i Hi; lia))
    as (w1 & E1 & Hstored).
  destruct (restore_users_run users (Z.to_nat MAX_USERS) 0 users0 w1
              ltac:(lia) ltac:(reflexivity) Hlen
              ltac:(intros i Hi; apply Hstored; lia)
              ltac:(intros i Hi; apply (all_users_spec _ _ Hok); lia))
    as (users' & w2 & E2 & Hnew & _).
  exists w1, users', w2. split; [exact E1 | ]. split; [exact E2 | ].
  intros i Hi. apply Hnew. lia.
Qed.

Lemma users_survive_save_and_boot_witness :
  exists w1 users' w2,
    save_users 16 (table_of sample_user) 0 0 (idle_world (fun _ : Z => 0))
    = Some (tt, w1)
    /\ restore_users (Z.to_nat MAX_USERS) 0 (table_of empty_user) w1
       = Some (users', w2)
    /\ forall i, 0 <= i < MAX_USERS ->
         user_at users' i
         = mkUser_Data (username (user_at (table_of sample_user) i))
             (first_name (user_at (table_of sample_user) i))
             (last_name (user_at (table_of sample_user) i))
             (password (user_at (table_of sample_user) i))
             (u8 (permissions (user_at (table_of sample_user) i)))
             (isMarked (user_at (table_of empty_user) i)) NoAction.
Proof.
  apply (users_survive_save_and_boot (D := RegFile)
           (table_of sample_user) (table_of empty_user)
           (idle_world (fun _ : Z => 0))).
  - vm_compute. reflexivity.
  - vm_compute. reflexivity.
  - cbn. lia.
Defined.

Lemma later_users_spec (P : User_Data -> bool) (users : list User_Data) :
  later_users P users = true ->
  forall i, 1 <= i < MAX_USERS -> P (user_at users i) = true.
Proof.
  unfold later_users. intros Hall i Hi. rewrite forallb_forall in Hall.
  specialize (Hall (Z.to_nat i)). rewrite Z2Nat.id in Hall by lia.
  apply Hall. apply in_seq. unfold MAX_USERS in *. lia.
Qed.

Lemma Delete_is_not_Update_or_Add (a : Action) :
  is_Delete a = true -> is_Update_or_Add a = false.
Proof. destruct a; (discriminate || reflexivity). Qed.

Lemma empty_user_record_ok : user_record_ok empty_user = true.
Proof. reflexivity. Qed.

Section Users_deleted.

Context {D : Type} `{Controller D}.

Variable users : list User_Data.
Variable m0 : Z -> Z.

Hypothesis later :
  later_users
    (fun u => negb (is_Delete (nextAction u))
              && (negb (is_Update_or_Add (nextAction u))
                  || user_record_ok u))
    users = true.

Lemma save_users_shifted (left : nat) :
  forall (k : Z) (turns : nat) (w : World D),
    1 <= k -> k + Z.of_nat left = MAX_USERS - 1 -> (left < turns)%nat ->
    shifted users m0 k (ee_mem (eeprom w)) ->
    (forall x, EEPROM_USERS_BASE + Z.max (k - 1) 1 * 65 <= x ->
       ee_mem (eeprom w) x = m0 x) ->
    exists w',
      save_users turns users (k - 1) k w = Some (tt, w')
      /\ shifted users m0 (MAX_USERS - 1) (ee_mem (eeprom w'))
      /\ user_stored (ee_mem (eeprom w')) 13 empty_user
      /\ user_stored (ee_mem (eeprom w')) 14 empty_user.
Proof.
  unfold MAX_USERS.
  induction left as [ | left IH];
    intros k turns w Hk Hleft Hturns (Ha & Hb & Hc) Hframe;
    (destruct turns as [ | turns]; [lia | ]); cbn [save_users];
    unfold MAX_USERS;
    (destruct (Z.ltb_spec (k - 1) 15) as [_ | Hge]; [ | lia]);
    pose proof (later_users_spec _ _ later k ltac:(unfold MAX_USERS; lia))
      as Hu; cbv beta in Hu;
    apply andb_prop in Hu; destruct Hu as [Hnd Hok];
    apply negb_true_iff in Hnd; rewrite Hnd.
  - (* user 14, the last turn: the two last slots are blanked *)
    assert (k = 14) by lia. subst k. clear Hleft.
    change (14 - 1) with 13 in *.
    assert (Hw : exists w1,
               (if is_Update_or_Add (nextAction (user_at users 14))
                then write_user 13 (user_at users 14) else ret tt) w
               = Some (tt, w1)
               /\ forall x, x < EEPROM_USERS_BASE + 13 * 65 ->
                    ee_mem (eeprom w1) x = ee_mem (eeprom w) x).
    { destruct (is_Update_or_Add (nextAction (user_at users 14))).
      - cbn [negb orb] in Hok.
        destruct (write_user_run 13 (user_at users 14) w
                    ltac:(unfold MAX_USERS; lia) Hok) as (w1 & E1 & _ & F1).
        exists w1. split; [exact E1 | ]. intros x Hx. apply F1. lia.
      - unfold ret. exists w. auto. }
    destruct Hw as (w1 & E1 & F1).
    rewrite (bind_eq _ _ _ _ _ E1). cbv beta.
    unfold bind at 1, ret at 1. cbv beta iota.
    change ((15 - 1 <? 14 + 1) && (13 <? 15 - 1)) with true. cbv iota.
    change (Z.to_nat (15 - 13)) with 2%nat.
    cbn [fill_blank_users]. unfold write_blank_user.
    destruct (write_user_run 13 empty_user w1 ltac:(unfold MAX_USERS; lia)
                empty_user_record_ok) as (w2 & E2 & S2 & F2).
    rewrite (bind_eq _ _ _ _ _ E2). cbv beta.
    change (13 + 1) with 14.
    destruct (write_user_run 14 empty_user w2 ltac:(unfold MAX_USERS; lia)
                empty_user_record_ok) as (w3 & E3 & S3 & F3).
    rewrite (bind_eq _ _ _ _ _ E3). cbv beta. unfold ret.
    exists w3. split; [reflexivity | ].
    assert (Hlow : forall x, x < EEPROM_USERS_BASE + 13 * 65 ->
                     ee_mem (eeprom w3) x = ee_mem (eeprom w) x).
    { intros x Hx. rewrite F3, F2, F1 by lia. reflexivity. }
    split; [ | split; [ | exact S3]].
    + split; [ | split].
      * intros i Hi Hua.
        apply (user_stored_frame (ee_mem (eeprom w))); [ | apply Ha; lia || exact Hua].
        intros x Hx. apply Hlow. unfold EEPROM_USERS_BASE in *. lia.
      * intros i Hi Hua x Hx. unfold in_slot in Hx.
        rewrite Hlow by (unfold EEPROM_USERS_BASE in *; lia).
        apply (Hb i ltac:(lia) Hua x Hx).
      * intros Hone.
        apply (user_stored_frame (ee_mem (eeprom w))).
        -- intros x Hx. apply Hlow. unfold EEPROM_USERS_BASE in *. lia.
        -- apply Hc. destruct Hone as [Hone | Hone]; [lia | right; exact Hone].
    + apply (user_stored_frame (ee_mem (eeprom w2))); [ | exact S2].
      intros x Hx. apply F3. unfold EEPROM_USERS_BASE in *. lia.
  - (* a user before the last: its record goes one slot down *)
    rewrite Nat2Z.inj_succ in Hleft.
    assert (Hcond : (15 - 1 <? k + 1) && (k - 1 <? 15 - 1) = false).
    { destruct (Z.ltb_spec (15 - 1) (k + 1)); [lia | reflexivity]. }
    assert (Hw : exists w1,
               (if is_Update_or_Add (nextAction (user_at users k))
                then write_user (k - 1) (user_at users k) else ret tt) w
               = Some (tt, w1)
               /\ shifted users m0 (k + 1) (ee_mem (eeprom w1))
               /\ forall x, EEPROM_USERS_BASE + Z.max (k + 1 - 1) 1 * 65 <= x ->
                    ee_mem (eeprom w1) x = m0 x).
    { destruct (is_Update_or_Add (nextAction (user_at users k))) eqn:Hua.
      - cbn [negb orb] in Hok.
        destruct (write_user_run (k - 1) (user_at users k) w
                    ltac:(unfold MAX_USERS; lia) Hok) as (w1 & E1 & S1 & F1).
        exists w1. split; [exact E1 | ]. split; [split; [ | split] | ].
        + intros i Hi Hui. destruct (Z.eq_dec i k) as [-> | Hne];
            [exact S1 | ].
          apply (user_stored_frame (ee_mem (eeprom w))); [ | apply Ha; lia || exact Hui].
          intros x Hx. apply F1. unfold EEPROM_USERS_BASE in *. lia.
        + intros i Hi Hui x Hx. unfold in_slot in Hx.
          destruct (Z.eq_dec i k) as [-> | Hne]; [congruence | ].
          rewrite F1 by (unfold EEPROM_USERS_BASE in *; lia).
          apply (Hb i ltac:(lia) Hui x Hx).
        + intros [Hone | Hone]; [lia | ].
          destruct (Z.eq_dec k 1) as [-> | Hne]; [congruence | ].
          apply (user_stored_frame (ee_mem (eeprom w))).
          * intros x Hx. apply F1. unfold EEPROM_USERS_BASE in *. lia.
          * apply Hc. right. exact Hone.
        + intros x Hx. rewrite F1 by (unfold EEPROM_USERS_BASE in *; lia).
          apply Hframe. lia.
      - unfold ret. exists w. split; [reflexivity | ].
        split; [split; [ | split] | ].
        + intros i Hi Hui. destruct (Z.eq_dec i k) as [-> | Hne];
            [congruence | ].
          apply Ha; [lia | exact Hui].
        + intros i Hi Hui x Hx. unfold in_slot in Hx.
          destruct (Z.eq_dec i k) as [-> | Hne].
          * apply Hframe. unfold EEPROM_USERS_BASE in *. lia.
          * apply (Hb i ltac:(lia) Hui x Hx).
        + intros [Hone | Hone]; [lia | ].
          apply Hc. right. exact Hone.
        + intros x Hx. apply Hframe. lia. }
    destruct Hw as (w1 & E1 & Hinv & Hframe1).
    rewrite (bind_eq _ _ _ _ _ E1). cbv beta.
    unfold bind at 1, ret at 1. cbv beta iota. rewrite Hcond.
    replace (k - 1 + 1) with (k + 1 - 1) by lia.
    apply (IH (k + 1) turns w1); try lia; assumption.
Qed.

End Users_deleted.

(** X28.  A deleted first user.  When user 0 is marked for deletion and
    none of the others is, the user loop of [COM_SaveSwitchConfiguration]
    blanks slot 0 and goes on one slot behind: each of the users 1 to 13
    with [Update] or [Add] pending is written to the slot below its index;
    the slot below a user with no action pending is left as it was, so
    the record that was there stays; and at the end the slots 13 and 14
    are blanked, after user 14 has been written to slot 13.  With a full
    table the last user is so lost with the deleted one. *)
Theorem deleted_first_user_shifts_the_others {D : Type} `{Controller D}
  (users : list User_Data) (w : World D) :
  is_Delete (nextAction (user_at users 0)) = true ->
  later_users
    (fun u => negb (is_Delete (nextAction u))
              && (negb (is_Update_or_Add (nextAction u))
                  || user_record_ok u))
    users = true ->
  exists w',
    save_users 16 users 0 0 w = Some (tt, w')
    /\ (forall i, 1 <= i <= 13 ->
          is_Update_or_Add (nextAction (user_at users i)) = true ->
          user_stored (ee_mem (eeprom w')) (i - 1) (user_at users i))
    /\ (forall i, 2 <= i <= 13 ->
          is_Update_or_Add (nextAction (user_at users i)) = false ->
          forall x, in_slot (i - 1) x ->
            ee_mem (eeprom w') x = ee_mem (eeprom w) x)
    /\ (is_Update_or_Add (nextAction (user_at users 1)) = false ->
        user_stored (ee_mem (eeprom w')) 0 empty_user)
    /\ user_stored (ee_mem (eeprom w')) 13 empty_user
    /\ user_stored (ee_mem (eeprom w')) 14 empty_user.
Proof.
  intros Hdel Hlater. cbn [save_users].
  change (0 <? MAX_USERS) with true. cbv iota.
  rewrite Hdel, (Delete_is_not_Update_or_Add _ Hdel).
  unfold bind at 1, ret at 1. cbv beta iota.
  rewrite bind_assoc. unfold write_blank_user.
  destruct (write_user_run 0 empty_user w ltac:(unfold MAX_USERS; lia)
              empty_user_record_ok) as (w1 & E1 & S1 & F1).
  rewrite (bind_eq _ _ _ _ _ E1). cbv beta.
  unfold bind at 1, ret at 1. cbv beta iota.
  change ((MAX_USERS - 1 <? 0 + 1) && (0 - 1 <? MAX_USERS - 1)) with false.
  cbv iota. change (0 - 1 + 1) with (1 - 1). change (0 + 1) with 1.
  destruct (save_users_shifted users (ee_mem (eeprom w)) Hlater 13 1 15 w1
              ltac:(lia) ltac:(reflexivity) ltac:(lia))
    as (w' & E' & (Ha & Hb & Hc) & S13 & S14).
  { split; [intros i Hi; lia | ]. split; [intros i Hi; lia | ].
    intros _. exact S1. }
  { intros x Hx. apply F1. change (Z.max (1 - 1) 1) with 1 in Hx. lia. }
  exists w'. split; [exact E' | ].
  split; [intros i Hi; apply Ha; unfold MAX_USERS; lia | ].
  split; [intros i Hi; apply Hb; unfold MAX_USERS; lia | ].
  split; [intros Hone; apply Hc; right; exact Hone | ].
  split; [exact S13 | exact S14].
Qed.

Lemma deleted_first_user_shifts_the_others_witness :
  exists w',
    save_users 16 (first_deleted sample_user) 0 0
      (idle_world (fun _ : Z => 0))
    = Some (tt, w')
    /\ (forall i, 1 <= i <= 13 ->
          is_Update_or_Add
            (nextAction (user_at (first_deleted sample_user) i)) = true ->
          user_stored (ee_mem (eeprom w')) (i - 1)
            (user_at (first_deleted sample_user) i))
    /\ (forall i, 2 <= i <= 13 ->
          is_Update_or_Add
            (nextAction (user_at (first_deleted sample_user) i)) = false ->
          forall x, in_slot (i - 1) x ->
            ee_mem (eeprom w') x
            = ee_mem (eeprom (idle_world (fun _ : Z => 0))) x)
    /\ (is_Update_or_Add
          (nextAction (user_at (first_deleted sample_user) 1)) = false ->
        user_stored (ee_mem (eeprom w')) 0 empty_user)
    /\ user_stored (ee_mem (eeprom w')) 13 empty_user
    /\ user_stored (ee_mem (eeprom w')) 14 empty_user.
Proof.
  apply (deleted_first_user_shifts_the_others (D := RegFile)
           (first_deleted sample_user) (idle_world (fun _ : Z => 0))).
  - reflexivity.
  - vm_compute. reflexivity.
Defined.

(* ================================================================== *)
(** ** A tick count of zero in the log *)

(** X29.  [COM_ListEvents] takes a tick count of 0 for a slot that was
    never written.  When the first record the logger writes to an empty
    log carries the tick count 0, the listing reports that there are no
    log entries and prints none, however many records (up to 80) were
    written in all. *)
Theorem record_at_tick_0_hides_the_log {D : Type} `{Controller D}
  (w : World D) (flags last : Z) (c : LoggerCodes)
  (rest : list (LoggerCodes * Z)) :
  recorded flags last ((c, 0) :: rest) = true ->
  (List.length rest < 80)%nat ->
  exists g' last' w1 w2,
    LoggerTask_entries (mkLogGlobals flags EEPROM_LOG_BASE) last
      ((c, 0) :: rest) w
    = Some ((g', last'), w1)
    /\ COM_ListEvents g' w1 = Some ((true, NoLogEntries, []), w2).
Proof.
  intros Hrec Hn.
  destruct (LoggerTask_entries_memory ((c, 0) :: rest) flags last 0 w
              ltac:(lia) ltac:(cbn [List.length]; lia) Hrec)
    as (last' & w1 & E1 & Hmem & _).
  rewrite Z.mul_0_r, Z.add_0_r in E1.
  pose proof (Hmem 0%nat ltac:(cbn [List.length]; lia)) as H0.
  change (EEPROM_LOG_BASE + 5 * (0 + Z.of_nat 0)) with EEPROM_LOG_BASE in H0.
  cbn [nth] in H0.
  do 2 eexists. exists w1.
  destruct (EEPROMBulkRead_run EEPROM_LOG_BASE 4 w1
              ltac:(unfold EEPROM_LOG_BASE; lia)
              ltac:(unfold EEPROM_LOG_BASE; lia))
    as (w2 & E2 & _).
  exists w2. split; [exact E1 | ].
  unfold COM_ListEvents.
  replace (Z.to_nat MAX_LOG_ENTRIES)
    with (S (Z.to_nat (MAX_LOG_ENTRIES - 1)))
    by (unfold MAX_LOG_ENTRIES; lia).
  generalize (Z.to_nat (MAX_LOG_ENTRIES - 1)). intros left.
  cbn [COM_ListEvents_loop NextLogSlot].
  rewrite (bind_eq _ _ _ _ _ E2). cbv beta. cbn [fst snd negb].
  assert (Hb : forall i,
             nth i (logical_bytes (ee_mem (eeprom w1)) EEPROM_LOG_BASE 5) 0
             = nth i (record_bytes (c, 0)) 0)
    by (intros i; rewrite H0; reflexivity).
  change (nth 0 (logical_bytes (ee_mem (eeprom w1)) EEPROM_LOG_BASE 4) 0)
    with (nth 0 (logical_bytes (ee_mem (eeprom w1)) EEPROM_LOG_BASE 5) 0).
  change (nth 1 (logical_bytes (ee_mem (eeprom w1)) EEPROM_LOG_BASE 4) 0)
    with (nth 1 (logical_bytes (ee_mem (eeprom w1)) EEPROM_LOG_BASE 5) 0).
  change (nth 2 (logical_bytes (ee_mem (eeprom w1)) EEPROM_LOG_BASE 4) 0)
    with (nth 2 (logical_bytes (ee_mem (eeprom w1)) EEPROM_LOG_BASE 5) 0).
  change (nth 3 (logical_bytes (ee_mem (eeprom w1)) EEPROM_LOG_BASE 4) 0)
    with (nth 3 (logical_bytes (ee_mem (eeprom w1)) EEPROM_LOG_BASE 5) 0).
  rewrite !Hb. cbn [record_bytes nth fst snd].
  change (be32 (Z.land (Z.shiftr 0 24) 255) (Z.land (Z.shiftr 0 16) 255)
            (Z.land (Z.shiftr 0 8) 255) (Z.land 0 255)) with 0.
  change (0 =? 0) with true. rewrite Z.eqb_refl. cbn [andb].
  reflexivity.
Qed.

Lemma record_at_tick_0_hides_the_log_witness :
  exists g' last' w1 w2,
    LoggerTask_entries (mkLogGlobals 0xFFFFFFFF EEPROM_LOG_BASE) (-1)
      [(UserLoggedIn, 0); (UserLoggedOut, 70000)]
      (idle_world (fun _ : Z => 0))
    = Some ((g', last'), w1)
    /\ COM_ListEvents g' w1 = Some ((true, NoLogEntries, []), w2).
Proof.
  apply (record_at_tick_0_hides_the_log (D := RegFile)
           (idle_world (fun _ : Z => 0)) 0xFFFFFFFF (-1) UserLoggedIn
           [(UserLoggedOut, 70000)]).
  - vm_compute. reflexivity.
  - cbn. lia.
Defined.

(* ================================================================== *)
(** ** Register access over I2C *)

(** X30.  A register written over I2C reads back over I2C.  On
    registers that keep what is written,
    [I2C_WriteReadFromEthernetController] with a write flag that is not 0
    answers the data byte it was given, and the same function with the
    write flag 0 then answers that byte for the same register, whatever
    stands in its data parameter; the other registers read as before. *)
Theorem I2C_register_write_then_read {D : Type} `{Controller D}
  (w : World D) (reg_addr reg_data write_op ignored : Z) :
  plain_registers -> is_byte reg_data -> write_op <> 0 ->
  exists w1 w2,
    I2C_WriteReadFromEthernetController_run [reg_addr; reg_data; write_op] w
    = Some (reg_data, w1)
    /\ I2C_WriteReadFromEthernetController_run [reg_addr; ignored; 0] w1
       = Some (reg_data, w2)
    /\ forall a, u8 a <> u8 reg_addr ->
         ctrl_read_value a w2 = ctrl_read_value a w.
Proof.
  intros Hplain Hdata Hop.
  unfold I2C_WriteReadFromEthernetController_run. cbn [nth].
  unfold truthy.
  destruct (Z.eqb_spec write_op 0) as [E | _]; [contradiction | ].
  change (0 =? 0) with true. cbn [negb].
  do 2 eexists. split; [ | split].
  - hal_step. reflexivity.
  - hal_step. unfold ret.
    rewrite read_after_write by exact Hplain.
    rewrite (u8_id reg_data) by exact Hdata.
    rewrite (u8_id reg_data) by exact Hdata. reflexivity.
  - intros a Ha.
    rewrite read_after_read, read_after_write_other
      by (exact Hplain || exact Ha).
    reflexivity.
Qed.

Lemma I2C_register_write_then_read_witness :
  exists w1 w2,
    I2C_WriteReadFromEthernetController_run [0x1D; 0xA5; 1]
      (idle_world (fun _ : Z => 0))
    = Some (0xA5, w1)
    /\ I2C_WriteReadFromEthernetController_run [0x1D; 0x00; 0] w1
       = Some (0xA5, w2)
    /\ forall a, u8 a <> u8 0x1D ->
         ctrl_read_value a w2
         = ctrl_read_value a (idle_world (fun _ : Z => 0)).
Proof.
  apply (I2C_register_write_then_read (D := RegFile)
           (idle_world (fun _ : Z => 0)) 0x1D 0xA5 1 0x00).
  - exact RegFile_plain.
  - unfold is_byte. lia.
  - lia.
Defined.
